(** * microblog: the ActivityPub inbox/outbox engine of [app/boxes.py]

    A shallow embedding of the activity processing engine.  The SQL session
    is an explicit store [DB] threaded through a state-and-exception monad;
    the network, the clock and the configuration are read from an
    environment [Env].  Rows are records carrying the columns that
    [app/boxes.py] reads or writes; JSON documents are records carrying the
    keys it reads or writes. *)

From Stdlib Require Import String List ZArith Bool Arith Lia DecimalString.
Import ListNotations.
Open Scope string_scope.

Set Implicit Arguments.

(** ** Exceptions *)

Inductive Exn : Type :=
| ValueError (msg : string)
| ObjectNotFoundError
| ObjectIsGoneError
| NotAnObjectError
| ObjectUnavailableError
| HTTPStatusError (status_code : Z)
| HTTPException (status_code : Z) (detail : string)
| IntegrityError
| MultipleResultsFound
| IndexError
| KeyError (key : string)
| RecursionError
| PendingRollbackError.

(** ** JSON documents ([ap.RawObject]) *)

Inductive VisibilityEnum : Type := PUBLIC | UNLISTED | FOLLOWERS_ONLY | DIRECT.

Definition VisibilityEnum_eqb (a b : VisibilityEnum) : bool :=
  match a, b with
  | PUBLIC, PUBLIC | UNLISTED, UNLISTED
  | FOLLOWERS_ONLY, FOLLOWERS_ONLY | DIRECT, DIRECT => true
  | _, _ => false
  end.

(** An entry of the ["tag"] array. *)
Record Tag : Type := mkTag {
  tag_type : string;
  tag_name : option string;
  tag_href : option string
}.

(** An entry of a Question's ["oneOf"]/["anyOf"] array:
    [{"type": "Note", "name": n, "replies": {"type": "Collection", "totalItems": k}}]. *)
Record PollItem : Type := mkPollItem {
  item_name : string;
  item_totalItems : Z
}.

(** The ["object"] key holds an id or an embedded document. *)
Inductive ObjectField (A : Type) : Type :=
| NoObject
| ObjectId (i : string)
| ObjectDoc (doc : A).

Arguments NoObject {A}.
Arguments ObjectId {A} i.
Arguments ObjectDoc {A} doc.

#[warnings="-register-all"]
Inductive RawObject : Type := mkRawObject {
  raw_type : string;
  raw_id : option string;
  raw_actor : option string;          (* "actor", or "attributedTo" on objects *)
  raw_object : ObjectField RawObject;
  raw_target : option string;
  raw_to : list string;
  raw_cc : list string;
  raw_bto : list string;
  raw_bcc : list string;
  raw_inReplyTo : option string;
  raw_context : option string;
  raw_published : option Z;
  raw_updated : option Z;
  raw_name : option string;
  raw_content : option string;
  raw_tag : list Tag;
  raw_quoteUrl : option string;
  raw_signature : bool;               (* a "signature" key is present *)
  raw_oneOf : list PollItem;
  raw_anyOf : list PollItem;
  raw_votersCount : option Z;
  raw_endTime : option Z;
  (* keys of actor documents *)
  raw_alsoKnownAs : list string;
  raw_inbox : string;
  raw_sharedInbox : option string;
  raw_outbox : string;
  raw_followers : option string;
  raw_handle : option string
}.

(** A document with only its ["type"] set. *)
Definition blank_object (ty : string) : RawObject :=
  {| raw_type := ty; raw_id := None; raw_actor := None; raw_object := NoObject;
     raw_target := None; raw_to := []; raw_cc := []; raw_bto := []; raw_bcc := [];
     raw_inReplyTo := None; raw_context := None; raw_published := None;
     raw_updated := None; raw_name := None; raw_content := None; raw_tag := [];
     raw_quoteUrl := None; raw_signature := false; raw_oneOf := []; raw_anyOf := [];
     raw_votersCount := None; raw_endTime := None; raw_alsoKnownAs := [];
     raw_inbox := ""; raw_sharedInbox := None; raw_outbox := "";
     raw_followers := None; raw_handle := None |}.

(** An activity document [{"id": .., "type": .., "actor": .., "object": ..}]. *)
Definition activity_document (ty id actor : string) (object : ObjectField RawObject)
  : RawObject :=
  {| raw_type := ty; raw_id := Some id; raw_actor := Some actor; raw_object := object;
     raw_target := None; raw_to := []; raw_cc := []; raw_bto := []; raw_bcc := [];
     raw_inReplyTo := None; raw_context := None; raw_published := None;
     raw_updated := None; raw_name := None; raw_content := None; raw_tag := [];
     raw_quoteUrl := None; raw_signature := false; raw_oneOf := []; raw_anyOf := [];
     raw_votersCount := None; raw_endTime := None; raw_alsoKnownAs := [];
     raw_inbox := ""; raw_sharedInbox := None; raw_outbox := "";
     raw_followers := None; raw_handle := None |}.

(** Python truthiness of an [Optional[str]]: [None] and [""] are falsy. *)
Definition truthy (o : option string) : bool :=
  match o with
  | Some s => negb (s =? "")
  | None => false
  end.

Definition opt_string_eqb (a b : option string) : bool :=
  match a, b with
  | Some x, Some y => x =? y
  | None, None => true
  | _, _ => false
  end.

Definition opt_nat_eqb (a b : option nat) : bool :=
  match a, b with
  | Some x, Some y => Nat.eqb x y
  | None, None => true
  | _, _ => false
  end.

Definition mem_string (s : string) (l : list string) : bool :=
  existsb (String.eqb s) l.

Definition count_if {A : Type} (p : A -> bool) (l : list A) : Z :=
  Z.of_nat (length (filter p l)).

(** The [shared_inbox_url] of an actor, read off its document: the shared
    inbox when there is one, else the inbox. *)
Definition shared_inbox_url_of (ap_actor : RawObject) : string :=
  match raw_sharedInbox ap_actor with
  | Some u => if u =? "" then raw_inbox ap_actor else u
  | None => raw_inbox ap_actor
  end.

(** ** Rows of the store ([app/models.py]) *)

Module Actor.
Record t : Type := mk {
  id : nat;
  ap_id : string;
  ap_actor : RawObject;
  ap_type : string;
  handle : option string;
  is_blocked : bool;
  is_deleted : bool
}.
Definition inbox_url (a : t) : string := raw_inbox (ap_actor a).
Definition shared_inbox_url (a : t) : string := shared_inbox_url_of (ap_actor a).
Definition outbox_url (a : t) : string := raw_outbox (ap_actor a).
Definition set_ap_actor (d : RawObject) (a : t) : t :=
  mk (id a) (ap_id a) d (ap_type a) (handle a) (is_blocked a) (is_deleted a).
Definition set_is_deleted (b : bool) (a : t) : t :=
  mk (id a) (ap_id a) (ap_actor a) (ap_type a) (handle a) (is_blocked a) b.
End Actor.

Module InboxObject.
Record t : Type := mk {
  id : nat;
  actor_id : nat;
  ap_actor_id : string;
  ap_type : string;
  ap_id : string;
  ap_context : option string;
  conversation : option string;
  ap_published_at : Z;
  ap_object : RawObject;
  visibility : VisibilityEnum;
  relates_to_inbox_object_id : option nat;
  relates_to_outbox_object_id : option nat;
  activity_object_ap_id : option string;
  is_hidden_from_stream : bool;
  replies_count : Z;
  quoted_inbox_object_id : option nat;
  is_deleted : bool;
  undone_by_inbox_object_id : option nat;
  is_transient : bool;
  liked_via_outbox_object_ap_id : option string;
  announced_via_outbox_object_ap_id : option string
}.
Definition in_reply_to (o : t) : option string := raw_inReplyTo (ap_object o).
Definition has_ld_signature (o : t) : bool := raw_signature (ap_object o).
Definition quote_url (o : t) : option string := raw_quoteUrl (ap_object o).
Definition set_ap_object (d : RawObject) (o : t) : t :=
  mk (id o) (actor_id o) (ap_actor_id o) (ap_type o) (ap_id o) (ap_context o)
     (conversation o) (ap_published_at o) d (visibility o)
     (relates_to_inbox_object_id o) (relates_to_outbox_object_id o)
     (activity_object_ap_id o) (is_hidden_from_stream o) (replies_count o)
     (quoted_inbox_object_id o) (is_deleted o) (undone_by_inbox_object_id o)
     (is_transient o) (liked_via_outbox_object_ap_id o)
     (announced_via_outbox_object_ap_id o).
Definition set_relates_to_inbox_object_id (r : option nat) (o : t) : t :=
  mk (id o) (actor_id o) (ap_actor_id o) (ap_type o) (ap_id o) (ap_context o)
     (conversation o) (ap_published_at o) (ap_object o) (visibility o)
     r (relates_to_outbox_object_id o)
     (activity_object_ap_id o) (is_hidden_from_stream o) (replies_count o)
     (quoted_inbox_object_id o) (is_deleted o) (undone_by_inbox_object_id o)
     (is_transient o) (liked_via_outbox_object_ap_id o)
     (announced_via_outbox_object_ap_id o).
Definition set_is_hidden_from_stream (b : bool) (o : t) : t :=
  mk (id o) (actor_id o) (ap_actor_id o) (ap_type o) (ap_id o) (ap_context o)
     (conversation o) (ap_published_at o) (ap_object o) (visibility o)
     (relates_to_inbox_object_id o) (relates_to_outbox_object_id o)
     (activity_object_ap_id o) b (replies_count o)
     (quoted_inbox_object_id o) (is_deleted o) (undone_by_inbox_object_id o)
     (is_transient o) (liked_via_outbox_object_ap_id o)
     (announced_via_outbox_object_ap_id o).
Definition set_replies_count (n : Z) (o : t) : t :=
  mk (id o) (actor_id o) (ap_actor_id o) (ap_type o) (ap_id o) (ap_context o)
     (conversation o) (ap_published_at o) (ap_object o) (visibility o)
     (relates_to_inbox_object_id o) (relates_to_outbox_object_id o)
     (activity_object_ap_id o) (is_hidden_from_stream o) n
     (quoted_inbox_object_id o) (is_deleted o) (undone_by_inbox_object_id o)
     (is_transient o) (liked_via_outbox_object_ap_id o)
     (announced_via_outbox_object_ap_id o).
Definition set_quoted_inbox_object_id (q : option nat) (o : t) : t :=
  mk (id o) (actor_id o) (ap_actor_id o) (ap_type o) (ap_id o) (ap_context o)
     (conversation o) (ap_published_at o) (ap_object o) (visibility o)
     (relates_to_inbox_object_id o) (relates_to_outbox_object_id o)
     (activity_object_ap_id o) (is_hidden_from_stream o) (replies_count o)
     q (is_deleted o) (undone_by_inbox_object_id o)
     (is_transient o) (liked_via_outbox_object_ap_id o)
     (announced_via_outbox_object_ap_id o).
Definition set_is_deleted (b : bool) (o : t) : t :=
  mk (id o) (actor_id o) (ap_actor_id o) (ap_type o) (ap_id o) (ap_context o)
     (conversation o) (ap_published_at o) (ap_object o) (visibility o)
     (relates_to_inbox_object_id o) (relates_to_outbox_object_id o)
     (activity_object_ap_id o) (is_hidden_from_stream o) (replies_count o)
     (quoted_inbox_object_id o) b (undone_by_inbox_object_id o)
     (is_transient o) (liked_via_outbox_object_ap_id o)
     (announced_via_outbox_object_ap_id o).
Definition set_undone_by_inbox_object_id (u : option nat) (o : t) : t :=
  mk (id o) (actor_id o) (ap_actor_id o) (ap_type o) (ap_id o) (ap_context o)
     (conversation o) (ap_published_at o) (ap_object o) (visibility o)
     (relates_to_inbox_object_id o) (relates_to_outbox_object_id o)
     (activity_object_ap_id o) (is_hidden_from_stream o) (replies_count o)
     (quoted_inbox_object_id o) (is_deleted o) u
     (is_transient o) (liked_via_outbox_object_ap_id o)
     (announced_via_outbox_object_ap_id o).
Definition set_is_transient (b : bool) (o : t) : t :=
  mk (id o) (actor_id o) (ap_actor_id o) (ap_type o) (ap_id o) (ap_context o)
     (conversation o) (ap_published_at o) (ap_object o) (visibility o)
     (relates_to_inbox_object_id o) (relates_to_outbox_object_id o)
     (activity_object_ap_id o) (is_hidden_from_stream o) (replies_count o)
     (quoted_inbox_object_id o) (is_deleted o) (undone_by_inbox_object_id o)
     b (liked_via_outbox_object_ap_id o)
     (announced_via_outbox_object_ap_id o).
Definition set_liked_via_outbox_object_ap_id (l : option string) (o : t) : t :=
  mk (id o) (actor_id o) (ap_actor_id o) (ap_type o) (ap_id o) (ap_context o)
     (conversation o) (ap_published_at o) (ap_object o) (visibility o)
     (relates_to_inbox_object_id o) (relates_to_outbox_object_id o)
     (activity_object_ap_id o) (is_hidden_from_stream o) (replies_count o)
     (quoted_inbox_object_id o) (is_deleted o) (undone_by_inbox_object_id o)
     (is_transient o) l
     (announced_via_outbox_object_ap_id o).
Definition set_announced_via_outbox_object_ap_id (l : option string) (o : t) : t :=
  mk (id o) (actor_id o) (ap_actor_id o) (ap_type o) (ap_id o) (ap_context o)
     (conversation o) (ap_published_at o) (ap_object o) (visibility o)
     (relates_to_inbox_object_id o) (relates_to_outbox_object_id o)
     (activity_object_ap_id o) (is_hidden_from_stream o) (replies_count o)
     (quoted_inbox_object_id o) (is_deleted o) (undone_by_inbox_object_id o)
     (is_transient o) (liked_via_outbox_object_ap_id o) l.
End InboxObject.

Module OutboxObject.
Record t : Type := mk {
  id : nat;
  public_id : string;
  ap_type : string;
  ap_id : string;
  ap_context : option string;
  ap_object : RawObject;
  visibility : VisibilityEnum;
  ap_published_at : Z;
  relates_to_inbox_object_id : option nat;
  relates_to_outbox_object_id : option nat;
  relates_to_actor_id : option nat;
  activity_object_ap_id : option string;
  is_hidden_from_homepage : bool;
  source : option string;
  is_transient : bool;
  conversation : option string;
  likes_count : Z;
  announces_count : Z;
  replies_count : Z;
  is_deleted : bool;
  undone_by_outbox_object_id : option nat
}.
Definition in_reply_to (o : t) : option string := raw_inReplyTo (ap_object o).
Definition set_ap_object (d : RawObject) (o : t) : t :=
  mk (id o) (public_id o) (ap_type o) (ap_id o) (ap_context o) d
     (visibility o) (ap_published_at o) (relates_to_inbox_object_id o)
     (relates_to_outbox_object_id o) (relates_to_actor_id o)
     (activity_object_ap_id o) (is_hidden_from_homepage o) (source o)
     (is_transient o) (conversation o) (likes_count o) (announces_count o)
     (replies_count o) (is_deleted o) (undone_by_outbox_object_id o).
Definition set_likes_count (n : Z) (o : t) : t :=
  mk (id o) (public_id o) (ap_type o) (ap_id o) (ap_context o) (ap_object o)
     (visibility o) (ap_published_at o) (relates_to_inbox_object_id o)
     (relates_to_outbox_object_id o) (relates_to_actor_id o)
     (activity_object_ap_id o) (is_hidden_from_homepage o) (source o)
     (is_transient o) (conversation o) n (announces_count o)
     (replies_count o) (is_deleted o) (undone_by_outbox_object_id o).
Definition set_announces_count (n : Z) (o : t) : t :=
  mk (id o) (public_id o) (ap_type o) (ap_id o) (ap_context o) (ap_object o)
     (visibility o) (ap_published_at o) (relates_to_inbox_object_id o)
     (relates_to_outbox_object_id o) (relates_to_actor_id o)
     (activity_object_ap_id o) (is_hidden_from_homepage o) (source o)
     (is_transient o) (conversation o) (likes_count o) n
     (replies_count o) (is_deleted o) (undone_by_outbox_object_id o).
Definition set_replies_count (n : Z) (o : t) : t :=
  mk (id o) (public_id o) (ap_type o) (ap_id o) (ap_context o) (ap_object o)
     (visibility o) (ap_published_at o) (relates_to_inbox_object_id o)
     (relates_to_outbox_object_id o) (relates_to_actor_id o)
     (activity_object_ap_id o) (is_hidden_from_homepage o) (source o)
     (is_transient o) (conversation o) (likes_count o) (announces_count o)
     n (is_deleted o) (undone_by_outbox_object_id o).
Definition set_is_deleted (b : bool) (o : t) : t :=
  mk (id o) (public_id o) (ap_type o) (ap_id o) (ap_context o) (ap_object o)
     (visibility o) (ap_published_at o) (relates_to_inbox_object_id o)
     (relates_to_outbox_object_id o) (relates_to_actor_id o)
     (activity_object_ap_id o) (is_hidden_from_homepage o) (source o)
     (is_transient o) (conversation o) (likes_count o) (announces_count o)
     (replies_count o) b (undone_by_outbox_object_id o).
Definition set_undone_by_outbox_object_id (u : option nat) (o : t) : t :=
  mk (id o) (public_id o) (ap_type o) (ap_id o) (ap_context o) (ap_object o)
     (visibility o) (ap_published_at o) (relates_to_inbox_object_id o)
     (relates_to_outbox_object_id o) (relates_to_actor_id o)
     (activity_object_ap_id o) (is_hidden_from_homepage o) (source o)
     (is_transient o) (conversation o) (likes_count o) (announces_count o)
     (replies_count o) (is_deleted o) u.
End OutboxObject.

Module Follower.
Record t : Type := mk {
  actor_id : nat;
  inbox_object_id : nat;
  ap_actor_id : string
}.
End Follower.

Module Following.
Record t : Type := mk {
  actor_id : nat;
  outbox_object_id : nat;
  ap_actor_id : string
}.
End Following.

Inductive NotificationType : Type :=
| NEW_FOLLOWER
| PENDING_INCOMING_FOLLOWER
| REJECTED_FOLLOWER
| UNFOLLOW
| FOLLOW_REQUEST_ACCEPTED
| FOLLOW_REQUEST_REJECTED
| LIKE
| UNDO_LIKE
| ANNOUNCE
| UNDO_ANNOUNCE
| MENTION
| MOVE.

Module Notification.
Record t : Type := mk {
  notification_type : NotificationType;
  actor_id : option nat;
  outbox_object_id : option nat;
  inbox_object_id : option nat
}.
End Notification.

Module PollAnswer.
Record t : Type := mk {
  outbox_object_id : nat;
  poll_type : string;
  inbox_object_id : nat;
  actor_id : nat;
  name : string
}.
End PollAnswer.

Module OutgoingActivity.
Record t : Type := mk {
  recipient : string;
  outbox_object_id : option nat;
  inbox_object_id : option nat;
  webmention_target : option string
}.
End OutgoingActivity.

(** [AnyboxObject = models.InboxObject | models.OutboxObject] *)
Inductive AnyboxObject : Type :=
| FromInbox (o : InboxObject.t)
| FromOutbox (o : OutboxObject.t).

Definition is_from_outbox (o : AnyboxObject) : bool :=
  match o with FromOutbox _ => true | FromInbox _ => false end.

Definition is_from_inbox (o : AnyboxObject) : bool :=
  match o with FromInbox _ => true | FromOutbox _ => false end.

Definition anybox_id (o : AnyboxObject) : nat :=
  match o with FromInbox i => InboxObject.id i | FromOutbox u => OutboxObject.id u end.

Definition anybox_ap_id (o : AnyboxObject) : string :=
  match o with FromInbox i => InboxObject.ap_id i | FromOutbox u => OutboxObject.ap_id u end.

Definition anybox_ap_type (o : AnyboxObject) : string :=
  match o with FromInbox i => InboxObject.ap_type i | FromOutbox u => OutboxObject.ap_type u end.

Definition anybox_ap_context (o : AnyboxObject) : option string :=
  match o with
  | FromInbox i => InboxObject.ap_context i
  | FromOutbox u => OutboxObject.ap_context u
  end.

Definition anybox_in_reply_to (o : AnyboxObject) : option string :=
  match o with
  | FromInbox i => InboxObject.in_reply_to i
  | FromOutbox u => OutboxObject.in_reply_to u
  end.

Definition anybox_conversation (o : AnyboxObject) : option string :=
  match o with
  | FromInbox i => InboxObject.conversation i
  | FromOutbox u => OutboxObject.conversation u
  end.

Definition anybox_ap_published_at (o : AnyboxObject) : Z :=
  match o with
  | FromInbox i => InboxObject.ap_published_at i
  | FromOutbox u => OutboxObject.ap_published_at u
  end.

(** ** The store *)

Record DB : Type := mkDB {
  actors : list Actor.t;
  inbox : list InboxObject.t;
  outbox : list OutboxObject.t;
  followers : list Follower.t;
  following : list Following.t;
  notifications : list Notification.t;
  poll_answers : list PollAnswer.t;
  outgoing_activities : list OutgoingActivity.t;
  next_actor_id : nat;
  next_inbox_id : nat;
  next_outbox_id : nat;
  uuid_counter : nat
}.

Definition set_actors (x : list Actor.t) (d : DB) : DB :=
  mkDB x (inbox d) (outbox d) (followers d) (following d) (notifications d)
       (poll_answers d) (outgoing_activities d) (next_actor_id d)
       (next_inbox_id d) (next_outbox_id d) (uuid_counter d).
Definition set_inbox (x : list InboxObject.t) (d : DB) : DB :=
  mkDB (actors d) x (outbox d) (followers d) (following d) (notifications d)
       (poll_answers d) (outgoing_activities d) (next_actor_id d)
       (next_inbox_id d) (next_outbox_id d) (uuid_counter d).
Definition set_outbox (x : list OutboxObject.t) (d : DB) : DB :=
  mkDB (actors d) (inbox d) x (followers d) (following d) (notifications d)
       (poll_answers d) (outgoing_activities d) (next_actor_id d)
       (next_inbox_id d) (next_outbox_id d) (uuid_counter d).
Definition set_followers (x : list Follower.t) (d : DB) : DB :=
  mkDB (actors d) (inbox d) (outbox d) x (following d) (notifications d)
       (poll_answers d) (outgoing_activities d) (next_actor_id d)
       (next_inbox_id d) (next_outbox_id d) (uuid_counter d).
Definition set_following (x : list Following.t) (d : DB) : DB :=
  mkDB (actors d) (inbox d) (outbox d) (followers d) x (notifications d)
       (poll_answers d) (outgoing_activities d) (next_actor_id d)
       (next_inbox_id d) (next_outbox_id d) (uuid_counter d).
Definition set_notifications (x : list Notification.t) (d : DB) : DB :=
  mkDB (actors d) (inbox d) (outbox d) (followers d) (following d) x
       (poll_answers d) (outgoing_activities d) (next_actor_id d)
       (next_inbox_id d) (next_outbox_id d) (uuid_counter d).
Definition set_poll_answers (x : list PollAnswer.t) (d : DB) : DB :=
  mkDB (actors d) (inbox d) (outbox d) (followers d) (following d)
       (notifications d) x (outgoing_activities d) (next_actor_id d)
       (next_inbox_id d) (next_outbox_id d) (uuid_counter d).
Definition set_outgoing_activities (x : list OutgoingActivity.t) (d : DB) : DB :=
  mkDB (actors d) (inbox d) (outbox d) (followers d) (following d)
       (notifications d) (poll_answers d) x (next_actor_id d)
       (next_inbox_id d) (next_outbox_id d) (uuid_counter d).
Definition set_next_actor_id (x : nat) (d : DB) : DB :=
  mkDB (actors d) (inbox d) (outbox d) (followers d) (following d)
       (notifications d) (poll_answers d) (outgoing_activities d) x
       (next_inbox_id d) (next_outbox_id d) (uuid_counter d).
Definition set_next_inbox_id (x : nat) (d : DB) : DB :=
  mkDB (actors d) (inbox d) (outbox d) (followers d) (following d)
       (notifications d) (poll_answers d) (outgoing_activities d)
       (next_actor_id d) x (next_outbox_id d) (uuid_counter d).
Definition set_next_outbox_id (x : nat) (d : DB) : DB :=
  mkDB (actors d) (inbox d) (outbox d) (followers d) (following d)
       (notifications d) (poll_answers d) (outgoing_activities d)
       (next_actor_id d) (next_inbox_id d) x (uuid_counter d).
Definition set_uuid_counter (x : nat) (d : DB) : DB :=
  mkDB (actors d) (inbox d) (outbox d) (followers d) (following d)
       (notifications d) (poll_answers d) (outgoing_activities d)
       (next_actor_id d) (next_inbox_id d) (next_outbox_id d) x.

(** ** The session monad: state plus exceptions.

    A raised exception carries the session state reached when it was raised,
    so that [try ... except] resumes from it. The store is the view that
    the session has of the database; an exception that leaves the functions
    below reaches their caller, whose rollback is not part of them. *)

Inductive Res (A : Type) : Type :=
| Ok (a : A) (db : DB)
| Raise (e : Exn) (db : DB).

Arguments Ok {A} a db.
Arguments Raise {A} e db.

Definition M (A : Type) : Type := DB -> Res A.

Definition ret {A : Type} (a : A) : M A := fun db => Ok a db.

Definition bind {A B : Type} (c : M A) (k : A -> M B) : M B :=
  fun db =>
    match c db with
    | Ok a db' => k a db'
    | Raise e db' => Raise e db'
    end.

Definition raise {A : Type} (e : Exn) : M A := fun db => Raise e db.

Definition get : M DB := fun db => Ok db db.

Definition modify (f : DB -> DB) : M unit := fun db => Ok tt (f db).

(** [try: c except handler], the handler returning [None] re-raises. *)
Definition try_except {A : Type} (c : M A) (handler : Exn -> option (M A)) : M A :=
  fun db =>
    match c db with
    | Ok a db' => Ok a db'
    | Raise e db' =>
        match handler e with
        | Some h => h db'
        | None => Raise e db'
        end
    end.

Declare Scope session_scope.
Delimit Scope session_scope with session.
Notation "x <- c ;; k" := (bind c (fun x => k))
  (at level 61, c at next level, right associativity) : session_scope.
Notation "c ;;; k" := (bind c (fun _ => k))
  (at level 61, right associativity) : session_scope.
Open Scope session_scope.

(** [for x in l: body x] *)
Fixpoint for_each {A : Type} (l : list A) (body : A -> M unit) : M unit :=
  match l with
  | [] => ret tt
  | x :: rest => body x ;;; for_each rest body
  end.

Definition state_of {A : Type} (r : Res A) : DB :=
  match r with Ok _ db => db | Raise _ db => db end.

(** ** Configuration, clock and network *)

Record Env : Type := mkEnv {
  BASE_URL : string;                 (* config.BASE_URL *)
  ID : string;                       (* config.ID, also LOCAL_ACTOR.ap_id *)
  LOCAL_ACTOR_handle : string;
  LOCAL_ACTOR_url : string;
  BLOCKED_SERVERS : list string;
  MANUALLY_APPROVES_FOLLOWERS : bool;
  now : Z;                           (* utils.datetime.now() *)
  recursion_limit : nat;             (* depth at which Python raises RecursionError *)
  fetch : string -> Exn + RawObject; (* ap.fetch *)
  parse_collection_url : string -> Exn + list RawObject;
  parse_collection_payload : RawObject -> Exn + list RawObject;
  verify_signature : RawObject -> Exn + bool;   (* ldsig.verify_signature *)
  hostname : string -> string;       (* urlparse(_).hostname *)
  uuid4_hex : nat -> string          (* the n-th uuid.uuid4().hex *)
}.

Definition AS_PUBLIC : string := "https://www.w3.org/ns/activitystreams#Public".

Definition ACTOR_TYPES : list string :=
  ["Application"; "Group"; "Organization"; "Person"; "Service"].

(** [RemoteObject(raw_object, actor)] *)
Record RemoteObject : Type := mkRemoteObject {
  ro_ap_object : RawObject;
  ro_actor : Actor.t
}.

(** What [fetch_conversation_root] walks over:
    [AnyboxObject | RemoteObject]. *)
Inductive AnyObject : Type :=
| Stored (o : AnyboxObject)
| Remote (o : RemoteObject).

Definition obj_in_reply_to (o : AnyObject) : option string :=
  match o with
  | Stored a => anybox_in_reply_to a
  | Remote r => raw_inReplyTo (ro_ap_object r)
  end.

Definition obj_ap_context (o : AnyObject) : option string :=
  match o with
  | Stored a => anybox_ap_context a
  | Remote r => raw_context (ro_ap_object r)
  end.

Definition lift_fetch {A : Type} (r : Exn + A) : M A :=
  match r with
  | inl e => raise e
  | inr a => ret a
  end.

(** Modelled from the spec: [ap.get_id] of app/activitypub.py, which is not
    part of the sources; the ["id"] key of a document, an error without it. *)
Definition get_id (raw : RawObject) : M string :=
  match raw_id raw with
  | Some i => ret i
  | None => raise (KeyError "id")
  end.

(** Modelled from the spec: [ap.get_actor_id] of app/activitypub.py. *)
Definition get_actor_id (raw : RawObject) : M string :=
  match raw_actor raw with
  | Some i => ret i
  | None => raise (KeyError "actor")
  end.

(** Modelled from the spec: [ap.get_object_id] of app/activitypub.py, the id
    of the activity's ["object"], given inline or as an embedded document. *)
Definition get_object_id (raw : RawObject) : M string :=
  match raw_object raw with
  | NoObject => raise (KeyError "object")
  | ObjectId i => ret i
  | ObjectDoc d => get_id d
  end.

(** Modelled from the spec: the [activity_object_ap_id] property of
    app/ap_object.py, "the object an activity points at". *)
Definition activity_object_ap_id_of (raw : RawObject) : option string :=
  match raw_object raw with
  | NoObject => None
  | ObjectId i => Some i
  | ObjectDoc d => raw_id d
  end.

Definition obj_ap_id (o : AnyObject) : M string :=
  match o with
  | Stored a => ret (anybox_ap_id a)
  | Remote r => get_id (ro_ap_object r)
  end.

(** Modelled from the spec: [ap.unwrap_activity] of app/activitypub.py; a
    Create or Update carries its object embedded. *)
Definition unwrap_activity (raw : RawObject) : M RawObject :=
  if mem_string (raw_type raw) ["Create"; "Update"] then
    match raw_object raw with
    | ObjectDoc d => ret d
    | _ => raise (ValueError "wrapped object is not embedded")
    end
  else ret raw.

Section Engine.

Variable env : Env.

(** Modelled from the spec (section 6, wire shapes): [ap.object_visibility];
    public in [to] is PUBLIC, public in [cc] is UNLISTED, the author's
    followers collection without public is FOLLOWERS_ONLY, else DIRECT. *)
Definition object_visibility (raw : RawObject) (followers_collection : option string)
  : VisibilityEnum :=
  if mem_string AS_PUBLIC (raw_to raw) then PUBLIC
  else if mem_string AS_PUBLIC (raw_cc raw) then UNLISTED
  else match followers_collection with
       | Some f =>
           if mem_string f (raw_to raw ++ raw_cc raw) then FOLLOWERS_ONLY else DIRECT
       | None => DIRECT
       end.

Definition ro_visibility (ro : RemoteObject) : VisibilityEnum :=
  object_visibility (ro_ap_object ro) (raw_followers (Actor.ap_actor (ro_actor ro))).

(** Modelled from the spec: [ap.get_object] of app/activitypub.py; the
    embedded object, fetched when only its id is given. *)
Definition get_object (raw : RawObject) : M RawObject :=
  match raw_object raw with
  | NoObject => raise (KeyError "object")
  | ObjectId i => lift_fetch (fetch env i)
  | ObjectDoc d => ret d
  end.

(** Modelled from the spec (section 4.7): the [is_poll_ended], [poll_items]
    and [is_one_of_poll] properties of app/ap_object.py. *)
Definition is_poll_ended (question : OutboxObject.t) : bool :=
  match raw_endTime (OutboxObject.ap_object question) with
  | Some t => (t <? now env)%Z
  | None => false
  end.

Definition is_one_of_poll (question : OutboxObject.t) : bool :=
  match raw_oneOf (OutboxObject.ap_object question) with
  | [] => false
  | _ :: _ => true
  end.

Definition poll_items (question : OutboxObject.t) : list PollItem :=
  match raw_oneOf (OutboxObject.ap_object question) with
  | [] => raw_anyOf (OutboxObject.ap_object question)
  | items => items
  end.

(** *** Primitive queries and updates of the session *)

Definition find_actor_by_ap_id (db : DB) (ap_id : string) : option Actor.t :=
  find (fun a => Actor.ap_id a =? ap_id) (actors db).

Definition find_actor_by_id (db : DB) (i : nat) : option Actor.t :=
  find (fun a => Nat.eqb (Actor.id a) i) (actors db).

(** A relationship attribute such as [inbox_object.actor]; dereferencing a
    dangling one fails. *)
Definition load_actor (i : nat) : M Actor.t :=
  db <- get ;;
  match find_actor_by_id db i with
  | Some a => ret a
  | None => raise (ValueError "actor relationship is not loaded")
  end.

Definition update_actor (i : nat) (f : Actor.t -> Actor.t) : M unit :=
  modify (fun db =>
    set_actors (map (fun a => if Nat.eqb (Actor.id a) i then f a else a) (actors db)) db).

Definition update_inbox_object (i : nat) (f : InboxObject.t -> InboxObject.t) : M unit :=
  modify (fun db =>
    set_inbox (map (fun o => if Nat.eqb (InboxObject.id o) i then f o else o) (inbox db)) db).

Definition update_outbox_object (i : nat) (f : OutboxObject.t -> OutboxObject.t) : M unit :=
  modify (fun db =>
    set_outbox (map (fun o => if Nat.eqb (OutboxObject.id o) i then f o else o) (outbox db)) db).

(** [update(models.OutboxObject).where(p).values(...)] *)
Definition update_outbox_where (p : OutboxObject.t -> bool)
  (f : OutboxObject.t -> OutboxObject.t) : M unit :=
  modify (fun db => set_outbox (map (fun o => if p o then f o else o) (outbox db)) db).

(** [db_session.delete(inbox_object)]: the primary key is a plain integer
    column, so the key handed out next is one above the largest key left in
    the table, and the key of a deleted last row is used again. *)
Definition delete_inbox_object (i : nat) : M unit :=
  modify (fun db =>
    let rows := filter (fun o => negb (Nat.eqb (InboxObject.id o) i)) (inbox db) in
    set_next_inbox_id (S (list_max (map InboxObject.id rows))) (set_inbox rows db)).

(** [db_session.add] of an inbox row followed by [flush]: the row gets the
    next primary key; [ap_id] is a unique column. *)
Definition add_inbox_object (mk_row : nat -> InboxObject.t) : M InboxObject.t :=
  db <- get ;;
  let row := mk_row (next_inbox_id db) in
  if existsb (fun o => InboxObject.ap_id o =? InboxObject.ap_id row) (inbox db)
  then raise IntegrityError
  else
    modify (fun db => set_next_inbox_id (S (next_inbox_id db))
                        (set_inbox (inbox db ++ [row]) db)) ;;;
    ret row.

Definition add_outbox_object (mk_row : nat -> OutboxObject.t) : M OutboxObject.t :=
  db <- get ;;
  let row := mk_row (next_outbox_id db) in
  if existsb (fun o => OutboxObject.ap_id o =? OutboxObject.ap_id row) (outbox db)
  then raise IntegrityError
  else
    modify (fun db => set_next_outbox_id (S (next_outbox_id db))
                        (set_outbox (outbox db ++ [row]) db)) ;;;
    ret row.

Definition add_notification (n : Notification.t) : M unit :=
  modify (fun db => set_notifications (notifications db ++ [n]) db).

(** [db_session.commit()] and [db_session.flush()] change nothing in the
    view that the session has of the database. *)
Definition commit : M unit := ret tt.

Definition flush : M unit := ret tt.

(** Modelled from the spec (section 6, delivery dispatcher contract):
    [new_outgoing_activity] of app/outgoing_activities.py enqueues one work
    item for a recipient endpoint and an outbox or inbox object. *)
Definition new_outgoing_activity (recipient : string)
  (outbox_object_id inbox_object_id : option nat) : M unit :=
  modify (fun db =>
    set_outgoing_activities
      (outgoing_activities db ++
       [OutgoingActivity.mk recipient outbox_object_id inbox_object_id None]) db).

(** Modelled from the spec (section 4.1): [save_actor] of app/actor.py
    validates that the document is an actor and persists it. *)
Definition save_actor (ap_actor : RawObject) : M Actor.t :=
  if negb (mem_string (raw_type ap_actor) ACTOR_TYPES)
  then raise (ValueError "Invalid type for actor")
  else
    ap_id <- get_id ap_actor ;;
    db <- get ;;
    if existsb (fun a => Actor.ap_id a =? ap_id) (actors db)
    then raise IntegrityError
    else
      let row := Actor.mk (next_actor_id db) ap_id ap_actor (raw_type ap_actor)
                          (raw_handle ap_actor) false false in
      modify (fun db => set_next_actor_id (S (next_actor_id db))
                          (set_actors (actors db ++ [row]) db)) ;;;
      ret row.

(** Modelled from the spec (section 4.1): [fetch_actor] of app/actor.py
    returns the cached actor, else dereferences the id, checks that it is an
    actor document and persists it; [ObjectNotFoundError] when the resource
    is not an actor, or is unknown and [save_if_not_found] is false. *)
Definition fetch_actor (actor_id : string) (save_if_not_found : bool) : M Actor.t :=
  db <- get ;;
  match find_actor_by_ap_id db actor_id with
  | Some a => ret a
  | None =>
      if save_if_not_found then
        ap_actor <- lift_fetch (fetch env actor_id) ;;
        if mem_string (raw_type ap_actor) ACTOR_TYPES
        then save_actor ap_actor
        else raise ObjectNotFoundError
      else raise ObjectNotFoundError
  end.

(** *** app/boxes.py *)

Definition allocate_outbox_id : M string :=
  db <- get ;;
  modify (set_uuid_counter (S (uuid_counter db))) ;;;
  ret (uuid4_hex env (uuid_counter db)).

Definition outbox_object_id (outbox_id : string) : string :=
  BASE_URL env ++ "/o/" ++ outbox_id.

(** [og_meta] is filled by the Open Graph scraper, an external collaborator
    whose failures are not fatal; the column is not part of the rows here.
    No [ap_published_at] is passed: the column takes its default, [now]. *)
Definition save_outbox_object (public_id : string) (raw_object : RawObject)
  (relates_to_inbox_object_id relates_to_outbox_object_id relates_to_actor_id : option nat)
  (source : option string) (is_transient : bool) (conversation : option string)
  : M OutboxObject.t :=
  ap_id <- get_id raw_object ;;
  add_outbox_object (fun new_id =>
    OutboxObject.mk new_id public_id (raw_type raw_object) ap_id
      (raw_context raw_object) raw_object
      (object_visibility raw_object (Some (BASE_URL env ++ "/followers")))
      (now env)
      relates_to_inbox_object_id relates_to_outbox_object_id relates_to_actor_id
      (activity_object_ap_id_of raw_object)
      (truthy (raw_inReplyTo raw_object))
      source is_transient conversation 0%Z 0%Z 0%Z false None).

Definition get_inbox_object_by_ap_id (db : DB) (ap_id : string) : option InboxObject.t :=
  find (fun o => InboxObject.ap_id o =? ap_id) (inbox db).

Definition get_outbox_object_by_ap_id (db : DB) (ap_id : string) : option OutboxObject.t :=
  find (fun o => OutboxObject.ap_id o =? ap_id) (outbox db).

Definition get_anybox_object_by_ap_id (db : DB) (ap_id : string) : option AnyboxObject :=
  if prefix (BASE_URL env) ap_id
  then option_map FromOutbox (get_outbox_object_by_ap_id db ap_id)
  else option_map FromInbox (get_inbox_object_by_ap_id db ap_id).

(** [scalar_one_or_none] over a column that is not unique. *)
Definition get_inbox_delete_for_activity_object_ap_id (activity_object_ap_id : string)
  : M (option InboxObject.t) :=
  db <- get ;;
  match filter (fun o => (InboxObject.ap_type o =? "Delete") &&
                         opt_string_eqb (InboxObject.activity_object_ap_id o)
                                        (Some activity_object_ap_id)) (inbox db) with
  | [] => ret None
  | [o] => ret (Some o)
  | _ => raise MultipleResultsFound
  end.

Definition _get_replies_count (db : DB) (replied_object_ap_id : string) : Z :=
  (count_if (fun o => opt_string_eqb (InboxObject.in_reply_to o) (Some replied_object_ap_id)
                      && negb (InboxObject.is_deleted o)) (inbox db)
   + count_if (fun o => opt_string_eqb (OutboxObject.in_reply_to o) (Some replied_object_ap_id)
                        && negb (OutboxObject.is_deleted o)) (outbox db))%Z.

Definition _get_following (db : DB) : list Following.t := following db.

Definition _get_followers (db : DB) : list Follower.t := followers db.

Definition set_add (x : string) (s : list string) : list string :=
  if mem_string x s then s else s ++ [x].

(** The result is a Python [set]; it is kept as a duplicate-free list in
    insertion order. *)
Fixpoint followers_recipients (l : list Follower.t) (skip : list string)
  (acc : list string) : M (list string) :=
  match l with
  | [] => ret acc
  | follower :: rest =>
      actor <- load_actor (Follower.actor_id follower) ;;
      if mem_string (Actor.ap_id actor) skip
      then followers_recipients rest skip acc
      else followers_recipients rest skip (set_add (Actor.shared_inbox_url actor) acc)
  end.

Definition _get_followers_recipients (skip_actors : list Actor.t) : M (list string) :=
  db <- get ;;
  followers_recipients (_get_followers db) (map Actor.ap_id skip_actors) [].

Fixpoint load_follower_actors (l : list Follower.t) : M (list Actor.t) :=
  match l with
  | [] => ret []
  | follower :: rest =>
      actor <- load_actor (Follower.actor_id follower) ;;
      actors <- load_follower_actors rest ;;
      ret (actor :: actors)
  end.

(** The actors of a collection, each given by its actor document. *)
Definition fetch_actor_collection (url : string) : M (list RawObject) :=
  if prefix (BASE_URL env) url then
    if url =? BASE_URL env ++ "/followers" then
      db <- get ;;
      actors <- load_follower_actors (_get_followers db) ;;
      ret (map Actor.ap_actor actors)
    else raise (ValueError "internal collection not supported")
  else lift_fetch (parse_collection_url env url).

(** One turn of the loop of [_compute_recipients]. *)
Definition compute_recipient (r : string) (recipients : list string) : M (list string) :=
  if mem_string r [AS_PUBLIC; ID env] then ret recipients
  else if prefix (BASE_URL env) r then
    actors <- fetch_actor_collection r ;;
    ret (fold_left (fun acc actor => set_add (shared_inbox_url_of actor) acc)
                   actors recipients)
  else
    db <- get ;;
    match find_actor_by_ap_id db r with
    | Some known_actor => ret (set_add (Actor.shared_inbox_url known_actor) recipients)
    | None =>
        raw_object <- lift_fetch (fetch env r) ;;
        if mem_string (raw_type raw_object) ACTOR_TYPES then
          saved_actor <- save_actor raw_object ;;
          ret (set_add (Actor.shared_inbox_url saved_actor) recipients)
        else
          raw_actors <- lift_fetch (parse_collection_payload env raw_object) ;;
          ret (fold_left (fun acc raw_actor => set_add (shared_inbox_url_of raw_actor) acc)
                         raw_actors recipients)
    end.

Fixpoint compute_recipients_loop (l : list string) (recipients : list string)
  : M (list string) :=
  match l with
  | [] => ret recipients
  | r :: rest =>
      recipients' <- compute_recipient r recipients ;;
      compute_recipients_loop rest recipients'
  end.

Definition _compute_recipients (ap_object : RawObject) : M (list string) :=
  compute_recipients_loop
    (raw_to ap_object ++ raw_cc ap_object ++ raw_bto ap_object ++ raw_bcc ap_object) [].

Definition _send_follow (ap_actor_id : string) : M unit :=
  actor <- fetch_actor ap_actor_id true ;;
  follow_id <- allocate_outbox_id ;;
  let follow :=
    activity_document "Follow" (outbox_object_id follow_id) (ID env)
                      (ObjectId ap_actor_id) in
  outbox_object <- save_outbox_object follow_id follow None None
                     (Some (Actor.id actor)) None false None ;;
  if Nat.eqb (OutboxObject.id outbox_object) 0
  then raise (ValueError "Should never happen")
  else
    new_outgoing_activity (Actor.inbox_url actor)
      (Some (OutboxObject.id outbox_object)) None.

Definition delete_following_where_ap_actor_id (ap_actor_id : string) : M unit :=
  modify (fun db =>
    set_following
      (filter (fun f => negb (Following.ap_actor_id f =? ap_actor_id)) (following db)) db).

Definition _send_undo (ap_object_id : string) : M unit :=
  db <- get ;;
  match get_outbox_object_by_ap_id db ap_object_id with
  | None => raise (ValueError (ap_object_id ++ " not found in the outbox"))
  | Some outbox_object_to_undo =>
      if negb (mem_string (OutboxObject.ap_type outbox_object_to_undo)
                          ["Follow"; "Like"; "Announce"])
      then raise (ValueError ("Cannot build Undo for "
                              ++ OutboxObject.ap_type outbox_object_to_undo ++ " activity"))
      else
        undo_id <- allocate_outbox_id ;;
        let undo :=
          activity_document "Undo" (outbox_object_id undo_id) (ID env)
            (ObjectDoc (OutboxObject.ap_object outbox_object_to_undo)) in
        outbox_object <- save_outbox_object undo_id undo None
                           (Some (OutboxObject.id outbox_object_to_undo)) None
                           None false None ;;
        if Nat.eqb (OutboxObject.id outbox_object) 0
        then raise (ValueError "Should never happen")
        else
          update_outbox_object (OutboxObject.id outbox_object_to_undo)
            (OutboxObject.set_undone_by_outbox_object_id
               (Some (OutboxObject.id outbox_object))) ;;;
          if OutboxObject.ap_type outbox_object_to_undo =? "Follow" then
            match OutboxObject.activity_object_ap_id outbox_object_to_undo with
            | Some followed_id =>
                if followed_id =? "" then raise (ValueError "Should never happen")
                else
                  followed_actor <- fetch_actor followed_id true ;;
                  new_outgoing_activity (Actor.inbox_url followed_actor)
                    (Some (OutboxObject.id outbox_object)) None ;;;
                  delete_following_where_ap_actor_id (Actor.ap_id followed_actor)
            | None => raise (ValueError "Should never happen")
            end
          else if OutboxObject.ap_type outbox_object_to_undo =? "Like" then
            match OutboxObject.activity_object_ap_id outbox_object_to_undo with
            | Some liked_object_ap_id =>
                if liked_object_ap_id =? "" then raise (ValueError "Should never happen")
                else
                  db <- get ;;
                  match get_inbox_object_by_ap_id db liked_object_ap_id with
                  | None => raise (ValueError ("Cannot find liked object "
                                               ++ liked_object_ap_id))
                  | Some liked_object =>
                      update_inbox_object (InboxObject.id liked_object)
                        (InboxObject.set_liked_via_outbox_object_ap_id None) ;;;
                      actor <- load_actor (InboxObject.actor_id liked_object) ;;
                      new_outgoing_activity (Actor.inbox_url actor)
                        (Some (OutboxObject.id outbox_object)) None
                  end
            | None => raise (ValueError "Should never happen")
            end
          else if OutboxObject.ap_type outbox_object_to_undo =? "Announce" then
            match OutboxObject.activity_object_ap_id outbox_object_to_undo with
            | Some announced_object_ap_id =>
                if announced_object_ap_id =? ""
                then raise (ValueError "Should never happen")
                else
                  db <- get ;;
                  match get_inbox_object_by_ap_id db announced_object_ap_id with
                  | None => raise (ValueError ("Cannot find announced object "
                                               ++ announced_object_ap_id))
                  | Some announced_object =>
                      update_inbox_object (InboxObject.id announced_object)
                        (InboxObject.set_announced_via_outbox_object_ap_id None) ;;;
                      recipients <- _compute_recipients (OutboxObject.ap_object outbox_object) ;;
                      for_each recipients (fun rcp =>
                        new_outgoing_activity rcp (Some (OutboxObject.id outbox_object)) None)
                  end
            | None => raise (ValueError "Should never happen")
            end
          else raise (ValueError "Should never happen")
  end.

Definition send_undo (ap_object_id : string) : M unit :=
  _send_undo ap_object_id ;;;
  commit.

Definition send_delete (ap_object_id : string) : M unit :=
  db <- get ;;
  match get_outbox_object_by_ap_id db ap_object_id with
  | None => raise (ValueError (ap_object_id ++ " not found in the outbox"))
  | Some outbox_object_to_delete =>
      delete_id <- allocate_outbox_id ;;
      let tombstone :=
        {| raw_type := "Tombstone"; raw_id := Some ap_object_id; raw_actor := None;
           raw_object := NoObject; raw_target := None; raw_to := []; raw_cc := [];
           raw_bto := []; raw_bcc := []; raw_inReplyTo := None; raw_context := None;
           raw_published := None; raw_updated := None; raw_name := None;
           raw_content := None; raw_tag := []; raw_quoteUrl := None;
           raw_signature := false; raw_oneOf := []; raw_anyOf := [];
           raw_votersCount := None; raw_endTime := None; raw_alsoKnownAs := [];
           raw_inbox := ""; raw_sharedInbox := None; raw_outbox := "";
           raw_followers := None; raw_handle := None |} in
      let delete :=
        activity_document "Delete" (outbox_object_id delete_id) (ID env)
                          (ObjectDoc tombstone) in
      outbox_object <- save_outbox_object delete_id delete None
                         (Some (OutboxObject.id outbox_object_to_delete)) None
                         None false None ;;
      if Nat.eqb (OutboxObject.id outbox_object) 0
      then raise (ValueError "Should never happen")
      else
        update_outbox_object (OutboxObject.id outbox_object_to_delete)
          (OutboxObject.set_is_deleted true) ;;;
        commit ;;;
        (* Compute the original recipients *)
        recipients <- _compute_recipients (OutboxObject.ap_object outbox_object_to_delete) ;;
        for_each recipients (fun rcp =>
          new_outgoing_activity rcp (Some (OutboxObject.id outbox_object)) None) ;;;
        (* Revert side effects *)
        (match OutboxObject.in_reply_to outbox_object_to_delete with
         | Some in_reply_to =>
             if in_reply_to =? "" then ret tt
             else
               db <- get ;;
               match get_anybox_object_by_ap_id db in_reply_to with
               | Some replied_object =>
                   let new_replies_count :=
                     _get_replies_count db (anybox_ap_id replied_object) in
                   let replies_count :=
                     if (new_replies_count <? 0)%Z then 0%Z else new_replies_count in
                   match replied_object with
                   | FromInbox replied =>
                       update_inbox_object (InboxObject.id replied)
                         (InboxObject.set_replies_count replies_count)
                   | FromOutbox replied =>
                       update_outbox_object (OutboxObject.id replied)
                         (OutboxObject.set_replies_count replies_count)
                   end
               | None => ret tt
               end
         | None => ret tt
         end) ;;;
        commit
  end.

(** The remote-fetch failures after which an object counts as the root. *)
Definition is_unfetchable (e : Exn) : bool :=
  match e with
  | ObjectNotFoundError | ObjectIsGoneError | NotAnObjectError
  | ObjectUnavailableError => true
  | HTTPStatusError status_code => (400 <=? status_code)%Z && (status_code <? 500)%Z
  | _ => false
  end.

(** [depth] is the number of nested calls left before Python raises
    [RecursionError]. *)
Fixpoint fetch_conversation_root (depth : nat) (obj : AnyObject) (is_root : bool)
  : M string :=
  match depth with
  | O => raise RecursionError
  | S depth' =>
      if negb (truthy (obj_in_reply_to obj)) || is_root then
        match obj_ap_context obj with
        | Some ctx =>
            if ctx =? "" then
              ap_id <- obj_ap_id obj ;;
              ret ("microblogpub:root:" ++ ap_id)
            else ret ctx
        | None =>
            ap_id <- obj_ap_id obj ;;
            ret ("microblogpub:root:" ++ ap_id)
        end
      else
        let in_reply_to := match obj_in_reply_to obj with Some i => i | None => "" end in
        db <- get ;;
        match get_anybox_object_by_ap_id db in_reply_to with
        | Some in_reply_to_object =>
            fetch_conversation_root depth' (Stored in_reply_to_object) false
        | None =>
            fetched <-
              try_except
                (raw_reply <- lift_fetch (fetch env in_reply_to) ;;
                 raw_reply_actor_id <- get_actor_id raw_reply ;;
                 raw_reply_actor <- fetch_actor raw_reply_actor_id true ;;
                 ret (inr (Remote (mkRemoteObject raw_reply raw_reply_actor))))
                (fun e =>
                   if is_unfetchable e
                   then Some (root <- fetch_conversation_root depth' obj true ;;
                              ret (inl root))
                   else None) ;;
            match fetched with
            | inl root => ret root
            | inr in_reply_to_object =>
                fetch_conversation_root depth' in_reply_to_object false
            end
        end
  end.

Definition _revert_side_effect_for_deleted_object (delete_activity : InboxObject.t)
  (deleted_ap_object : InboxObject.t) (forwarded_by_actor : option Actor.t) : M unit :=
  (* Decrement the replies counter if needed *)
  is_delete_needs_to_be_forwarded <-
    match InboxObject.in_reply_to deleted_ap_object with
    | Some in_reply_to =>
        if in_reply_to =? "" then ret false
        else
          db <- get ;;
          match get_anybox_object_by_ap_id db in_reply_to with
          | Some (FromOutbox replied_object) =>
              db <- get ;;
              let new_replies_count :=
                _get_replies_count db (OutboxObject.ap_id replied_object) in
              update_outbox_object (OutboxObject.id replied_object)
                (OutboxObject.set_replies_count new_replies_count) ;;;
              ret true
          | Some (FromInbox replied_object) =>
              db <- get ;;
              let new_replies_count :=
                _get_replies_count db (InboxObject.ap_id replied_object) in
              update_inbox_object (InboxObject.id replied_object)
                (InboxObject.set_replies_count new_replies_count) ;;;
              ret false
          | None => ret false
          end
    | None => ret false
    end ;;
  (if (InboxObject.ap_type deleted_ap_object =? "Like")
      && truthy (InboxObject.activity_object_ap_id deleted_ap_object) then
     db <- get ;;
     match get_outbox_object_by_ap_id db
             (match InboxObject.activity_object_ap_id deleted_ap_object with
              | Some i => i | None => "" end) with
     | Some related_object =>
         update_outbox_object (OutboxObject.id related_object)
           (fun o => OutboxObject.set_likes_count (OutboxObject.likes_count o - 1)%Z o)
     | None => ret tt
     end
   else if (InboxObject.ap_type deleted_ap_object =? "Annouce")
           && truthy (InboxObject.activity_object_ap_id deleted_ap_object) then
     db <- get ;;
     match get_outbox_object_by_ap_id db
             (match InboxObject.activity_object_ap_id deleted_ap_object with
              | Some i => i | None => "" end) with
     | Some related_object =>
         update_outbox_object (OutboxObject.id related_object)
           (fun o => OutboxObject.set_announces_count
                       (OutboxObject.announces_count o - 1)%Z o)
     | None => ret tt
     end
   else ret tt) ;;;
  (* Delete any Like/Announce *)
  update_outbox_where
    (fun o => opt_string_eqb (OutboxObject.activity_object_ap_id o)
                             (Some (InboxObject.ap_id deleted_ap_object)))
    (OutboxObject.set_is_deleted true) ;;;
  if opt_string_eqb (InboxObject.activity_object_ap_id delete_activity)
                    (Some (InboxObject.ap_id deleted_ap_object))
     && InboxObject.has_ld_signature delete_activity
     && is_delete_needs_to_be_forwarded
  then
    delete_actor <- load_actor (InboxObject.actor_id delete_activity) ;;
    let skip_actors :=
      delete_actor :: match forwarded_by_actor with Some a => [a] | None => [] end in
    recipients <- _get_followers_recipients skip_actors ;;
    for_each recipients (fun rcp =>
      new_outgoing_activity rcp None (Some (InboxObject.id delete_activity)))
  else ret tt.

(** What a Delete activity designates. *)
Inductive DeleteTarget : Type :=
| TargetObject (o : InboxObject.t)
| TargetActor (a : Actor.t).

Definition _handle_delete_activity (from_actor : Actor.t) (delete_activity : InboxObject.t)
  (relates_to_inbox_object : option InboxObject.t) (forwarded_by_actor : option Actor.t)
  : M unit :=
  ap_object_to_delete <-
    match relates_to_inbox_object with
    | Some o => ret (Some (TargetObject o))
    | None =>
        match InboxObject.activity_object_ap_id delete_activity with
        | Some target_id =>
            if target_id =? "" then ret None
            else
              try_except
                (a <- fetch_actor target_id false ;; ret (Some (TargetActor a)))
                (fun e => match e with
                          | ObjectNotFoundError => Some (ret None)
                          | _ => None
                          end)
        | None => ret None
        end
    end ;;
  match ap_object_to_delete with
  | None => ret tt
  | Some (TargetObject o) =>
      if negb (Actor.ap_id from_actor =? InboxObject.ap_actor_id o) then ret tt
      else
        _revert_side_effect_for_deleted_object delete_activity o forwarded_by_actor ;;;
        update_inbox_object (InboxObject.id o) (InboxObject.set_is_deleted true) ;;;
        flush
  | Some (TargetActor a) =>
      if negb (Actor.ap_id from_actor =? Actor.ap_id a) then ret tt
      else
        modify (fun db =>
          set_followers
            (filter (fun f => negb (Follower.ap_actor_id f =? Actor.ap_id a))
                    (followers db)) db) ;;;
        modify (fun db =>
          set_following
            (filter (fun f => negb (Following.ap_actor_id f =? Actor.ap_id a))
                    (following db)) db) ;;;
        update_actor (Actor.id a) (Actor.set_is_deleted true) ;;;
        db <- get ;;
        let inbox_objects :=
          filter (fun o => Nat.eqb (InboxObject.actor_id o) (Actor.id a)
                           && negb (InboxObject.is_deleted o)) (inbox db) in
        for_each inbox_objects (fun inbox_object =>
          _revert_side_effect_for_deleted_object delete_activity inbox_object None ;;;
          update_inbox_object (InboxObject.id inbox_object)
            (InboxObject.set_is_deleted true)) ;;;
        flush
  end.

(** The unique columns of [followers] reject a second row for the actor;
    the [IntegrityError] of that flush is swallowed, but it leaves the
    session to be rolled back, and the next flush, the one of
    [save_outbox_object], raises [PendingRollbackError]. *)
Definition _send_accept (from_actor : Actor.t) (inbox_object : InboxObject.t) : M unit :=
  db <- get ;;
  let is_follower :=
    existsb (fun f => Nat.eqb (Follower.actor_id f) (Actor.id from_actor)
                      || (Follower.ap_actor_id f =? Actor.ap_id from_actor))
            (followers db) in
  (if is_follower then ret tt
   else modify (fun db =>
          set_followers
            (followers db ++
             [Follower.mk (Actor.id from_actor) (InboxObject.id inbox_object)
                          (Actor.ap_id from_actor)]) db)) ;;;
  reply_id <- allocate_outbox_id ;;
  let reply :=
    activity_document "Accept" (outbox_object_id reply_id) (ID env)
                      (ObjectId (InboxObject.ap_id inbox_object)) in
  if is_follower then raise PendingRollbackError
  else
    outbox_activity <- save_outbox_object reply_id reply
                         (Some (InboxObject.id inbox_object)) None None None false None ;;
    if Nat.eqb (OutboxObject.id outbox_activity) 0
    then raise (ValueError "Should never happen")
    else
      new_outgoing_activity (Actor.inbox_url from_actor)
        (Some (OutboxObject.id outbox_activity)) None ;;;
      add_notification
        (Notification.mk NEW_FOLLOWER (Some (Actor.id from_actor)) None None).

Definition _handle_follow_follow_activity (from_actor : Actor.t)
  (follow_activity : InboxObject.t) : M unit :=
  if negb (opt_string_eqb (InboxObject.activity_object_ap_id follow_activity)
                          (Some (ID env)))
  then delete_inbox_object (InboxObject.id follow_activity)
  else if MANUALLY_APPROVES_FOLLOWERS env then
    add_notification
      (Notification.mk PENDING_INCOMING_FOLLOWER (Some (Actor.id from_actor)) None
                       (Some (InboxObject.id follow_activity)))
  else _send_accept from_actor follow_activity.

Definition _handle_undo_activity (from_actor : Actor.t) (undo_activity : InboxObject.t)
  (ap_activity_to_undo : InboxObject.t) : M unit :=
  if negb (Actor.ap_id from_actor =? InboxObject.ap_actor_id ap_activity_to_undo)
  then ret tt
  else
    update_inbox_object (InboxObject.id ap_activity_to_undo)
      (fun o => InboxObject.set_is_deleted true
                  (InboxObject.set_undone_by_inbox_object_id
                     (Some (InboxObject.id undo_activity)) o)) ;;;
    if InboxObject.ap_type ap_activity_to_undo =? "Follow" then
      modify (fun db =>
        set_followers
          (filter (fun f => negb (Nat.eqb (Follower.inbox_object_id f)
                                          (InboxObject.id ap_activity_to_undo)))
                  (followers db)) db) ;;;
      add_notification (Notification.mk UNFOLLOW (Some (Actor.id from_actor)) None None)
    else if InboxObject.ap_type ap_activity_to_undo =? "Like" then
      if negb (truthy (InboxObject.activity_object_ap_id ap_activity_to_undo))
      then raise (ValueError "Like without object")
      else
        db <- get ;;
        match get_outbox_object_by_ap_id db
                (match InboxObject.activity_object_ap_id ap_activity_to_undo with
                 | Some i => i | None => "" end) with
        | None => ret tt
        | Some liked_obj =>
            update_outbox_object (OutboxObject.id liked_obj)
              (fun o => OutboxObject.set_likes_count (OutboxObject.likes_count o - 1)%Z o) ;;;
            add_notification
              (Notification.mk UNDO_LIKE (Some (Actor.id from_actor))
                 (Some (OutboxObject.id liked_obj))
                 (Some (InboxObject.id ap_activity_to_undo)))
        end
    else if InboxObject.ap_type ap_activity_to_undo =? "Announce" then
      if negb (truthy (InboxObject.activity_object_ap_id ap_activity_to_undo))
      then raise (ValueError "Announce witout object")
      else
        let announced_obj_ap_id :=
          match InboxObject.activity_object_ap_id ap_activity_to_undo with
          | Some i => i | None => "" end in
        if prefix (BASE_URL env) announced_obj_ap_id then
          db <- get ;;
          match get_outbox_object_by_ap_id db announced_obj_ap_id with
          | Some announced_obj_from_outbox =>
              update_outbox_object (OutboxObject.id announced_obj_from_outbox)
                (fun o => OutboxObject.set_announces_count
                            (OutboxObject.announces_count o - 1)%Z o) ;;;
              add_notification
                (Notification.mk UNDO_ANNOUNCE (Some (Actor.id from_actor))
                   (Some (OutboxObject.id announced_obj_from_outbox))
                   (Some (InboxObject.id ap_activity_to_undo)))
          | None => ret tt
          end
        else ret tt
    else ret tt.

Definition find_following_by_ap_actor_id (db : DB) (ap_actor_id : string)
  : option Following.t :=
  find (fun f => Following.ap_actor_id f =? ap_actor_id) (following db).

Definition find_outbox_object_by_id (db : DB) (i : nat) : option OutboxObject.t :=
  find (fun o => Nat.eqb (OutboxObject.id o) i) (outbox db).

Definition _handle_move_activity (from_actor : Actor.t) (move_activity : InboxObject.t)
  : M unit :=
  (* Ensure the object matches the actor *)
  old_actor_id <- get_object_id (InboxObject.ap_object move_activity) ;;
  if negb (old_actor_id =? Actor.ap_id from_actor) then ret tt
  else
    (* Fetch the target account *)
    match raw_target (InboxObject.ap_object move_activity) with
    | None => ret tt
    | Some target =>
        if target =? "" then ret tt
        else
          let new_actor_id := target in
          new_actor <- fetch_actor new_actor_id true ;;
          (* Ensure the target account references the old account *)
          if negb (mem_string old_actor_id (raw_alsoKnownAs (Actor.ap_actor new_actor)))
          then ret tt
          else
            (* Unfollow the old account *)
            db <- get ;;
            match find_following_by_ap_actor_id db old_actor_id with
            | None => ret tt
            | Some following =>
                match find_outbox_object_by_id db (Following.outbox_object_id following) with
                | None => raise (ValueError "outbox_object relationship is not loaded")
                | Some followed_via =>
                    _send_undo (OutboxObject.ap_id followed_via) ;;;
                    (* Follow the new one *)
                    db <- get ;;
                    match find_following_by_ap_actor_id db new_actor_id with
                    | None => _send_follow new_actor_id
                    | Some _ => ret tt
                    end ;;;
                    add_notification
                      (Notification.mk MOVE (Some (Actor.id new_actor)) None
                                       (Some (InboxObject.id move_activity)))
                end
            end
    end.

Definition _handle_update_activity (from_actor : Actor.t) (update_activity : InboxObject.t)
  : M unit :=
  wrapped_object <- get_object (InboxObject.ap_object update_activity) ;;
  if mem_string (raw_type wrapped_object) ACTOR_TYPES then
    updated_actor_ap_id <- get_id wrapped_object ;;
    if negb (Actor.ap_id from_actor =? updated_actor_ap_id)
       || negb (mem_string (Actor.ap_type from_actor) ACTOR_TYPES)
       || negb (mem_string (raw_type wrapped_object) ACTOR_TYPES)
       || negb (opt_string_eqb (Actor.handle from_actor) (raw_handle wrapped_object))
    then raise (ValueError "Invalid Update activity")
    else update_actor (Actor.id from_actor) (Actor.set_ap_actor wrapped_object)
  else if mem_string (raw_type wrapped_object)
                     ["Question"; "Note"; "Article"; "Page"; "Video"] then
    wrapped_id <- get_id wrapped_object ;;
    db <- get ;;
    match get_inbox_object_by_ap_id db wrapped_id with
    | None => ret tt
    | Some existing_object =>
        if negb (InboxObject.ap_actor_id existing_object =? Actor.ap_id from_actor)
        then ret tt
        else update_inbox_object (InboxObject.id existing_object)
               (InboxObject.set_ap_object wrapped_object)
    end
  else ret tt.

Definition count_distinct_nat (l : list nat) : Z :=
  Z.of_nat (length (nodup Nat.eq_dec l)).

Definition _handle_vote_answer (answer : InboxObject.t) (question : OutboxObject.t)
  : M unit :=
  if is_poll_ended question then ret tt
  else
    match poll_items question with
    | [] => raise (ValueError "Should never happen")
    | _ :: _ =>
        match raw_name (InboxObject.ap_object answer) with
        | None => raise (KeyError "name")
        | Some answer_name =>
            if negb (mem_string answer_name (map item_name (poll_items question)))
            then ret tt
            else
              update_inbox_object (InboxObject.id answer)
                (InboxObject.set_is_transient true) ;;;
              modify (fun db =>
                set_poll_answers
                  (poll_answers db ++
                   [PollAnswer.mk (OutboxObject.id question)
                      (if is_one_of_poll question then "oneOf" else "anyOf")
                      (InboxObject.id answer) (InboxObject.actor_id answer)
                      answer_name]) db) ;;;
              flush ;;;
              db <- get ;;
              let answers :=
                filter (fun a => Nat.eqb (PollAnswer.outbox_object_id a)
                                         (OutboxObject.id question))
                       (poll_answers db) in
              let voters_count := count_distinct_nat (map PollAnswer.actor_id answers) in
              let all_answers_count := fun name =>
                count_if (fun a => PollAnswer.name a =? name) answers in
              let items :=
                map (fun item => mkPollItem (item_name item)
                                            (all_answers_count (item_name item)))
                    (poll_items question) in
              let d := OutboxObject.ap_object question in
              let question_ap_object :=
                {| raw_type := raw_type d; raw_id := raw_id d; raw_actor := raw_actor d;
                   raw_object := raw_object d; raw_target := raw_target d;
                   raw_to := raw_to d; raw_cc := raw_cc d; raw_bto := raw_bto d;
                   raw_bcc := raw_bcc d; raw_inReplyTo := raw_inReplyTo d;
                   raw_context := raw_context d; raw_published := raw_published d;
                   raw_updated := Some (now env);
                   raw_name := raw_name d; raw_content := raw_content d;
                   raw_tag := raw_tag d; raw_quoteUrl := raw_quoteUrl d;
                   raw_signature := raw_signature d;
                   raw_oneOf := if is_one_of_poll question then items else raw_oneOf d;
                   raw_anyOf := if is_one_of_poll question then raw_anyOf d else items;
                   raw_votersCount := Some voters_count;
                   raw_endTime := raw_endTime d;
                   raw_alsoKnownAs := raw_alsoKnownAs d; raw_inbox := raw_inbox d;
                   raw_sharedInbox := raw_sharedInbox d; raw_outbox := raw_outbox d;
                   raw_followers := raw_followers d; raw_handle := raw_handle d |} in
              update_outbox_object (OutboxObject.id question)
                (OutboxObject.set_ap_object question_ap_object) ;;;
              flush ;;;
              (* Finally send an update *)
              recipients <- _compute_recipients question_ap_object ;;
              for_each recipients (fun rcp =>
                new_outgoing_activity rcp (Some (OutboxObject.id question)) None)
        end
    end.

Definition is_mention_tag (tag : Tag) : bool :=
  opt_string_eqb (tag_name tag) (Some (LOCAL_ACTOR_handle env))
  || opt_string_eqb (tag_href tag) (Some (LOCAL_ACTOR_url env)).

(** What [_process_note_object] does once the row of the note is flushed:
    link the parent activity, refresh the counters of the replied object or
    record the vote, forward, notify a mention, and materialize the quoted
    object through [recurse], which stands for the function itself. *)
Definition process_saved_note_with
  (recurse : InboxObject.t -> Actor.t -> RemoteObject -> M InboxObject.t)
  (parent_activity : InboxObject.t) (from_actor : Actor.t) (ro : RemoteObject)
  (forwarded_by_actor : option Actor.t) (process_quoted_url : bool) (is_mention : bool)
  (inbox_object : InboxObject.t) : M InboxObject.t :=
  update_inbox_object (InboxObject.id parent_activity)
    (InboxObject.set_relates_to_inbox_object_id (Some (InboxObject.id inbox_object))) ;;;
  (if truthy (InboxObject.in_reply_to inbox_object) then
     let in_reply_to :=
       match InboxObject.in_reply_to inbox_object with Some i => i | None => "" end in
     db <- get ;;
     let replied_object := get_anybox_object_by_ap_id db in_reply_to in
     match replied_object with
     | Some (FromOutbox replied) =>
         if (OutboxObject.ap_type replied =? "Question")
            && truthy (raw_name (InboxObject.ap_object inbox_object))
         then _handle_vote_answer inbox_object replied
         else
           db <- get ;;
           let new_replies_count := _get_replies_count db (OutboxObject.ap_id replied) in
           update_outbox_object (OutboxObject.id replied)
             (OutboxObject.set_replies_count new_replies_count)
     | Some (FromInbox replied) =>
         db <- get ;;
         let new_replies_count := _get_replies_count db (InboxObject.ap_id replied) in
         update_inbox_object (InboxObject.id replied)
           (InboxObject.set_replies_count new_replies_count)
     | None => ret tt
     end ;;;
     (* This object is a reply of a local object, we may need to forward it *)
     match replied_object with
     | Some (FromOutbox replied) =>
         if (InboxObject.ap_type parent_activity =? "Create")
            && negb (OutboxObject.ap_type replied =? "Question")
            && InboxObject.has_ld_signature parent_activity
         then
           parent_actor <- load_actor (InboxObject.actor_id parent_activity) ;;
           let skip_actors :=
             parent_actor :: match forwarded_by_actor with Some a => [a] | None => [] end in
           recipients <- _get_followers_recipients skip_actors ;;
           for_each recipients (fun rcp =>
             new_outgoing_activity rcp None (Some (InboxObject.id parent_activity)))
         else ret tt
     | _ => ret tt
     end
   else ret tt) ;;;
  (if is_mention then
     add_notification
       (Notification.mk MENTION (Some (Actor.id from_actor)) None
                        (Some (InboxObject.id inbox_object)))
   else ret tt) ;;;
  flush ;;;
  (match raw_quoteUrl (ro_ap_object ro) with
   | Some quote_url =>
       if negb (quote_url =? "") && process_quoted_url then
         try_except
           (quoted_raw_object <- lift_fetch (fetch env quote_url) ;;
            quoted_actor_id <- get_actor_id quoted_raw_object ;;
            quoted_object_actor <- fetch_actor quoted_actor_id true ;;
            let quoted_ro := mkRemoteObject quoted_raw_object quoted_object_actor in
            quoted_inbox_object <- recurse inbox_object quoted_object_actor quoted_ro ;;
            update_inbox_object (InboxObject.id inbox_object)
              (InboxObject.set_quoted_inbox_object_id
                 (Some (InboxObject.id quoted_inbox_object))))
           (fun _ => Some (ret tt))
       else ret tt
   | None => ret tt
   end) ;;;
  ret inbox_object.

(** [_process_note_object] up to the flush of the new row; [recurse] stands
    for the function itself in the call made for a quoted object. *)
Definition process_note_object_with
  (recurse : InboxObject.t -> Actor.t -> RemoteObject -> M InboxObject.t)
  (parent_activity : InboxObject.t) (from_actor : Actor.t) (ro : RemoteObject)
  (forwarded_by_actor : option Actor.t) (process_quoted_url : bool)
  : M InboxObject.t :=
  ro_ap_id <- get_id (ro_ap_object ro) ;;
  (if process_quoted_url
      && opt_string_eqb (InboxObject.quote_url parent_activity) (Some ro_ap_id)
   then ret tt
   else if negb (mem_string (InboxObject.ap_type parent_activity) ["Create"; "Read"])
   then raise (ValueError "Unexpected parent activity")
   else ret tt) ;;;
  let ap_published_at :=
    match raw_published (ro_ap_object ro) with Some p => p | None => now env end in
  db <- get ;;
  let following := _get_following db in
  let is_from_following :=
    mem_string (Actor.ap_id (ro_actor ro)) (map Following.ap_actor_id following) in
  let is_reply := truthy (raw_inReplyTo (ro_ap_object ro)) in
  let is_local_reply :=
    truthy (raw_inReplyTo (ro_ap_object ro))
    && prefix (BASE_URL env)
              (match raw_inReplyTo (ro_ap_object ro) with Some i => i | None => "" end)
    && truthy (raw_content (ro_ap_object ro)) in   (* Hide votes from Question *)
  let is_mention := existsb is_mention_tag (raw_tag (ro_ap_object ro)) in
  conversation <- fetch_conversation_root (recursion_limit env) (Remote ro) false ;;
  db <- get ;;
  let replies_count := _get_replies_count db ro_ap_id in
  inbox_object <- add_inbox_object (fun new_id =>
    InboxObject.mk new_id (Actor.id from_actor) (Actor.ap_id from_actor)
      (raw_type (ro_ap_object ro)) ro_ap_id (raw_context (ro_ap_object ro))
      (Some conversation) ap_published_at (ro_ap_object ro) (ro_visibility ro)
      (Some (InboxObject.id parent_activity)) None
      (activity_object_ap_id_of (ro_ap_object ro))
      (* Hide replies from the stream *)
      (negb ((negb is_reply && is_from_following) || is_mention || is_local_reply))
      replies_count None false None false None None) ;;
  process_saved_note_with recurse parent_activity from_actor ro forwarded_by_actor
    process_quoted_url is_mention inbox_object.

Definition _process_note_object (parent_activity : InboxObject.t) (from_actor : Actor.t)
  (ro : RemoteObject) (forwarded_by_actor : option Actor.t) (process_quoted_url : bool)
  : M InboxObject.t :=
  process_note_object_with
    (fun quoting quoted_object_actor quoted_ro =>
       process_note_object_with
         (fun _ _ _ => raise RecursionError)
         quoting quoted_object_actor quoted_ro None false)
    parent_activity from_actor ro forwarded_by_actor process_quoted_url.

Definition _handle_create_activity (from_actor : Actor.t) (create_activity : InboxObject.t)
  (forwarded_by_actor : option Actor.t) : M unit :=
  wrapped_object <- unwrap_activity (InboxObject.ap_object create_activity) ;;
  wrapped_actor_id <- get_actor_id wrapped_object ;;
  if negb (InboxObject.ap_actor_id create_activity =? wrapped_actor_id)
  then raise (ValueError "Object actor does not match activity")
  else
    let ro := mkRemoteObject wrapped_object from_actor in
    ro_ap_id <- get_id wrapped_object ;;
    (* Check if we already received a delete for this object *)
    delete_object <- get_inbox_delete_for_activity_object_ap_id ro_ap_id ;;
    match delete_object with
    | Some delete_object =>
        if negb (InboxObject.ap_actor_id delete_object =? Actor.ap_id from_actor)
        then ret tt
        else
          update_inbox_object (InboxObject.id create_activity)
            (InboxObject.set_is_deleted true) ;;;
          flush
    | None =>
        _process_note_object create_activity from_actor ro forwarded_by_actor true ;;;
        ret tt
    end.

Definition _handle_read_activity (from_actor : Actor.t) (read_activity : InboxObject.t)
  : M unit :=
  read_object_id <- get_object_id (InboxObject.ap_object read_activity) ;;
  wrapped_object <- lift_fetch (fetch env read_object_id) ;;
  wrapped_actor_id <- get_actor_id wrapped_object ;;
  wrapped_object_actor <- fetch_actor wrapped_actor_id true ;;
  if negb (Actor.is_blocked wrapped_object_actor) then
    let ro := mkRemoteObject wrapped_object wrapped_object_actor in
    _process_note_object read_activity wrapped_object_actor ro None true ;;;
    ret tt
  else ret tt.

Definition _handle_announce_activity (actor : Actor.t) (announce_activity : InboxObject.t)
  (relates_to_outbox_object : option OutboxObject.t)
  (relates_to_inbox_object : option InboxObject.t) : M unit :=
  match relates_to_outbox_object with
  | Some target =>
      (* This is an announce for a local object *)
      update_outbox_object (OutboxObject.id target)
        (fun o => OutboxObject.set_announces_count (OutboxObject.announces_count o + 1)%Z o) ;;;
      add_notification
        (Notification.mk ANNOUNCE (Some (Actor.id actor)) (Some (OutboxObject.id target))
                         (Some (InboxObject.id announce_activity)))
  | None =>
      db <- get ;;
      let is_from_following :=
        mem_string (InboxObject.ap_actor_id announce_activity)
                   (map Following.ap_actor_id (_get_following db)) in
      match relates_to_inbox_object with
      | Some known =>
          let skip_delta := 3600%Z in
          let delta_from_original := (now env - InboxObject.ap_published_at known)%Z in
          let dup_count :=
            count_if (fun o => (InboxObject.ap_type o =? "Announce")
                               && (now env - skip_delta <? InboxObject.ap_published_at o)%Z
                               && opt_nat_eqb (InboxObject.relates_to_inbox_object_id o)
                                              (Some (InboxObject.id known))
                               && negb (InboxObject.is_hidden_from_stream o))
                     (inbox db) in
          if (negb (InboxObject.is_hidden_from_stream known)
              && (delta_from_original <? skip_delta)%Z)
             || (0 <? dup_count)%Z
          then update_inbox_object (InboxObject.id announce_activity)
                 (InboxObject.set_is_hidden_from_stream true)
          else update_inbox_object (InboxObject.id announce_activity)
                 (InboxObject.set_is_hidden_from_stream (negb is_from_following))
      | None =>
          (* Save it as an inbox object *)
          if negb (truthy (InboxObject.activity_object_ap_id announce_activity))
          then raise (ValueError "Should never happen")
          else
            fetched <- lift_fetch
                         (fetch env (match InboxObject.activity_object_ap_id announce_activity
                                     with Some i => i | None => "" end)) ;;
            announced_raw_object <-
              (if raw_type fetched =? "Create" then get_object fetched else ret fetched) ;;
            announced_actor_id <- get_actor_id announced_raw_object ;;
            announced_actor <- fetch_actor announced_actor_id true ;;
            if negb (Actor.is_blocked announced_actor) then
              let announced_object := mkRemoteObject announced_raw_object announced_actor in
              announced_ap_id <- get_id announced_raw_object ;;
              announced_inbox_object <- add_inbox_object (fun new_id =>
                InboxObject.mk new_id (Actor.id announced_actor)
                  (Actor.ap_id announced_actor) (raw_type announced_raw_object)
                  announced_ap_id (raw_context announced_raw_object) None
                  (match raw_published announced_raw_object with
                   | Some p => p | None => now env end)
                  announced_raw_object (ro_visibility announced_object)
                  None None (activity_object_ap_id_of announced_raw_object)
                  true 0%Z None false None false None None) ;;
              update_inbox_object (InboxObject.id announce_activity)
                (fun o => InboxObject.set_is_hidden_from_stream (negb is_from_following)
                            (InboxObject.set_relates_to_inbox_object_id
                               (Some (InboxObject.id announced_inbox_object)) o))
            else ret tt
      end
  end.

Definition _handle_like_activity (actor : Actor.t) (like_activity : InboxObject.t)
  (relates_to_outbox_object : option OutboxObject.t)
  (relates_to_inbox_object : option InboxObject.t) : M unit :=
  match relates_to_outbox_object with
  | None => delete_inbox_object (InboxObject.id like_activity)
  | Some target =>
      update_outbox_object (OutboxObject.id target)
        (fun o => OutboxObject.set_likes_count (OutboxObject.likes_count o + 1)%Z o) ;;;
      add_notification
        (Notification.mk LIKE (Some (Actor.id actor)) (Some (OutboxObject.id target))
                         (Some (InboxObject.id like_activity)))
  end.

Definition _process_transient_object (raw_object : RawObject) (from_actor : Actor.t)
  : M unit :=
  ret tt.

Definition save_object_to_inbox (raw_object : RawObject) : M InboxObject.t :=
  obj_actor_id <- get_actor_id raw_object ;;
  obj_actor <- fetch_actor obj_actor_id true ;;
  let ro := mkRemoteObject raw_object obj_actor in
  ro_ap_id <- get_id raw_object ;;
  let ap_published_at :=
    match raw_published raw_object with Some p => p | None => now env end in
  conversation <- fetch_conversation_root (recursion_limit env) (Remote ro) false ;;
  add_inbox_object (fun new_id =>
    InboxObject.mk new_id (Actor.id obj_actor) (Actor.ap_id obj_actor)
      (raw_type raw_object) ro_ap_id (raw_context raw_object) (Some conversation)
      ap_published_at raw_object (ro_visibility ro) None None
      (activity_object_ap_id_of raw_object) true 0%Z None false None false None None).

(** The loop of [_prefetch_actor_outbox] over [outbox[:20]], [saved] counting
    the notes kept so far. *)
Fixpoint prefetch_loop (activities : list RawObject) (saved : nat) : M unit :=
  match activities with
  | [] => ret tt
  | activity :: rest =>
      activity_id <- get_id activity ;;
      raw_activity <- lift_fetch (fetch env activity_id) ;;
      saved' <-
        (if raw_type raw_activity =? "Create" then
           obj <- get_object raw_activity ;;
           obj_id <- get_id obj ;;
           db <- get ;;
           saved_inbox_object <-
             match get_inbox_object_by_ap_id db obj_id with
             | Some o => ret o
             | None => save_object_to_inbox obj
             end ;;
           (if negb (truthy (InboxObject.in_reply_to saved_inbox_object))
            then update_inbox_object (InboxObject.id saved_inbox_object)
                   (InboxObject.set_is_hidden_from_stream false)
            else ret tt) ;;;
           ret (S saved)
         else ret saved) ;;
      if Nat.leb 5 saved' then ret tt else prefetch_loop rest saved'
  end.

Definition _prefetch_actor_outbox (actor : Actor.t) : M unit :=
  outbox <- lift_fetch (parse_collection_url env (Actor.outbox_url actor)) ;;
  prefetch_loop (firstn 20 outbox) 0.

(** The dispatch on [ap_type] that ends [save_to_inbox]. *)
Definition dispatch_activity (raw_object : RawObject) (actor : Actor.t)
  (inbox_object : InboxObject.t) (relates_to_inbox_object : option InboxObject.t)
  (relates_to_outbox_object : option OutboxObject.t)
  (forwarded_by_actor : option Actor.t) : M unit :=
  let ap_type := raw_type raw_object in
  if ap_type =? "Create" then
    _handle_create_activity actor inbox_object forwarded_by_actor
  else if ap_type =? "Read" then _handle_read_activity actor inbox_object
  else if ap_type =? "Update" then _handle_update_activity actor inbox_object
  else if ap_type =? "Move" then _handle_move_activity actor inbox_object
  else if ap_type =? "Delete" then
    _handle_delete_activity actor inbox_object relates_to_inbox_object forwarded_by_actor
  else if ap_type =? "Follow" then _handle_follow_follow_activity actor inbox_object
  else if ap_type =? "Undo" then
    match relates_to_inbox_object with
    | Some to_undo => _handle_undo_activity actor inbox_object to_undo
    | None => ret tt
    end
  else if mem_string ap_type ["Accept"; "Reject"] then
    match relates_to_outbox_object with
    | None => ret tt
    | Some target =>
        if OutboxObject.ap_type target =? "Follow" then
          add_notification
            (Notification.mk
               (if ap_type =? "Accept" then FOLLOW_REQUEST_ACCEPTED
                else FOLLOW_REQUEST_REJECTED)
               (Some (Actor.id actor)) None (Some (InboxObject.id inbox_object))) ;;;
          if ap_type =? "Accept" then
            db <- get ;;
            (if existsb (fun f => Nat.eqb (Following.actor_id f) (Actor.id actor)
                                  || (Following.ap_actor_id f =? Actor.ap_id actor))
                        (following db)
             then raise IntegrityError
             else modify (fun db =>
                    set_following
                      (following db ++
                       [Following.mk (Actor.id actor) (OutboxObject.id target)
                                     (Actor.ap_id actor)]) db)) ;;;
            (* Pre-fetch the latest activities *)
            try_except (_prefetch_actor_outbox actor) (fun _ => Some (ret tt))
          else
            modify (fun db =>
              set_following
                (filter (fun f => negb (Following.ap_actor_id f =? Actor.ap_id actor))
                        (following db)) db)
        else ret tt
    end
  else if ap_type =? "EmojiReact" then
    match relates_to_outbox_object with
    | None => delete_inbox_object (InboxObject.id inbox_object)
    | Some _ => ret tt
    end
  else if ap_type =? "Like" then
    _handle_like_activity actor inbox_object relates_to_outbox_object
                          relates_to_inbox_object
  else if ap_type =? "Announce" then
    _handle_announce_activity actor inbox_object relates_to_outbox_object
                              relates_to_inbox_object
  else if ap_type =? "View" then delete_inbox_object (InboxObject.id inbox_object)
  else ret tt.

(** [save_to_inbox] from the duplicate check on: [raw_object] is the
    activity, re-fetched from its origin when it came forwarded without a
    valid signature, [raw_object_id] the id it arrived with. *)
Definition save_to_inbox_checked (raw_object : RawObject) (raw_object_id : string)
  (actor : Actor.t) (forwarded_by_actor : option Actor.t) : M unit :=
  db <- get ;;
  if Z.ltb 0 (count_if (fun o => InboxObject.ap_id o =? raw_object_id) (inbox db))
  then ret tt
  else
    let ap_published_at :=
      match raw_published raw_object with Some p => p | None => now env end in
    let activity_ro := mkRemoteObject raw_object actor in
    activity_ap_id <- get_id raw_object ;;
    let activity_object_ap_id := activity_object_ap_id_of raw_object in
    let target_id := match activity_object_ap_id with Some i => i | None => "" end in
    let relates_to_outbox_object :=
      if truthy activity_object_ap_id && prefix (BASE_URL env) target_id
      then get_outbox_object_by_ap_id db target_id else None in
    let relates_to_inbox_object :=
      if truthy activity_object_ap_id && negb (prefix (BASE_URL env) target_id)
      then get_inbox_object_by_ap_id db target_id else None in
    inbox_object <- add_inbox_object (fun new_id =>
      InboxObject.mk new_id (Actor.id actor) (Actor.ap_id actor) (raw_type raw_object)
        activity_ap_id (raw_context raw_object) None ap_published_at raw_object
        (ro_visibility activity_ro)
        (option_map InboxObject.id relates_to_inbox_object)
        (option_map OutboxObject.id relates_to_outbox_object)
        activity_object_ap_id true 0%Z None false None false None None) ;;
    dispatch_activity raw_object actor inbox_object relates_to_inbox_object
                      relates_to_outbox_object forwarded_by_actor ;;;
    commit.

Definition save_to_inbox (raw_object : RawObject) (sent_by_ap_actor_id : string)
  : M unit :=
  (* Special case for server sending the actor as a payload *)
  if mem_string (raw_type raw_object) ACTOR_TYPES then
    payload_id <- get_id raw_object ;;
    if payload_id =? sent_by_ap_actor_id then
      found <- try_except (a <- fetch_actor sent_by_ap_actor_id true ;; ret (Some a))
                 (fun e => match e with
                           | ObjectNotFoundError => Some (ret None)
                           | _ => None
                           end) ;;
      match found with
      | None => ret tt
      | Some actor =>
          update_actor (Actor.id actor) (Actor.set_ap_actor raw_object) ;;;
          commit
      end
    else ret tt
  else
    actor_ap_id <- get_actor_id raw_object ;;
    found <- try_except (a <- fetch_actor actor_ap_id true ;; ret (Some a))
               (fun e => match e with
                         | ObjectNotFoundError | HTTPStatusError _ => Some (ret None)
                         | _ => None
                         end) ;;
    match found with
    | None => ret tt
    | Some actor =>
        if mem_string (hostname env (Actor.ap_id actor)) (BLOCKED_SERVERS env) then ret tt
        else if negb (truthy (raw_id raw_object)) then
          _process_transient_object raw_object actor
        else if Actor.is_blocked actor then ret tt
        else
          let raw_object_id := match raw_id raw_object with Some i => i | None => "" end in
          (* Ensure forwarded activities have a valid LD sig *)
          if negb (sent_by_ap_actor_id =? Actor.ap_id actor) then
            forwarded_by_actor <- fetch_actor sent_by_ap_actor_id true ;;
            let is_sig_verified :=
              match verify_signature env raw_object with
              | inr b => b
              | inl _ => false
              end in
            if negb is_sig_verified then
              (* Try to fetch the remote object since we failed to verify the LD sig *)
              match fetch env raw_object_id with
              | inl _ => raise (HTTPException 401 "Invalid LD sig")
              | inr fetched =>
                  fetched_id <- get_id fetched ;;
                  if negb (fetched_id =? raw_object_id) then ret tt
                  else save_to_inbox_checked fetched raw_object_id actor
                         (Some forwarded_by_actor)
              end
            else save_to_inbox_checked raw_object raw_object_id actor
                   (Some forwarded_by_actor)
          else save_to_inbox_checked raw_object raw_object_id actor None
    end.

(** *** The reply tree *)

#[warnings="-register-all"]
Inductive ReplyTreeNode : Type :=
| mkReplyTreeNode (ap_object : AnyboxObject) (children : list ReplyTreeNode)
                  (is_requested : bool) (is_root : bool).

Definition node_ap_object (n : ReplyTreeNode) : AnyboxObject :=
  match n with mkReplyTreeNode o _ _ _ => o end.

Definition node_children (n : ReplyTreeNode) : list ReplyTreeNode :=
  match n with mkReplyTreeNode _ c _ _ => c end.

Definition node_is_requested (n : ReplyTreeNode) : bool :=
  match n with mkReplyTreeNode _ _ r _ => r end.

Definition node_is_root (n : ReplyTreeNode) : bool :=
  match n with mkReplyTreeNode _ _ _ r => r end.

(** [sorted(l, key=key)]: a stable sort. *)
Fixpoint insert_by {A : Type} (key : A -> Z) (x : A) (l : list A) : list A :=
  match l with
  | [] => [x]
  | y :: rest => if (key x <=? key y)%Z then x :: y :: rest else y :: insert_by key x rest
  end.

Definition sorted {A : Type} (key : A -> Z) (l : list A) : list A :=
  fold_right (insert_by key) [] l.

Fixpoint collect {A B : Type} (f : A -> Exn + B) (l : list A) : Exn + list B :=
  match l with
  | [] => inr []
  | x :: rest =>
      match f x with
      | inl e => inl e
      | inr y =>
          match collect f rest with
          | inl e => inl e
          | inr ys => inr (y :: ys)
          end
      end
  end.

Definition allowed_visibility (is_current_user_admin : bool) (v : VisibilityEnum) : bool :=
  if is_current_user_admin then true
  else match v with PUBLIC | UNLISTED => true | _ => false end.

(** The candidate nodes: the requested object alone when it has no
    conversation, else the live notes of its conversation in both stores. *)
Definition tree_nodes_of (db : DB) (requested_object : AnyboxObject)
  (is_current_user_admin : bool) : list AnyboxObject :=
  match anybox_conversation requested_object with
  | None => [requested_object]
  | Some _ =>
      map FromInbox
        (filter (fun o => opt_string_eqb (InboxObject.conversation o)
                                         (anybox_conversation requested_object)
                          && mem_string (InboxObject.ap_type o) ["Note"; "Page"; "Article"]
                          && negb (InboxObject.is_deleted o)
                          && allowed_visibility is_current_user_admin
                               (InboxObject.visibility o))
                (inbox db))
      ++
      map FromOutbox
        (filter (fun o => opt_string_eqb (OutboxObject.conversation o)
                                         (anybox_conversation requested_object)
                          && negb (OutboxObject.is_deleted o)
                          && mem_string (OutboxObject.ap_type o) ["Note"; "Page"; "Article"]
                          && allowed_visibility is_current_user_admin
                               (OutboxObject.visibility o))
                (outbox db))
  end.

(** [nodes_by_in_reply_to.get(key, [])] *)
Definition nodes_by_in_reply_to (tree_nodes : list AnyboxObject) (key : option string)
  : list AnyboxObject :=
  filter (fun n => opt_string_eqb (anybox_in_reply_to n) key) tree_nodes.

Fixpoint _get_reply_node_children (depth : nat) (requested_ap_id : string)
  (tree_nodes : list AnyboxObject) (node_ap_id : string) : Exn + list ReplyTreeNode :=
  match depth with
  | O => inl RecursionError
  | S depth' =>
      match collect
              (fun child =>
                 match _get_reply_node_children depth' requested_ap_id tree_nodes
                         (anybox_ap_id child) with
                 | inl e => inl e
                 | inr grandchildren =>
                     inr (mkReplyTreeNode child grandchildren
                            (anybox_ap_id child =? requested_ap_id) false)
                 end)
              (nodes_by_in_reply_to tree_nodes (Some node_ap_id)) with
      | inl e => inl e
      | inr children =>
          inr (sorted (fun n => anybox_ap_published_at (node_ap_object n)) children)
      end
  end.

(** The object chosen as the root of the tree. *)
Definition root_ap_object_of (tree_nodes : list AnyboxObject) : option AnyboxObject :=
  match nodes_by_in_reply_to tree_nodes None with
  | first :: _ => Some first
  | [] => hd_error (sorted anybox_ap_published_at tree_nodes)
  end.

Definition get_replies_tree (requested_object : AnyboxObject)
  (is_current_user_admin : bool) : M ReplyTreeNode :=
  db <- get ;;
  let tree_nodes := tree_nodes_of db requested_object is_current_user_admin in
  if Nat.ltb 1 (length (nodes_by_in_reply_to tree_nodes None))
  then raise (ValueError "Invalid replies tree")
  else
    match root_ap_object_of tree_nodes with
    | None => raise IndexError
    | Some root_ap_object =>
        match _get_reply_node_children (recursion_limit env)
                (anybox_ap_id requested_object) tree_nodes
                (anybox_ap_id root_ap_object) with
        | inl e => raise e
        | inr children =>
            ret (mkReplyTreeNode root_ap_object children
                   (anybox_ap_id root_ap_object =? anybox_ap_id requested_object) true)
        end
    end.

End Engine.

(** ** The outbound side of [app/boxes.py] and its callers *)

Section Outbound.

Variable env : Env.

Definition send_like (ap_object_id : string) : M unit :=
  db <- get ;;
  inbox_object <-
    match get_inbox_object_by_ap_id db ap_object_id with
    | Some o => ret o
    | None =>
        (* Saving unknown object *)
        raw_object <- lift_fetch (fetch env ap_object_id) ;;
        save_object_to_inbox env raw_object ;;;
        commit ;;;
        db <- get ;;
        match get_inbox_object_by_ap_id db ap_object_id with
        | Some o => ret o
        | None => raise (ValueError "Should never happen")
        end
    end ;;
  like_id <- allocate_outbox_id env ;;
  let like :=
    activity_document "Like" (outbox_object_id env like_id) (ID env)
                      (ObjectId ap_object_id) in
  outbox_object <- save_outbox_object env like_id like
                     (Some (InboxObject.id inbox_object)) None None None false None ;;
  if Nat.eqb (OutboxObject.id outbox_object) 0
  then raise (ValueError "Should never happen")
  else
    update_inbox_object (InboxObject.id inbox_object)
      (InboxObject.set_liked_via_outbox_object_ap_id
         (Some (OutboxObject.ap_id outbox_object))) ;;;
    actor <- load_actor (InboxObject.actor_id inbox_object) ;;
    new_outgoing_activity (Actor.inbox_url actor)
      (Some (OutboxObject.id outbox_object)) None ;;;
    commit.

Definition send_announce (ap_object_id : string) : M unit :=
  db <- get ;;
  inbox_object <-
    match get_inbox_object_by_ap_id db ap_object_id with
    | Some o => ret o
    | None =>
        (* Saving unknown object *)
        raw_object <- lift_fetch (fetch env ap_object_id) ;;
        save_object_to_inbox env raw_object ;;;
        commit ;;;
        db <- get ;;
        match get_inbox_object_by_ap_id db ap_object_id with
        | Some o => ret o
        | None => raise (ValueError "Should never happen")
        end
    end ;;
  if negb (match InboxObject.visibility inbox_object with
           | PUBLIC | UNLISTED => true
           | _ => false
           end)
  then raise (ValueError "Cannot announce non-public object")
  else
    announce_id <- allocate_outbox_id env ;;
    let announce :=
      {| raw_type := "Announce"; raw_id := Some (outbox_object_id env announce_id);
         raw_actor := Some (ID env); raw_object := ObjectId ap_object_id;
         raw_target := None; raw_to := [AS_PUBLIC];
         raw_cc := [BASE_URL env ++ "/followers"; InboxObject.ap_actor_id inbox_object];
         raw_bto := []; raw_bcc := []; raw_inReplyTo := None; raw_context := None;
         raw_published := None; raw_updated := None; raw_name := None;
         raw_content := None; raw_tag := []; raw_quoteUrl := None;
         raw_signature := false; raw_oneOf := []; raw_anyOf := [];
         raw_votersCount := None; raw_endTime := None; raw_alsoKnownAs := [];
         raw_inbox := ""; raw_sharedInbox := None; raw_outbox := "";
         raw_followers := None; raw_handle := None |} in
    outbox_object <- save_outbox_object env announce_id announce
                       (Some (InboxObject.id inbox_object)) None None None false None ;;
    if Nat.eqb (OutboxObject.id outbox_object) 0
    then raise (ValueError "Should never happen")
    else
      update_inbox_object (InboxObject.id inbox_object)
        (InboxObject.set_announced_via_outbox_object_ap_id
           (Some (OutboxObject.ap_id outbox_object))) ;;;
      recipients <- _compute_recipients env announce ;;
      for_each recipients (fun rcp =>
        new_outgoing_activity rcp (Some (OutboxObject.id outbox_object)) None) ;;;
      commit.

Definition send_follow (ap_actor_id : string) : M unit :=
  _send_follow env ap_actor_id ;;;
  commit.

Definition _send_reject (from_actor : Actor.t) (inbox_object : InboxObject.t) : M unit :=
  reply_id <- allocate_outbox_id env ;;
  let reply :=
    activity_document "Reject" (outbox_object_id env reply_id) (ID env)
                      (ObjectId (InboxObject.ap_id inbox_object)) in
  outbox_activity <- save_outbox_object env reply_id reply
                       (Some (InboxObject.id inbox_object)) None None None false None ;;
  if Nat.eqb (OutboxObject.id outbox_activity) 0
  then raise (ValueError "Should never happen")
  else
    new_outgoing_activity (Actor.inbox_url from_actor)
      (Some (OutboxObject.id outbox_activity)) None ;;;
    add_notification
      (Notification.mk REJECTED_FOLLOWER (Some (Actor.id from_actor)) None None).

(** [actor.shared_inbox_url or actor.inbox_url] over the actors that are not
    deleted; the result is a Python [set], kept as a duplicate-free list. *)
Definition compute_all_known_recipients (db : DB) : list string :=
  fold_left
    (fun recipients actor =>
       set_add (if Actor.shared_inbox_url actor =? "" then Actor.inbox_url actor
                else Actor.shared_inbox_url actor) recipients)
    (filter (fun a => negb (Actor.is_deleted a)) (actors db)) [].

Definition send_self_destruct : M unit :=
  delete_id <- allocate_outbox_id env ;;
  let delete :=
    {| raw_type := "Delete"; raw_id := Some (outbox_object_id env delete_id);
       raw_actor := Some (ID env); raw_object := ObjectId (ID env);
       raw_target := None; raw_to := [AS_PUBLIC]; raw_cc := [];
       raw_bto := []; raw_bcc := []; raw_inReplyTo := None; raw_context := None;
       raw_published := None; raw_updated := None; raw_name := None;
       raw_content := None; raw_tag := []; raw_quoteUrl := None;
       raw_signature := false; raw_oneOf := []; raw_anyOf := [];
       raw_votersCount := None; raw_endTime := None; raw_alsoKnownAs := [];
       raw_inbox := ""; raw_sharedInbox := None; raw_outbox := "";
       raw_followers := None; raw_handle := None |} in
  outbox_object <- save_outbox_object env delete_id delete None None None None false None ;;
  if Nat.eqb (OutboxObject.id outbox_object) 0
  then raise (ValueError "Should never happen")
  else
    db <- get ;;
    for_each (compute_all_known_recipients db) (fun rcp =>
      new_outgoing_activity rcp (Some (OutboxObject.id outbox_object)) None) ;;;
    commit.

Definition public_outbox_objects_count (db : DB) : Z :=
  count_if (fun o => VisibilityEnum_eqb (OutboxObject.visibility o) PUBLIC
                     && negb (OutboxObject.is_deleted o)) (outbox db).

(** *** tasks.py *)

(** The [self_destruct] task: [answer] is what the operator types at the
    confirmation prompt, the result the lines printed. *)
Definition self_destruct (answer : string) : M (list string) :=
  let printed := if negb (answer =? "yes") then ["Aborting"] else [] in
  send_self_destruct ;;;
  ret (printed ++ ["Done"])%list.

End Outbound.

(** * Specifications and scenarios *)

(** ** Conversation roots *)

(** The identifier of the conversation rooted at an object: its context when
    it has one, else an identifier made from its id. *)
Definition root_conversation (ap_context : option string) (ap_id : string) : string :=
  match ap_context with
  | Some ctx => if ctx =? "" then "microblogpub:root:" ++ ap_id else ctx
  | None => "microblogpub:root:" ++ ap_id
  end.

(** [reaches_root env db obj root n]: following [in_reply_to] from [obj]
    through objects of the two stores reaches, after [n] lookups, the object
    [root], which has no parent or whose parent is neither stored nor
    fetchable. *)
Inductive reaches_root (env : Env) (db : DB) : AnyObject -> AnyObject -> nat -> Prop :=
| reaches_no_parent obj :
    truthy (obj_in_reply_to obj) = false ->
    reaches_root env db obj obj 0
| reaches_unfetchable obj parent_id e :
    obj_in_reply_to obj = Some parent_id ->
    parent_id <> "" ->
    get_anybox_object_by_ap_id env db parent_id = None ->
    fetch env parent_id = inl e ->
    is_unfetchable e = true ->
    reaches_root env db obj obj 1
| reaches_stored_parent obj parent_id parent root n :
    obj_in_reply_to obj = Some parent_id ->
    parent_id <> "" ->
    get_anybox_object_by_ap_id env db parent_id = Some parent ->
    reaches_root env db (Stored parent) root n ->
    reaches_root env db obj root (S n).

(** [stays_stored env db p]: every object of [p] replies to a stored object
    that is in [p] again, so that the chain of [in_reply_to] links from an
    object of [p] never leaves the stores and never ends: a stored note that
    replies to itself, a cycle of stored notes. *)
Definition stays_stored (env : Env) (db : DB) (p : AnyboxObject -> Prop) : Prop :=
  forall o, p o ->
    exists parent_id parent,
      anybox_in_reply_to o = Some parent_id /\ parent_id <> ""
      /\ get_anybox_object_by_ap_id env db parent_id = Some parent /\ p parent.

(** ** Documents and stores used in the scenarios *)

Definition person_document (id : string) (also_known_as : list string) : RawObject :=
  {| raw_type := "Person"; raw_id := Some id; raw_actor := None; raw_object := NoObject;
     raw_target := None; raw_to := []; raw_cc := []; raw_bto := []; raw_bcc := [];
     raw_inReplyTo := None; raw_context := None; raw_published := None;
     raw_updated := None; raw_name := None; raw_content := None; raw_tag := [];
     raw_quoteUrl := None; raw_signature := false; raw_oneOf := []; raw_anyOf := [];
     raw_votersCount := None; raw_endTime := None; raw_alsoKnownAs := also_known_as;
     raw_inbox := id ++ "/inbox"; raw_sharedInbox := None; raw_outbox := id ++ "/outbox";
     raw_followers := Some (id ++ "/followers"); raw_handle := None |}.

Definition note_document (id attributed_to : string) (in_reply_to : option string)
  (name content : option string) (published : Z) : RawObject :=
  {| raw_type := "Note"; raw_id := Some id; raw_actor := Some attributed_to;
     raw_object := NoObject; raw_target := None; raw_to := [AS_PUBLIC]; raw_cc := [];
     raw_bto := []; raw_bcc := []; raw_inReplyTo := in_reply_to; raw_context := None;
     raw_published := Some published; raw_updated := None; raw_name := name;
     raw_content := content; raw_tag := []; raw_quoteUrl := None;
     raw_signature := false; raw_oneOf := []; raw_anyOf := [];
     raw_votersCount := None; raw_endTime := None; raw_alsoKnownAs := [];
     raw_inbox := ""; raw_sharedInbox := None; raw_outbox := "";
     raw_followers := None; raw_handle := None |}.

Definition question_document (id attributed_to : string) (cc options : list string)
  (end_time : Z) : RawObject :=
  {| raw_type := "Question"; raw_id := Some id; raw_actor := Some attributed_to;
     raw_object := NoObject; raw_target := None; raw_to := [AS_PUBLIC]; raw_cc := cc;
     raw_bto := []; raw_bcc := []; raw_inReplyTo := None; raw_context := None;
     raw_published := Some 0%Z; raw_updated := None; raw_name := None;
     raw_content := Some "?"; raw_tag := []; raw_quoteUrl := None;
     raw_signature := false;
     raw_oneOf := map (fun o => mkPollItem o 0%Z) options; raw_anyOf := [];
     raw_votersCount := Some 0%Z; raw_endTime := Some end_time; raw_alsoKnownAs := [];
     raw_inbox := ""; raw_sharedInbox := None; raw_outbox := "";
     raw_followers := None; raw_handle := None |}.


Definition me : string := "https://me.example".
Definition alice : string := "https://remote.example/alice".
Definition bob : string := "https://remote.example/bob".
Definition carol : string := "https://remote.example/carol".
Definition alice_moved : string := "https://elsewhere.example/alice".

(** A node at [me] whose network reaches only the new account of alice. *)
Definition example_env : Env :=
  {| BASE_URL := me; ID := me; LOCAL_ACTOR_handle := "@me@me.example";
     LOCAL_ACTOR_url := me; BLOCKED_SERVERS := []; MANUALLY_APPROVES_FOLLOWERS := false;
     now := 1000%Z; recursion_limit := 100;
     fetch := fun url =>
       if url =? alice_moved then inr (person_document alice_moved [alice])
       else inl ObjectNotFoundError;
     parse_collection_url := fun _ => inl ObjectUnavailableError;
     parse_collection_payload := fun _ => inl ObjectUnavailableError;
     verify_signature := fun _ => inr false;
     hostname := fun url => url;
     uuid4_hex := fun n => NilEmpty.string_of_uint (Nat.to_uint n) |}.

Definition person (id : nat) (ap_id : string) : Actor.t :=
  Actor.mk id ap_id (person_document ap_id []) "Person" None false false.

Definition empty_db : DB :=
  {| actors := [person 1 alice; person 2 bob; person 3 carol];
     inbox := []; outbox := []; followers := []; following := [];
     notifications := []; poll_answers := []; outgoing_activities := [];
     next_actor_id := 4; next_inbox_id := 1; next_outbox_id := 1; uuid_counter := 0 |}.

(** A locally authored object, as [save_outbox_object] stores it. *)
Definition local_object (id : nat) (doc : RawObject) : OutboxObject.t :=
  OutboxObject.mk id "local"
    (raw_type doc) (match raw_id doc with Some i => i | None => "" end)
    (raw_context doc) doc PUBLIC 0%Z None None None (activity_object_ap_id_of doc)
    false None false None 0%Z 0%Z 0%Z false None.

(** A remote object, as [save_object_to_inbox] stores it. *)
Definition remote_object (id actor_id : nat) (doc : RawObject) : InboxObject.t :=
  InboxObject.mk id actor_id (match raw_actor doc with Some a => a | None => "" end)
    (raw_type doc) (match raw_id doc with Some i => i | None => "" end)
    (raw_context doc) None 0%Z doc PUBLIC None None (activity_object_ap_id_of doc)
    true 0%Z None false None false None None.

Definition run {A : Type} (c : M A) (db : DB) : DB := state_of (c db).

(** *** A note that replies to itself *)

Definition self_reply : InboxObject.t :=
  remote_object 1 1
    (note_document "https://remote.example/n1" alice (Some "https://remote.example/n1")
                   None (Some "hi") 10%Z).

Definition self_reply_db : DB := set_next_inbox_id 2 (set_inbox [self_reply] empty_db).

(** [db'] differs from [db] in the actor directory at most. *)
Definition only_actors_changed (db db' : DB) : Prop :=
  inbox db' = inbox db /\ outbox db' = outbox db /\ followers db' = followers db
  /\ following db' = following db /\ notifications db' = notifications db
  /\ poll_answers db' = poll_answers db
  /\ outgoing_activities db' = outgoing_activities db
  /\ next_inbox_id db' = next_inbox_id db /\ next_outbox_id db' = next_outbox_id db
  /\ uuid_counter db' = uuid_counter db.

(** ** Assertions on session computations *)

(** [triple P c Q E]: from a store satisfying [P], [c] either returns a value
    and a store satisfying [Q], or raises an exception in a store satisfying
    [E]. *)
Definition triple {A : Type} (P : DB -> Prop) (c : M A) (Q : A -> DB -> Prop)
  (E : Exn -> DB -> Prop) : Prop :=
  forall db, P db ->
    match c db with
    | Ok a db' => Q a db'
    | Raise e db' => E e db'
    end.

(** [P] holds in the store left by [c], whether it returns or raises. *)
Definition stable {A : Type} (P : DB -> Prop) (c : M A) : Prop :=
  triple P c (fun _ => P) (fun _ => P).

Definition never_raises {A : Type} (c : M A) : Prop :=
  forall db, exists a db', c db = Ok a db'.

(** *** A local post, a remote reply to it, and its deletion *)

Definition post_id : string := "https://me.example/o/p1".

Definition local_post : OutboxObject.t :=
  local_object 1 (note_document post_id me None None (Some "post") 5%Z).

Definition post_db : DB := set_next_outbox_id 2 (set_outbox [local_post] empty_db).

Definition reply_id : string := "https://remote.example/r1".

Definition reply_create : RawObject :=
  activity_document "Create" "https://remote.example/c1" alice
    (ObjectDoc (note_document reply_id alice (Some post_id) None (Some "re") 10%Z)).

Definition reply_delete : RawObject :=
  activity_document "Delete" "https://remote.example/d1" alice (ObjectId reply_id).

(** *** An Announce and a Like of the local post, and their deletion *)

Definition announce_id : string := "https://remote.example/an1".

Definition post_announce : RawObject :=
  activity_document "Announce" announce_id bob (ObjectId post_id).

Definition post_announce_delete : RawObject :=
  activity_document "Delete" "https://remote.example/d2" bob (ObjectId announce_id).

Definition like_id : string := "https://remote.example/l1".

Definition post_like : RawObject :=
  activity_document "Like" like_id bob (ObjectId post_id).

Definition post_like_delete : RawObject :=
  activity_document "Delete" "https://remote.example/d3" bob (ObjectId like_id).

(** *** A remote note, announced by bob and liked locally, then deleted *)

Definition hello_id : string := "https://remote.example/n1".

Definition hello_create : RawObject :=
  activity_document "Create" "https://remote.example/a1" alice
    (ObjectDoc (note_document hello_id alice None None (Some "hello") 10%Z)).

Definition hello_announce : RawObject :=
  activity_document "Announce" "https://remote.example/an2" bob (ObjectId hello_id).

Definition hello_delete : RawObject :=
  activity_document "Delete" "https://remote.example/d4" alice (ObjectId hello_id).

Definition my_like_of_hello : OutboxObject.t :=
  local_object 1 (activity_document "Like" "https://me.example/o/l1" me (ObjectId hello_id)).

Definition hello_db : DB :=
  let db1 := run (save_to_inbox example_env hello_create alice) empty_db in
  let db2 := run (save_to_inbox example_env hello_announce bob) db1 in
  set_next_outbox_id 2 (set_outbox [my_like_of_hello] db2).

(** *** A local reply to the remote note, deleted by its author *)

Definition my_reply_id : string := "https://me.example/o/r2".

Definition my_reply_to_hello : OutboxObject.t :=
  local_object 1 (note_document my_reply_id me (Some hello_id) None (Some "hi") 20%Z).

Definition my_reply_db : DB :=
  let db1 := run (save_to_inbox example_env hello_create alice) empty_db in
  let db2 := run (update_inbox_object 2 (InboxObject.set_replies_count 1%Z)) db1 in
  set_next_outbox_id 2 (set_outbox [my_reply_to_hello] db2).

(** ** Deletions *)

(** The outbox activities that point at the object of id [ap_id] are all
    marked deleted. *)
Definition cascaded (ap_id : string) (db : DB) : Prop :=
  forall o, In o (outbox db) ->
    OutboxObject.activity_object_ap_id o = Some ap_id ->
    OutboxObject.is_deleted o = true.

(** Identity and deletion flag of an inbox row, the flag of the row [target]
    being left out. *)
Definition deletion_key (target : nat) (o : InboxObject.t) : nat * bool :=
  (InboxObject.id o, InboxObject.is_deleted o || Nat.eqb (InboxObject.id o) target).

(** The rows of the remote note and of its Delete in [hello_db]. *)
Definition hello_row : InboxObject.t :=
  match get_inbox_object_by_ap_id hello_db hello_id with
  | Some row => row
  | None => remote_object 0 0 (blank_object "Note")
  end.

Definition hello_delete_row : InboxObject.t := remote_object 4 1 hello_delete.

(** ** The reply tree *)

Definition has_no_parent (n : AnyboxObject) : bool :=
  match anybox_in_reply_to n with
  | None => true
  | Some _ => false
  end.

(** [root] is a node published no later than any other node. *)
Definition earliest_published (root : AnyboxObject) (nodes : list AnyboxObject) : Prop :=
  In root nodes
  /\ forall n, In n nodes -> (anybox_ap_published_at root <= anybox_ap_published_at n)%Z.

(** The replies among [nodes] form no cycle: [rank] decreases from an object
    to each node that replies to it. *)
Definition ranked (nodes : list AnyboxObject) (rank : string -> nat) : Prop :=
  forall child parent_id,
    In child nodes -> anybox_in_reply_to child = Some parent_id ->
    rank (anybox_ap_id child) < rank parent_id.

(** What [get_replies_tree] does once [root] is chosen: it returns a tree
    rooted at [root] and flagged as root, or hits the recursion limit while
    collecting the replies; it returns when the replies form no cycle and
    the limit is above the rank of the root. *)
Definition builds_tree_from (env : Env) (requested_object : AnyboxObject)
  (is_current_user_admin : bool) (db : DB) (root : AnyboxObject) : Prop :=
  match get_replies_tree env requested_object is_current_user_admin db with
  | Ok tree db' =>
      db' = db /\ node_ap_object tree = root /\ node_is_root tree = true
  | Raise e db' => db' = db /\ e = RecursionError
  end
  /\ forall rank,
       ranked (tree_nodes_of db requested_object is_current_user_admin) rank ->
       rank (anybox_ap_id root) < recursion_limit env ->
       exists children,
         get_replies_tree env requested_object is_current_user_admin db
         = Ok (mkReplyTreeNode root children
                 (anybox_ap_id root =? anybox_ap_id requested_object) true) db.

(** *** A thread of three remote notes *)

Definition thread_note (id : nat) (ap_id : string) (in_reply_to : option string)
  (published : Z) : InboxObject.t :=
  InboxObject.mk id 1 alice "Note" ap_id None (Some "https://remote.example/conv")
    published (note_document ap_id alice in_reply_to None (Some "text") published)
    PUBLIC None None None true 0%Z None false None false None None.

Definition thread_root : InboxObject.t :=
  thread_note 1 "https://remote.example/t1" None 10%Z.

Definition thread_reply : InboxObject.t :=
  thread_note 2 "https://remote.example/t2" (Some "https://remote.example/t1") 20%Z.

Definition thread_reply_reply : InboxObject.t :=
  thread_note 3 "https://remote.example/t3" (Some "https://remote.example/t2") 30%Z.

Definition thread_db : DB :=
  set_next_inbox_id 4 (set_inbox [thread_reply_reply; thread_root; thread_reply] empty_db).

Definition thread_rank (ap_id : string) : nat :=
  if ap_id =? "https://remote.example/t1" then 2
  else if ap_id =? "https://remote.example/t2" then 1
  else 0.

(** ** Polls *)

(** The recorded answers to the question of row id [question_id]. *)
Definition answers_of (db : DB) (question_id : nat) : list PollAnswer.t :=
  filter (fun a => Nat.eqb (PollAnswer.outbox_object_id a) question_id) (poll_answers db).

(** The number of distinct actors among the voters of a question. *)
Definition distinct_voters (db : DB) (question_id : nat) : Z :=
  Z.of_nat (length (nodup Nat.eq_dec (map PollAnswer.actor_id (answers_of db question_id)))).

(** The number of recorded answers to a question that name [option]. *)
Definition votes_for (db : DB) (question_id : nat) (option : string) : Z :=
  Z.of_nat (length (filter (fun a => PollAnswer.name a =? option)
                           (answers_of db question_id))).

(** The values of the addressing fields of a document. *)
Definition addressees (doc : RawObject) : list string :=
  (raw_to doc ++ raw_cc doc ++ raw_bto doc ++ raw_bcc doc)%list.

(** The addressee [r] needs no network access: it is the public collection,
    the local actor, or a remote actor of the directory. *)
Definition resolves_locally (env : Env) (db : DB) (r : string) : Prop :=
  mem_string r [AS_PUBLIC; ID env] = true
  \/ (prefix (BASE_URL env) r = false /\ exists a, find_actor_by_ap_id db r = Some a).

(** *** A poll with options A and B, open until 2000, and three votes *)

Definition poll_id : string := "https://me.example/o/q1".

Definition poll : OutboxObject.t :=
  local_object 1 (question_document poll_id me [alice] ["A"; "B"] 2000%Z).

Definition poll_db : DB := set_next_outbox_id 2 (set_outbox [poll] empty_db).

Definition vote (n : string) (voter : string) (option : string) : RawObject :=
  activity_document "Create" ("https://remote.example/create-" ++ n) voter
    (ObjectDoc (note_document ("https://remote.example/vote-" ++ n) voter (Some poll_id)
                              (Some option) None 500%Z)).

Definition voted_db : DB :=
  let db1 := run (save_to_inbox example_env (vote "1" alice "A") alice) poll_db in
  let db2 := run (save_to_inbox example_env (vote "2" bob "A") bob) db1 in
  run (save_to_inbox example_env (vote "3" carol "B") carol) db2.

(** The same node after the poll has closed. *)
Definition late_env : Env :=
  {| BASE_URL := BASE_URL example_env; ID := ID example_env;
     LOCAL_ACTOR_handle := LOCAL_ACTOR_handle example_env;
     LOCAL_ACTOR_url := LOCAL_ACTOR_url example_env;
     BLOCKED_SERVERS := BLOCKED_SERVERS example_env;
     MANUALLY_APPROVES_FOLLOWERS := MANUALLY_APPROVES_FOLLOWERS example_env;
     now := 3000%Z; recursion_limit := recursion_limit example_env;
     fetch := fetch example_env;
     parse_collection_url := parse_collection_url example_env;
     parse_collection_payload := parse_collection_payload example_env;
     verify_signature := verify_signature example_env;
     hostname := hostname example_env; uuid4_hex := uuid4_hex example_env |}.

Definition first_vote : InboxObject.t :=
  remote_object 2 1 (note_document "https://remote.example/vote-1" alice (Some poll_id)
                                   (Some "A") None 500%Z).

(** ** Stream eligibility *)

Definition is_a_reply (doc : RawObject) : bool := truthy (raw_inReplyTo doc).

(** The author of the object is in the Following collection. *)
Definition author_is_followed (db : DB) (ro : RemoteObject) : bool :=
  existsb (fun f => Following.ap_actor_id f =? Actor.ap_id (ro_actor ro)) (following db).

(** A tag of the object names the local actor's handle or links to its url. *)
Definition mentions_local_actor (env : Env) (doc : RawObject) : bool :=
  existsb (fun tag => opt_string_eqb (tag_name tag) (Some (LOCAL_ACTOR_handle env))
                      || opt_string_eqb (tag_href tag) (Some (LOCAL_ACTOR_url env)))
          (raw_tag doc).

(** The object replies to an object under the local base url and has content. *)
Definition replies_to_local_object_with_content (env : Env) (doc : RawObject) : bool :=
  match raw_inReplyTo doc with
  | Some parent =>
      negb (parent =? "") && prefix (BASE_URL env) parent && truthy (raw_content doc)
  | None => false
  end.

Definition stream_eligible (env : Env) (db : DB) (ro : RemoteObject) : bool :=
  (negb (is_a_reply (ro_ap_object ro)) && author_is_followed db ro)
  || mentions_local_actor env (ro_ap_object ro)
  || replies_to_local_object_with_content env (ro_ap_object ro).

(** The inbox holds under [ap_id] a row whose [is_hidden_from_stream] is
    [hidden]. *)
Definition stored_with_hidden (ap_id : string) (hidden : bool) (db : DB) : Prop :=
  exists row, get_inbox_object_by_ap_id db ap_id = Some row
              /\ InboxObject.is_hidden_from_stream row = hidden.

Definition stream_key (o : InboxObject.t) : string * bool :=
  (InboxObject.ap_id o, InboxObject.is_hidden_from_stream o).

(** *** A followed author and a mention *)

Definition following_alice_db : DB :=
  set_following [Following.mk 1 1 alice] empty_db.

Definition hello_create_row : InboxObject.t := remote_object 1 1 hello_create.

Definition hello_ro : RemoteObject :=
  mkRemoteObject (note_document hello_id alice None None (Some "hello") 10%Z)
                 (person 1 alice).

(** ** Moves *)

(** The Following collection without the actor [ap_actor_id]. *)
Definition unfollowed (ap_actor_id : string) (l : list Following.t) : list Following.t :=
  filter (fun f => negb (Following.ap_actor_id f =? ap_actor_id)) l.

(** *** alice, followed through a Follow activity, moves to a new account *)

Definition follow_of_alice : OutboxObject.t :=
  local_object 1 (activity_document "Follow" "https://me.example/o/f1" me (ObjectId alice)).

Definition moving_db : DB :=
  set_following [Following.mk 1 1 alice]
    (set_next_outbox_id 2 (set_outbox [follow_of_alice] empty_db)).





(** ** Scenarios for the undo of inbound activities *)

(** *** alice follows the local actor, then takes it back *)

Definition follow_of_me : InboxObject.t :=
  remote_object 1 1
    (activity_document "Follow" "https://remote.example/f1" alice (ObjectId me)).

Definition undo_of_follow : InboxObject.t :=
  remote_object 2 1
    (activity_document "Undo" "https://remote.example/u1" alice
                       (ObjectId "https://remote.example/f1")).

Definition follow_db : DB :=
  set_next_inbox_id 3 (set_inbox [follow_of_me; undo_of_follow] empty_db).

(** *** bob likes and announces the local post, then takes it back *)

Definition post_like_row : InboxObject.t := remote_object 1 2 post_like.

Definition post_announce_row : InboxObject.t := remote_object 2 2 post_announce.

Definition undo_of_like : InboxObject.t :=
  remote_object 3 2
    (activity_document "Undo" "https://remote.example/u2" bob (ObjectId like_id)).

Definition undo_of_announce : InboxObject.t :=
  remote_object 4 2
    (activity_document "Undo" "https://remote.example/u3" bob (ObjectId announce_id)).

Definition reactions_db : DB :=
  set_next_inbox_id 5
    (set_inbox [post_like_row; post_announce_row; undo_of_like; undo_of_announce] post_db).

(** ** Scenarios for what [save_to_inbox] drops *)

(** A Like, by carol, of an object that the outbox does not hold. *)
Definition stray_like : RawObject :=
  activity_document "Like" "https://remote.example/l9" carol
                    (ObjectId "https://me.example/o/unknown").

(** The directory with alice blocked. *)
Definition blocked_alice : Actor.t :=
  Actor.mk 1 alice (person_document alice []) "Person" None true false.

Definition blocking_db : DB :=
  set_actors [blocked_alice; person 2 bob; person 3 carol] empty_db.

(** ** Scenarios for Updates and Creates *)

(** alice edits her note of [hello_db]. *)
Definition hello_update : InboxObject.t :=
  remote_object 5 1
    (activity_document "Update" "https://remote.example/up1" alice
       (ObjectDoc (note_document hello_id alice None None (Some "edited") 10%Z))).

(** The row of bob's Announce in [hello_db]. *)
Definition hello_announce_row : InboxObject.t :=
  match get_inbox_object_by_ap_id hello_db "https://remote.example/an2" with
  | Some row => row
  | None => remote_object 0 0 (blank_object "Announce")
  end.

(** The Delete of the reply was received before its Create. *)
Definition reply_create_row : InboxObject.t := remote_object 2 1 reply_create.

Definition early_delete_db : DB :=
  set_next_inbox_id 3
    (set_inbox [remote_object 1 1 reply_delete; reply_create_row] post_db).

(** ** Scenarios for the outbound side *)

(** The store after the local reply to the remote note is deleted. *)
Definition my_reply_deleted_db : DB :=
  run (send_delete example_env my_reply_id) my_reply_db.

(** The remote note of [hello_db], liked by the local actor and the Like
    undone. *)
Definition hello_liked_db : DB := run (send_like example_env hello_id) hello_db.

Definition hello_unliked_db : DB :=
  run (send_undo example_env "https://me.example/o/0") hello_liked_db.

(** A note of alice addressed to her followers only. *)
Definition private_note : InboxObject.t :=
  InboxObject.mk 1 1 alice "Note" "https://remote.example/p1" None None 10%Z
    (note_document "https://remote.example/p1" alice None None (Some "psst") 10%Z)
    FOLLOWERS_ONLY None None None true 0%Z None false None false None None.

Definition private_note_db : DB :=
  set_next_inbox_id 2 (set_inbox [private_note] empty_db).

(** ** Scenarios for recipients *)

(** A directory in which bob is deleted. *)
Definition gone_bob : Actor.t :=
  Actor.mk 2 bob (person_document bob []) "Person" None false true.

Definition directory_db : DB := set_actors [person 1 alice; gone_bob; person 3 carol] empty_db.

(** An actor of a server with a shared inbox. *)
Definition shared_inbox : string := "https://remote.example/inbox".

Definition resident (id : nat) (ap_id : string) : Actor.t :=
  Actor.mk id ap_id
    {| raw_type := "Person"; raw_id := Some ap_id; raw_actor := None;
       raw_object := NoObject; raw_target := None; raw_to := []; raw_cc := [];
       raw_bto := []; raw_bcc := []; raw_inReplyTo := None; raw_context := None;
       raw_published := None; raw_updated := None; raw_name := None;
       raw_content := None; raw_tag := []; raw_quoteUrl := None;
       raw_signature := false; raw_oneOf := []; raw_anyOf := [];
       raw_votersCount := None; raw_endTime := None; raw_alsoKnownAs := [];
       raw_inbox := ap_id ++ "/inbox"; raw_sharedInbox := Some shared_inbox;
       raw_outbox := ap_id ++ "/outbox"; raw_followers := Some (ap_id ++ "/followers");
       raw_handle := None |}
    "Person" None false false.

(** alice and bob, of the same server, follow the local actor. *)
Definition residents_db : DB :=
  set_followers [Follower.mk 1 1 alice; Follower.mk 2 2 bob]
    (set_actors [resident 1 alice; resident 2 bob; person 3 carol] empty_db).

(** ** Scenario for an outgoing Announce *)

(** A public note of carol in the inbox of a server that alice and bob
    follow. *)
Definition carol_note : InboxObject.t :=
  InboxObject.mk 1 3 carol "Note" "https://remote.example/c1" None None 10%Z
    (note_document "https://remote.example/c1" carol None None (Some "hey") 10%Z)
    PUBLIC None None None true 0%Z None false None false None None.

Definition carol_note_db : DB :=
  set_next_inbox_id 2 (set_inbox [carol_note] residents_db).

Definition carol_note_announced_db : DB :=
  run (send_announce example_env "https://remote.example/c1") carol_note_db.

(** ** Reading a reply tree *)

(** The objects of a tree, the root first. *)
Fixpoint tree_objects (t : ReplyTreeNode) : list AnyboxObject :=
  match t with
  | mkReplyTreeNode o children _ _ => o :: flat_map tree_objects children
  end.

Definition anybox_visibility (o : AnyboxObject) : VisibilityEnum :=
  match o with
  | FromInbox i => InboxObject.visibility i
  | FromOutbox o => OutboxObject.visibility o
  end.

Definition anybox_is_deleted (o : AnyboxObject) : bool :=
  match o with
  | FromInbox i => InboxObject.is_deleted i
  | FromOutbox o => OutboxObject.is_deleted o
  end.

(** A live note, page or article that is public or unlisted. *)
Definition shown_to_visitors (o : AnyboxObject) : bool :=
  match anybox_visibility o with PUBLIC | UNLISTED => true | _ => false end
  && negb (anybox_is_deleted o)
  && mem_string (anybox_ap_type o) ["Note"; "Page"; "Article"].

Fixpoint ascending (l : list Z) : bool :=
  match l with
  | x :: rest =>
      match rest with
      | y :: _ => (x <=? y)%Z && ascending rest
      | [] => true
      end
  | [] => true
  end.

(** Below every node of [t]: each child replies to the node, is flagged as
    requested exactly when it has the requested id, is never flagged as the
    root, and the children come by date of publication. *)
Fixpoint threaded (requested_ap_id : string) (t : ReplyTreeNode) : bool :=
  match t with
  | mkReplyTreeNode o children _ _ =>
      forallb (fun c =>
                 opt_string_eqb (anybox_in_reply_to (node_ap_object c))
                                (Some (anybox_ap_id o))
                 && Bool.eqb (node_is_requested c)
                             (anybox_ap_id (node_ap_object c) =? requested_ap_id)
                 && negb (node_is_root c))
              children
      && ascending (map (fun c => anybox_ap_published_at (node_ap_object c)) children)
      && forallb (threaded requested_ap_id) children
  end.

(** The thread with a reply of bob to its root, for bob's followers only,
    and a public reply of carol to that reply. *)
Definition private_reply : InboxObject.t :=
  InboxObject.mk 4 2 bob "Note" "https://remote.example/t4" None
    (Some "https://remote.example/conv") 15%Z
    (note_document "https://remote.example/t4" bob (Some "https://remote.example/t1")
       None (Some "psst") 15%Z)
    FOLLOWERS_ONLY None None None true 0%Z None false None false None None.

Definition reply_to_private : InboxObject.t :=
  InboxObject.mk 5 3 carol "Note" "https://remote.example/t5" None
    (Some "https://remote.example/conv") 25%Z
    (note_document "https://remote.example/t5" carol (Some "https://remote.example/t4")
       None (Some "what?") 25%Z)
    PUBLIC None None None true 0%Z None false None false None None.

Definition thread_with_private_db : DB :=
  set_next_inbox_id 6
    (set_inbox [thread_reply_reply; reply_to_private; private_reply; thread_root;
                thread_reply] empty_db).

(** What a visitor gets of it when asking for the first reply. *)
Definition visitor_thread : ReplyTreeNode :=
  mkReplyTreeNode (FromInbox thread_root)
    [mkReplyTreeNode (FromInbox thread_reply)
       [mkReplyTreeNode (FromInbox thread_reply_reply) [] false false] true false]
    false true.

(** What the admin gets of it. *)
Definition admin_thread : ReplyTreeNode :=
  mkReplyTreeNode (FromInbox thread_root)
    [mkReplyTreeNode (FromInbox private_reply)
       [mkReplyTreeNode (FromInbox reply_to_private) [] false false] false false;
     mkReplyTreeNode (FromInbox thread_reply)
       [mkReplyTreeNode (FromInbox thread_reply_reply) [] false false] true false]
    false true.

(** ** The inbox after a prefetch *)

(** [db'] is [db] with at most [k] rows added to the inbox, rows of the
    inbox taken out of hiding, and actors saved; the other tables are the
    same. *)
Definition prefetched (k : nat) (db db' : DB) : Prop :=
  (exists added,
     length added <= k
     /\ map (InboxObject.set_is_hidden_from_stream false) (inbox db')
        = map (InboxObject.set_is_hidden_from_stream false) (inbox db ++ added))
  /\ outbox db' = outbox db /\ followers db' = followers db
  /\ following db' = following db /\ notifications db' = notifications db
  /\ poll_answers db' = poll_answers db
  /\ outgoing_activities db' = outgoing_activities db
  /\ next_outbox_id db' = next_outbox_id db /\ uuid_counter db' = uuid_counter db.

(** ** Scenarios for the answers to a Follow *)

(** The local actor has asked to follow alice. *)
Definition follow_requested_db : DB :=
  set_next_outbox_id 2 (set_outbox [follow_of_alice] empty_db).

Definition alice_accepts : RawObject :=
  activity_document "Accept" "https://remote.example/acc1" alice
                    (ObjectId "https://me.example/o/f1").

Definition alice_rejects : RawObject :=
  activity_document "Reject" "https://remote.example/rej1" alice
                    (ObjectId "https://me.example/o/f1").

(** The local actor asks to follow alice with [send_follow]; alice accepts,
    and so does carol, who was not asked. *)
Definition follow_sent_db : DB := run (send_follow example_env alice) empty_db.

Definition alice_accepts_sent : RawObject :=
  activity_document "Accept" "https://remote.example/acc2" alice
                    (ObjectId "https://me.example/o/0").

Definition carol_accepts_sent : RawObject :=
  activity_document "Accept" "https://remote.example/acc3" carol
                    (ObjectId "https://me.example/o/0").

(** ** Scenario for the deletion of an actor *)

(** alice follows the local actor and is followed by it; the inbox holds a
    note of alice, a note of bob, and the Delete of her account. *)
Definition alice_leaves : InboxObject.t :=
  remote_object 3 1
    (activity_document "Delete" "https://remote.example/d9" alice (ObjectId alice)).

Definition bob_note : InboxObject.t :=
  remote_object 2 2
    (note_document "https://remote.example/b1" bob None None (Some "hi") 20%Z).

Definition leaving_db : DB :=
  set_followers [Follower.mk 1 1 alice; Follower.mk 2 2 bob]
    (set_next_inbox_id 4
       (set_inbox [hello_create_row; bob_note; alice_leaves] moving_db)).

(** The store after the local post is deleted. *)
Definition post_deleted_db : DB := run (send_delete example_env post_id) post_db.

(** ** Scenario for an actor sent as an activity *)

(** The profile of alice, with an alias added. *)
Definition alice_profile : RawObject :=
  person_document alice ["https://old.example/alice"].

(** A public question of the local actor, sent to its followers and to
    carol. *)
Definition question_for_followers : RawObject :=
  question_document "https://me.example/o/q9" me
    ["https://me.example/followers"; carol] ["A"; "B"] 2000%Z.

(** ** Scenario for followers approved by hand *)

Definition approving_env : Env :=
  {| BASE_URL := me; ID := me; LOCAL_ACTOR_handle := "@me@me.example";
     LOCAL_ACTOR_url := me; BLOCKED_SERVERS := []; MANUALLY_APPROVES_FOLLOWERS := true;
     now := 1000%Z; recursion_limit := 100;
     fetch := fun _ => inl ObjectNotFoundError;
     parse_collection_url := fun _ => inl ObjectUnavailableError;
     parse_collection_payload := fun _ => inl ObjectUnavailableError;
     verify_signature := fun _ => inr false;
     hostname := fun url => url;
     uuid4_hex := fun n => NilEmpty.string_of_uint (Nat.to_uint n) |}.

(** The Follow of alice is in the inbox, waiting for an answer. *)
Definition pending_follow_db : DB :=
  run (_handle_follow_follow_activity approving_env (person 1 alice) follow_of_me)
      (set_next_inbox_id 2 (set_inbox [follow_of_me] empty_db)).

(** ** Scenario for an Undo by somebody else *)

(** alice follows the local actor; bob sends an Undo of her Follow. *)
Definition followed_by_alice_db : DB :=
  set_followers [Follower.mk 1 1 alice]
    (set_next_inbox_id 2 (set_inbox [follow_of_me] empty_db)).

Definition bob_undoes_alice : RawObject :=
  activity_document "Undo" "https://remote.example/u9" bob
                    (ObjectId "https://remote.example/f1").

(** ** Scenario for the Undo of an Announce *)

(** The remote note of [hello_db], announced by the local actor and the
    Announce undone. *)
Definition hello_announced_db : DB := run (send_announce example_env hello_id) hello_db.

Definition my_announce_of_hello : OutboxObject.t :=
  match get_outbox_object_by_ap_id hello_announced_db "https://me.example/o/0" with
  | Some row => row
  | None => local_object 0 (blank_object "Announce")
  end.

Definition hello_announced_row : InboxObject.t :=
  match get_inbox_object_by_ap_id hello_announced_db hello_id with
  | Some row => row
  | None => remote_object 0 0 (blank_object "Note")
  end.

Definition hello_unannounced_db : DB :=
  run (send_undo example_env "https://me.example/o/0") hello_announced_db.

(** * Facts *)

Arguments mem_string : simpl never.
Arguments count_if : simpl never.

(** ** Running a session computation *)

Lemma bind_Ok (A B : Type) (c : M A) (k : A -> M B) (db db' : DB) (a : A) :
  c db = Ok a db' -> bind c k db = k a db'.
Proof. intros H. unfold bind. rewrite H. reflexivity. Qed.

Lemma bind_Raise (A B : Type) (c : M A) (k : A -> M B) (db db' : DB) (e : Exn) :
  c db = Raise e db' -> bind c k db = Raise e db'.
Proof. intros H. unfold bind. rewrite H. reflexivity. Qed.

Lemma truthy_Some_true (s : string) : s <> "" -> truthy (Some s) = true.
Proof.
  intros H. simpl. destruct (String.eqb_spec s ""); [contradiction|reflexivity].
Qed.

(** ** Rules for assertions *)

Lemma triple_ret (A : Type) (P : DB -> Prop) (a : A) (Q : A -> DB -> Prop)
  (E : Exn -> DB -> Prop) :
  (forall db, P db -> Q a db) -> triple P (ret a) Q E.
Proof. intros H db HP. cbn. auto. Qed.

Lemma triple_bind (A B : Type) (P : DB -> Prop) (c : M A) (k : A -> M B)
  (R : A -> DB -> Prop) (Q : B -> DB -> Prop) (E : Exn -> DB -> Prop) :
  triple P c R E -> (forall a, triple (R a) (k a) Q E) -> triple P (bind c k) Q E.
Proof.
  intros Hc Hk db HP. unfold bind. specialize (Hc db HP).
  destruct (c db) as [a db'|e db']; [|exact Hc]. now apply Hk.
Qed.

Lemma triple_consequence (A : Type) (P P' : DB -> Prop) (c : M A)
  (Q Q' : A -> DB -> Prop) (E E' : Exn -> DB -> Prop) :
  triple P' c Q' E' ->
  (forall db, P db -> P' db) ->
  (forall a db, Q' a db -> Q a db) ->
  (forall e db, E' e db -> E e db) ->
  triple P c Q E.
Proof.
  intros H HP HQ HE db Hdb. specialize (H db (HP db Hdb)).
  destruct (c db); auto.
Qed.

Lemma stable_state_of (A : Type) (P : DB -> Prop) (c : M A) (db : DB) :
  stable P c -> P db -> P (state_of (c db)).
Proof. intros H HP. specialize (H db HP). now destruct (c db). Qed.

Lemma stable_intro (A : Type) (P : DB -> Prop) (c : M A) :
  (forall db, P db -> P (state_of (c db))) -> stable P c.
Proof. intros H db HP. specialize (H db HP). now destruct (c db). Qed.

Lemma stable_ret (A : Type) (P : DB -> Prop) (a : A) : stable P (ret a).
Proof. intros db HP. exact HP. Qed.

Lemma stable_raise (A : Type) (P : DB -> Prop) (e : Exn) : stable P (@raise A e).
Proof. intros db HP. exact HP. Qed.

Lemma stable_get (P : DB -> Prop) : stable P get.
Proof. intros db HP. exact HP. Qed.

Lemma stable_modify (P : DB -> Prop) (f : DB -> DB) :
  (forall db, P db -> P (f db)) -> stable P (modify f).
Proof. intros H db HP. cbn. auto. Qed.

Lemma stable_bind (A B : Type) (P : DB -> Prop) (c : M A) (k : A -> M B) :
  stable P c -> (forall a, stable P (k a)) -> stable P (bind c k).
Proof. intros Hc Hk. eapply triple_bind; [exact Hc|exact Hk]. Qed.

Lemma stable_try_except (A : Type) (P : DB -> Prop) (c : M A)
  (handler : Exn -> option (M A)) :
  stable P c -> (forall e h, handler e = Some h -> stable P h) ->
  stable P (try_except c handler).
Proof.
  intros Hc Hh db HP. unfold try_except. specialize (Hc db HP).
  destruct (c db) as [a db'|e db']; [exact Hc|].
  destruct (handler e) as [h|] eqn:He; [|exact Hc].
  now apply (Hh e h He).
Qed.

Lemma stable_for_each (A : Type) (P : DB -> Prop) (l : list A) (body : A -> M unit) :
  (forall x, stable P (body x)) -> stable P (for_each l body).
Proof.
  intros H. induction l as [|x l IH]; cbn [for_each].
  - apply stable_ret.
  - apply stable_bind; [apply H|intros _; exact IH].
Qed.

Lemma stable_lift_fetch (A : Type) (P : DB -> Prop) (r : Exn + A) :
  stable P (lift_fetch r).
Proof. destruct r; [apply stable_raise|apply stable_ret]. Qed.

(** One step in the proof that a computation keeps an invariant: split a
    sequence, split a case analysis, or close a primitive. *)
Ltac stable_core :=
  lazymatch goal with
  | |- stable _ (bind _ _) => apply stable_bind; [|intros ?]
  | |- stable _ (ret _) => apply stable_ret
  | |- stable _ (raise _) => apply stable_raise
  | |- stable _ get => apply stable_get
  | |- stable _ commit => apply stable_ret
  | |- stable _ flush => apply stable_ret
  | |- stable _ (lift_fetch _) => apply stable_lift_fetch
  | |- stable _ (for_each _ _) => apply stable_for_each; intros ?
  | |- stable _ (try_except _ _) =>
      apply stable_try_except;
      [|let e := fresh "e" in let h := fresh "h" in let He := fresh "He" in
        intros e h He;
        repeat match type of He with
               | context [match ?x with _ => _ end] => destruct x
               end;
        first [discriminate He
              |injection He as He; rewrite <- He; clear He]]
  | |- stable _ (match ?x with _ => _ end) => destruct x
  | |- stable _ (let _ := _ in _) => cbv zeta
  end.

Lemma stable_get_id (P : DB -> Prop) (raw : RawObject) : stable P (get_id raw).
Proof. unfold get_id. repeat stable_core. Qed.

Lemma stable_get_actor_id (P : DB -> Prop) (raw : RawObject) :
  stable P (get_actor_id raw).
Proof. unfold get_actor_id. repeat stable_core. Qed.

Lemma stable_get_object_id (P : DB -> Prop) (raw : RawObject) :
  stable P (get_object_id raw).
Proof. unfold get_object_id. repeat stable_core. apply stable_get_id. Qed.

Lemma stable_unwrap_activity (P : DB -> Prop) (raw : RawObject) :
  stable P (unwrap_activity raw).
Proof. unfold unwrap_activity. repeat stable_core. Qed.

Ltac stable_step :=
  first
    [ stable_core
    | lazymatch goal with
      | |- stable _ (get_id _) => apply stable_get_id
      | |- stable _ (get_actor_id _) => apply stable_get_actor_id
      | |- stable _ (get_object_id _) => apply stable_get_object_id
      | |- stable _ (unwrap_activity _) => apply stable_unwrap_activity
      end ].

Lemma never_raises_ret (A : Type) (a : A) : never_raises (ret a).
Proof. intros db. now exists a, db. Qed.

Lemma never_raises_get : never_raises get.
Proof. intros db. now exists db, db. Qed.

Lemma never_raises_modify (f : DB -> DB) : never_raises (modify f).
Proof. intros db. now exists tt, (f db). Qed.

Lemma never_raises_bind (A B : Type) (c : M A) (k : A -> M B) :
  never_raises c -> (forall a, never_raises (k a)) -> never_raises (bind c k).
Proof.
  intros Hc Hk db. destruct (Hc db) as (a & db' & H).
  unfold bind. rewrite H. apply Hk.
Qed.

Lemma never_raises_for_each (A : Type) (l : list A) (body : A -> M unit) :
  (forall x, never_raises (body x)) -> never_raises (for_each l body).
Proof.
  intros H. induction l as [|x l IH]; cbn [for_each].
  - apply never_raises_ret.
  - apply never_raises_bind; [apply H|intros _; exact IH].
Qed.

(** ** Invariants kept by the handlers *)

Section Frame.

Variable env : Env.
Variables KI KO : Type.
Variable keyI : InboxObject.t -> KI.
Variable keyO : OutboxObject.t -> KO.
Variable P : DB -> Prop.

Hypothesis P_actors : forall db x, P db -> P (set_actors x db).
Hypothesis P_next_actor_id : forall db x, P db -> P (set_next_actor_id x db).
Hypothesis P_inbox_map :
  forall db g, (forall o, keyI (g o) = keyI o) ->
               P db -> P (set_inbox (map g (inbox db)) db).
Hypothesis P_inbox_app : forall db row, P db -> P (set_inbox (inbox db ++ [row]) db).
Hypothesis P_next_inbox_id : forall db x, P db -> P (set_next_inbox_id x db).
Hypothesis P_outbox_map :
  forall db g, (forall o, keyO (g o) = keyO o) ->
               P db -> P (set_outbox (map g (outbox db)) db).
Hypothesis P_outbox_app : forall db row, P db -> P (set_outbox (outbox db ++ [row]) db).
Hypothesis P_next_outbox_id : forall db x, P db -> P (set_next_outbox_id x db).
Hypothesis P_followers : forall db x, P db -> P (set_followers x db).
Hypothesis P_following : forall db x, P db -> P (set_following x db).
Hypothesis P_notifications : forall db x, P db -> P (set_notifications x db).
Hypothesis P_poll_answers : forall db x, P db -> P (set_poll_answers x db).
Hypothesis P_outgoing : forall db x, P db -> P (set_outgoing_activities x db).
Hypothesis P_uuid : forall db x, P db -> P (set_uuid_counter x db).

Hypothesis keyI_replies_count :
  forall n o, keyI (InboxObject.set_replies_count n o) = keyI o.
Hypothesis keyI_relates_to_inbox_object_id :
  forall r o, keyI (InboxObject.set_relates_to_inbox_object_id r o) = keyI o.
Hypothesis keyI_is_transient :
  forall b o, keyI (InboxObject.set_is_transient b o) = keyI o.
Hypothesis keyI_quoted_inbox_object_id :
  forall q o, keyI (InboxObject.set_quoted_inbox_object_id q o) = keyI o.
Hypothesis keyI_liked_via :
  forall l o, keyI (InboxObject.set_liked_via_outbox_object_ap_id l o) = keyI o.
Hypothesis keyI_announced_via :
  forall l o, keyI (InboxObject.set_announced_via_outbox_object_ap_id l o) = keyI o.
Hypothesis keyO_replies_count :
  forall n o, keyO (OutboxObject.set_replies_count n o) = keyO o.
Hypothesis keyO_ap_object :
  forall d o, keyO (OutboxObject.set_ap_object d o) = keyO o.
Hypothesis keyO_undone_by :
  forall u o, keyO (OutboxObject.set_undone_by_outbox_object_id u o) = keyO o.

Lemma stable_update_inbox_object (i : nat) (f : InboxObject.t -> InboxObject.t) :
  (forall o, InboxObject.id o = i -> keyI (f o) = keyI o) ->
  stable P (update_inbox_object i f).
Proof.
  intros Hf. apply stable_modify. intros db. apply P_inbox_map. intros o.
  destruct (Nat.eqb_spec (InboxObject.id o) i); auto.
Qed.

Lemma stable_update_outbox_object (i : nat) (f : OutboxObject.t -> OutboxObject.t) :
  (forall o, OutboxObject.id o = i -> keyO (f o) = keyO o) ->
  stable P (update_outbox_object i f).
Proof.
  intros Hf. apply stable_modify. intros db. apply P_outbox_map. intros o.
  destruct (Nat.eqb_spec (OutboxObject.id o) i); auto.
Qed.

Lemma stable_update_outbox_where (p : OutboxObject.t -> bool)
  (f : OutboxObject.t -> OutboxObject.t) :
  (forall o, p o = true -> keyO (f o) = keyO o) ->
  stable P (update_outbox_where p f).
Proof.
  intros Hf. apply stable_modify. intros db. apply P_outbox_map. intros o.
  destruct (p o) eqn:Hp; auto.
Qed.

Lemma stable_update_actor (i : nat) (f : Actor.t -> Actor.t) :
  stable P (update_actor i f).
Proof. apply stable_modify. intros db. apply P_actors. Qed.

Lemma stable_load_actor (i : nat) : stable P (load_actor i).
Proof. unfold load_actor. repeat stable_step. Qed.

Lemma stable_add_inbox_object (mk_row : nat -> InboxObject.t) :
  stable P (add_inbox_object mk_row).
Proof.
  unfold add_inbox_object. repeat stable_step.
  apply stable_modify. intros db HP. now apply P_next_inbox_id, P_inbox_app.
Qed.

Lemma stable_add_outbox_object (mk_row : nat -> OutboxObject.t) :
  stable P (add_outbox_object mk_row).
Proof.
  unfold add_outbox_object. repeat stable_step.
  apply stable_modify. intros db HP. now apply P_next_outbox_id, P_outbox_app.
Qed.

Lemma stable_add_notification (n : Notification.t) : stable P (add_notification n).
Proof. apply stable_modify. intros db. apply P_notifications. Qed.

Lemma stable_new_outgoing_activity (recipient : string) (o i : option nat) :
  stable P (new_outgoing_activity recipient o i).
Proof. apply stable_modify. intros db. apply P_outgoing. Qed.

Lemma stable_save_actor (ap_actor : RawObject) : stable P (save_actor ap_actor).
Proof.
  unfold save_actor. repeat stable_step.
  apply stable_modify. intros db HP. now apply P_next_actor_id, P_actors.
Qed.

Lemma stable_fetch_actor (actor_id : string) (save_if_not_found : bool) :
  stable P (fetch_actor env actor_id save_if_not_found).
Proof. unfold fetch_actor. repeat stable_step. apply stable_save_actor. Qed.

Lemma stable_allocate_outbox_id : stable P (allocate_outbox_id env).
Proof.
  unfold allocate_outbox_id. repeat stable_step.
  apply stable_modify. intros db. apply P_uuid.
Qed.

Lemma stable_save_outbox_object (public_id : string) (raw_object : RawObject)
  (r1 r2 r3 : option nat) (source : option string) (is_transient : bool)
  (conversation : option string) :
  stable P (save_outbox_object env public_id raw_object r1 r2 r3 source is_transient
                               conversation).
Proof. unfold save_outbox_object. repeat stable_step. apply stable_add_outbox_object. Qed.

Lemma stable_followers_recipients (l : list Follower.t) (skip acc : list string) :
  stable P (followers_recipients l skip acc).
Proof.
  revert acc. induction l as [|f l IH]; intros acc; cbn [followers_recipients].
  - apply stable_ret.
  - apply stable_bind; [apply stable_load_actor|]. intros a.
    destruct (mem_string (Actor.ap_id a) skip); apply IH.
Qed.

Lemma stable__get_followers_recipients (skip_actors : list Actor.t) :
  stable P (_get_followers_recipients skip_actors).
Proof.
  unfold _get_followers_recipients. repeat stable_step.
  apply stable_followers_recipients.
Qed.

Lemma stable_load_follower_actors (l : list Follower.t) :
  stable P (load_follower_actors l).
Proof.
  induction l as [|f l IH]; cbn [load_follower_actors].
  - apply stable_ret.
  - apply stable_bind; [apply stable_load_actor|]. intros a.
    apply stable_bind; [exact IH|]. intros l'. apply stable_ret.
Qed.

Lemma stable_fetch_actor_collection (url : string) :
  stable P (fetch_actor_collection env url).
Proof.
  unfold fetch_actor_collection. repeat stable_step.
  apply stable_load_follower_actors.
Qed.

Lemma stable_compute_recipient (r : string) (recipients : list string) :
  stable P (compute_recipient env r recipients).
Proof.
  unfold compute_recipient. repeat stable_step;
    first [apply stable_fetch_actor_collection|apply stable_save_actor].
Qed.

Lemma stable_compute_recipients_loop (l recipients : list string) :
  stable P (compute_recipients_loop env l recipients).
Proof.
  revert recipients. induction l as [|r l IH]; intros recipients;
    cbn [compute_recipients_loop].
  - apply stable_ret.
  - apply stable_bind; [apply stable_compute_recipient|]. intros rs. apply IH.
Qed.

Lemma stable__compute_recipients (ap_object : RawObject) :
  stable P (_compute_recipients env ap_object).
Proof. apply stable_compute_recipients_loop. Qed.

Lemma stable_fetch_conversation_root (depth : nat) (obj : AnyObject) (is_root : bool) :
  stable P (fetch_conversation_root env depth obj is_root).
Proof.
  revert obj is_root. induction depth as [|depth IH]; intros obj is_root;
    cbn [fetch_conversation_root].
  - apply stable_raise.
  - destruct (negb (truthy (obj_in_reply_to obj)) || is_root).
    + assert (stable P (obj_ap_id obj)) as Hid.
      { unfold obj_ap_id. destruct obj; [apply stable_ret|apply stable_get_id]. }
      destruct (obj_ap_context obj) as [ctx|];
        [destruct (ctx =? "")|]; repeat stable_step; exact Hid.
    + apply stable_bind; [apply stable_get|]. intros db.
      destruct (get_anybox_object_by_ap_id env db _); [apply IH|].
      apply stable_bind.
      * apply stable_try_except.
        -- repeat stable_step. apply stable_fetch_actor.
        -- intros e h He. destruct (is_unfetchable e); [|discriminate He].
           injection He as <-. apply stable_bind; [apply IH|]. intros r.
           apply stable_ret.
      * intros [root|parent]; [apply stable_ret|apply IH].
Qed.

Ltac frame_step :=
  first
    [ stable_step
    | lazymatch goal with
      | |- stable _ (fetch_actor _ _ _) => apply stable_fetch_actor
      | |- stable _ (save_actor _) => apply stable_save_actor
      | |- stable _ (load_actor _) => apply stable_load_actor
      | |- stable _ (allocate_outbox_id _) => apply stable_allocate_outbox_id
      | |- stable _ (save_outbox_object _ _ _ _ _ _ _ _ _) =>
          apply stable_save_outbox_object
      | |- stable _ (add_inbox_object _) => apply stable_add_inbox_object
      | |- stable _ (add_notification _) => apply stable_add_notification
      | |- stable _ (new_outgoing_activity _ _ _) => apply stable_new_outgoing_activity
      | |- stable _ (_compute_recipients _ _) => apply stable__compute_recipients
      | |- stable _ (_get_followers_recipients _) =>
          apply stable__get_followers_recipients
      | |- stable _ (fetch_conversation_root _ _ _ _) =>
          apply stable_fetch_conversation_root
      | |- stable _ (update_actor _ _) => apply stable_update_actor
      | |- stable _ (update_inbox_object _ _) =>
          apply stable_update_inbox_object; intros ? ?; auto
      | |- stable _ (update_outbox_object _ _) =>
          apply stable_update_outbox_object; intros ? ?; auto
      end ].

Lemma stable__send_follow (ap_actor_id : string) : stable P (_send_follow env ap_actor_id).
Proof. unfold _send_follow. repeat frame_step. Qed.

Lemma stable__handle_vote_answer (answer : InboxObject.t) (question : OutboxObject.t) :
  stable P (_handle_vote_answer env answer question).
Proof.
  unfold _handle_vote_answer. repeat frame_step.
  apply stable_modify. intros db. apply P_poll_answers.
Qed.

Lemma stable__revert_side_effect_for_deleted_object
  (delete_activity deleted_ap_object : InboxObject.t)
  (forwarded_by_actor : option Actor.t) :
  (InboxObject.ap_type deleted_ap_object = "Like" ->
   forall n o, keyO (OutboxObject.set_likes_count n o) = keyO o) ->
  (InboxObject.ap_type deleted_ap_object = "Annouce" ->
   forall n o, keyO (OutboxObject.set_announces_count n o) = keyO o) ->
  (forall o, OutboxObject.activity_object_ap_id o
             = Some (InboxObject.ap_id deleted_ap_object) ->
             keyO (OutboxObject.set_is_deleted true o) = keyO o) ->
  stable P (_revert_side_effect_for_deleted_object env delete_activity deleted_ap_object
              forwarded_by_actor).
Proof.
  intros Hlike Hann Hdel. unfold _revert_side_effect_for_deleted_object.
  apply stable_bind; [repeat frame_step|]. intros fwd.
  apply stable_bind.
  { destruct (String.eqb_spec (InboxObject.ap_type deleted_ap_object) "Like") as [E|_];
      cbn [andb].
    - rewrite E. change ("Like" =? "Annouce") with false. cbn [andb].
      repeat frame_step.
    - destruct (String.eqb_spec (InboxObject.ap_type deleted_ap_object) "Annouce")
        as [E|_]; cbn [andb]; repeat frame_step. }
  intros _. apply stable_bind.
  { apply stable_update_outbox_where. intros o Ho. apply Hdel.
    destruct (OutboxObject.activity_object_ap_id o) as [i|]; [|discriminate Ho].
    cbn in Ho. apply String.eqb_eq in Ho. now subst. }
  intros _. repeat frame_step.
Qed.

Lemma stable_process_saved_note_with
  (recurse : InboxObject.t -> Actor.t -> RemoteObject -> M InboxObject.t)
  (parent_activity : InboxObject.t) (from_actor : Actor.t) (ro : RemoteObject)
  (forwarded_by_actor : option Actor.t) (process_quoted_url is_mention : bool)
  (inbox_object : InboxObject.t) :
  (forall a b c, stable P (recurse a b c)) ->
  stable P (process_saved_note_with env recurse parent_activity from_actor ro
              forwarded_by_actor process_quoted_url is_mention inbox_object).
Proof.
  intros Hrec. unfold process_saved_note_with.
  repeat first [frame_step | apply stable__handle_vote_answer | apply Hrec].
Qed.

Lemma stable_process_note_object_with
  (recurse : InboxObject.t -> Actor.t -> RemoteObject -> M InboxObject.t)
  (parent_activity : InboxObject.t) (from_actor : Actor.t) (ro : RemoteObject)
  (forwarded_by_actor : option Actor.t) (process_quoted_url : bool) :
  (forall a b c, stable P (recurse a b c)) ->
  stable P (process_note_object_with env recurse parent_activity from_actor ro
              forwarded_by_actor process_quoted_url).
Proof.
  intros Hrec. unfold process_note_object_with.
  repeat first [frame_step | now apply stable_process_saved_note_with].
Qed.

Lemma stable__process_note_object (parent_activity : InboxObject.t) (from_actor : Actor.t)
  (ro : RemoteObject) (forwarded_by_actor : option Actor.t) (process_quoted_url : bool) :
  stable P (_process_note_object env parent_activity from_actor ro forwarded_by_actor
              process_quoted_url).
Proof.
  unfold _process_note_object. apply stable_process_note_object_with. intros a b c.
  apply stable_process_note_object_with. intros _ _ _. apply stable_raise.
Qed.

End Frame.

(** ** Conversation roots *)

Section ConversationRoot.

Variable env : Env.

Lemma fetch_conversation_root_is_root (depth : nat) (obj : AnyObject) (ap_id : string)
  (db : DB) :
  obj_ap_id obj db = Ok ap_id db ->
  fetch_conversation_root env (S depth) obj true db
  = Ok (root_conversation (obj_ap_context obj) ap_id) db.
Proof.
  intros Hid. simpl. rewrite orb_true_r. unfold root_conversation.
  destruct (obj_ap_context obj) as [ctx|].
  - destruct (ctx =? ""); [|reflexivity].
    unfold bind. rewrite Hid. reflexivity.
  - unfold bind. rewrite Hid. reflexivity.
Qed.

Lemma fetch_conversation_root_no_parent (depth : nat) (obj : AnyObject) (ap_id : string)
  (db : DB) :
  truthy (obj_in_reply_to obj) = false ->
  obj_ap_id obj db = Ok ap_id db ->
  fetch_conversation_root env (S depth) obj false db
  = Ok (root_conversation (obj_ap_context obj) ap_id) db.
Proof.
  intros Hroot Hid. simpl. rewrite Hroot. simpl. unfold root_conversation.
  destruct (obj_ap_context obj) as [ctx|].
  - destruct (ctx =? ""); [|reflexivity].
    unfold bind. rewrite Hid. reflexivity.
  - unfold bind. rewrite Hid. reflexivity.
Qed.

Lemma fetch_conversation_root_on_chain (db : DB) (obj root : AnyObject) (n : nat)
  (root_ap_id : string) :
  reaches_root env db obj root n ->
  obj_ap_id root db = Ok root_ap_id db ->
  forall depth : nat, n < depth ->
    fetch_conversation_root env depth obj false db
    = Ok (root_conversation (obj_ap_context root) root_ap_id) db.
Proof.
  intros Hreach. induction Hreach as
    [obj Hroot | obj parent_id e Hparent Hne Hnone Hfetch Hunf
    | obj parent_id parent root n Hparent Hne Hsome Hreach IH];
    intros Hid depth Hdepth.
  - destruct depth as [|depth]; [lia|].
    now apply fetch_conversation_root_no_parent.
  - destruct depth as [|depth]; [lia|].
    cbn [fetch_conversation_root]. rewrite Hparent, (truthy_Some_true Hne).
    cbn [negb orb]. unfold bind at 1, get at 1. rewrite Hnone.
    unfold bind at 1. unfold try_except. unfold bind at 1, lift_fetch.
    rewrite Hfetch. unfold raise. rewrite Hunf.
    destruct depth as [|depth]; [lia|].
    rewrite bind_Ok with (a := root_conversation (obj_ap_context obj) root_ap_id) (db' := db).
    + reflexivity.
    + now apply fetch_conversation_root_is_root.
  - destruct depth as [|depth]; [lia|].
    cbn [fetch_conversation_root]. rewrite Hparent, (truthy_Some_true Hne).
    cbn [negb orb]. unfold bind at 1, get at 1. rewrite Hsome.
    apply IH; [assumption|lia].
Qed.

Lemma fetch_conversation_root_stays_stored (db : DB) (p : AnyboxObject -> Prop) :
  stays_stored env db p ->
  forall (depth : nat) (obj : AnyObject) (parent_id : string) (parent : AnyboxObject),
    obj_in_reply_to obj = Some parent_id ->
    parent_id <> "" ->
    get_anybox_object_by_ap_id env db parent_id = Some parent ->
    p parent ->
    fetch_conversation_root env depth obj false db = Raise RecursionError db.
Proof.
  intros Hp. induction depth as [|depth IH];
    intros obj parent_id parent Hparent Hne Hsome Hin; [reflexivity|].
  cbn [fetch_conversation_root]. rewrite Hparent, (truthy_Some_true Hne).
  cbn [negb orb]. unfold bind at 1, get at 1. rewrite Hsome.
  destruct (Hp parent Hin) as (grand_id & grand & Hgrand & Hgne & Hgsome & Hgin).
  now apply (IH (Stored parent) grand_id grand).
Qed.

(** C5, amended: [fetch_conversation_root] has no guard against cycles. From
    an object whose parent is a stored object from which the [in_reply_to]
    links stay among stored objects for ever (a stored note replying to
    itself, a cycle of stored notes), every recursion depth ends in
    [RecursionError], with no root returned. When the chain of
    [in_reply_to] links from [obj] reaches within [n] lookups in the stores
    an object [root] without parent, or whose parent is neither stored nor
    fetchable, every recursion depth above [n] returns the context of [root]
    if it has one, else ["microblogpub:root:"] followed by its id, and
    leaves the store as it was. *)
Theorem fetch_conversation_root_reaches_root (db : DB) :
  (forall (p : AnyboxObject -> Prop) (obj : AnyObject) (parent_id : string)
          (parent : AnyboxObject),
     stays_stored env db p ->
     obj_in_reply_to obj = Some parent_id ->
     parent_id <> "" ->
     get_anybox_object_by_ap_id env db parent_id = Some parent ->
     p parent ->
     forall depth : nat,
       fetch_conversation_root env depth obj false db = Raise RecursionError db)
  /\ (forall (obj root : AnyObject) (n : nat) (root_ap_id : string),
        reaches_root env db obj root n ->
        obj_ap_id root db = Ok root_ap_id db ->
        forall depth : nat, n < depth ->
          fetch_conversation_root env depth obj false db
          = Ok (root_conversation (obj_ap_context root) root_ap_id) db).
Proof.
  split.
  - intros p obj parent_id parent Hp Hparent Hne Hsome Hin depth.
    now apply (@fetch_conversation_root_stays_stored db p Hp depth obj parent_id parent).
  - intros obj root n root_ap_id. apply fetch_conversation_root_on_chain.
Qed.

End ConversationRoot.

Lemma fetch_conversation_root_self_reply_raises (depth : nat) :
  fetch_conversation_root example_env depth (Stored (FromInbox self_reply)) false
    self_reply_db
  = Raise RecursionError self_reply_db.
Proof.
  induction depth as [|depth IH]; [reflexivity|].
  cbn [fetch_conversation_root].
  change (truthy (obj_in_reply_to (Stored (FromInbox self_reply)))) with true.
  cbn [negb orb]. unfold bind at 1, get at 1.
  change (get_anybox_object_by_ap_id example_env self_reply_db
            match obj_in_reply_to (Stored (FromInbox self_reply)) with
            | Some i => i
            | None => ""
            end) with (Some (FromInbox self_reply)).
  exact IH.
Qed.

(** C5 as stated fails: on a stored note whose [in_reply_to] is its own id the
    resolution never treats the repeated id as the root; no recursion depth
    makes it return, each ends in [RecursionError]. *)
Lemma fetch_conversation_root_self_reply_diverges :
  ~ exists (depth : nat) (root : string) (db' : DB),
      fetch_conversation_root example_env depth (Stored (FromInbox self_reply)) false
        self_reply_db
      = Ok root db'.
Proof.
  intros (depth & root & db' & H).
  rewrite fetch_conversation_root_self_reply_raises in H. discriminate H.
Qed.

(** A chain of two stored notes resolves to the root's synthetic id; the
    note that replies to itself exhausts every depth. *)
Lemma fetch_conversation_root_reaches_root_witness :
  let root_note :=
    remote_object 1 1 (note_document "https://remote.example/r" alice None None
                                     (Some "root") 1%Z) in
  let reply_note :=
    remote_object 2 2 (note_document "https://remote.example/s" bob
                                     (Some "https://remote.example/r") None
                                     (Some "reply") 2%Z) in
  let db := set_inbox [root_note; reply_note] empty_db in
  fetch_conversation_root example_env 2 (Stored (FromInbox reply_note)) false db
  = Ok "microblogpub:root:https://remote.example/r" db
  /\ forall depth : nat,
       fetch_conversation_root example_env depth (Stored (FromInbox self_reply)) false
         self_reply_db
       = Raise RecursionError self_reply_db.
Proof.
  intros root_note reply_note db. split.
  - apply (proj2 (@fetch_conversation_root_reaches_root example_env db)
             (Stored (FromInbox reply_note)) (Stored (FromInbox root_note)) 1
             "https://remote.example/r").
    + apply reaches_stored_parent
        with (parent_id := "https://remote.example/r") (parent := FromInbox root_note).
      * reflexivity.
      * discriminate.
      * reflexivity.
      * apply reaches_no_parent. reflexivity.
    + reflexivity.
    + lia.
  - apply (proj1 (@fetch_conversation_root_reaches_root example_env self_reply_db)
             (fun o => o = FromInbox self_reply) (Stored (FromInbox self_reply))
             "https://remote.example/n1" (FromInbox self_reply)).
    + intros o ->. exists "https://remote.example/n1", (FromInbox self_reply).
      split; [reflexivity|]. split; [discriminate|]. split; reflexivity.
    + reflexivity.
    + discriminate.
    + reflexivity.
    + reflexivity.
Defined.

(** ** Duplicate deliveries *)

Lemma only_actors_changed_refl (db : DB) : only_actors_changed db db.
Proof. unfold only_actors_changed. repeat split. Qed.

Lemma only_actors_changed_trans (db1 db2 db3 : DB) :
  only_actors_changed db1 db2 -> only_actors_changed db2 db3 ->
  only_actors_changed db1 db3.
Proof.
  unfold only_actors_changed.
  intros (A1 & A2 & A3 & A4 & A5 & A6 & A7 & A8 & A9 & A10)
         (B1 & B2 & B3 & B4 & B5 & B6 & B7 & B8 & B9 & B10).
  repeat split; congruence.
Qed.

Lemma filter_none (A : Type) (p : A -> bool) (l : list A) :
  (forall z, In z l -> p z = false) -> filter p l = [].
Proof.
  induction l as [|y l IH]; intros H; [reflexivity|].
  cbn. rewrite (H y (or_introl eq_refl)). apply IH.
  intros z Hz. apply H. now right.
Qed.

Lemma count_if_positive (A : Type) (p : A -> bool) (l : list A) (x : A) :
  In x l -> p x = true -> Z.ltb 0 (count_if p l) = true.
Proof.
  intros Hin Hp. unfold count_if.
  assert (In x (filter p l)) as H by (apply filter_In; auto).
  destruct (filter p l); [contradiction|]. reflexivity.
Qed.

Lemma count_if_unique (A : Type) (key : A -> string) (l : list A) (x : A) :
  NoDup (map key l) -> In x l ->
  count_if (fun y => key y =? key x) l = 1%Z.
Proof.
  unfold count_if. induction l as [|y l IH]; intros Hnd Hin; [contradiction|].
  cbn in Hnd. inversion Hnd as [|k ks Hnotin Hnd']; subst.
  cbn. destruct Hin as [->|Hin].
  - rewrite String.eqb_refl. cbn.
    assert (filter (fun y => key y =? key x) l = []) as ->; [|reflexivity].
    apply filter_none. intros z Hz.
    destruct (String.eqb_spec (key z) (key x)) as [E|]; [|reflexivity].
    exfalso. apply Hnotin. rewrite <- E. now apply in_map.
  - destruct (String.eqb_spec (key y) (key x)) as [E|].
    + exfalso. apply Hnotin. rewrite E. now apply in_map.
    + now apply IH.
Qed.

Section Duplicates.

Variable env : Env.

Lemma save_actor_only_actors (ap_actor : RawObject) (db : DB) :
  only_actors_changed db (state_of (save_actor ap_actor db)).
Proof.
  unfold save_actor.
  destruct (negb (mem_string (raw_type ap_actor) ACTOR_TYPES));
    [apply only_actors_changed_refl|].
  unfold bind, get_id. destruct (raw_id ap_actor) as [i|];
    [|apply only_actors_changed_refl].
  cbn. destruct (existsb _ (actors db)); cbn.
  - apply only_actors_changed_refl.
  - unfold only_actors_changed. cbn. repeat split.
Qed.

Lemma fetch_actor_only_actors (actor_id : string) (save_if_not_found : bool) (db : DB) :
  only_actors_changed db (state_of (fetch_actor env actor_id save_if_not_found db)).
Proof.
  unfold fetch_actor, bind, get.
  destruct (find_actor_by_ap_id db actor_id); [apply only_actors_changed_refl|].
  destruct save_if_not_found; [|apply only_actors_changed_refl].
  unfold lift_fetch. destruct (fetch env actor_id) as [e|doc];
    [apply only_actors_changed_refl|]. cbn.
  destruct (mem_string (raw_type doc) ACTOR_TYPES).
  - apply save_actor_only_actors.
  - apply only_actors_changed_refl.
Qed.

Lemma fetch_actor_cached (actor_id : string) (save_if_not_found : bool) (db : DB)
  (a : Actor.t) :
  find_actor_by_ap_id db actor_id = Some a ->
  fetch_actor env actor_id save_if_not_found db = Ok a db.
Proof. intros H. unfold fetch_actor, bind, get. rewrite H. reflexivity. Qed.

Lemma update_actor_only_actors (i : nat) (f : Actor.t -> Actor.t) (db : DB) :
  only_actors_changed db (state_of (update_actor i f db)).
Proof. unfold only_actors_changed. cbn. repeat split. Qed.

Lemma save_to_inbox_checked_duplicate (raw_object : RawObject) (raw_object_id : string)
  (actor : Actor.t) (forwarded_by_actor : option Actor.t) (db : DB) :
  (exists o, In o (inbox db) /\ InboxObject.ap_id o = raw_object_id) ->
  save_to_inbox_checked env raw_object raw_object_id actor forwarded_by_actor db
  = Ok tt db.
Proof.
  intros (o & Hin & Hid). unfold save_to_inbox_checked, bind, get.
  rewrite (@count_if_positive _ _ _ o Hin); [reflexivity|].
  rewrite Hid. apply String.eqb_refl.
Qed.

(** C1, amended: when an InboxObject with the activity's id is already
    stored, [save_to_inbox] persists no InboxObject and changes no counter
    nor any table but the actor directory, in which the actors looked up on
    the way may be saved; the [ap_id] column being unique, exactly one
    InboxObject carries that id afterwards. It returns when the activity
    comes from its own actor (with the store untouched when that actor is
    known), when the actor or its server is blocked, and when the activity
    is forwarded by another actor with a linked-data signature that
    verifies, or can be fetched again from its id. A forwarded duplicate
    whose signature does not verify and that cannot be fetched again is not
    dropped silently: the checks on forwarded activities come before the
    duplicate check, and it is refused with status 401. *)
Theorem save_to_inbox_duplicate (raw_object : RawObject) (sent_by_ap_actor_id : string)
  (db : DB) (ap_id : string) :
  raw_id raw_object = Some ap_id ->
  (exists o, In o (inbox db) /\ InboxObject.ap_id o = ap_id) ->
  only_actors_changed db (state_of (save_to_inbox env raw_object sent_by_ap_actor_id db))
  /\ (forall actor : Actor.t,
        mem_string (raw_type raw_object) ACTOR_TYPES = false ->
        raw_actor raw_object = Some sent_by_ap_actor_id ->
        find_actor_by_ap_id db sent_by_ap_actor_id = Some actor ->
        save_to_inbox env raw_object sent_by_ap_actor_id db = Ok tt db)
  /\ (forall (actor_ap_id : string) (actor : Actor.t) (db1 : DB),
        mem_string (raw_type raw_object) ACTOR_TYPES = false ->
        raw_actor raw_object = Some actor_ap_id ->
        fetch_actor env actor_ap_id true db = Ok actor db1 ->
        (mem_string (hostname env (Actor.ap_id actor)) (BLOCKED_SERVERS env) = true
         \/ Actor.is_blocked actor = true
         \/ sent_by_ap_actor_id = Actor.ap_id actor ->
         save_to_inbox env raw_object sent_by_ap_actor_id db = Ok tt db1)
        /\ (forall (forwarder : Actor.t) (db2 : DB),
              mem_string (hostname env (Actor.ap_id actor)) (BLOCKED_SERVERS env)
              = false ->
              ap_id <> "" ->
              Actor.is_blocked actor = false ->
              sent_by_ap_actor_id <> Actor.ap_id actor ->
              fetch_actor env sent_by_ap_actor_id true db1 = Ok forwarder db2 ->
              save_to_inbox env raw_object sent_by_ap_actor_id db
              = match verify_signature env raw_object with
                | inr true => Ok tt db2
                | _ =>
                    match fetch env ap_id with
                    | inl _ => Raise (HTTPException 401 "Invalid LD sig") db2
                    | inr fetched =>
                        match raw_id fetched with
                        | Some _ => Ok tt db2
                        | None => Raise (KeyError "id") db2
                        end
                    end
                end))
  /\ (NoDup (map InboxObject.ap_id (inbox db)) ->
      count_if (fun o => InboxObject.ap_id o =? ap_id)
               (inbox (state_of (save_to_inbox env raw_object sent_by_ap_actor_id db)))
      = 1%Z).
Proof.
  intros Hid Hdup.
  assert (only_actors_changed db
            (state_of (save_to_inbox env raw_object sent_by_ap_actor_id db))) as Hframe.
  { unfold save_to_inbox.
    destruct (mem_string (raw_type raw_object) ACTOR_TYPES).
    - unfold bind at 1, get_id. rewrite Hid. cbn [ret].
      destruct (ap_id =? sent_by_ap_actor_id); [|apply only_actors_changed_refl].
      unfold bind at 1, try_except, bind at 1.
      pose proof (fetch_actor_only_actors sent_by_ap_actor_id true db) as Hf.
      destruct (fetch_actor env sent_by_ap_actor_id true db) as [a db1|e db1];
        cbn [state_of] in Hf.
      + cbn [ret]. unfold bind at 1.
        pose proof (update_actor_only_actors (Actor.id a)
                      (Actor.set_ap_actor raw_object) db1) as Hu.
        destruct (update_actor (Actor.id a) (Actor.set_ap_actor raw_object) db1)
          as [u db2|e db2]; cbn [state_of] in Hu |- *;
          eapply only_actors_changed_trans; eauto.
      + destruct e; cbn; assumption.
    - unfold bind at 1, get_actor_id.
      destruct (raw_actor raw_object) as [actor_ap_id|];
        [|apply only_actors_changed_refl]. cbn [ret].
      unfold bind at 1, try_except, bind at 1.
      pose proof (fetch_actor_only_actors actor_ap_id true db) as Hf.
      destruct (fetch_actor env actor_ap_id true db) as [actor db1|e db1];
        cbn [state_of] in Hf.
      2:{ destruct e; cbn; assumption. }
      cbn [ret].
      destruct (mem_string (hostname env (Actor.ap_id actor)) (BLOCKED_SERVERS env));
        [exact Hf|].
      destruct (negb (truthy (raw_id raw_object))); [exact Hf|].
      destruct (Actor.is_blocked actor); [exact Hf|].
      rewrite Hid.
      assert (exists o, In o (inbox db1) /\ InboxObject.ap_id o = ap_id) as Hdup1.
      { destruct Hf as (-> & _). exact Hdup. }
      destruct (negb (sent_by_ap_actor_id =? Actor.ap_id actor)).
      + unfold bind at 1.
        pose proof (fetch_actor_only_actors sent_by_ap_actor_id true db1) as Hg.
        destruct (fetch_actor env sent_by_ap_actor_id true db1) as [fwd db2|e db2];
          cbn [state_of] in Hg.
        2:{ cbn. eapply only_actors_changed_trans; eauto. }
        assert (only_actors_changed db db2) as Hfg
            by (eapply only_actors_changed_trans; eauto).
        assert (exists o, In o (inbox db2) /\ InboxObject.ap_id o = ap_id) as Hdup2.
        { destruct Hfg as (-> & _). exact Hdup. }
        destruct (negb match verify_signature env raw_object with
                       | inl _ => false | inr b => b end).
        * destruct (fetch env ap_id) as [e|fetched]; [exact Hfg|].
          unfold bind at 1, get_id. destruct (raw_id fetched) as [fid|]; [|exact Hfg].
          cbn [ret]. destruct (negb (fid =? ap_id)); [exact Hfg|].
          rewrite save_to_inbox_checked_duplicate by exact Hdup2. exact Hfg.
        * rewrite save_to_inbox_checked_duplicate by exact Hdup2. exact Hfg.
      + rewrite save_to_inbox_checked_duplicate by exact Hdup1. exact Hf. }
  split; [exact Hframe|]. split; [|split].
  - intros actor Htype Hactor Hfind.
    unfold save_to_inbox. rewrite Htype.
    unfold bind at 1, get_actor_id. rewrite Hactor. cbn [ret].
    unfold bind at 1, try_except, bind at 1.
    rewrite fetch_actor_cached with (a := actor) by exact Hfind. cbn [ret].
    destruct (mem_string (hostname env (Actor.ap_id actor)) (BLOCKED_SERVERS env));
      [reflexivity|].
    rewrite Hid. cbn [truthy].
    destruct (negb (negb (ap_id =? ""))); [reflexivity|].
    destruct (Actor.is_blocked actor); [reflexivity|].
    assert (Actor.ap_id actor = sent_by_ap_actor_id) as ->.
    { unfold find_actor_by_ap_id in Hfind. apply find_some in Hfind.
      now apply String.eqb_eq. }
    rewrite String.eqb_refl. cbn [negb].
    now apply save_to_inbox_checked_duplicate.
  - intros actor_ap_id actor db1 Htype Hactor Hfetch.
    pose proof (fetch_actor_only_actors actor_ap_id true db) as Hf.
    rewrite Hfetch in Hf. cbn [state_of] in Hf.
    assert (exists o, In o (inbox db1) /\ InboxObject.ap_id o = ap_id) as Hdup1.
    { destruct Hf as (-> & _). exact Hdup. }
    assert (save_to_inbox env raw_object sent_by_ap_actor_id db
            = (if mem_string (hostname env (Actor.ap_id actor)) (BLOCKED_SERVERS env)
               then ret tt
               else if negb (truthy (raw_id raw_object))
               then _process_transient_object raw_object actor
               else if Actor.is_blocked actor then ret tt
               else
                 if negb (sent_by_ap_actor_id =? Actor.ap_id actor) then
                   forwarded_by_actor <- fetch_actor env sent_by_ap_actor_id true ;;
                   if negb match verify_signature env raw_object with
                           | inr b => b
                           | inl _ => false
                           end
                   then
                     match fetch env ap_id with
                     | inl _ => raise (HTTPException 401 "Invalid LD sig")
                     | inr fetched =>
                         fetched_id <- get_id fetched ;;
                         if negb (fetched_id =? ap_id) then ret tt
                         else save_to_inbox_checked env fetched ap_id actor
                                (Some forwarded_by_actor)
                     end
                   else save_to_inbox_checked env raw_object ap_id actor
                          (Some forwarded_by_actor)
                 else save_to_inbox_checked env raw_object ap_id actor None) db1)
      as Hsteps.
    { unfold save_to_inbox. rewrite Htype.
      unfold bind at 1, get_actor_id. rewrite Hactor. cbn [ret].
      unfold bind at 1, try_except, bind at 1. rewrite Hfetch. cbn [ret].
      rewrite Hid. reflexivity. }
    rewrite Hsteps. clear Hsteps. split.
    + intros Hearly.
      destruct (mem_string (hostname env (Actor.ap_id actor)) (BLOCKED_SERVERS env));
        [reflexivity|].
      destruct (negb (truthy (raw_id raw_object))); [reflexivity|].
      destruct (Actor.is_blocked actor); [reflexivity|].
      destruct Hearly as [Hearly|[Hearly|Hearly]]; try discriminate.
      rewrite Hearly, String.eqb_refl. cbn [negb].
      now apply save_to_inbox_checked_duplicate.
    + intros forwarder db2 Hserver Hne Hblocked Hforwarded Hforwarder.
      rewrite Hserver, Hid, (truthy_Some_true Hne), Hblocked. cbn [negb].
      apply String.eqb_neq in Hforwarded. rewrite Hforwarded. cbn [negb].
      unfold bind at 1. rewrite Hforwarder.
      pose proof (fetch_actor_only_actors sent_by_ap_actor_id true db1) as Hg.
      rewrite Hforwarder in Hg. cbn [state_of] in Hg.
      assert (exists o, In o (inbox db2) /\ InboxObject.ap_id o = ap_id) as Hdup2.
      { destruct Hg as (-> & _). exact Hdup1. }
      destruct (verify_signature env raw_object) as [e|[|]]; cbn [negb].
      * destruct (fetch env ap_id) as [e'|fetched]; [reflexivity|].
        unfold bind, get_id. destruct (raw_id fetched) as [fid|]; [|reflexivity].
        cbn [ret]. destruct (negb (fid =? ap_id)); [reflexivity|].
        now apply save_to_inbox_checked_duplicate.
      * now apply save_to_inbox_checked_duplicate.
      * destruct (fetch env ap_id) as [e'|fetched]; [reflexivity|].
        unfold bind, get_id. destruct (raw_id fetched) as [fid|]; [|reflexivity].
        cbn [ret]. destruct (negb (fid =? ap_id)); [reflexivity|].
        now apply save_to_inbox_checked_duplicate.
  - intros Hnd. destruct Hframe as (-> & _).
    destruct Hdup as (o & Hin & <-).
    now apply (@count_if_unique _ InboxObject.ap_id).
Qed.

End Duplicates.

(** ** Undo of an unsupported activity *)

(** C9: for an outbox object whose type is none of Follow, Like and
    Announce, [send_undo] raises a validation error in the very store it was
    given: no OutboxObject row, no [undone_by_outbox_object_id] mark and no
    delivery work item have been added. *)
Theorem send_undo_rejects_unsupported (env : Env) (db : DB) (ap_object_id : string)
  (target : OutboxObject.t) :
  get_outbox_object_by_ap_id db ap_object_id = Some target ->
  mem_string (OutboxObject.ap_type target) ["Follow"; "Like"; "Announce"] = false ->
  send_undo env ap_object_id db
  = Raise (ValueError ("Cannot build Undo for " ++ OutboxObject.ap_type target
                       ++ " activity")) db.
Proof.
  intros Hfind Htype. unfold send_undo, _send_undo, bind at 1, bind at 1, get.
  rewrite Hfind, Htype. reflexivity.
Qed.

Lemma save_to_inbox_duplicate_witness :
  let db1 := run (save_to_inbox example_env hello_create alice) empty_db in
  save_to_inbox example_env hello_create alice db1 = Ok tt db1
  /\ count_if (fun o => InboxObject.ap_id o =? "https://remote.example/a1") (inbox db1)
     = 1%Z.
Proof.
  intros db1.
  destruct (@save_to_inbox_duplicate example_env hello_create alice db1
              "https://remote.example/a1") as (_ & Hreturns & _ & Hone).
  - reflexivity.
  - vm_compute. eexists. split; [left; reflexivity|reflexivity].
  - split.
    + apply (Hreturns (person 1 alice)); reflexivity.
    + rewrite <- Hone.
      * rewrite (Hreturns (person 1 alice)); reflexivity.
      * vm_compute. repeat constructor; cbn; intuition discriminate.
Defined.

(** C1 as stated fails: the activity of alice, already stored, is delivered
    once more, forwarded by an actor unknown so far and without a
    linked-data signature that verifies, and cannot be fetched again from
    its origin. [save_to_inbox] does not drop it silently: it raises an
    [HTTPException] with status 401, and the session that it leaves holds
    the forwarder in the actor directory. *)
Lemma forwarded_duplicate_is_refused :
  let db1 := run (save_to_inbox example_env hello_create alice) empty_db in
  count_if (fun o => InboxObject.ap_id o =? "https://remote.example/a1") (inbox db1)
  = 1%Z
  /\ raw_id hello_create = Some "https://remote.example/a1"
  /\ exists db2,
       save_to_inbox example_env hello_create alice_moved db1
       = Raise (HTTPException 401 "Invalid LD sig") db2
       /\ map Actor.ap_id (actors db1) = [alice; bob; carol]
       /\ map Actor.ap_id (actors db2) = [alice; bob; carol; alice_moved].
Proof.
  intros db1. split; [vm_compute; reflexivity|]. split; [reflexivity|].
  eexists. split; [vm_compute; reflexivity|]. split; reflexivity.
Qed.

Lemma send_undo_rejects_unsupported_witness :
  send_undo example_env post_id post_db
  = Raise (ValueError "Cannot build Undo for Note activity") post_db.
Proof.
  apply (@send_undo_rejects_unsupported example_env post_db post_id local_post);
    reflexivity.
Defined.

(** ** Deletions *)

Lemma triple_trivial (A : Type) (P : DB -> Prop) (c : M A) :
  triple P c (fun _ _ => True) (fun _ _ => True).
Proof. intros db _. now destruct (c db). Qed.

Lemma stable_triple (A : Type) (P : DB -> Prop) (c : M A) :
  stable P c -> triple P c (fun _ => P) (fun _ _ => True).
Proof.
  intros H. eapply triple_consequence; [exact H|..]; auto.
Qed.

Lemma triple_modify (P : DB -> Prop) (f : DB -> DB) (Q : unit -> DB -> Prop)
  (E : Exn -> DB -> Prop) :
  (forall db, P db -> Q tt (f db)) -> triple P (modify f) Q E.
Proof. intros H db HP. cbn. auto. Qed.

Ltac never_step :=
  lazymatch goal with
  | |- never_raises (bind _ _) => apply never_raises_bind; [|intros ?]
  | |- never_raises (ret _) => apply never_raises_ret
  | |- never_raises get => apply never_raises_get
  | |- never_raises flush => apply never_raises_ret
  | |- never_raises commit => apply never_raises_ret
  | |- never_raises (modify _) => apply never_raises_modify
  | |- never_raises (update_inbox_object _ _) => apply never_raises_modify
  | |- never_raises (update_outbox_object _ _) => apply never_raises_modify
  | |- never_raises (update_outbox_where _ _) => apply never_raises_modify
  | |- never_raises (match ?x with _ => _ end) => destruct x
  end.

Section DeleteCascade.

Variable env : Env.

Lemma _handle_delete_activity_object (from_actor : Actor.t)
  (delete_activity target : InboxObject.t) (forwarded_by_actor : option Actor.t)
  (db : DB) :
  Actor.ap_id from_actor = InboxObject.ap_actor_id target ->
  _handle_delete_activity env from_actor delete_activity (Some target) forwarded_by_actor
    db
  = (_revert_side_effect_for_deleted_object env delete_activity target forwarded_by_actor ;;;
     update_inbox_object (InboxObject.id target) (InboxObject.set_is_deleted true) ;;;
     flush) db.
Proof.
  intros Hactor. unfold _handle_delete_activity. unfold bind at 1. cbn [ret].
  rewrite Hactor, String.eqb_refl. reflexivity.
Qed.

Lemma _revert_side_effect_never_raises (delete_activity deleted : InboxObject.t)
  (forwarded_by_actor : option Actor.t) :
  InboxObject.has_ld_signature delete_activity = false ->
  never_raises (_revert_side_effect_for_deleted_object env delete_activity deleted
                  forwarded_by_actor).
Proof.
  intros Hsig. unfold _revert_side_effect_for_deleted_object.
  rewrite Hsig, andb_false_r. cbn [andb]. repeat never_step.
Qed.

Lemma cascaded_outbox_map (ap_id : string) (db : DB)
  (g : OutboxObject.t -> OutboxObject.t) :
  (forall o, (OutboxObject.activity_object_ap_id (g o), OutboxObject.is_deleted (g o))
             = (OutboxObject.activity_object_ap_id o, OutboxObject.is_deleted o)) ->
  cascaded ap_id db -> cascaded ap_id (set_outbox (map g (outbox db)) db).
Proof.
  intros Hg H o Hin Ho. cbn in Hin. apply in_map_iff in Hin.
  destruct Hin as (o' & Heq & Hin'). subst o. specialize (Hg o').
  injection Hg as E1 E2. rewrite E2. apply H; [exact Hin'|]. now rewrite <- E1.
Qed.

Lemma _revert_side_effect_cascades (delete_activity deleted : InboxObject.t)
  (forwarded_by_actor : option Actor.t) :
  triple (fun _ => True)
    (_revert_side_effect_for_deleted_object env delete_activity deleted
       forwarded_by_actor)
    (fun _ => cascaded (InboxObject.ap_id deleted)) (fun _ _ => True).
Proof.
  unfold _revert_side_effect_for_deleted_object.
  eapply triple_bind; [apply triple_trivial|]. intros fwd.
  eapply triple_bind; [apply triple_trivial|]. intros ?.
  eapply triple_bind with (R := fun _ => cascaded (InboxObject.ap_id deleted)).
  { apply triple_modify. intros db _ o Hin Ho. cbn in Hin.
    apply in_map_iff in Hin. destruct Hin as (o' & Heq & _). subst o.
    destruct (opt_string_eqb (OutboxObject.activity_object_ap_id o')
                             (Some (InboxObject.ap_id deleted))) eqn:E;
      [destruct o'; reflexivity|].
    rewrite Ho in E. cbn in E. now rewrite String.eqb_refl in E. }
  intros ?. apply stable_triple.
  destruct (_ && _ && _); [|apply stable_ret].
  apply stable_bind; [apply stable_load_actor|]. intros delete_actor.
  apply stable_bind; [apply stable__get_followers_recipients|]. intros l.
  apply stable_for_each. intros rcp. apply stable_new_outgoing_activity.
  intros db x H. exact H.
Qed.

(** C3, amended: an inbound Delete of a stored object, sent by its owner,
    returns when the Delete carries no LD signature; when it returns, the
    object is marked deleted and so is every OutboxObject whose
    [activity_object_ap_id] is the object's id; the InboxObjects other than
    the object itself keep their [is_deleted] flag, whatever they point at. *)
Theorem _handle_delete_activity_cascade (from_actor : Actor.t)
  (delete_activity target : InboxObject.t) (forwarded_by_actor : option Actor.t)
  (db : DB) :
  Actor.ap_id from_actor = InboxObject.ap_actor_id target ->
  (InboxObject.has_ld_signature delete_activity = false ->
   exists db', _handle_delete_activity env from_actor delete_activity (Some target)
                 forwarded_by_actor db = Ok tt db')
  /\ (forall db',
        _handle_delete_activity env from_actor delete_activity (Some target)
          forwarded_by_actor db = Ok tt db' ->
        cascaded (InboxObject.ap_id target) db'
        /\ (forall o, In o (inbox db') -> InboxObject.id o = InboxObject.id target ->
                      InboxObject.is_deleted o = true))
  /\ map (deletion_key (InboxObject.id target))
         (inbox (state_of (_handle_delete_activity env from_actor delete_activity
                             (Some target) forwarded_by_actor db)))
     = map (deletion_key (InboxObject.id target)) (inbox db).
Proof.
  intros Hactor. rewrite _handle_delete_activity_object by exact Hactor.
  split; [|split].
  - intros Hsig.
    assert (never_raises
              (_revert_side_effect_for_deleted_object env delete_activity target
                 forwarded_by_actor ;;;
               update_inbox_object (InboxObject.id target)
                 (InboxObject.set_is_deleted true) ;;;
               flush)) as H.
    { apply never_raises_bind; [now apply _revert_side_effect_never_raises|].
      intros ?. repeat never_step. }
    destruct (H db) as ([] & db' & E). now exists db'.
  - assert (triple (fun _ => True)
              (_revert_side_effect_for_deleted_object env delete_activity target
                 forwarded_by_actor ;;;
               update_inbox_object (InboxObject.id target)
                 (InboxObject.set_is_deleted true) ;;;
               flush)
              (fun _ db' =>
                 cascaded (InboxObject.ap_id target) db'
                 /\ (forall o, In o (inbox db') ->
                               InboxObject.id o = InboxObject.id target ->
                               InboxObject.is_deleted o = true))
              (fun _ _ => True)) as H.
    { eapply triple_bind; [apply _revert_side_effect_cascades|]. intros ?.
      eapply triple_bind; [|intros ?; apply triple_ret; intros ? H; exact H].
      apply triple_modify. intros db1 Hc. split; [exact Hc|].
      intros o Hin Hid. cbn in Hin. apply in_map_iff in Hin.
      destruct Hin as (o' & Heq & _). subst o.
      destruct (Nat.eqb_spec (InboxObject.id o') (InboxObject.id target)) as [_|Hne].
      - reflexivity.
      - exfalso. apply Hne. exact Hid. }
    intros db' E. specialize (H db I). rewrite E in H. exact H.
  - apply (@stable_state_of _
             (fun d => map (deletion_key (InboxObject.id target)) (inbox d)
                       = map (deletion_key (InboxObject.id target)) (inbox db)));
      [|reflexivity].
    assert (forall (d : DB) (g : InboxObject.t -> InboxObject.t),
               (forall o, deletion_key (InboxObject.id target) (g o)
                          = deletion_key (InboxObject.id target) o) ->
               map (deletion_key (InboxObject.id target)) (inbox d)
               = map (deletion_key (InboxObject.id target)) (inbox db) ->
               map (deletion_key (InboxObject.id target))
                   (inbox (set_inbox (map g (inbox d)) d))
               = map (deletion_key (InboxObject.id target)) (inbox db)) as Hmap.
    { intros d g Hg Hd. cbn. rewrite map_map, <- Hd. apply map_ext. exact Hg. }
    apply stable_bind; [|intros ?; apply stable_bind; [|intros ?; apply stable_ret]].
    + apply (@stable__revert_side_effect_for_deleted_object env _ unit
               (deletion_key (InboxObject.id target)) (fun _ => tt));
        try (intros; reflexivity); try (intros; assumption).
      exact Hmap.
    + apply (@stable_update_inbox_object _ (deletion_key (InboxObject.id target)));
        [exact Hmap|].
      intros o Hid. unfold deletion_key. cbn. rewrite Hid, Nat.eqb_refl.
      now rewrite !orb_true_r.
Qed.

End DeleteCascade.

(** C2 fails on the code: after the Create of a reply to the local post and
    the Delete of that reply, the reply is marked deleted and no live reply
    is left, yet the post's [replies_count] is still 1.  The count is taken
    while the reply is not yet marked. *)
Lemma delete_reply_keeps_replies_count :
  let db1 := run (save_to_inbox example_env reply_create alice) post_db in
  let db2 := run (save_to_inbox example_env reply_delete alice) db1 in
  map OutboxObject.replies_count (outbox db1) = [1%Z]
  /\ map (fun o => (InboxObject.ap_id o, InboxObject.is_deleted o)) (inbox db2)
     = [("https://remote.example/c1", false); (reply_id, true);
        ("https://remote.example/d1", false)]
  /\ _get_replies_count db2 post_id = 0%Z
  /\ map OutboxObject.replies_count (outbox db2) = [1%Z].
Proof. vm_compute. repeat split. Qed.

(** The outbound path counts after marking: deleting a local reply to a
    remote note brings the note's [replies_count] from 1 to the live count 0. *)
Lemma send_delete_recounts_replies :
  let db := run (send_delete example_env my_reply_id) my_reply_db in
  map (fun o => (InboxObject.ap_id o, InboxObject.replies_count o)) (inbox my_reply_db)
  = [("https://remote.example/a1", 0%Z); (hello_id, 1%Z)]
  /\ map (fun o => (InboxObject.ap_id o, InboxObject.replies_count o)) (inbox db)
     = [("https://remote.example/a1", 0%Z); (hello_id, 0%Z)]
  /\ _get_replies_count db hello_id = 0%Z.
Proof. vm_compute. repeat split. Qed.

(** C4 fails on the code: after an Announce of the local post and the Delete
    of that Announce, the Announce is marked deleted but the post's
    [announces_count] is still 1; the same steps with a Like bring
    [likes_count] back to 0. *)
Lemma delete_announce_keeps_announces_count :
  let db1 := run (save_to_inbox example_env post_announce bob) post_db in
  let db2 := run (save_to_inbox example_env post_announce_delete bob) db1 in
  let db3 := run (save_to_inbox example_env post_like bob) post_db in
  let db4 := run (save_to_inbox example_env post_like_delete bob) db3 in
  map OutboxObject.announces_count (outbox db1) = [1%Z]
  /\ map (fun o => (InboxObject.ap_id o, InboxObject.ap_type o, InboxObject.is_deleted o))
         (inbox db2)
     = [(announce_id, "Announce", true); ("https://remote.example/d2", "Delete", false)]
  /\ map OutboxObject.announces_count (outbox db2) = [1%Z]
  /\ map OutboxObject.likes_count (outbox db3) = [1%Z]
  /\ map OutboxObject.likes_count (outbox db4) = [0%Z].
Proof. vm_compute. repeat split. Qed.

(** C3 as stated fails: the Delete of a remote note marks the note and the
    local Like of it, but the stored inbound Announce pointing at the note
    stays live. *)
Lemma delete_keeps_inbound_announce :
  let db := run (save_to_inbox example_env hello_delete alice) hello_db in
  (exists note, In note (inbox db) /\ InboxObject.ap_id note = hello_id
                /\ InboxObject.is_deleted note = true)
  /\ (exists o, In o (inbox db) /\ InboxObject.ap_type o = "Announce"
                /\ InboxObject.activity_object_ap_id o = Some hello_id
                /\ InboxObject.is_deleted o = false)
  /\ map (fun o => (OutboxObject.ap_type o, OutboxObject.is_deleted o)) (outbox db)
     = [("Like", true)].
Proof.
  vm_compute. split; [|split; [|reflexivity]].
  - eexists. split; [right; left; reflexivity|]. split; reflexivity.
  - eexists. split; [right; right; left; reflexivity|]. repeat split.
Qed.

Lemma _handle_delete_activity_cascade_witness :
  exists db',
    _handle_delete_activity example_env (person 1 alice) hello_delete_row (Some hello_row)
      None hello_db = Ok tt db'
    /\ cascaded hello_id db'.
Proof.
  destruct (@_handle_delete_activity_cascade example_env (person 1 alice)
              hello_delete_row hello_row None hello_db) as (Hreturns & Hcascade & _).
  - reflexivity.
  - destruct (Hreturns eq_refl) as (db' & E). exists db'. split; [exact E|].
    exact (proj1 (Hcascade db' E)).
Defined.

(** Whatever is deleted, an Announce included, the reversion leaves every
    [announces_count] as it was: the branch that would decrement it tests for
    the type ["Annouce"]. *)
Lemma _revert_side_effect_keeps_announces_count (env : Env)
  (delete_activity deleted : InboxObject.t) (forwarded_by_actor : option Actor.t)
  (db : DB) :
  InboxObject.ap_type deleted = "Announce" ->
  map OutboxObject.announces_count
      (outbox (state_of (_revert_side_effect_for_deleted_object env delete_activity
                           deleted forwarded_by_actor db)))
  = map OutboxObject.announces_count (outbox db).
Proof.
  intros Htype.
  apply (@stable_state_of _
           (fun d => map OutboxObject.announces_count (outbox d)
                     = map OutboxObject.announces_count (outbox db)));
    [|reflexivity].
  apply (@stable__revert_side_effect_for_deleted_object env unit _
           (fun _ => tt) OutboxObject.announces_count);
    try (intros; reflexivity); try (intros; assumption).
  - intros d g Hg Hd. cbn. rewrite map_map, <- Hd. apply map_ext. exact Hg.
  - rewrite Htype. discriminate.
Qed.

(** ** The reply tree *)

Lemma nodes_by_in_reply_to_None (nodes : list AnyboxObject) :
  nodes_by_in_reply_to nodes None = filter has_no_parent nodes.
Proof.
  unfold nodes_by_in_reply_to. apply filter_ext. intros n.
  unfold has_no_parent. now destruct (anybox_in_reply_to n).
Qed.

Lemma insert_by_head (A : Type) (key : A -> Z) (x : A) (l : list A) :
  hd_error (insert_by key x l)
  = match hd_error l with
    | None => Some x
    | Some y => if (key x <=? key y)%Z then Some x else Some y
    end.
Proof. destruct l as [|y l]; cbn; [reflexivity|]. now destruct (key x <=? key y)%Z. Qed.

Lemma sorted_head_earliest (A : Type) (key : A -> Z) (l : list A) :
  l <> [] ->
  exists m, hd_error (sorted key l) = Some m /\ In m l
            /\ forall n, In n l -> (key m <= key n)%Z.
Proof.
  induction l as [|x l IH]; [congruence|]. intros _.
  unfold sorted. cbn [fold_right]. fold (sorted key l). rewrite insert_by_head.
  destruct l as [|y l'].
  - cbn. exists x. repeat split; [now left|]. intros n [->|[]]. lia.
  - destruct IH as (m & Hm & Hin & Hmin); [discriminate|]. rewrite Hm.
    destruct (Z.leb_spec (key x) (key m)).
    + exists x. repeat split; [now left|]. intros n [->|Hn]; [lia|].
      specialize (Hmin n Hn). lia.
    + exists m. repeat split; [now right|]. intros n [->|Hn]; [lia|].
      now apply Hmin.
Qed.

Lemma collect_error (A B : Type) (f : A -> Exn + B) (l : list A) (e : Exn) :
  collect f l = inl e -> exists x, In x l /\ f x = inl e.
Proof.
  induction l as [|x l IH]; cbn; [discriminate|].
  destruct (f x) as [e'|y] eqn:Hx.
  - intros [= ->]. exists x. split; [now left|exact Hx].
  - destruct (collect f l) as [e'|ys]; [|discriminate].
    intros [= ->]. destruct IH as (z & Hz & Hfz); [reflexivity|].
    exists z. split; [now right|exact Hfz].
Qed.

Lemma collect_total (A B : Type) (f : A -> Exn + B) (l : list A) :
  (forall x, In x l -> exists y, f x = inr y) -> exists ys, collect f l = inr ys.
Proof.
  induction l as [|x l IH]; intros H; cbn; [now exists []|].
  destruct (H x (or_introl eq_refl)) as (y & ->).
  destruct IH as (ys & ->); [intros z Hz; apply H; now right|].
  now exists (y :: ys).
Qed.

Lemma _get_reply_node_children_error (depth : nat) (requested_ap_id : string)
  (nodes : list AnyboxObject) (node_ap_id : string) (e : Exn) :
  _get_reply_node_children depth requested_ap_id nodes node_ap_id = inl e ->
  e = RecursionError.
Proof.
  revert node_ap_id. induction depth as [|depth IH]; intros node_ap_id;
    cbn [_get_reply_node_children].
  - now intros [= <-].
  - destruct (collect _ _) as [e'|children] eqn:Hc; [|discriminate].
    intros [= ->]. apply collect_error in Hc. destruct Hc as (child & _ & Hchild).
    destruct (_get_reply_node_children depth requested_ap_id nodes (anybox_ap_id child))
      as [e'|g] eqn:Hg; [|discriminate].
    injection Hchild as ->. now apply IH in Hg.
Qed.

Lemma _get_reply_node_children_total (requested_ap_id : string)
  (nodes : list AnyboxObject) (rank : string -> nat) :
  ranked nodes rank ->
  forall (depth : nat) (node_ap_id : string),
    rank node_ap_id < depth ->
    exists children,
      _get_reply_node_children depth requested_ap_id nodes node_ap_id = inr children.
Proof.
  intros Hrank. induction depth as [|depth IH]; intros node_ap_id Hlt; [lia|].
  cbn [_get_reply_node_children].
  destruct (@collect_total _ _
              (fun child =>
                 match _get_reply_node_children depth requested_ap_id nodes
                         (anybox_ap_id child) with
                 | inl e => inl e
                 | inr grandchildren =>
                     inr (mkReplyTreeNode child grandchildren
                            (anybox_ap_id child =? requested_ap_id) false)
                 end)
              (nodes_by_in_reply_to nodes (Some node_ap_id))) as (children & ->).
  - intros child Hin. unfold nodes_by_in_reply_to in Hin. apply filter_In in Hin.
    destruct Hin as (Hin & Hparent).
    assert (anybox_in_reply_to child = Some node_ap_id) as Hp.
    { destruct (anybox_in_reply_to child) as [p|]; [|discriminate].
      cbn in Hparent. apply String.eqb_eq in Hparent. now subst. }
    destruct (IH (anybox_ap_id child)) as (g & ->).
    + specialize (Hrank child node_ap_id Hin Hp). lia.
    + eauto.
  - eauto.
Qed.

Section ReplyTree.

Variable env : Env.

Lemma get_replies_tree_from_root (requested_object : AnyboxObject)
  (is_current_user_admin : bool) (db : DB) (root : AnyboxObject) :
  let nodes := tree_nodes_of db requested_object is_current_user_admin in
  length (filter has_no_parent nodes) <= 1 ->
  root_ap_object_of nodes = Some root ->
  builds_tree_from env requested_object is_current_user_admin db root.
Proof.
  intros nodes Hlen Hroot. unfold builds_tree_from, get_replies_tree, bind, get.
  fold nodes. rewrite nodes_by_in_reply_to_None.
  destruct (Nat.ltb_spec 1 (length (filter has_no_parent nodes))) as [Hlt|_]; [lia|].
  rewrite Hroot. split.
  - destruct (_get_reply_node_children _ _ _ _) as [e|children] eqn:Hc; cbn.
    + split; [reflexivity|]. now apply _get_reply_node_children_error in Hc.
    + repeat split.
  - intros rank Hrank Hlimit.
    destruct (@_get_reply_node_children_total (anybox_ap_id requested_object) nodes
                rank Hrank (recursion_limit env) (anybox_ap_id root) Hlimit)
      as (children & ->).
    now exists children.
Qed.

(** C10: with more than one parentless node among the candidates,
    [get_replies_tree] raises an error and returns no tree; with exactly one,
    that node is the root of the tree; with none, the earliest published
    candidate is (no candidate at all is an [IndexError]). *)
Theorem get_replies_tree_root (requested_object : AnyboxObject)
  (is_current_user_admin : bool) (db : DB) :
  let nodes := tree_nodes_of db requested_object is_current_user_admin in
  (1 < length (filter has_no_parent nodes) ->
   get_replies_tree env requested_object is_current_user_admin db
   = Raise (ValueError "Invalid replies tree") db)
  /\ (forall root,
        filter has_no_parent nodes = [root] ->
        builds_tree_from env requested_object is_current_user_admin db root)
  /\ (filter has_no_parent nodes = [] -> nodes <> [] ->
      exists root,
        earliest_published root nodes
        /\ builds_tree_from env requested_object is_current_user_admin db root)
  /\ (nodes = [] ->
      get_replies_tree env requested_object is_current_user_admin db
      = Raise IndexError db).
Proof.
  intros nodes. split; [|split; [|split]].
  - intros Hmany. unfold get_replies_tree, bind, get. fold nodes.
    rewrite nodes_by_in_reply_to_None.
    destruct (Nat.ltb_spec 1 (length (filter has_no_parent nodes))); [reflexivity|lia].
  - intros root Hone. apply get_replies_tree_from_root; fold nodes.
    + rewrite Hone. cbn. lia.
    + unfold root_ap_object_of. now rewrite nodes_by_in_reply_to_None, Hone.
  - intros Hnone Hnodes.
    destruct (@sorted_head_earliest _ anybox_ap_published_at nodes Hnodes)
      as (root & Hhead & Hin & Hmin).
    exists root. split; [now split|].
    apply get_replies_tree_from_root; fold nodes.
    + rewrite Hnone. cbn. lia.
    + unfold root_ap_object_of. now rewrite nodes_by_in_reply_to_None, Hnone.
  - intros Hempty. unfold get_replies_tree, bind, get. fold nodes.
    rewrite Hempty. reflexivity.
Qed.

End ReplyTree.

Lemma get_replies_tree_root_witness :
  exists children,
    get_replies_tree example_env (FromInbox thread_reply) false thread_db
    = Ok (mkReplyTreeNode (FromInbox thread_root) children false true) thread_db.
Proof.
  destruct (@get_replies_tree_root example_env (FromInbox thread_reply) false thread_db)
    as (_ & Hone & _).
  destruct (Hone (FromInbox thread_root) eq_refl) as (_ & Hreturns).
  apply (Hreturns thread_rank); [|cbn; lia].
  intros child parent_id Hin Hparent.
  destruct Hin as [<-|[<-|[<-|[]]]]; cbn in Hparent; inversion Hparent; subst;
    cbn; lia.
Defined.

(** ** Polls *)

Lemma for_each_new_outgoing_activity (recipients : list string)
  (outbox_object_id inbox_object_id : option nat) (db : DB) :
  for_each recipients
    (fun rcp => new_outgoing_activity rcp outbox_object_id inbox_object_id) db
  = Ok tt (set_outgoing_activities
             (outgoing_activities db
              ++ map (fun rcp => OutgoingActivity.mk rcp outbox_object_id
                                   inbox_object_id None) recipients)%list db).
Proof.
  revert db. induction recipients as [|rcp l IH]; intros db; cbn [for_each map].
  - rewrite app_nil_r. now destruct db.
  - unfold bind. cbn [new_outgoing_activity modify]. rewrite IH. cbn.
    now rewrite <- app_assoc.
Qed.

(** ** Recipients *)

Lemma bind_Ok_inv (A B : Type) (c : M A) (k : A -> M B) (db db' : DB) (b : B) :
  bind c k db = Ok b db' -> exists a db1, c db = Ok a db1 /\ k a db1 = Ok b db'.
Proof.
  unfold bind. destruct (c db) as [a db1|e db1]; [|discriminate].
  intros H. now exists a, db1.
Qed.

Lemma find_app_Some (A : Type) (p : A -> bool) (l l' : list A) (x : A) :
  find p l = Some x -> find p (l ++ l') = Some x.
Proof.
  induction l as [|y l IH]; cbn; [discriminate|]. now destruct (p y).
Qed.

Lemma load_actor_inv (i : nat) (a : Actor.t) (db db' : DB) :
  load_actor i db = Ok a db' -> find_actor_by_id db i = Some a /\ db = db'.
Proof.
  unfold load_actor, bind, get. destruct (find_actor_by_id db i); [|discriminate].
  intros H. now injection H as -> ->.
Qed.

Lemma mem_string_In (x : string) (l : list string) : mem_string x l = true <-> In x l.
Proof.
  unfold mem_string. rewrite existsb_exists. split.
  - intros (y & Hy & E). apply String.eqb_eq in E. now subst.
  - intros H. exists x. split; [exact H|apply String.eqb_refl].
Qed.

Lemma set_add_In (x y : string) (s : list string) : In y (set_add x s) <-> In y s \/ y = x.
Proof.
  unfold set_add. destruct (mem_string x s) eqn:E.
  - apply mem_string_In in E. split; [now left|]. intros [H| ->]; assumption.
  - rewrite in_app_iff. cbn. intuition.
Qed.

Lemma set_add_NoDup (x : string) (s : list string) : NoDup s -> NoDup (set_add x s).
Proof.
  intros H. unfold set_add. destruct (mem_string x s) eqn:E; [exact H|].
  apply NoDup_app.
  - exact H.
  - repeat constructor. intros [].
  - intros y Hy [<-|[]]. apply mem_string_In in Hy. congruence.
Qed.

Lemma fold_set_add_In (A : Type) (f : A -> string) (l : list A) (acc : list string)
  (x : string) :
  In x (fold_left (fun recipients a => set_add (f a) recipients) l acc)
  <-> In x acc \/ exists a, In a l /\ f a = x.
Proof.
  revert acc. induction l as [|a l IH]; intros acc; cbn [fold_left].
  - split; [now left|]. intros [H|(a & [] & _)]. exact H.
  - rewrite IH, set_add_In. split.
    + intros [[H| ->]|(b & Hb & E)].
      * now left.
      * right. exists a. split; [now left|reflexivity].
      * right. exists b. split; [now right|exact E].
    + intros [H|(b & [<-|Hb] & E)].
      * left. now left.
      * left. right. now symmetry.
      * right. now exists b.
Qed.

Lemma fold_set_add_NoDup (A : Type) (f : A -> string) (l : list A) (acc : list string) :
  NoDup acc -> NoDup (fold_left (fun recipients a => set_add (f a) recipients) l acc).
Proof.
  revert acc. induction l as [|a l IH]; intros acc H; cbn [fold_left]; [exact H|].
  apply IH. now apply set_add_NoDup.
Qed.

Lemma Forall2_In_r (A B : Type) (R : A -> B -> Prop) (l : list A) (l' : list B) (y : B) :
  Forall2 R l l' -> In y l' -> exists x, In x l /\ R x y.
Proof.
  induction 1 as [|a b l l' Hab _ IH]; [intros []|].
  intros [<-|Hy].
  - exists a. split; [now left|exact Hab].
  - destruct (IH Hy) as (x & Hx & Hxy). exists x. split; [now right|exact Hxy].
Qed.

Lemma Forall2_In_l (A B : Type) (R : A -> B -> Prop) (l : list A) (l' : list B) (x : A) :
  Forall2 R l l' -> In x l -> exists y, In y l' /\ R x y.
Proof.
  induction 1 as [|a b l l' Hab _ IH]; [intros []|].
  intros [<-|Hx].
  - exists b. split; [now left|exact Hab].
  - destruct (IH Hx) as (y & Hy & Hxy). exists y. split; [now right|exact Hxy].
Qed.

Lemma prefix_app (s t : string) : prefix s (s ++ t) = true.
Proof.
  induction s as [|c s IH]; cbn; [now destruct t|].
  destruct (Ascii.ascii_dec c c) as [_|Hc]; [exact IH|contradiction].
Qed.

Lemma load_follower_actors_inv (l : list Follower.t) (db db' : DB)
  (loaded : list Actor.t) :
  load_follower_actors l db = Ok loaded db' ->
  db' = db
  /\ Forall2 (fun f a => find_actor_by_id db (Follower.actor_id f) = Some a) l loaded.
Proof.
  revert loaded db'. induction l as [|f l IH]; intros loaded db' H;
    cbn [load_follower_actors] in H.
  - injection H as <- <-. split; [reflexivity|constructor].
  - apply bind_Ok_inv in H as (a & d1 & Hload & H).
    apply load_actor_inv in Hload as (Hfound & <-).
    apply bind_Ok_inv in H as (rest & d2 & Hrest & H).
    apply IH in Hrest as (-> & Hall). injection H as <- <-.
    split; [reflexivity|now constructor].
Qed.

Section Recipients.

Variable env : Env.

Lemma save_actor_appends (ap_actor : RawObject) (a : Actor.t) (db db' : DB) :
  save_actor ap_actor db = Ok a db' ->
  followers db' = followers db /\ actors db' = (actors db ++ [a])%list.
Proof.
  unfold save_actor. destruct (negb _); [discriminate|].
  unfold get_id. destruct (raw_id ap_actor) as [ap_id|]; [|discriminate].
  unfold bind at 1, ret at 1. unfold bind at 1, get.
  destruct (existsb _ _); [discriminate|].
  unfold bind, modify, ret. intros H. injection H as <- <-. split; reflexivity.
Qed.

(** One addressee: the recipients found so far are kept, without
    duplicates; the directory can only grow; a known actor and the followers
    are added by the shared inbox of their actor row. *)
Lemma compute_recipient_inv (r : string) (acc acc' : list string) (db db' : DB) :
  compute_recipient env r acc db = Ok acc' db' ->
  NoDup acc ->
  NoDup acc' /\ incl acc acc'
  /\ followers db' = followers db
  /\ (exists extra, actors db' = (actors db ++ extra)%list)
  /\ (mem_string r [AS_PUBLIC; ID env] = true -> acc' = acc /\ db' = db)
  /\ (mem_string r [AS_PUBLIC; ID env] = false ->
      (prefix (BASE_URL env) r = false ->
       forall a, find_actor_by_ap_id db r = Some a ->
                 In (Actor.shared_inbox_url a) acc')
      /\ (r = BASE_URL env ++ "/followers" ->
          forall f a, In f (followers db) ->
                      find_actor_by_id db (Follower.actor_id f) = Some a ->
                      In (Actor.shared_inbox_url a) acc')).
Proof.
  intros H Hnodup. unfold compute_recipient in H.
  destruct (mem_string r [AS_PUBLIC; ID env]) eqn:Hskip.
  { injection H as <- <-. repeat split; try (exact Hnodup || discriminate || tauto).
    - apply incl_refl.
    - exists []. now rewrite app_nil_r. }
  destruct (prefix (BASE_URL env) r) eqn:Hlocal.
  - (* a local collection *)
    apply bind_Ok_inv in H as (documents & d1 & Hcollection & H).
    injection H as <- <-.
    unfold fetch_actor_collection in Hcollection. rewrite Hlocal in Hcollection.
    destruct (String.eqb_spec r (BASE_URL env ++ "/followers")) as [->|Hother];
      [|discriminate].
    unfold bind at 1, get in Hcollection.
    apply bind_Ok_inv in Hcollection as (loaded & d2 & Hloaded & Hcollection).
    apply load_follower_actors_inv in Hloaded as (-> & Hall).
    injection Hcollection as <- <-.
    split; [now apply fold_set_add_NoDup|].
    split; [intros x Hx; apply fold_set_add_In; now left|].
    split; [reflexivity|]. split; [exists []; now rewrite app_nil_r|].
    split; [discriminate|]. intros _. split; [discriminate|].
    intros _ f a Hf Ha. apply fold_set_add_In. right.
    unfold _get_followers in Hall.
    destruct (@Forall2_In_l _ _ _ _ _ f Hall Hf) as (a' & Hin & Hfound).
    rewrite Ha in Hfound. injection Hfound as <-.
    exists (Actor.ap_actor a). split; [now apply in_map|reflexivity].
  - (* a remote addressee *)
    unfold bind at 1, get in H.
    assert (forall t, BASE_URL env ++ t <> r) as Hremote.
    { intros t <-. now rewrite prefix_app in Hlocal. }
    destruct (find_actor_by_ap_id db r) as [known_actor|] eqn:Hknown.
    + injection H as <- <-.
      split; [now apply set_add_NoDup|].
      split; [intros x Hx; apply set_add_In; now left|].
      split; [reflexivity|]. split; [exists []; now rewrite app_nil_r|].
      split; [discriminate|]. intros _. split.
      * intros _ a [= <-]. apply set_add_In. now right.
      * intros ->. now destruct (Hremote "/followers").
    + apply bind_Ok_inv in H as (raw_object & d1 & Hfetch & H).
      assert (d1 = db) as ->.
      { unfold lift_fetch in Hfetch. destruct (fetch env r); [discriminate|].
        now injection Hfetch. }
      destruct (mem_string (raw_type raw_object) ACTOR_TYPES).
      * apply bind_Ok_inv in H as (saved_actor & d2 & Hsave & H).
        injection H as <- <-. apply save_actor_appends in Hsave as (Hf & Ha).
        split; [now apply set_add_NoDup|].
        split; [intros x Hx; apply set_add_In; now left|].
        split; [exact Hf|]. split; [now exists [saved_actor]|].
        split; [discriminate|]. intros _. split; [discriminate|].
        intros ->. now destruct (Hremote "/followers").
      * apply bind_Ok_inv in H as (raw_actors & d2 & Hparse & H).
        assert (d2 = db) as ->.
        { unfold lift_fetch in Hparse.
          destruct (parse_collection_payload env raw_object); [discriminate|].
          now injection Hparse. }
        injection H as <- <-.
        split; [now apply fold_set_add_NoDup|].
        split; [intros x Hx; apply fold_set_add_In; now left|].
        split; [reflexivity|]. split; [exists []; now rewrite app_nil_r|].
        split; [discriminate|]. intros _. split; [discriminate|].
        intros ->. now destruct (Hremote "/followers").
Qed.

Lemma compute_recipients_loop_inv (l : list string) :
  forall (acc recipients : list string) (db db' : DB),
    compute_recipients_loop env l acc db = Ok recipients db' ->
    NoDup acc ->
    NoDup recipients /\ incl acc recipients
    /\ followers db' = followers db
    /\ (exists extra, actors db' = (actors db ++ extra)%list)
    /\ ((forall r, In r l -> mem_string r [AS_PUBLIC; ID env] = true) ->
        recipients = acc /\ db' = db)
    /\ (forall r, In r l -> mem_string r [AS_PUBLIC; ID env] = false ->
          (prefix (BASE_URL env) r = false ->
           forall a, find_actor_by_ap_id db r = Some a ->
                     In (Actor.shared_inbox_url a) recipients)
          /\ (r = BASE_URL env ++ "/followers" ->
              forall f a, In f (followers db) ->
                          find_actor_by_id db (Follower.actor_id f) = Some a ->
                          In (Actor.shared_inbox_url a) recipients)).
Proof.
  induction l as [|r l IH]; intros acc recipients db db' H Hnodup;
    cbn [compute_recipients_loop] in H.
  - injection H as <- <-. repeat split; try (exact Hnodup || tauto).
    + apply incl_refl.
    + exists []. now rewrite app_nil_r.
    + destruct H.
    + destruct H.
  - apply bind_Ok_inv in H as (acc1 & d1 & Hone & H).
    apply compute_recipient_inv in Hone
      as (Hnodup1 & Hincl1 & Hf1 & (extra1 & Ha1) & Hskip1 & Hadd1); [|exact Hnodup].
    apply IH in H as (Hnodup2 & Hincl2 & Hf2 & (extra2 & Ha2) & Hskip2 & Hadd2);
      [|exact Hnodup1].
    split; [exact Hnodup2|].
    split; [intros x Hx; apply Hincl2, Hincl1, Hx|].
    split; [congruence|].
    split; [exists (extra1 ++ extra2)%list; now rewrite Ha2, Ha1, app_assoc|].
    split.
    + intros Hall. destruct (Hskip1 (Hall r (or_introl eq_refl))) as (-> & ->).
      apply Hskip2. intros r' Hr'. apply Hall. now right.
    + intros r' [<-|Hr'] Hdeliver.
      * destruct (Hadd1 Hdeliver) as (Hknown & Hfollowers). split.
        -- intros Hremote a Ha. apply Hincl2. now apply Hknown.
        -- intros Hr f a Hf Ha. apply Hincl2. now apply (Hfollowers Hr f a).
      * destruct (Hadd2 r' Hr' Hdeliver) as (Hknown & Hfollowers). split.
        -- intros Hremote a Ha. apply Hknown; [exact Hremote|].
           unfold find_actor_by_ap_id in *. rewrite Ha1. now apply find_app_Some.
        -- intros Hr f a Hf Ha. apply (Hfollowers Hr f a); [now rewrite Hf1|].
           unfold find_actor_by_id in *. rewrite Ha1. now apply find_app_Some.
Qed.

End Recipients.

Section Polls.

Variable env : Env.

Lemma _handle_vote_answer_ended (answer : InboxObject.t) (question : OutboxObject.t)
  (db : DB) :
  is_poll_ended env question = true ->
  _handle_vote_answer env answer question db = Ok tt db.
Proof. intros H. unfold _handle_vote_answer. now rewrite H. Qed.

Lemma _handle_vote_answer_undeclared (answer : InboxObject.t)
  (question : OutboxObject.t) (db : DB) :
  (forall name, raw_name (InboxObject.ap_object answer) = Some name ->
                mem_string name (map item_name (poll_items question)) = false) ->
  state_of (_handle_vote_answer env answer question db) = db.
Proof.
  intros H. unfold _handle_vote_answer.
  destruct (is_poll_ended env question); [reflexivity|].
  destruct (poll_items question) as [|item items] eqn:Hitems; [reflexivity|].
  destruct (raw_name (InboxObject.ap_object answer)) as [name|]; [|reflexivity].
  now rewrite (H name eq_refl).
Qed.

(** The store right after a valid answer has been recorded and the question
    rewritten, before the recipients are resolved. *)
Lemma _handle_vote_answer_valid (answer : InboxObject.t) (question : OutboxObject.t)
  (name : string) (db : DB) :
  is_poll_ended env question = false ->
  raw_name (InboxObject.ap_object answer) = Some name ->
  mem_string name (map item_name (poll_items question)) = true ->
  exists (doc : RawObject) (mid : DB),
    _handle_vote_answer env answer question db
    = (recipients <- _compute_recipients env doc ;;
       for_each recipients (fun rcp =>
         new_outgoing_activity rcp (Some (OutboxObject.id question)) None)) mid
    /\ poll_answers mid
       = (poll_answers db
          ++ [PollAnswer.mk (OutboxObject.id question)
                (if is_one_of_poll question then "oneOf" else "anyOf")
                (InboxObject.id answer) (InboxObject.actor_id answer) name])%list
    /\ outbox mid
       = map (fun o => if Nat.eqb (OutboxObject.id o) (OutboxObject.id question)
                       then OutboxObject.set_ap_object doc o else o) (outbox db)
    /\ outgoing_activities mid = outgoing_activities db
    /\ raw_votersCount doc = Some (distinct_voters mid (OutboxObject.id question))
    /\ (if is_one_of_poll question then raw_oneOf doc else raw_anyOf doc)
       = map (fun item =>
                mkPollItem (item_name item)
                  (votes_for mid (OutboxObject.id question) (item_name item)))
             (poll_items question)
    /\ (is_one_of_poll question = false -> raw_oneOf doc = [])
    /\ addressees doc = addressees (OutboxObject.ap_object question)
    /\ actors mid = actors db /\ followers mid = followers db.
Proof.
  intros Hopen Hname Hdeclared. unfold _handle_vote_answer.
  rewrite Hopen, Hname.
  destruct (poll_items question) as [|item items] eqn:Hitems; [discriminate|].
  rewrite Hdeclared. cbn [negb].
  cbn [bind update_inbox_object update_outbox_object modify flush get ret].
  match goal with
  | |- context [bind (_compute_recipients env ?d) _ ?s] => exists d, s
  end.
  split; [reflexivity|]. split; [reflexivity|]. split; [reflexivity|].
  split; [reflexivity|]. split; [reflexivity|]. split; [|split; [|split]].
  - destruct (is_one_of_poll question); reflexivity.
  - intros Hany. rewrite Hany. cbn.
    unfold is_one_of_poll in Hany.
    now destruct (raw_oneOf (OutboxObject.ap_object question)).
  - reflexivity.
  - split; reflexivity.
Qed.

Lemma compute_recipients_loop_known (l : list string) (db : DB) :
  (forall r, In r l -> resolves_locally env db r) ->
  forall recipients,
    exists recipients',
      compute_recipients_loop env l recipients db = Ok recipients' db
      /\ forall rcp,
           In rcp recipients'
           <-> In rcp recipients
               \/ exists r a,
                    In r l /\ mem_string r [AS_PUBLIC; ID env] = false
                    /\ find_actor_by_ap_id db r = Some a
                    /\ Actor.shared_inbox_url a = rcp.
Proof.
  induction l as [|r l IH]; intros Hl recipients; cbn [compute_recipients_loop].
  - exists recipients. split; [reflexivity|]. intros rcp. split; [now left|].
    intros [H|(r & a & [] & _)]. exact H.
  - assert (forall r', In r' l -> resolves_locally env db r') as Hl'
      by (intros r' Hr'; apply Hl; now right).
    unfold bind, compute_recipient.
    destruct (mem_string r [AS_PUBLIC; ID env]) eqn:Hskip.
    + cbn. destruct (IH Hl' recipients) as (recipients' & -> & Hiff).
      exists recipients'. split; [reflexivity|]. intros rcp. rewrite Hiff.
      split; (intros [H|(r' & a & Hin & Hm & Hrest)]; [now left|right]).
      * exists r', a. split; [now right|]. now split.
      * destruct Hin as [<-|Hin]; [congruence|]. exists r', a. now split.
    + destruct (Hl r (or_introl eq_refl)) as [Hpub|(Hremote & a & Ha)]; [congruence|].
      rewrite Hremote. cbn. rewrite Ha. cbn.
      destruct (IH Hl' (set_add (Actor.shared_inbox_url a) recipients))
        as (recipients' & -> & Hiff).
      exists recipients'. split; [reflexivity|]. intros rcp. rewrite Hiff, set_add_In.
      split.
      * intros [[H| ->]|(r' & a' & Hin & Hrest)].
        -- now left.
        -- right. exists r, a. split; [now left|]. now split.
        -- right. exists r', a'. split; [now right|exact Hrest].
      * intros [H|(r' & a' & [<-|Hin] & Hm & Hfound & Hrcp)].
        -- left. now left.
        -- left. right. rewrite Ha in Hfound. injection Hfound as <-. now symmetry.
        -- right. exists r', a'. now split.
Qed.

(** C8: an answer arriving after the end time, or naming no declared
    option, records no PollAnswer and leaves the store, tallies included, as
    it was; a valid answer records a PollAnswer and rewrites the question so
    that [votersCount] is the number of distinct voting actors and each
    option's [totalItems] the number of recorded answers naming it, then
    enqueues the updated question once for each recipient that
    [_compute_recipients] draws from the addressing of the question: among
    them the shared inbox of every addressed actor of the directory and,
    when the followers collection is addressed, of every follower; when
    every addressee is the public collection, the local actor or an actor
    of the directory, the handler returns and the recipients are exactly
    the shared inboxes of the addressed actors of the directory. *)
Theorem _handle_vote_answer_tallies (answer : InboxObject.t) (question : OutboxObject.t)
  (db : DB) :
  (is_poll_ended env question = true ->
   _handle_vote_answer env answer question db = Ok tt db)
  /\ ((forall name, raw_name (InboxObject.ap_object answer) = Some name ->
                    mem_string name (map item_name (poll_items question)) = false) ->
      state_of (_handle_vote_answer env answer question db) = db)
  /\ (forall name,
        is_poll_ended env question = false ->
        raw_name (InboxObject.ap_object answer) = Some name ->
        mem_string name (map item_name (poll_items question)) = true ->
        In question (outbox db) ->
        let after := state_of (_handle_vote_answer env answer question db) in
        poll_answers after
        = (poll_answers db
           ++ [PollAnswer.mk (OutboxObject.id question)
                 (if is_one_of_poll question then "oneOf" else "anyOf")
                 (InboxObject.id answer) (InboxObject.actor_id answer) name])%list
        /\ (exists stored, In stored (outbox after)
                           /\ OutboxObject.id stored = OutboxObject.id question)
        /\ (forall stored,
              In stored (outbox after) ->
              OutboxObject.id stored = OutboxObject.id question ->
              raw_votersCount (OutboxObject.ap_object stored)
              = Some (distinct_voters after (OutboxObject.id question))
              /\ poll_items stored
                 = map (fun item =>
                          mkPollItem (item_name item)
                            (votes_for after (OutboxObject.id question) (item_name item)))
                       (poll_items question))
        /\ (forall db',
              _handle_vote_answer env answer question db = Ok tt db' ->
              exists recipients,
                outgoing_activities db'
                = (outgoing_activities db
                   ++ map (fun rcp => OutgoingActivity.mk rcp
                                        (Some (OutboxObject.id question)) None None)
                          recipients)%list
                /\ NoDup recipients
                /\ (forall r a,
                      In r (addressees (OutboxObject.ap_object question)) ->
                      mem_string r [AS_PUBLIC; ID env] = false ->
                      prefix (BASE_URL env) r = false ->
                      find_actor_by_ap_id db r = Some a ->
                      In (Actor.shared_inbox_url a) recipients)
                /\ (In (BASE_URL env ++ "/followers")
                       (addressees (OutboxObject.ap_object question)) ->
                    mem_string (BASE_URL env ++ "/followers") [AS_PUBLIC; ID env]
                    = false ->
                    forall f a,
                      In f (followers db) ->
                      find_actor_by_id db (Follower.actor_id f) = Some a ->
                      In (Actor.shared_inbox_url a) recipients))
        /\ ((forall r, In r (addressees (OutboxObject.ap_object question)) ->
                       resolves_locally env db r) ->
            exists db' recipients,
              _handle_vote_answer env answer question db = Ok tt db'
              /\ outgoing_activities db'
                 = (outgoing_activities db
                    ++ map (fun rcp => OutgoingActivity.mk rcp
                                         (Some (OutboxObject.id question)) None None)
                           recipients)%list
              /\ forall rcp,
                   In rcp recipients
                   <-> exists r a,
                         In r (addressees (OutboxObject.ap_object question))
                         /\ mem_string r [AS_PUBLIC; ID env] = false
                         /\ find_actor_by_ap_id db r = Some a
                         /\ Actor.shared_inbox_url a = rcp)).
Proof.
  split; [apply _handle_vote_answer_ended|].
  split; [apply _handle_vote_answer_undeclared|].
  intros name Hopen Hname Hdeclared Hstored after.
  destruct (@_handle_vote_answer_valid answer question name db Hopen Hname Hdeclared)
    as (doc & mid & Hrun & Hanswers & Houtbox & Houtgoing & Hvoters & Hitems & Hany
        & Haddr & Hactors & Hfollowers).
  assert (poll_answers after = poll_answers mid /\ outbox after = outbox mid) as (Ea & Eo).
  { unfold after. rewrite Hrun.
    apply (@stable_state_of _
             (fun d => poll_answers d = poll_answers mid /\ outbox d = outbox mid));
      [|now split].
    apply stable_bind.
    - apply stable__compute_recipients; intros d x H; exact H.
    - intros rcps. apply stable_for_each. intros rcp.
      apply stable_new_outgoing_activity. intros d x H. exact H. }
  assert (distinct_voters after (OutboxObject.id question)
          = distinct_voters mid (OutboxObject.id question)) as Ev
      by (unfold distinct_voters, answers_of; now rewrite Ea).
  assert (forall option, votes_for after (OutboxObject.id question) option
                         = votes_for mid (OutboxObject.id question) option) as Ef
      by (intros option; unfold votes_for, answers_of; now rewrite Ea).
  split; [now rewrite Ea|]. split; [|split; [|split]].
  - exists (OutboxObject.set_ap_object doc question). split; [|reflexivity].
    rewrite Eo, Houtbox. apply in_map_iff. exists question.
    split; [|exact Hstored]. now rewrite Nat.eqb_refl.
  - intros stored Hin Hid. rewrite Eo, Houtbox in Hin. apply in_map_iff in Hin.
    destruct Hin as (o & Ho & _).
    destruct (Nat.eqb_spec (OutboxObject.id o) (OutboxObject.id question)) as [_|Hne].
    2:{ exfalso. apply Hne. now rewrite Ho. }
    subst stored. cbn [OutboxObject.set_ap_object OutboxObject.ap_object].
    split; [now rewrite Ev|].
    rewrite (map_ext _ _ (fun item => f_equal (mkPollItem (item_name item))
                                        (Ef (item_name item)))).
    unfold poll_items at 1.
    cbn [OutboxObject.set_ap_object OutboxObject.ap_object].
    revert Hitems Hany. destruct (is_one_of_poll question); intros Hitems Hany.
    + rewrite <- Hitems. destruct (raw_oneOf doc) eqn:Hd; [|reflexivity].
      exfalso. symmetry in Hitems. apply map_eq_nil in Hitems.
      rewrite Hitems in Hdeclared. discriminate.
    + rewrite (Hany eq_refl). exact Hitems.
  - intros db' Hok. rewrite Hrun in Hok. unfold bind in Hok.
    pose proof (@stable_state_of _
                  (fun d => outgoing_activities d = outgoing_activities db)
                  (_compute_recipients env doc) mid) as Hrcp.
    destruct (_compute_recipients env doc mid) as [rcps db3|e db3] eqn:Hcomputed;
      [|discriminate].
    rewrite for_each_new_outgoing_activity in Hok. injection Hok as <-.
    exists rcps. split.
    { cbn. f_equal. apply Hrcp; [|exact Houtgoing].
      apply stable__compute_recipients; intros d x H; exact H. }
    unfold _compute_recipients in Hcomputed. fold (addressees doc) in Hcomputed.
    rewrite Haddr in Hcomputed.
    apply compute_recipients_loop_inv in Hcomputed
      as (Hnodup & _ & _ & _ & _ & Hadd); [|constructor].
    split; [exact Hnodup|]. split.
    + intros r a Hr Hdeliver Hremote Ha.
      apply (proj1 (Hadd r Hr Hdeliver) Hremote a).
      unfold find_actor_by_ap_id in *. now rewrite Hactors.
    + intros Hr Hdeliver f a Hf Ha.
      apply (proj2 (Hadd _ Hr Hdeliver) eq_refl f a); [now rewrite Hfollowers|].
      unfold find_actor_by_id in *. now rewrite Hactors.
  - intros Hknown. rewrite Hrun. unfold bind, _compute_recipients.
    fold (addressees doc). rewrite Haddr.
    destruct (@compute_recipients_loop_known
                (addressees (OutboxObject.ap_object question)) mid)
      with (recipients := @nil string) as (rcps & -> & Hiff).
    + intros r Hr. destruct (Hknown r Hr) as [Hpub|(Hremote & a & Ha)];
        [now left|right]. split; [exact Hremote|]. exists a.
      unfold find_actor_by_ap_id in *. now rewrite Hactors.
    + rewrite for_each_new_outgoing_activity. eexists. exists rcps.
      split; [reflexivity|]. split; [cbn; now rewrite Houtgoing|].
      intros rcp. rewrite Hiff. unfold find_actor_by_ap_id. rewrite Hactors.
      split; [intros [[]|H]; exact H|intros H; now right].
Qed.

End Polls.

Lemma _handle_vote_answer_tallies_witness :
  exists db' recipients,
    _handle_vote_answer example_env first_vote poll poll_db = Ok tt db'
    /\ outgoing_activities db'
       = (outgoing_activities poll_db
          ++ map (fun rcp => OutgoingActivity.mk rcp (Some (OutboxObject.id poll))
                               None None) recipients)%list
    /\ forall rcp,
         In rcp recipients
         <-> exists r a,
               In r (addressees (OutboxObject.ap_object poll))
               /\ mem_string r [AS_PUBLIC; ID example_env] = false
               /\ find_actor_by_ap_id poll_db r = Some a
               /\ Actor.shared_inbox_url a = rcp.
Proof.
  destruct (@_handle_vote_answer_tallies example_env first_vote poll poll_db)
    as (_ & _ & Hvalid).
  destruct (Hvalid "A" eq_refl eq_refl eq_refl (or_introl eq_refl))
    as (_ & _ & _ & _ & Hreturns).
  apply Hreturns. intros r Hr. cbn in Hr. destruct Hr as [<-|[<-|[]]].
  - left. reflexivity.
  - right. split; [reflexivity|]. eexists. reflexivity.
Defined.

(** Votes A, A and B from three actors, ingested as replies to the poll: three
    voters, two answers for A and one for B, each vote re-delivering the
    question; a vote after the end time and a vote for an undeclared option
    change neither the answers nor the question. *)
Lemma three_votes_tally :
  map (fun o => (raw_votersCount (OutboxObject.ap_object o),
                 raw_oneOf (OutboxObject.ap_object o))) (outbox voted_db)
  = [(Some 3%Z, [mkPollItem "A" 2%Z; mkPollItem "B" 1%Z])]
  /\ map (fun a => (PollAnswer.actor_id a, PollAnswer.name a)) (poll_answers voted_db)
     = [(1, "A"); (2, "A"); (3, "B")]
  /\ map OutgoingActivity.outbox_object_id (outgoing_activities voted_db)
     = [Some 1; Some 1; Some 1]
  /\ (let late := run (save_to_inbox late_env (vote "4" alice "B") alice) voted_db in
      poll_answers late = poll_answers voted_db /\ outbox late = outbox voted_db)
  /\ (let other := run (save_to_inbox example_env (vote "5" alice "C") alice) voted_db in
      poll_answers other = poll_answers voted_db /\ outbox other = outbox voted_db).
Proof. vm_compute. repeat split. Qed.

(** ** Stream eligibility *)


Lemma mem_string_map (A : Type) (f : A -> string) (x : string) (l : list A) :
  mem_string x (map f l) = existsb (fun y => f y =? x) l.
Proof.
  unfold mem_string. induction l as [|y l IH]; cbn; [reflexivity|].
  now rewrite IH, (String.eqb_sym x (f y)).
Qed.


Lemma find_app_fresh (A : Type) (p : A -> bool) (l : list A) (x : A) :
  existsb p l = false -> p x = true -> find p (l ++ [x]) = Some x.
Proof.
  induction l as [|y l IH]; cbn; intros Hl Hx.
  - now rewrite Hx.
  - destruct (p y); [discriminate|]. now apply IH.
Qed.

Lemma find_map_key (A : Type) (p : A -> bool) (g : A -> A) (l : list A) :
  (forall o, p (g o) = p o) -> find p (map g l) = option_map g (find p l).
Proof.
  intros Hg. induction l as [|y l IH]; cbn; [reflexivity|].
  rewrite Hg. now destruct (p y).
Qed.

Section StreamEligibility.

Variable env : Env.

Lemma stored_with_hidden_inbox_map (ap_id : string) (hidden : bool) (db : DB)
  (g : InboxObject.t -> InboxObject.t) :
  (forall o, stream_key (g o) = stream_key o) ->
  stored_with_hidden ap_id hidden db ->
  stored_with_hidden ap_id hidden (set_inbox (map g (inbox db)) db).
Proof.
  intros Hg (row & Hfind & Hhidden). exists (g row).
  assert (forall o, InboxObject.ap_id (g o) = InboxObject.ap_id o
                    /\ InboxObject.is_hidden_from_stream (g o)
                       = InboxObject.is_hidden_from_stream o) as Hk.
  { intros o. specialize (Hg o). unfold stream_key in Hg. injection Hg as E1 E2.
    now split. }
  split.
  - unfold get_inbox_object_by_ap_id in *. cbn. rewrite find_map_key.
    + now rewrite Hfind.
    + intros o. now rewrite (proj1 (Hk o)).
  - now rewrite (proj2 (Hk row)).
Qed.

Lemma stored_with_hidden_inbox_app (ap_id : string) (hidden : bool) (db : DB)
  (row : InboxObject.t) :
  stored_with_hidden ap_id hidden db ->
  stored_with_hidden ap_id hidden (set_inbox (inbox db ++ [row]) db).
Proof.
  intros (r & Hfind & Hhidden). exists r. split; [|exact Hhidden].
  unfold get_inbox_object_by_ap_id in *. cbn. now apply find_app_Some.
Qed.

Lemma stable_stored_with_hidden (ap_id : string) (hidden : bool)
  (recurse : InboxObject.t -> Actor.t -> RemoteObject -> M InboxObject.t)
  (parent_activity : InboxObject.t) (from_actor : Actor.t) (ro : RemoteObject)
  (forwarded_by_actor : option Actor.t) (process_quoted_url is_mention : bool)
  (inbox_object : InboxObject.t) :
  (forall a b c, stable (stored_with_hidden ap_id hidden) (recurse a b c)) ->
  stable (stored_with_hidden ap_id hidden)
    (process_saved_note_with env recurse parent_activity from_actor ro
       forwarded_by_actor process_quoted_url is_mention inbox_object).
Proof.
  intros Hrec.
  apply (@stable_process_saved_note_with env _ unit stream_key (fun _ => tt));
    try (intros; reflexivity); try (intros db x H; exact H);
    try (intros db g _ H; exact H); try exact Hrec.
  apply stored_with_hidden_inbox_map.
Qed.

Lemma stable_stored_with_hidden_quoted (ap_id : string) (hidden : bool)
  (quoting : InboxObject.t) (quoted_object_actor : Actor.t) (quoted_ro : RemoteObject) :
  stable (stored_with_hidden ap_id hidden)
    (process_note_object_with env (fun _ _ _ => raise RecursionError)
       quoting quoted_object_actor quoted_ro None false).
Proof.
  apply (@stable_process_note_object_with env _ unit stream_key (fun _ => tt));
    try (intros; reflexivity); try (intros db x H; exact H);
    try (intros db g _ H; exact H).
  - apply stored_with_hidden_inbox_map.
  - apply stored_with_hidden_inbox_app.
  - intros a b c. apply stable_raise.
Qed.

Lemma process_saved_note_with_returns
  (recurse : InboxObject.t -> Actor.t -> RemoteObject -> M InboxObject.t)
  (parent_activity : InboxObject.t) (from_actor : Actor.t) (ro : RemoteObject)
  (forwarded_by_actor : option Actor.t) (process_quoted_url is_mention : bool)
  (inbox_object note : InboxObject.t) (db db' : DB) :
  process_saved_note_with env recurse parent_activity from_actor ro forwarded_by_actor
    process_quoted_url is_mention inbox_object db = Ok note db' ->
  note = inbox_object.
Proof.
  unfold process_saved_note_with. intros H.
  repeat (apply bind_Ok_inv in H; destruct H as (? & ? & _ & H)).
  now injection H as <-.
Qed.

Lemma stream_eligible_as_computed (db : DB) (ro : RemoteObject) :
  (negb (truthy (raw_inReplyTo (ro_ap_object ro)))
   && mem_string (Actor.ap_id (ro_actor ro))
                 (map Following.ap_actor_id (_get_following db)))
  || existsb (is_mention_tag env) (raw_tag (ro_ap_object ro))
  || (truthy (raw_inReplyTo (ro_ap_object ro))
      && prefix (BASE_URL env)
                (match raw_inReplyTo (ro_ap_object ro) with
                 | Some i => i
                 | None => ""
                 end)
      && truthy (raw_content (ro_ap_object ro)))
  = stream_eligible env db ro.
Proof.
  unfold stream_eligible, is_a_reply, author_is_followed, mentions_local_actor,
    replies_to_local_object_with_content, _get_following.
  rewrite mem_string_map. f_equal.
  now destruct (raw_inReplyTo (ro_ap_object ro)).
Qed.

(** C6: the InboxObject that [_process_note_object] materializes for a note,
    and that the inbox holds under the note's id when the call returns, has
    [is_hidden_from_stream] = NOT((not a reply AND author followed) OR
    mentions the local actor OR replies to a local object with content). *)
Theorem _process_note_object_stream_eligibility (parent_activity : InboxObject.t)
  (from_actor : Actor.t) (ro : RemoteObject) (forwarded_by_actor : option Actor.t)
  (process_quoted_url : bool) (db db' : DB) (note : InboxObject.t) :
  _process_note_object env parent_activity from_actor ro forwarded_by_actor
    process_quoted_url db = Ok note db' ->
  raw_id (ro_ap_object ro) = Some (InboxObject.ap_id note)
  /\ InboxObject.is_hidden_from_stream note = negb (stream_eligible env db ro)
  /\ stored_with_hidden (InboxObject.ap_id note) (negb (stream_eligible env db ro)) db'.
Proof.
  unfold _process_note_object, process_note_object_with. intros H.
  apply bind_Ok_inv in H. destruct H as (i & d1 & Hid & H).
  unfold get_id in Hid. destruct (raw_id (ro_ap_object ro)) as [ro_ap_id|] eqn:Hraw;
    [|discriminate]. injection Hid as <- <-.
  apply bind_Ok_inv in H. destruct H as (u & d2 & Hcheck & H).
  assert (d2 = db) as ->.
  { destruct (_ && _) in Hcheck; [now injection Hcheck|].
    destruct (negb _) in Hcheck; [discriminate|now injection Hcheck]. }
  cbv zeta in H. apply bind_Ok_inv in H. destruct H as (d0 & d3 & Hget & H).
  injection Hget as <- <-.
  apply bind_Ok_inv in H. destruct H as (conversation & d4 & Hconv & H).
  apply bind_Ok_inv in H. destruct H as (d5 & d6 & Hget & H).
  injection Hget as <- <-.
  apply bind_Ok_inv in H. destruct H as (row & d7 & Hadd & H).
  pose proof (process_saved_note_with_returns _ _ _ _ _ _ _ _ _ H) as ->.
  unfold add_inbox_object, bind, get in Hadd. cbn [InboxObject.ap_id] in Hadd.
  destruct (existsb _ (inbox d4)) eqn:Hfresh; [discriminate|].
  cbn in Hadd. injection Hadd as <- <-.
  cbn [InboxObject.ap_id InboxObject.is_hidden_from_stream].
  rewrite stream_eligible_as_computed.
  split; [reflexivity|]. split; [reflexivity|].
  match type of H with
  | ?c ?d = _ =>
      pose proof (@stable_state_of _
                    (stored_with_hidden ro_ap_id (negb (stream_eligible env db ro)))
                    c d) as Hs
  end.
  rewrite H in Hs. apply Hs.
  - apply stable_stored_with_hidden. intros a b c.
    apply stable_stored_with_hidden_quoted.
  - eexists. split.
    + unfold get_inbox_object_by_ap_id. cbn.
      apply find_app_fresh; [exact Hfresh|]. cbn. apply String.eqb_refl.
    + cbn [InboxObject.is_hidden_from_stream].
      now rewrite stream_eligible_as_computed.
Qed.

End StreamEligibility.

Lemma _process_note_object_stream_eligibility_witness :
  exists note db',
    _process_note_object example_env hello_create_row (person 1 alice) hello_ro None true
      following_alice_db = Ok note db'
    /\ InboxObject.is_hidden_from_stream note = false
    /\ stored_with_hidden hello_id false db'.
Proof.
  assert (exists note db',
             _process_note_object example_env hello_create_row (person 1 alice) hello_ro
               None true following_alice_db = Ok note db') as (note & db' & E)
      by (vm_compute; eauto).
  exists note, db'. split; [exact E|].
  destruct (@_process_note_object_stream_eligibility example_env hello_create_row
              (person 1 alice) hello_ro None true following_alice_db db' note E)
    as (Hid & Hhidden & Hstored).
  injection Hid as Hid. rewrite <- Hid in Hstored.
  split; [exact Hhidden|exact Hstored].
Defined.

(** ** Moves *)


Section Moves.

Variable env : Env.




Lemma allocate_outbox_id_Ok (db : DB) :
  allocate_outbox_id env db
  = Ok (uuid4_hex env (uuid_counter db)) (set_uuid_counter (S (uuid_counter db)) db).
Proof. reflexivity. Qed.

Lemma save_outbox_object_Ok (public_id : string) (raw_object : RawObject)
  (relates_to_inbox_object_id relates_to_outbox_object_id relates_to_actor_id : option nat)
  (source : option string) (is_transient : bool) (conversation : option string)
  (db db' : DB) (row : OutboxObject.t) :
  save_outbox_object env public_id raw_object relates_to_inbox_object_id
    relates_to_outbox_object_id relates_to_actor_id source is_transient conversation db
  = Ok row db' ->
  OutboxObject.id row = next_outbox_id db
  /\ OutboxObject.ap_type row = raw_type raw_object
  /\ db' = set_next_outbox_id (S (next_outbox_id db)) (set_outbox (outbox db ++ [row]) db).
Proof.
  unfold save_outbox_object, bind at 1, get_id.
  destruct (raw_id raw_object); [|discriminate]. cbn [ret].
  unfold add_outbox_object, bind, get. cbn zeta.
  destruct (existsb _ (outbox db)); [discriminate|]. cbn.
  intros [= <- <-]. repeat split.
Qed.







End Moves.


(** * Further facts *)

(** ** Running a computation backwards from its result *)

Lemma ret_Ok_inv (A : Type) (a b : A) (db db' : DB) :
  ret a db = Ok b db' -> a = b /\ db = db'.
Proof. unfold ret. intros H. now injection H. Qed.

Lemma modify_Ok_inv (f : DB -> DB) (u : unit) (db db' : DB) :
  modify f db = Ok u db' -> f db = db'.
Proof. unfold modify. intros H. now injection H. Qed.

Lemma get_Ok_inv (d db db' : DB) : get db = Ok d db' -> db = d /\ db = db'.
Proof. unfold get. intros H. now injection H. Qed.

(** [session_inv H] splits [H : c db = Ok a db'] along the binds of [c] into
    one equation per step, the stores in between being left as variables. *)
Section OutboundSteps.

Variable env : Env.

Lemma allocate_outbox_id_inv (db db' : DB) (outbox_id : string) :
  allocate_outbox_id env db = Ok outbox_id db' ->
  uuid4_hex env (uuid_counter db) = outbox_id
  /\ set_uuid_counter (S (uuid_counter db)) db = db'.
Proof. rewrite allocate_outbox_id_Ok. intros H. now injection H. Qed.

Lemma save_outbox_object_inv (public_id : string) (raw_object : RawObject)
  (relates_to_inbox_object_id relates_to_outbox_object_id relates_to_actor_id : option nat)
  (source : option string) (is_transient : bool) (conversation : option string)
  (db db' : DB) (row : OutboxObject.t) :
  save_outbox_object env public_id raw_object relates_to_inbox_object_id
    relates_to_outbox_object_id relates_to_actor_id source is_transient conversation db
  = Ok row db' ->
  exists ap_id,
    raw_id raw_object = Some ap_id
    /\ existsb (fun o => OutboxObject.ap_id o =? ap_id) (outbox db) = false
    /\ row = OutboxObject.mk (next_outbox_id db) public_id (raw_type raw_object) ap_id
               (raw_context raw_object) raw_object
               (object_visibility raw_object (Some (BASE_URL env ++ "/followers")))
               (now env)
               relates_to_inbox_object_id relates_to_outbox_object_id
               relates_to_actor_id (activity_object_ap_id_of raw_object)
               (truthy (raw_inReplyTo raw_object))
               source is_transient conversation 0%Z 0%Z 0%Z false None
    /\ set_next_outbox_id (S (next_outbox_id db)) (set_outbox (outbox db ++ [row]) db)
       = db'.
Proof.
  unfold save_outbox_object, bind at 1, get_id.
  destruct (raw_id raw_object) as [ap_id|]; [|discriminate]. cbn [ret].
  unfold add_outbox_object, bind, get. cbn zeta. cbn [OutboxObject.ap_id].
  destruct (existsb _ (outbox db)) eqn:Hfresh; [discriminate|]. cbn.
  intros H. injection H as <- <-. exists ap_id. repeat split. exact Hfresh.
Qed.

Lemma _compute_recipients_only_actors (ap_object : RawObject) (db : DB) :
  only_actors_changed db (state_of (_compute_recipients env ap_object db)).
Proof.
  apply (stable_state_of (P := only_actors_changed db)).
  - apply stable__compute_recipients; intros d x H; exact H.
  - apply only_actors_changed_refl.
Qed.

Lemma for_each_new_outgoing_activity_inv (recipients : list string)
  (outbox_object_id inbox_object_id : option nat) (u : unit) (db db' : DB) :
  for_each recipients
    (fun rcp => new_outgoing_activity rcp outbox_object_id inbox_object_id) db
  = Ok u db' ->
  set_outgoing_activities
    (outgoing_activities db
     ++ map (fun rcp => OutgoingActivity.mk rcp outbox_object_id inbox_object_id None)
            recipients)%list db = db'.
Proof. rewrite for_each_new_outgoing_activity. intros H. now injection H. Qed.

Lemma fetch_actor_inv (actor_id : string) (save_if_not_found : bool) (a : Actor.t)
  (db db' : DB) :
  fetch_actor env actor_id save_if_not_found db = Ok a db' -> only_actors_changed db db'.
Proof.
  intros H. pose proof (fetch_actor_only_actors env actor_id save_if_not_found db) as Hs.
  now rewrite H in Hs.
Qed.

Lemma _compute_recipients_inv (ap_object : RawObject) (recipients : list string)
  (db db' : DB) :
  _compute_recipients env ap_object db = Ok recipients db' -> only_actors_changed db db'.
Proof.
  intros H. pose proof (_compute_recipients_only_actors ap_object db) as Hs.
  now rewrite H in Hs.
Qed.

End OutboundSteps.


Lemma count_if_map (A : Type) (p : A -> bool) (g : A -> A) (l : list A) :
  (forall x, p (g x) = p x) -> count_if p (map g l) = count_if p l.
Proof.
  intros Hg. unfold count_if. f_equal.
  induction l as [|x l IH]; cbn; [reflexivity|].
  rewrite Hg. destruct (p x); cbn; now rewrite IH.
Qed.

Lemma count_if_nonneg (A : Type) (p : A -> bool) (l : list A) : (0 <= count_if p l)%Z.
Proof. unfold count_if. lia. Qed.

Ltac subst_result E :=
  lazymatch type of E with
  | ?x = ?y => first [is_var y; subst y | idtac]
  end.

Ltac subst_store E :=
  lazymatch type of E with
  | ?x = ?y => first [is_var x; is_var y; subst y | idtac]
  end.

Ltac session_inv H :=
  lazymatch type of H with
  | bind _ _ _ = Ok _ _ =>
      let a := fresh "a" in
      let d := fresh "d" in
      let H1 := fresh "Hstep" in
      apply bind_Ok_inv in H as (a & d & H1 & H);
      session_inv H1; cbn beta in H; session_inv H
  | ret _ _ = Ok _ _ =>
      let E := fresh "Estate" in
      apply ret_Ok_inv in H as (H & E); subst_store E; subst_result H
  | get _ = Ok _ _ =>
      let E := fresh "Estate" in
      apply get_Ok_inv in H as (H & E); subst_store E; subst_store H
  | commit _ = Ok _ _ =>
      let E := fresh "Estate" in
      apply ret_Ok_inv in H as (H & E); subst_store E; subst_result H
  | flush _ = Ok _ _ =>
      let E := fresh "Estate" in
      apply ret_Ok_inv in H as (H & E); subst_store E; subst_result H
  | modify _ _ = Ok _ _ => apply modify_Ok_inv in H; cbn beta in H
  | update_inbox_object _ _ _ = Ok _ _ => apply modify_Ok_inv in H; cbn beta in H
  | update_outbox_object _ _ _ = Ok _ _ => apply modify_Ok_inv in H; cbn beta in H
  | update_outbox_where _ _ _ = Ok _ _ => apply modify_Ok_inv in H; cbn beta in H
  | update_actor _ _ _ = Ok _ _ => apply modify_Ok_inv in H; cbn beta in H
  | delete_inbox_object _ _ = Ok _ _ => apply modify_Ok_inv in H; cbn beta in H
  | add_notification _ _ = Ok _ _ => apply modify_Ok_inv in H; cbn beta in H
  | new_outgoing_activity _ _ _ _ = Ok _ _ => apply modify_Ok_inv in H; cbn beta in H
  | delete_following_where_ap_actor_id _ _ = Ok _ _ =>
      apply modify_Ok_inv in H; cbn beta in H
  | allocate_outbox_id _ _ = Ok _ _ =>
      let E := fresh "Estate" in
      apply allocate_outbox_id_inv in H as (H & E); subst_result H
  | for_each _ (fun rcp => new_outgoing_activity rcp _ _) _ = Ok _ _ =>
      apply for_each_new_outgoing_activity_inv in H
  | _compute_recipients _ _ _ = Ok _ _ =>
      apply _compute_recipients_inv in H; unfold only_actors_changed in H;
      decompose [and] H; clear H
  | fetch_actor _ _ _ _ = Ok _ _ =>
      let F := fresh "Hfetched" in
      pose proof (fetch_actor_inv _ _ _ _ H) as F; unfold only_actors_changed in F;
      decompose [and] F; clear F
  | load_actor _ _ = Ok _ _ =>
      let E := fresh "Estate" in
      apply load_actor_inv in H as (H & E); subst_store E
  | raise _ _ = Ok _ _ => discriminate H
  | _ => idtac
  end.

(** [chase] rewrites the fields of the stores of the goal back to the store
    the computation started from, along the equations left by [session_inv]. *)
Ltac store_fields :=
  cbn [actors inbox outbox followers following notifications poll_answers
       outgoing_activities next_actor_id next_inbox_id next_outbox_id uuid_counter
       set_actors set_inbox set_outbox set_followers set_following set_notifications
       set_poll_answers set_outgoing_activities set_next_actor_id set_next_inbox_id
       set_next_outbox_id set_uuid_counter].

Ltac chase :=
  repeat match goal with
         | H : _ = ?d |- context [?d] =>
             is_var d;
             lazymatch type of d with DB => idtac end;
             rewrite <- H; store_fields
         | H : ?f ?d' = ?f ?d |- context [?f ?d'] =>
             is_var d'; is_var d;
             lazymatch type of d with DB => idtac end;
             rewrite H
         end.

Ltac store_fields_in H :=
  cbn [actors inbox outbox followers following notifications poll_answers
       outgoing_activities next_actor_id next_inbox_id next_outbox_id uuid_counter
       set_actors set_inbox set_outbox set_followers set_following set_notifications
       set_poll_answers set_outgoing_activities set_next_actor_id set_next_inbox_id
       set_next_outbox_id set_uuid_counter] in H.

Ltac chase_in H :=
  repeat match goal with
         | E : _ = ?d |- _ =>
             is_var d;
             lazymatch type of d with DB => idtac end;
             lazymatch type of H with context [d] => idtac end;
             rewrite <- E in H; store_fields_in H
         | E : ?f ?d' = ?f ?d |- _ =>
             is_var d'; is_var d;
             lazymatch type of d with DB => idtac end;
             lazymatch type of H with context [f d'] => idtac end;
             rewrite E in H
         end.
Lemma filter_all (A : Type) (p : A -> bool) (l : list A) :
  forallb p l = true -> filter p l = l.
Proof.
  induction l as [|x l IH]; [reflexivity|]. cbn.
  intros H. apply andb_prop in H as [Hx Hl]. rewrite Hx. f_equal. now apply IH.
Qed.

Section UndoInbound.

Variable env : Env.

(** X1: a Follow of the local actor followed by its Undo, both from the same
    actor, leaves the followers table as it was, whether followers are
    approved by hand or not, provided no follower row pointed at the Follow
    before; the Follow is marked deleted and undone by the Undo, and two
    notifications are added, the second one an UNFOLLOW. *)
Theorem follow_then_undo_restores_followers (from_actor : Actor.t)
  (follow_activity undo_activity : InboxObject.t) (db db' : DB) :
  InboxObject.activity_object_ap_id follow_activity = Some (ID env) ->
  InboxObject.ap_type follow_activity = "Follow" ->
  InboxObject.ap_actor_id follow_activity = Actor.ap_id from_actor ->
  forallb (fun f => negb (Nat.eqb (Follower.inbox_object_id f)
                                  (InboxObject.id follow_activity)))
          (followers db) = true ->
  (_handle_follow_follow_activity env from_actor follow_activity ;;;
   _handle_undo_activity env from_actor undo_activity follow_activity) db = Ok tt db' ->
  followers db' = followers db
  /\ inbox db'
     = map (fun o => if Nat.eqb (InboxObject.id o) (InboxObject.id follow_activity)
                     then InboxObject.set_is_deleted true
                            (InboxObject.set_undone_by_inbox_object_id
                               (Some (InboxObject.id undo_activity)) o)
                     else o) (inbox db)
  /\ exists received,
       notifications db'
       = (notifications db
          ++ [received;
              Notification.mk UNFOLLOW (Some (Actor.id from_actor)) None None])%list.
Proof.
  intros Hobject Htype Hactor Hfresh H.
  apply bind_Ok_inv in H as ([] & db1 & Hfollow & Hundo).
  unfold _handle_undo_activity in Hundo.
  rewrite Hactor, String.eqb_refl, Htype in Hundo. cbn [negb] in Hundo.
  change ("Follow" =? "Follow") with true in Hundo. cbn match in Hundo.
  session_inv Hundo.
  unfold _handle_follow_follow_activity in Hfollow.
  rewrite Hobject in Hfollow. cbn [opt_string_eqb] in Hfollow.
  rewrite String.eqb_refl in Hfollow. cbn [negb] in Hfollow.
  destruct (MANUALLY_APPROVES_FOLLOWERS env).
  - session_inv Hfollow. chase.
    rewrite filter_all by exact Hfresh. split; [reflexivity|]. split; [reflexivity|].
    exists (Notification.mk PENDING_INCOMING_FOLLOWER (Some (Actor.id from_actor)) None
                            (Some (InboxObject.id follow_activity))).
    symmetry. exact (app_assoc (notifications db) [_] [_]).
  - unfold _send_accept, bind at 1, get in Hfollow. cbn zeta in Hfollow.
    destruct (existsb _ (followers db)).
    { apply bind_Ok_inv in Hfollow as ([] & d1 & _ & Hfollow).
      apply bind_Ok_inv in Hfollow as (reply_id & d2 & _ & Hfollow).
      discriminate Hfollow. }
    apply bind_Ok_inv in Hfollow as ([] & d1 & Hadd & Hfollow).
    assert (Hd1 : filter (fun f => negb (Nat.eqb (Follower.inbox_object_id f)
                                                 (InboxObject.id follow_activity)))
                         (followers d1) = followers db
                  /\ inbox d1 = inbox db /\ notifications d1 = notifications db).
    { unfold modify in Hadd. injection Hadd as <-; cbn.
      rewrite filter_app, filter_all by exact Hfresh. cbn.
      rewrite Nat.eqb_refl. cbn. now rewrite app_nil_r. }
    clear Hadd. destruct Hd1 as (Hfollowers & Hinbox & Hnotifications).
    apply bind_Ok_inv in Hfollow as (reply_id & d2 & Hid & Hfollow).
    rewrite allocate_outbox_id_Ok in Hid. injection Hid as <- Hd2.
    apply bind_Ok_inv in Hfollow as (row & d3 & Hsave & Hfollow).
    apply save_outbox_object_Ok in Hsave as (_ & _ & Hd3). symmetry in Hd3.
    destruct (Nat.eqb (OutboxObject.id row) 0); [discriminate|].
    session_inv Hfollow. chase.
    rewrite ?Hfollowers, ?Hinbox, ?Hnotifications.
    split; [reflexivity|]. split; [reflexivity|].
    exists (Notification.mk NEW_FOLLOWER (Some (Actor.id from_actor)) None None).
    symmetry. exact (app_assoc (notifications db) [_] [_]).
Qed.


Lemma update_outbox_object_inverse (i : nat) (f g : OutboxObject.t -> OutboxObject.t)
  (l : list OutboxObject.t) :
  (forall o, OutboxObject.id (f o) = OutboxObject.id o) ->
  (forall o, g (f o) = o) ->
  map (fun o => if Nat.eqb (OutboxObject.id o) i then g o else o)
      (map (fun o => if Nat.eqb (OutboxObject.id o) i then f o else o) l) = l.
Proof.
  intros Hid Hinv. rewrite map_map. rewrite <- (map_id l) at 2. apply map_ext.
  intros o. destruct (Nat.eqb (OutboxObject.id o) i) eqn:E.
  - now rewrite Hid, E.
  - now rewrite E.
Qed.

Lemma set_likes_count_inverse (o : OutboxObject.t) :
  (fun o => OutboxObject.set_likes_count (OutboxObject.likes_count o - 1)%Z o)
    (OutboxObject.set_likes_count (OutboxObject.likes_count o + 1)%Z o) = o.
Proof.
  destruct o. unfold OutboxObject.set_likes_count. cbn. f_equal. lia.
Qed.

Lemma set_announces_count_inverse (o : OutboxObject.t) :
  (fun o => OutboxObject.set_announces_count (OutboxObject.announces_count o - 1)%Z o)
    (OutboxObject.set_announces_count (OutboxObject.announces_count o + 1)%Z o) = o.
Proof.
  destruct o. unfold OutboxObject.set_announces_count. cbn. f_equal. lia.
Qed.

(** X2: a Like of a local object followed by its Undo, both from the same
    actor, leaves the outbox as it was, its [likes_count] included, and
    records a LIKE and an UNDO_LIKE notification. *)
Theorem like_then_undo_restores_likes_count (from_actor : Actor.t)
  (like_activity undo_activity : InboxObject.t) (target : OutboxObject.t) (db db' : DB) :
  get_outbox_object_by_ap_id db (OutboxObject.ap_id target) = Some target ->
  OutboxObject.ap_id target <> "" ->
  InboxObject.ap_type like_activity = "Like" ->
  InboxObject.ap_actor_id like_activity = Actor.ap_id from_actor ->
  InboxObject.activity_object_ap_id like_activity = Some (OutboxObject.ap_id target) ->
  (_handle_like_activity from_actor like_activity (Some target) None ;;;
   _handle_undo_activity env from_actor undo_activity like_activity) db = Ok tt db' ->
  outbox db' = outbox db
  /\ notifications db'
     = (notifications db
        ++ [Notification.mk LIKE (Some (Actor.id from_actor))
                            (Some (OutboxObject.id target))
                            (Some (InboxObject.id like_activity));
            Notification.mk UNDO_LIKE (Some (Actor.id from_actor))
                            (Some (OutboxObject.id target))
                            (Some (InboxObject.id like_activity))])%list.
Proof.
  intros Htarget Hnot_empty Htype Hactor Hobject H.
  apply bind_Ok_inv in H as ([] & db1 & Hlike & Hundo).
  unfold _handle_like_activity in Hlike. session_inv Hlike.
  unfold _handle_undo_activity in Hundo.
  rewrite Hactor, String.eqb_refl, Htype, Hobject in Hundo. cbn [negb] in Hundo.
  change ("Like" =? "Follow") with false in Hundo.
  change ("Like" =? "Like") with true in Hundo. cbn match in Hundo.
  rewrite truthy_Some_true in Hundo by exact Hnot_empty. cbn [negb] in Hundo.
  session_inv Hundo.
  match type of Hundo with
  | context [get_outbox_object_by_ap_id ?d ?x] =>
      destruct (get_outbox_object_by_ap_id d x) as [liked_obj|] eqn:Hliked
  end.
  - unfold get_outbox_object_by_ap_id in Hliked, Htarget. chase_in Hliked.
    rewrite find_map_key in Hliked by (intros o; now destruct (Nat.eqb _ _)).
    rewrite Htarget in Hliked. cbn [option_map] in Hliked.
    rewrite Nat.eqb_refl in Hliked. injection Hliked as <-.
    session_inv Hundo. chase.
    change (OutboxObject.id (OutboxObject.set_likes_count _ target))
      with (OutboxObject.id target).
    rewrite (update_outbox_object_inverse (OutboxObject.id target)
               (fun o => OutboxObject.set_likes_count (OutboxObject.likes_count o + 1)%Z o)
               (fun o => OutboxObject.set_likes_count (OutboxObject.likes_count o - 1)%Z o)).
    + split; [reflexivity|]. symmetry. exact (app_assoc (notifications db) [_] [_]).
    + intros o. reflexivity.
    + exact set_likes_count_inverse.
  - unfold get_outbox_object_by_ap_id in Hliked, Htarget. chase_in Hliked.
    rewrite find_map_key in Hliked by (intros o; now destruct (Nat.eqb _ _)).
    rewrite Htarget in Hliked. discriminate.
Qed.

(** X3: an Announce of a local object followed by its Undo, both from the
    same actor, leaves the outbox as it was, its [announces_count] included,
    and records an ANNOUNCE and an UNDO_ANNOUNCE notification. *)
Theorem announce_then_undo_restores_announces_count (from_actor : Actor.t)
  (announce_activity undo_activity : InboxObject.t) (target : OutboxObject.t)
  (db db' : DB) :
  get_outbox_object_by_ap_id db (OutboxObject.ap_id target) = Some target ->
  prefix (BASE_URL env) (OutboxObject.ap_id target) = true ->
  OutboxObject.ap_id target <> "" ->
  InboxObject.ap_type announce_activity = "Announce" ->
  InboxObject.ap_actor_id announce_activity = Actor.ap_id from_actor ->
  InboxObject.activity_object_ap_id announce_activity = Some (OutboxObject.ap_id target) ->
  (_handle_announce_activity env from_actor announce_activity (Some target) None ;;;
   _handle_undo_activity env from_actor undo_activity announce_activity) db = Ok tt db' ->
  outbox db' = outbox db
  /\ notifications db'
     = (notifications db
        ++ [Notification.mk ANNOUNCE (Some (Actor.id from_actor))
                            (Some (OutboxObject.id target))
                            (Some (InboxObject.id announce_activity));
            Notification.mk UNDO_ANNOUNCE (Some (Actor.id from_actor))
                            (Some (OutboxObject.id target))
                            (Some (InboxObject.id announce_activity))])%list.
Proof.
  intros Htarget Hlocal Hnot_empty Htype Hactor Hobject H.
  apply bind_Ok_inv in H as ([] & db1 & Hannounce & Hundo).
  unfold _handle_announce_activity in Hannounce. session_inv Hannounce.
  unfold _handle_undo_activity in Hundo.
  rewrite Hactor, String.eqb_refl, Htype, Hobject in Hundo. cbn [negb] in Hundo.
  change ("Announce" =? "Follow") with false in Hundo.
  change ("Announce" =? "Like") with false in Hundo.
  change ("Announce" =? "Announce") with true in Hundo. cbn match in Hundo.
  rewrite truthy_Some_true, Hlocal in Hundo by exact Hnot_empty. cbn [negb] in Hundo.
  session_inv Hundo.
  match type of Hundo with
  | context [get_outbox_object_by_ap_id ?d ?x] =>
      destruct (get_outbox_object_by_ap_id d x) as [announced_obj|] eqn:Hannounced
  end.
  - unfold get_outbox_object_by_ap_id in Hannounced, Htarget. chase_in Hannounced.
    rewrite find_map_key in Hannounced by (intros o; now destruct (Nat.eqb _ _)).
    rewrite Htarget in Hannounced. cbn [option_map] in Hannounced.
    rewrite Nat.eqb_refl in Hannounced. injection Hannounced as <-.
    session_inv Hundo. chase.
    change (OutboxObject.id (OutboxObject.set_announces_count _ target))
      with (OutboxObject.id target).
    rewrite (update_outbox_object_inverse (OutboxObject.id target)
               (fun o => OutboxObject.set_announces_count
                           (OutboxObject.announces_count o + 1)%Z o)
               (fun o => OutboxObject.set_announces_count
                           (OutboxObject.announces_count o - 1)%Z o)).
    + split; [reflexivity|]. symmetry. exact (app_assoc (notifications db) [_] [_]).
    + intros o. reflexivity.
    + exact set_announces_count_inverse.
  - unfold get_outbox_object_by_ap_id in Hannounced, Htarget. chase_in Hannounced.
    rewrite find_map_key in Hannounced by (intros o; now destruct (Nat.eqb _ _)).
    rewrite Htarget in Hannounced. discriminate.
Qed.

End UndoInbound.

Lemma follow_then_undo_restores_followers_witness :
  let db' :=
    run (_handle_follow_follow_activity example_env (person 1 alice) follow_of_me ;;;
         _handle_undo_activity example_env (person 1 alice) undo_of_follow follow_of_me)
        follow_db in
  followers db' = followers follow_db
  /\ map InboxObject.is_deleted (inbox db') = [true; false]
  /\ map Notification.notification_type (notifications db') = [NEW_FOLLOWER; UNFOLLOW].
Proof.
  intros db'.
  assert (Hrun : (_handle_follow_follow_activity example_env (person 1 alice) follow_of_me ;;;
                  _handle_undo_activity example_env (person 1 alice) undo_of_follow
                                        follow_of_me) follow_db = Ok tt db')
    by (vm_compute; reflexivity).
  destruct (@follow_then_undo_restores_followers example_env (person 1 alice)
              follow_of_me undo_of_follow follow_db db'
              eq_refl eq_refl eq_refl eq_refl Hrun) as (Hfollowers & Hinbox & _).
  split; [exact Hfollowers|]. split; [rewrite Hinbox|]; vm_compute; reflexivity.
Defined.

Lemma like_then_undo_restores_likes_count_witness :
  let db' :=
    run (_handle_like_activity (person 2 bob) post_like_row (Some local_post) None ;;;
         _handle_undo_activity example_env (person 2 bob) undo_of_like post_like_row)
        reactions_db in
  outbox db' = outbox reactions_db
  /\ map Notification.notification_type (notifications db') = [LIKE; UNDO_LIKE].
Proof.
  intros db'.
  assert (Hrun : (_handle_like_activity (person 2 bob) post_like_row (Some local_post) None ;;;
                  _handle_undo_activity example_env (person 2 bob) undo_of_like
                                        post_like_row) reactions_db = Ok tt db')
    by (vm_compute; reflexivity).
  assert (Hid : OutboxObject.ap_id local_post <> "") by discriminate.
  destruct (@like_then_undo_restores_likes_count example_env (person 2 bob)
              post_like_row undo_of_like local_post reactions_db db'
              eq_refl Hid eq_refl eq_refl eq_refl Hrun) as (Houtbox & Hnotifications).
  split; [exact Houtbox|]. rewrite Hnotifications. reflexivity.
Defined.

Lemma announce_then_undo_restores_announces_count_witness :
  let db' :=
    run (_handle_announce_activity example_env (person 2 bob) post_announce_row
                                   (Some local_post) None ;;;
         _handle_undo_activity example_env (person 2 bob) undo_of_announce
                               post_announce_row)
        reactions_db in
  outbox db' = outbox reactions_db
  /\ map Notification.notification_type (notifications db') = [ANNOUNCE; UNDO_ANNOUNCE].
Proof.
  intros db'.
  assert (Hrun : (_handle_announce_activity example_env (person 2 bob) post_announce_row
                                            (Some local_post) None ;;;
                  _handle_undo_activity example_env (person 2 bob) undo_of_announce
                                        post_announce_row) reactions_db = Ok tt db')
    by (vm_compute; reflexivity).
  assert (Hid : OutboxObject.ap_id local_post <> "") by discriminate.
  destruct (@announce_then_undo_restores_announces_count example_env (person 2 bob)
              post_announce_row undo_of_announce local_post reactions_db db'
              eq_refl eq_refl Hid eq_refl eq_refl eq_refl Hrun)
    as (Houtbox & Hnotifications).
  split; [exact Houtbox|]. rewrite Hnotifications. reflexivity.
Defined.
(** ** What [save_to_inbox] drops *)

Lemma existsb_false_count_if (A : Type) (p : A -> bool) (l : list A) :
  existsb p l = false -> Z.ltb 0 (count_if p l) = false.
Proof.
  intros H. unfold count_if. rewrite filter_none; [reflexivity|].
  intros x Hx. destruct (p x) eqn:E; [|reflexivity].
  assert (existsb p l = true) by (apply existsb_exists; now exists x). congruence.
Qed.

Lemma opt_string_eqb_neq (a b : option string) : a <> b -> opt_string_eqb a b = false.
Proof.
  destruct a as [x|], b as [y|]; cbn; intros H; try reflexivity.
  - destruct (String.eqb_spec x y); [subst; contradiction|reflexivity].
  - contradiction.
Qed.

Lemma filter_fresh_row (l : list InboxObject.t) (row : InboxObject.t) (i : nat) :
  InboxObject.id row = i ->
  forallb (fun o => negb (Nat.eqb (InboxObject.id o) i)) l = true ->
  filter (fun o => negb (Nat.eqb (InboxObject.id o) i)) (l ++ [row]) = l.
Proof.
  intros Hrow H. rewrite filter_app, filter_all by exact H. cbn.
  rewrite Hrow, Nat.eqb_refl. cbn. apply app_nil_r.
Qed.

Section Dropped.

Variable env : Env.

(** The activities that [save_to_inbox] records and deletes again: a View,
    a Follow of somebody else, a Like or an EmojiReact of an object that is
    not in the outbox. *)
Lemma dispatch_activity_drops (raw_object : RawObject) (actor : Actor.t)
  (inbox_object : InboxObject.t) (relates_to_inbox_object : option InboxObject.t)
  (relates_to_outbox_object : option OutboxObject.t)
  (forwarded_by_actor : option Actor.t) :
  raw_type raw_object = "View"
  \/ (raw_type raw_object = "Follow"
      /\ InboxObject.activity_object_ap_id inbox_object <> Some (ID env))
  \/ ((raw_type raw_object = "Like" \/ raw_type raw_object = "EmojiReact")
      /\ relates_to_outbox_object = None) ->
  dispatch_activity env raw_object actor inbox_object relates_to_inbox_object
                    relates_to_outbox_object forwarded_by_actor
  = delete_inbox_object (InboxObject.id inbox_object).
Proof.
  unfold dispatch_activity.
  intros [H|[[H Hobject]|[[H|H] ->]]]; rewrite H; try reflexivity.
  change (_handle_follow_follow_activity env actor inbox_object
          = delete_inbox_object (InboxObject.id inbox_object)).
  unfold _handle_follow_follow_activity.
  now rewrite opt_string_eqb_neq by exact Hobject.
Qed.

(** X4: a View, a Follow of somebody other than the local actor, and a Like
    or an EmojiReact of an object that is not in the outbox, leave no trace:
    the activity is recorded and deleted again, so that the store is exactly
    the one received; the primary key of the inbox is the plain integer key
    of SQLite, one more than the largest in the table, and the key of the
    deleted row is free again. *)
Theorem save_to_inbox_checked_drops (raw_object : RawObject) (raw_object_id : string)
  (actor : Actor.t) (forwarded_by_actor : option Actor.t) (db : DB) :
  raw_id raw_object = Some raw_object_id ->
  existsb (fun o => InboxObject.ap_id o =? raw_object_id) (inbox db) = false ->
  next_inbox_id db = S (list_max (map InboxObject.id (inbox db))) ->
  raw_type raw_object = "View"
  \/ (raw_type raw_object = "Follow"
      /\ activity_object_ap_id_of raw_object <> Some (ID env))
  \/ ((raw_type raw_object = "Like" \/ raw_type raw_object = "EmojiReact")
      /\ forall target, activity_object_ap_id_of raw_object = Some target ->
                        get_outbox_object_by_ap_id db target = None) ->
  save_to_inbox_checked env raw_object raw_object_id actor forwarded_by_actor db
  = Ok tt db.
Proof.
  intros Hid Hnew Hnext Hkind.
  assert (Hids : forallb (fun o => negb (Nat.eqb (InboxObject.id o) (next_inbox_id db)))
                         (inbox db) = true).
  { apply forallb_forall. intros o Ho. apply negb_true_iff, Nat.eqb_neq.
    pose proof (proj1 (list_max_le (map InboxObject.id (inbox db)) _) (le_n _)) as Hle.
    rewrite Forall_forall in Hle.
    specialize (Hle _ (in_map InboxObject.id _ _ Ho)). lia. }
  unfold save_to_inbox_checked. unfold bind at 1, get.
  rewrite existsb_false_count_if by exact Hnew.
  unfold get_id. rewrite Hid. unfold bind at 1, ret at 1.
  unfold bind at 1. unfold add_inbox_object, bind at 1, get.
  cbn [InboxObject.ap_id]. rewrite Hnew. unfold bind at 1, modify, ret.
  rewrite dispatch_activity_drops.
  - unfold bind, delete_inbox_object, modify, commit, ret. cbn [InboxObject.id].
    store_fields.
    rewrite (filter_fresh_row (inbox db)) by (try reflexivity; exact Hids).
    rewrite <- Hnext. now destruct db.
  - cbn [InboxObject.activity_object_ap_id].
    destruct Hkind as [H|[H|[H Hunknown]]]; [now left|right; now left|].
    right. right. split; [exact H|].
    destruct (activity_object_ap_id_of raw_object) as [target|]; [|reflexivity].
    rewrite (Hunknown target eq_refl). now destruct (_ && _).
Qed.

(** X5: an activity whose actor is on a blocked server, or is blocked, is
    dropped before anything is recorded: [save_to_inbox] returns in the store
    left by the lookup of the actor, which differs from the one received in
    the actor directory at most. *)
Theorem save_to_inbox_blocked (raw_object : RawObject) (sent_by_ap_actor_id : string)
  (actor_ap_id : string) (actor : Actor.t) (db db1 : DB) :
  mem_string (raw_type raw_object) ACTOR_TYPES = false ->
  raw_actor raw_object = Some actor_ap_id ->
  fetch_actor env actor_ap_id true db = Ok actor db1 ->
  mem_string (hostname env (Actor.ap_id actor)) (BLOCKED_SERVERS env) = true
  \/ Actor.is_blocked actor = true ->
  save_to_inbox env raw_object sent_by_ap_actor_id db = Ok tt db1
  /\ only_actors_changed db db1.
Proof.
  intros Htype Hactor Hfetch Hblocked. split.
  - unfold save_to_inbox. rewrite Htype.
    unfold get_actor_id. rewrite Hactor. unfold bind at 1, ret at 1.
    unfold bind at 1, try_except, bind at 1. rewrite Hfetch. unfold ret at 1.
    destruct (mem_string (hostname env (Actor.ap_id actor)) (BLOCKED_SERVERS env));
      [reflexivity|].
    destruct Hblocked as [Hserver|Hblocked]; [discriminate|]. rewrite Hblocked.
    now destruct (negb (truthy (raw_id raw_object))).
  - pose proof (fetch_actor_only_actors env actor_ap_id true db) as H.
    now rewrite Hfetch in H.
Qed.

(** X6: an activity forwarded by another actor, whose linked-data signature
    does not verify, is never recorded as received: it is fetched again from
    its id; when that fails the request is refused with status 401, when the
    document fetched has another id the activity is dropped, and otherwise
    the document fetched is the one processed. *)
Theorem save_to_inbox_forwarded_unverified (raw_object : RawObject)
  (sent_by_ap_actor_id actor_ap_id raw_object_id : string) (actor forwarder : Actor.t)
  (db db1 db2 : DB) :
  mem_string (raw_type raw_object) ACTOR_TYPES = false ->
  raw_actor raw_object = Some actor_ap_id ->
  fetch_actor env actor_ap_id true db = Ok actor db1 ->
  mem_string (hostname env (Actor.ap_id actor)) (BLOCKED_SERVERS env) = false ->
  Actor.is_blocked actor = false ->
  raw_id raw_object = Some raw_object_id ->
  raw_object_id <> "" ->
  sent_by_ap_actor_id <> Actor.ap_id actor ->
  fetch_actor env sent_by_ap_actor_id true db1 = Ok forwarder db2 ->
  verify_signature env raw_object <> inr true ->
  let received := save_to_inbox env raw_object sent_by_ap_actor_id db in
  match fetch env raw_object_id with
  | inl _ => received = Raise (HTTPException 401 "Invalid LD sig") db2
  | inr fetched =>
      match raw_id fetched with
      | None => received = Raise (KeyError "id") db2
      | Some fetched_id =>
          if fetched_id =? raw_object_id
          then received
               = save_to_inbox_checked env fetched raw_object_id actor (Some forwarder) db2
          else received = Ok tt db2
      end
  end.
Proof.
  intros Htype Hactor Hfetch Hserver Hblocked Hid Hnot_empty Hforwarded Hforwarder
         Hsignature received.
  assert (Hreceived :
            received
            = match fetch env raw_object_id with
              | inl _ => raise (HTTPException 401 "Invalid LD sig") db2
              | inr fetched =>
                  (fetched_id <- get_id fetched ;;
                   if negb (fetched_id =? raw_object_id) then ret tt
                   else save_to_inbox_checked env fetched raw_object_id actor
                          (Some forwarder)) db2
              end).
  { subst received. unfold save_to_inbox. rewrite Htype.
    unfold get_actor_id. rewrite Hactor. unfold bind at 1, ret at 1.
    unfold bind at 1, try_except, bind at 1. rewrite Hfetch. unfold ret at 1.
    rewrite Hserver, Hblocked, Hid. rewrite truthy_Some_true by exact Hnot_empty.
    cbn [negb].
    destruct (String.eqb_spec sent_by_ap_actor_id (Actor.ap_id actor)) as [E|_];
      [contradiction|].
    cbn [negb]. unfold bind at 1. rewrite Hforwarder.
    destruct (verify_signature env raw_object) as [e|[|]];
      [|contradiction|]; cbn [negb]; now destruct (fetch env raw_object_id). }
  rewrite Hreceived. destruct (fetch env raw_object_id) as [e|fetched]; [reflexivity|].
  unfold get_id. destruct (raw_id fetched) as [fetched_id|]; [|reflexivity].
  unfold bind, ret. destruct (fetched_id =? raw_object_id); reflexivity.
Qed.

End Dropped.

Lemma save_to_inbox_checked_drops_witness :
  save_to_inbox_checked example_env stray_like "https://remote.example/l9"
                        (person 3 carol) None reactions_db
  = Ok tt reactions_db.
Proof.
  apply (@save_to_inbox_checked_drops example_env stray_like "https://remote.example/l9"
           (person 3 carol) None reactions_db); try reflexivity.
  right. right. split; [now left|].
  intros target H. injection H as <-. reflexivity.
Defined.

Lemma save_to_inbox_blocked_witness :
  save_to_inbox example_env hello_create alice blocking_db = Ok tt blocking_db
  /\ only_actors_changed blocking_db blocking_db.
Proof.
  apply (@save_to_inbox_blocked example_env hello_create alice alice blocked_alice
           blocking_db blocking_db); try reflexivity.
  now right.
Defined.

Lemma save_to_inbox_forwarded_unverified_witness :
  save_to_inbox example_env hello_create bob empty_db
  = Raise (HTTPException 401 "Invalid LD sig") empty_db.
Proof.
  apply (@save_to_inbox_forwarded_unverified example_env hello_create bob alice
           "https://remote.example/a1" (person 1 alice) (person 2 bob)
           empty_db empty_db empty_db); try reflexivity; discriminate.
Defined.
(** ** Updates and Creates *)

Lemma NoDup_map_injective (A : Type) (key : A -> nat) (l : list A) (x y : A) :
  NoDup (map key l) -> In x l -> In y l -> key x = key y -> x = y.
Proof.
  induction l as [|z l IH]; intros Hnd Hx Hy Hkey; [contradiction|].
  cbn in Hnd. inversion Hnd as [|k ks Hnotin Hnd']; subst.
  destruct Hx as [->|Hx], Hy as [->|Hy].
  - reflexivity.
  - exfalso. apply Hnotin. rewrite Hkey. now apply in_map.
  - exfalso. apply Hnotin. rewrite <- Hkey. now apply in_map.
  - now apply IH.
Qed.

Lemma get_object_state (env : Env) (raw : RawObject) (db : DB) :
  state_of (get_object env raw db) = db.
Proof.
  unfold get_object. destruct (raw_object raw); try reflexivity.
  unfold lift_fetch. now destruct (fetch env i).
Qed.

Section Updates.

Variable env : Env.

(** X7: an Update rewrites nothing but what its sender owns: the inbox
    objects of other actors and the rows of other actors are the ones of the
    store received, and no other table changes. *)
Theorem _handle_update_activity_only_own (from_actor : Actor.t)
  (update_activity : InboxObject.t) (db : DB) :
  NoDup (map InboxObject.id (inbox db)) ->
  let db' := state_of (_handle_update_activity env from_actor update_activity db) in
  (forall o, In o (inbox db) -> InboxObject.ap_actor_id o <> Actor.ap_id from_actor ->
             In o (inbox db'))
  /\ (forall a, In a (actors db) -> Actor.id a <> Actor.id from_actor -> In a (actors db'))
  /\ length (inbox db') = length (inbox db)
  /\ length (actors db') = length (actors db)
  /\ outbox db' = outbox db /\ followers db' = followers db
  /\ following db' = following db /\ notifications db' = notifications db
  /\ outgoing_activities db' = outgoing_activities db.
Proof.
  intros Hids db'.
  pose (Q := fun d : DB =>
    (forall o, In o (inbox db) ->
               InboxObject.ap_actor_id o <> Actor.ap_id from_actor ->
               In o (inbox d))
    /\ (forall a, In a (actors db) -> Actor.id a <> Actor.id from_actor ->
                  In a (actors d))
    /\ length (inbox d) = length (inbox db)
    /\ length (actors d) = length (actors db)
    /\ outbox d = outbox db /\ followers d = followers db
    /\ following d = following db /\ notifications d = notifications db
    /\ outgoing_activities d = outgoing_activities db).
  assert (Hsame : Q db) by (unfold Q; repeat split; auto).
  change (Q db'). subst db'. unfold _handle_update_activity. unfold bind at 1.
  pose proof (get_object_state env (InboxObject.ap_object update_activity) db) as Hget.
  destruct (get_object env (InboxObject.ap_object update_activity) db)
    as [wrapped_object d|e d]; cbn [state_of] in Hget; subst d;
    [|exact Hsame].
  destruct (mem_string (raw_type wrapped_object) ACTOR_TYPES).
  - unfold get_id. destruct (raw_id wrapped_object) as [updated_actor_ap_id|];
      [|exact Hsame].
    unfold bind at 1, ret at 1.
    destruct (_ || _); [exact Hsame|].
    unfold Q. cbn. repeat split; try reflexivity.
    + intros o Ho _. exact Ho.
    + intros a Ha Hother. apply in_map_iff. exists a. split; [|exact Ha].
      destruct (Nat.eqb_spec (Actor.id a) (Actor.id from_actor)); [contradiction|].
      reflexivity.
    + apply length_map.
  - destruct (mem_string (raw_type wrapped_object) _); [|exact Hsame].
    unfold get_id. destruct (raw_id wrapped_object) as [wrapped_id|];
      [|exact Hsame].
    unfold bind at 1, ret at 1. unfold bind at 1, get.
    destruct (get_inbox_object_by_ap_id db wrapped_id) as [existing_object|] eqn:Hfound;
      [|exact Hsame].
    destruct (String.eqb_spec (InboxObject.ap_actor_id existing_object)
                              (Actor.ap_id from_actor)) as [Howner|_];
      [|exact Hsame].
    unfold Q. cbn. repeat split; try reflexivity.
    + intros o Ho Hother. apply in_map_iff. exists o. split; [|exact Ho].
      destruct (Nat.eqb_spec (InboxObject.id o) (InboxObject.id existing_object))
        as [Hid|_]; [|reflexivity].
      exfalso. apply Hother. rewrite <- Howner. f_equal.
      apply (NoDup_map_injective InboxObject.id (inbox db)); auto.
      unfold get_inbox_object_by_ap_id in Hfound. now apply find_some in Hfound.
    + intros a Ha _. exact Ha.
    + apply length_map.
Qed.

(** X8: a Create that arrives after the Delete of its object does not store
    the object.  When the recorded Delete comes from the author of the
    Create, the Create is marked as deleted; when it comes from another
    actor, nothing changes; and with more than one recorded Delete of the
    object the Create fails with [MultipleResultsFound]. *)
Theorem _handle_create_activity_after_delete (from_actor : Actor.t)
  (create_activity : InboxObject.t) (forwarded_by_actor : option Actor.t)
  (wrapped_object : RawObject) (note_id : string) (db : DB) :
  unwrap_activity (InboxObject.ap_object create_activity) db = Ok wrapped_object db ->
  raw_actor wrapped_object = Some (InboxObject.ap_actor_id create_activity) ->
  raw_id wrapped_object = Some note_id ->
  let created := _handle_create_activity env from_actor create_activity
                                         forwarded_by_actor db in
  match filter (fun o => (InboxObject.ap_type o =? "Delete")
                         && opt_string_eqb (InboxObject.activity_object_ap_id o)
                                           (Some note_id)) (inbox db) with
  | [] => True
  | [delete_object] =>
      created
      = Ok tt (if InboxObject.ap_actor_id delete_object =? Actor.ap_id from_actor
               then set_inbox
                      (map (fun o => if Nat.eqb (InboxObject.id o)
                                                (InboxObject.id create_activity)
                                     then InboxObject.set_is_deleted true o else o)
                           (inbox db)) db
               else db)
  | _ :: _ :: _ => created = Raise MultipleResultsFound db
  end.
Proof.
  intros Hunwrap Hactor Hid created.
  assert (Hcreated :
            created
            = (delete_object <- get_inbox_delete_for_activity_object_ap_id note_id ;;
               match delete_object with
               | Some delete_object =>
                   if negb (InboxObject.ap_actor_id delete_object =? Actor.ap_id from_actor)
                   then ret tt
                   else
                     update_inbox_object (InboxObject.id create_activity)
                       (InboxObject.set_is_deleted true) ;;;
                     flush
               | None =>
                   _process_note_object env create_activity from_actor
                     (mkRemoteObject wrapped_object from_actor) forwarded_by_actor true ;;;
                   ret tt
               end) db).
  { subst created. unfold _handle_create_activity. unfold bind at 1. rewrite Hunwrap.
    unfold get_actor_id, get_id. rewrite Hactor, Hid.
    unfold bind at 1, ret at 1. rewrite String.eqb_refl. cbn [negb].
    unfold bind at 1, ret at 1. reflexivity. }
  clearbody created.
  destruct (filter _ (inbox db)) as [|delete_object [|second rest]] eqn:Hdeletes;
    [exact I| |]; rewrite Hcreated;
    unfold bind at 1, get_inbox_delete_for_activity_object_ap_id, bind at 1, get;
    rewrite Hdeletes; [|reflexivity].
  unfold ret at 1.
  now destruct (InboxObject.ap_actor_id delete_object =? Actor.ap_id from_actor).
Qed.

End Updates.

Lemma _handle_update_activity_only_own_witness :
  let db' := run (_handle_update_activity example_env (person 1 alice) hello_update)
                 hello_db in
  In hello_announce_row (inbox db')
  /\ option_map (fun o => raw_content (InboxObject.ap_object o))
                (get_inbox_object_by_ap_id db' hello_id) = Some (Some "edited").
Proof.
  intros db'.
  assert (Hids : NoDup (map InboxObject.id (inbox hello_db))).
  { vm_compute. repeat (constructor; [simpl; intuition discriminate|]). constructor. }
  destruct (@_handle_update_activity_only_own example_env (person 1 alice)
              hello_update hello_db Hids) as (Hothers & _).
  split; [|reflexivity].
  apply Hothers.
  - vm_compute. right. right. left. reflexivity.
  - vm_compute. discriminate.
Defined.

Lemma _handle_create_activity_after_delete_witness :
  _handle_create_activity example_env (person 1 alice) reply_create_row None
                          early_delete_db
  = Ok tt (run (update_inbox_object 2 (InboxObject.set_is_deleted true))
               early_delete_db).
Proof.
  exact (@_handle_create_activity_after_delete example_env (person 1 alice)
           reply_create_row None
           (note_document reply_id alice (Some post_id) None (Some "re") 10%Z)
           reply_id early_delete_db eq_refl eq_refl eq_refl).
Defined.
(** ** Outbound deletions *)

Section OutboundDelete.

Variable env : Env.

Lemma _get_replies_count_replies_count_I (db : DB) (i : nat) (n : Z) (ap_id : string) :
  _get_replies_count
    (set_inbox (map (fun o => if Nat.eqb (InboxObject.id o) i
                              then InboxObject.set_replies_count n o else o)
                    (inbox db)) db) ap_id
  = _get_replies_count db ap_id.
Proof.
  unfold _get_replies_count. store_fields. f_equal.
  apply count_if_map. intros o. now destruct (Nat.eqb _ _).
Qed.

Lemma _get_replies_count_replies_count_O (db : DB) (i : nat) (n : Z) (ap_id : string) :
  _get_replies_count
    (set_outbox (map (fun o => if Nat.eqb (OutboxObject.id o) i
                               then OutboxObject.set_replies_count n o else o)
                     (outbox db)) db) ap_id
  = _get_replies_count db ap_id.
Proof.
  unfold _get_replies_count. store_fields. f_equal.
  apply count_if_map. intros o. now destruct (Nat.eqb _ _).
Qed.

Lemma _get_replies_count_nonneg (db : DB) (ap_id : string) :
  (0 <= _get_replies_count db ap_id)%Z.
Proof.
  unfold _get_replies_count.
  pose proof (count_if_nonneg
                (fun o => opt_string_eqb (InboxObject.in_reply_to o) (Some ap_id)
                          && negb (InboxObject.is_deleted o)) (inbox db)).
  pose proof (count_if_nonneg
                (fun o => opt_string_eqb (OutboxObject.in_reply_to o) (Some ap_id)
                          && negb (OutboxObject.is_deleted o)) (outbox db)).
  lia.
Qed.

(** X9: after [send_delete] of a local reply, the object it replies to, when
    it is stored, carries as [replies_count] the number of replies to it
    that are not deleted; the deleted reply, flagged [is_deleted] before the
    recount, is not among them. *)
Theorem send_delete_recounts (ap_object_id parent_id : string)
  (outbox_object_to_delete : OutboxObject.t) (db db' : DB) :
  get_outbox_object_by_ap_id db ap_object_id = Some outbox_object_to_delete ->
  OutboxObject.in_reply_to outbox_object_to_delete = Some parent_id ->
  parent_id <> "" ->
  send_delete env ap_object_id db = Ok tt db' ->
  match get_anybox_object_by_ap_id env db' parent_id with
  | Some (FromInbox replied) =>
      InboxObject.replies_count replied = _get_replies_count db' parent_id
  | Some (FromOutbox replied) =>
      OutboxObject.replies_count replied = _get_replies_count db' parent_id
  | None => True
  end
  /\ exists deleted,
       get_outbox_object_by_ap_id db' ap_object_id = Some deleted
       /\ OutboxObject.is_deleted deleted = true
       /\ OutboxObject.id deleted = OutboxObject.id outbox_object_to_delete.
Proof.
  intros Hfound Hreply Hparent H.
  unfold send_delete in H. unfold bind at 1, get in H. rewrite Hfound in H.
  apply bind_Ok_inv in H as (delete_id & d1 & Halloc & H). session_inv Halloc.
  apply bind_Ok_inv in H as (row & d2 & Hsave & H).
  apply save_outbox_object_inv in Hsave as (delete_ap_id & _ & _ & Hrow & Hd2).
  destruct (Nat.eqb (OutboxObject.id row) 0); [discriminate|].
  apply bind_Ok_inv in H as ([] & d3 & Hmark & H). session_inv Hmark.
  apply bind_Ok_inv in H as ([] & d3' & Hcommit & H). session_inv Hcommit.
  apply bind_Ok_inv in H as (recipients & d4 & Hrecipients & H).
  session_inv Hrecipients.
  apply bind_Ok_inv in H as ([] & d5 & Hsend & H). session_inv Hsend.
  apply bind_Ok_inv in H as ([] & d6 & Hrevert & H). session_inv H.
  rewrite Hreply in Hrevert.
  destruct (String.eqb_spec parent_id "") as [|_]; [contradiction|].
  unfold bind at 1, get in Hrevert.
  (* the deleted object, in the store before the recount *)
  assert (Hdeleted : get_outbox_object_by_ap_id d5 ap_object_id
                     = Some (OutboxObject.set_is_deleted true outbox_object_to_delete)).
  { unfold get_outbox_object_by_ap_id in *. chase.
    rewrite find_map_key by (intros o; now destruct (Nat.eqb _ _)).
    rewrite (find_app_Some _ _ _ Hfound). cbn [option_map].
    now rewrite Nat.eqb_refl. }
  destruct (get_anybox_object_by_ap_id env d5 parent_id) as [[replied|replied]|]
    eqn:Hreplied.
  - (* the parent is in the inbox *)
    session_inv Hrevert.
    unfold get_anybox_object_by_ap_id in Hreplied |- *.
    destruct (prefix (BASE_URL env) parent_id);
      [destruct (get_outbox_object_by_ap_id d5 parent_id); discriminate|].
    unfold get_inbox_object_by_ap_id in Hreplied |- *.
    destruct (find _ (inbox d5)) as [found|] eqn:Hfind; [|discriminate].
    injection Hreplied as ->.
    split.
    + rewrite <- Hrevert. rewrite _get_replies_count_replies_count_I. store_fields.
      rewrite find_map_key by (intros o; now destruct (Nat.eqb _ _)).
      rewrite Hfind. cbn [option_map]. rewrite Nat.eqb_refl.
      cbn [InboxObject.replies_count InboxObject.set_replies_count].
      apply find_some in Hfind as (_ & Hkey). apply String.eqb_eq in Hkey.
      cbn [anybox_ap_id]. rewrite Hkey.
      pose proof (_get_replies_count_nonneg d5 parent_id) as Hnonneg.
      destruct (Z.ltb_spec (_get_replies_count d5 parent_id) 0); [lia|reflexivity].
    + exists (OutboxObject.set_is_deleted true outbox_object_to_delete).
      split; [|split; reflexivity].
      unfold get_outbox_object_by_ap_id in *. rewrite <- Hrevert. store_fields.
      exact Hdeleted.
  - (* the parent is in the outbox *)
    session_inv Hrevert.
    unfold get_anybox_object_by_ap_id in Hreplied |- *.
    destruct (prefix (BASE_URL env) parent_id);
      [|destruct (get_inbox_object_by_ap_id d5 parent_id); discriminate].
    unfold get_outbox_object_by_ap_id in Hreplied, Hdeleted |- *.
    destruct (find _ (outbox d5)) as [found|] eqn:Hfind; [|discriminate].
    injection Hreplied as ->.
    split.
    + rewrite <- Hrevert. rewrite _get_replies_count_replies_count_O. store_fields.
      rewrite find_map_key by (intros o; now destruct (Nat.eqb _ _)).
      rewrite Hfind. cbn [option_map]. rewrite Nat.eqb_refl.
      cbn [OutboxObject.replies_count OutboxObject.set_replies_count].
      apply find_some in Hfind as (_ & Hkey). apply String.eqb_eq in Hkey.
      cbn [anybox_ap_id]. rewrite Hkey.
      pose proof (_get_replies_count_nonneg d5 parent_id) as Hnonneg.
      destruct (Z.ltb_spec (_get_replies_count d5 parent_id) 0); [lia|reflexivity].
    + rewrite <- Hrevert. store_fields.
      rewrite find_map_key by (intros o; now destruct (Nat.eqb _ _)).
      rewrite Hdeleted. cbn [option_map].
      eexists. split; [reflexivity|].
      destruct (Nat.eqb _ _); split; reflexivity.
  - (* the parent is not stored *)
    session_inv Hrevert. rewrite Hreplied. split; [exact I|].
    exists (OutboxObject.set_is_deleted true outbox_object_to_delete).
    split; [exact Hdeleted|split; reflexivity].
Qed.

End OutboundDelete.

Lemma send_delete_recounts_witness :
  (match get_anybox_object_by_ap_id example_env my_reply_deleted_db hello_id with
   | Some (FromInbox replied) =>
       InboxObject.replies_count replied
       = _get_replies_count my_reply_deleted_db hello_id
   | Some (FromOutbox replied) =>
       OutboxObject.replies_count replied
       = _get_replies_count my_reply_deleted_db hello_id
   | None => True
   end
   /\ exists deleted,
        get_outbox_object_by_ap_id my_reply_deleted_db my_reply_id = Some deleted
        /\ OutboxObject.is_deleted deleted = true
        /\ OutboxObject.id deleted = OutboxObject.id my_reply_to_hello)
  /\ option_map InboxObject.replies_count
       (get_inbox_object_by_ap_id my_reply_db hello_id) = Some 1%Z
  /\ option_map InboxObject.replies_count
       (get_inbox_object_by_ap_id my_reply_deleted_db hello_id) = Some 0%Z.
Proof.
  assert (Hrun : send_delete example_env my_reply_id my_reply_db
                 = Ok tt my_reply_deleted_db) by (vm_compute; reflexivity).
  assert (Hparent : hello_id <> "") by discriminate.
  assert (Hfound : get_outbox_object_by_ap_id my_reply_db my_reply_id
                   = Some my_reply_to_hello) by (vm_compute; reflexivity).
  split; [|split; vm_compute; reflexivity].
  exact (@send_delete_recounts example_env my_reply_id hello_id my_reply_to_hello
           my_reply_db my_reply_deleted_db Hfound eq_refl Hparent Hrun).
Defined.
(** ** Likes and announces of the local actor *)

Section OutboundReactions.

Variable env : Env.

(** What [send_like] leaves behind for an object of the inbox. *)
Lemma send_like_Ok (ap_object_id : string) (inbox_object : InboxObject.t) (db db' : DB) :
  get_inbox_object_by_ap_id db ap_object_id = Some inbox_object ->
  send_like env ap_object_id db = Ok tt db' ->
  let like_ap_id := outbox_object_id env (uuid4_hex env (uuid_counter db)) in
  exists like actor,
    OutboxObject.id like = next_outbox_id db
    /\ OutboxObject.ap_id like = like_ap_id
    /\ OutboxObject.ap_type like = "Like"
    /\ OutboxObject.activity_object_ap_id like = Some ap_object_id
    /\ OutboxObject.ap_object like
       = activity_document "Like" like_ap_id (ID env) (ObjectId ap_object_id)
    /\ existsb (fun o => OutboxObject.ap_id o =? like_ap_id) (outbox db) = false
    /\ find_actor_by_id db (InboxObject.actor_id inbox_object) = Some actor
    /\ outbox db' = (outbox db ++ [like])%list
    /\ inbox db'
       = map (fun o => if Nat.eqb (InboxObject.id o) (InboxObject.id inbox_object)
                       then InboxObject.set_liked_via_outbox_object_ap_id
                              (Some like_ap_id) o
                       else o) (inbox db)
    /\ outgoing_activities db'
       = (outgoing_activities db
          ++ [OutgoingActivity.mk (Actor.inbox_url actor) (Some (next_outbox_id db))
                                  None None])%list
    /\ actors db' = actors db /\ next_outbox_id db' = S (next_outbox_id db)
    /\ uuid_counter db' = S (uuid_counter db)
    /\ following db' = following db /\ followers db' = followers db
    /\ notifications db' = notifications db.
Proof.
  intros Hfound H like_ap_id. unfold send_like in H.
  unfold bind at 1, get in H. rewrite Hfound in H. unfold bind at 1, ret at 1 in H.
  apply bind_Ok_inv in H as (like_id & d1 & Halloc & H). session_inv Halloc.
  apply bind_Ok_inv in H as (row & d2 & Hsave & H).
  apply save_outbox_object_inv in Hsave as (ap_id & Hid & Hfresh & Hrow & Hd2).
  cbn [activity_document raw_id] in Hid. injection Hid as <-.
  destruct (Nat.eqb (OutboxObject.id row) 0); [discriminate|].
  session_inv H.
  exists row, a0. rewrite Hrow at 1 2 3 4 5. cbn [OutboxObject.id OutboxObject.ap_id
    OutboxObject.ap_type OutboxObject.activity_object_ap_id OutboxObject.ap_object].
  assert (Hrow_id : OutboxObject.id row = next_outbox_id db)
    by (rewrite Hrow; cbn; now chase).
  assert (Hrow_ap_id : OutboxObject.ap_id row = like_ap_id) by now rewrite Hrow.
  rewrite Hrow_ap_id in *. rewrite Hrow_id in *.
  unfold find_actor_by_id in *.
  chase_in Hstep0. chase_in Hfresh. chase.
  repeat split; try reflexivity; assumption.
Qed.


(** What the Undo of a Like of the local actor leaves behind. *)
Lemma _send_undo_like_Ok (like : OutboxObject.t) (liked_object : InboxObject.t)
  (liked_object_ap_id : string) (db db' : DB) :
  get_outbox_object_by_ap_id db (OutboxObject.ap_id like) = Some like ->
  OutboxObject.ap_type like = "Like" ->
  OutboxObject.activity_object_ap_id like = Some liked_object_ap_id ->
  liked_object_ap_id <> "" ->
  get_inbox_object_by_ap_id db liked_object_ap_id = Some liked_object ->
  _send_undo env (OutboxObject.ap_id like) db = Ok tt db' ->
  exists undo actor,
    OutboxObject.ap_type undo = "Undo"
    /\ find_actor_by_id db (InboxObject.actor_id liked_object) = Some actor
    /\ outbox db'
       = map (fun o => if Nat.eqb (OutboxObject.id o) (OutboxObject.id like)
                       then OutboxObject.set_undone_by_outbox_object_id
                              (Some (next_outbox_id db)) o
                       else o) (outbox db ++ [undo])%list
    /\ inbox db'
       = map (fun o => if Nat.eqb (InboxObject.id o) (InboxObject.id liked_object)
                       then InboxObject.set_liked_via_outbox_object_ap_id None o
                       else o) (inbox db)
    /\ outgoing_activities db'
       = (outgoing_activities db
          ++ [OutgoingActivity.mk (Actor.inbox_url actor) (Some (next_outbox_id db))
                                  None None])%list.
Proof.
  intros Hlike Htype Hobject Hnot_empty Hliked H. unfold _send_undo in H.
  unfold bind at 1, get in H. rewrite Hlike, Htype in H.
  change (negb (mem_string "Like" ["Follow"; "Like"; "Announce"])) with false in H.
  cbn match in H.
  apply bind_Ok_inv in H as (undo_id & d1 & Halloc & H). session_inv Halloc.
  apply bind_Ok_inv in H as (row & d2 & Hsave & H).
  apply save_outbox_object_inv in Hsave as (ap_id & _ & _ & Hrow & Hd2).
  destruct (Nat.eqb (OutboxObject.id row) 0); [discriminate|].
  apply bind_Ok_inv in H as ([] & d3 & Hmark & H). session_inv Hmark.
  change ("Like" =? "Follow") with false in H.
  change ("Like" =? "Like") with true in H. cbn match in H.
  rewrite Hobject in H.
  destruct (String.eqb_spec liked_object_ap_id "") as [|_]; [contradiction|].
  unfold bind at 1, get in H.
  assert (Hliked3 : get_inbox_object_by_ap_id d3 liked_object_ap_id = Some liked_object).
  { unfold get_inbox_object_by_ap_id in *. now chase. }
  rewrite Hliked3 in H. session_inv H.
  assert (Hrow_id : OutboxObject.id row = next_outbox_id db)
    by (rewrite Hrow; cbn; now chase).
  rewrite Hrow_id in *.
  exists row, a0. unfold find_actor_by_id in *. chase_in Hstep0. chase.
  repeat split; try reflexivity; try assumption.
  now rewrite Hrow.
Qed.

Lemma set_liked_via_twice (i : nat) (a b : option string) (l : list InboxObject.t) :
  map (fun o => if Nat.eqb (InboxObject.id o) i
                then InboxObject.set_liked_via_outbox_object_ap_id b o else o)
      (map (fun o => if Nat.eqb (InboxObject.id o) i
                     then InboxObject.set_liked_via_outbox_object_ap_id a o else o) l)
  = map (fun o => if Nat.eqb (InboxObject.id o) i
                  then InboxObject.set_liked_via_outbox_object_ap_id b o else o) l.
Proof.
  rewrite map_map. apply map_ext. intros o.
  destruct (Nat.eqb (InboxObject.id o) i) eqn:E.
  - cbn [InboxObject.id InboxObject.set_liked_via_outbox_object_ap_id]. now rewrite E.
  - now rewrite E.
Qed.

(** X10: a Like of an object of the inbox, sent and then undone, leaves the
    object with no [liked_via_outbox_object_ap_id]; the outbox has gained
    the Like and its Undo, and both were queued for the inbox of the author
    of the object. *)
Theorem send_like_then_send_undo (ap_object_id : string) (inbox_object : InboxObject.t)
  (db db1 db2 : DB) :
  get_inbox_object_by_ap_id db ap_object_id = Some inbox_object ->
  ap_object_id <> "" ->
  send_like env ap_object_id db = Ok tt db1 ->
  send_undo env (outbox_object_id env (uuid4_hex env (uuid_counter db))) db1
  = Ok tt db2 ->
  inbox db2
  = map (fun o => if Nat.eqb (InboxObject.id o) (InboxObject.id inbox_object)
                  then InboxObject.set_liked_via_outbox_object_ap_id None o
                  else o) (inbox db)
  /\ map OutboxObject.ap_type (outbox db2)
     = (map OutboxObject.ap_type (outbox db) ++ ["Like"; "Undo"])%list
  /\ exists actor,
       find_actor_by_id db (InboxObject.actor_id inbox_object) = Some actor
       /\ outgoing_activities db2
          = (outgoing_activities db
             ++ [OutgoingActivity.mk (Actor.inbox_url actor) (Some (next_outbox_id db))
                                     None None;
                 OutgoingActivity.mk (Actor.inbox_url actor)
                                     (Some (S (next_outbox_id db))) None None])%list.
Proof.
  intros Hfound Hnot_empty Hlike Hundo.
  pose proof (@send_like_Ok ap_object_id inbox_object db db1 Hfound Hlike) as Hsent.
  cbv zeta in Hsent.
  destruct Hsent as (like & actor & Hid & Hap_id & Htype & Hobject & _ & Hfresh & Hactor
                     & Houtbox & Hinbox & Houtgoing & Hactors & Hnext & _).
  unfold send_undo in Hundo.
  apply bind_Ok_inv in Hundo as ([] & d & Hundo & Hcommit). session_inv Hcommit.
  rewrite <- Hap_id in Hundo.
  apply (@_send_undo_like_Ok like
           (InboxObject.set_liked_via_outbox_object_ap_id
              (Some (outbox_object_id env (uuid4_hex env (uuid_counter db))))
              inbox_object) ap_object_id) in Hundo
    as (undo & actor' & Hundo_type & Hactor' & Houtbox2 & Hinbox2 & Houtgoing2);
    [|unfold get_outbox_object_by_ap_id; rewrite Houtbox; apply find_app_fresh;
      [now rewrite Hap_id|apply String.eqb_refl]
     |exact Htype|exact Hobject|exact Hnot_empty|].
  - cbn [InboxObject.id InboxObject.actor_id
         InboxObject.set_liked_via_outbox_object_ap_id] in Hactor', Hinbox2.
    unfold find_actor_by_id in *. rewrite Hactors, Hactor in Hactor'.
    injection Hactor' as <-.
    rewrite Hinbox2, Hinbox, set_liked_via_twice. split; [reflexivity|]. split.
    + rewrite Houtbox2, map_map, Houtbox.
      rewrite (@map_ext _ _ _ OutboxObject.ap_type)
        by (intros o; destruct (Nat.eqb _ _); reflexivity).
      rewrite !map_app. cbn [map]. rewrite Htype, Hundo_type, <- app_assoc.
      reflexivity.
    + exists actor. split; [exact Hactor|].
      rewrite Houtgoing2, Houtgoing, Hnext, <- app_assoc. reflexivity.
  - unfold get_inbox_object_by_ap_id in *. rewrite Hinbox.
    rewrite find_map_key by (intros o; now destruct (Nat.eqb _ _)).
    rewrite Hfound. cbn [option_map]. now rewrite Nat.eqb_refl.
Qed.


Lemma send_announce_announces (ap_object_id : string) (inbox_object : InboxObject.t)
  (db : DB) :
  get_inbox_object_by_ap_id db ap_object_id = Some inbox_object ->
  negb (match InboxObject.visibility inbox_object with
        | PUBLIC | UNLISTED => true
        | _ => false
        end) = false ->
      forall db',
        send_announce env ap_object_id db = Ok tt db' ->
        let announce_ap_id := outbox_object_id env (uuid4_hex env (uuid_counter db)) in
        map OutboxObject.ap_type (outbox db')
        = (map OutboxObject.ap_type (outbox db) ++ ["Announce"])%list
        /\ inbox db'
           = map (fun o => if Nat.eqb (InboxObject.id o) (InboxObject.id inbox_object)
                           then InboxObject.set_announced_via_outbox_object_ap_id
                                  (Some announce_ap_id) o
                           else o) (inbox db)
        /\ exists recipients,
             outgoing_activities db'
             = (outgoing_activities db
                ++ map (fun rcp => OutgoingActivity.mk rcp (Some (next_outbox_id db))
                                                       None None) recipients)%list
             /\ NoDup recipients
             /\ (mem_string (BASE_URL env ++ "/followers") [AS_PUBLIC; ID env] = false ->
                 forall f a,
                   In f (followers db) ->
                   find_actor_by_id db (Follower.actor_id f) = Some a ->
                   In (Actor.shared_inbox_url a) recipients)
             /\ (mem_string (InboxObject.ap_actor_id inbox_object) [AS_PUBLIC; ID env]
                 = false ->
                 prefix (BASE_URL env) (InboxObject.ap_actor_id inbox_object) = false ->
                 forall a,
                   find_actor_by_ap_id db (InboxObject.ap_actor_id inbox_object) = Some a ->
                   In (Actor.shared_inbox_url a) recipients).
Proof.
  intros Hfound Hv db' H announce_ap_id. unfold send_announce in H.
  unfold bind at 1, get in H. rewrite Hfound in H.
  unfold bind at 1, ret at 1 in H. rewrite Hv in H.
  apply bind_Ok_inv in H as (announce_id & d1 & Halloc & H). session_inv Halloc.
  apply bind_Ok_inv in H as (row & d2 & Hsave & H).
  apply save_outbox_object_inv in Hsave as (ap_id & Hid & _ & Hrow & Hd2).
  cbn [raw_id] in Hid. injection Hid as <-.
  destruct (Nat.eqb (OutboxObject.id row) 0); [discriminate|].
  apply bind_Ok_inv in H as ([] & d3 & Hlink & H). session_inv Hlink.
  apply bind_Ok_inv in H as (recipients & d4 & Hrecipients & H).
  pose proof Hrecipients as Hspec. unfold _compute_recipients in Hspec.
  apply compute_recipients_loop_inv in Hspec
    as (Hnodup & _ & _ & _ & _ & Hadd); [|constructor].
  cbn [raw_to raw_cc raw_bto raw_bcc app] in Hadd.
  assert (Hactors : actors d3 = actors db) by now chase.
  assert (Hfollowers : followers d3 = followers db) by now chase.
  unfold find_actor_by_ap_id, find_actor_by_id in Hadd.
  rewrite Hactors, Hfollowers in Hadd.
  session_inv Hrecipients. session_inv H.
  assert (Hrow_id : OutboxObject.id row = next_outbox_id db)
    by (rewrite Hrow; cbn; now chase).
  assert (Hrow_ap_id : OutboxObject.ap_id row = announce_ap_id) by now rewrite Hrow.
  assert (Hrow_type : OutboxObject.ap_type row = "Announce") by now rewrite Hrow.
  rewrite Hrow_id, Hrow_ap_id in *. chase.
  rewrite map_app. cbn [map]. rewrite Hrow_type.
  split; [reflexivity|]. split; [reflexivity|]. exists recipients.
  split; [reflexivity|]. split; [exact Hnodup|]. split.
  - intros Hdeliver f x Hf Hx.
    apply (proj2 (Hadd (BASE_URL env ++ "/followers") (or_intror (or_introl eq_refl))
                       Hdeliver) eq_refl f x Hf Hx).
  - intros Hdeliver Hremote x Hx.
    apply (proj1 (Hadd (InboxObject.ap_actor_id inbox_object)
                       (or_intror (or_intror (or_introl eq_refl))) Hdeliver)
                 Hremote x Hx).
Qed.

(** X11: [send_announce] refuses an object of the inbox that is neither
    public nor unlisted, with the store untouched; for a public or unlisted
    one it records one Announce, links it from the object, and queues it
    once for each recipient, all other rows being kept: the recipients come
    without duplicates and hold the shared inbox of every follower and,
    when the author of the object is a remote actor of the directory, the
    shared inbox of the author. *)
Theorem send_announce_public_only (ap_object_id : string) (inbox_object : InboxObject.t)
  (db : DB) :
  get_inbox_object_by_ap_id db ap_object_id = Some inbox_object ->
  match InboxObject.visibility inbox_object with
  | PUBLIC | UNLISTED =>
      forall db',
        send_announce env ap_object_id db = Ok tt db' ->
        let announce_ap_id := outbox_object_id env (uuid4_hex env (uuid_counter db)) in
        map OutboxObject.ap_type (outbox db')
        = (map OutboxObject.ap_type (outbox db) ++ ["Announce"])%list
        /\ inbox db'
           = map (fun o => if Nat.eqb (InboxObject.id o) (InboxObject.id inbox_object)
                           then InboxObject.set_announced_via_outbox_object_ap_id
                                  (Some announce_ap_id) o
                           else o) (inbox db)
        /\ exists recipients,
             outgoing_activities db'
             = (outgoing_activities db
                ++ map (fun rcp => OutgoingActivity.mk rcp (Some (next_outbox_id db))
                                                       None None) recipients)%list
             /\ NoDup recipients
             /\ (mem_string (BASE_URL env ++ "/followers") [AS_PUBLIC; ID env] = false ->
                 forall f a,
                   In f (followers db) ->
                   find_actor_by_id db (Follower.actor_id f) = Some a ->
                   In (Actor.shared_inbox_url a) recipients)
             /\ (mem_string (InboxObject.ap_actor_id inbox_object) [AS_PUBLIC; ID env]
                 = false ->
                 prefix (BASE_URL env) (InboxObject.ap_actor_id inbox_object) = false ->
                 forall a,
                   find_actor_by_ap_id db (InboxObject.ap_actor_id inbox_object) = Some a ->
                   In (Actor.shared_inbox_url a) recipients)
  | FOLLOWERS_ONLY | DIRECT =>
      send_announce env ap_object_id db
      = Raise (ValueError "Cannot announce non-public object") db
  end.
Proof.
  intros Hfound.
  assert (Hprivate :
            negb (match InboxObject.visibility inbox_object with
                  | PUBLIC | UNLISTED => true
                  | _ => false
                  end) = true ->
            send_announce env ap_object_id db
            = Raise (ValueError "Cannot announce non-public object") db).
  { intros Hv. unfold send_announce. unfold bind at 1, get. rewrite Hfound.
    unfold bind at 1, ret at 1. now rewrite Hv. }
  pose proof (@send_announce_announces ap_object_id inbox_object db Hfound) as Hpublic.
  destruct (InboxObject.visibility inbox_object);
    [now apply Hpublic|now apply Hpublic|now apply Hprivate|now apply Hprivate].
Qed.

End OutboundReactions.

Lemma send_like_then_send_undo_witness :
  (inbox hello_unliked_db
   = map (fun o => if Nat.eqb (InboxObject.id o) (InboxObject.id hello_row)
                   then InboxObject.set_liked_via_outbox_object_ap_id None o
                   else o) (inbox hello_db)
   /\ map OutboxObject.ap_type (outbox hello_unliked_db)
      = (map OutboxObject.ap_type (outbox hello_db) ++ ["Like"; "Undo"])%list
   /\ exists actor,
        find_actor_by_id hello_db (InboxObject.actor_id hello_row) = Some actor
        /\ outgoing_activities hello_unliked_db
           = (outgoing_activities hello_db
              ++ [OutgoingActivity.mk (Actor.inbox_url actor)
                                      (Some (next_outbox_id hello_db)) None None;
                  OutgoingActivity.mk (Actor.inbox_url actor)
                                      (Some (S (next_outbox_id hello_db))) None None])%list)
  /\ option_map InboxObject.liked_via_outbox_object_ap_id
       (get_inbox_object_by_ap_id hello_liked_db hello_id)
     = Some (Some "https://me.example/o/0")
  /\ option_map InboxObject.liked_via_outbox_object_ap_id
       (get_inbox_object_by_ap_id hello_unliked_db hello_id)
     = Some None.
Proof.
  assert (Hfound : get_inbox_object_by_ap_id hello_db hello_id = Some hello_row)
    by (vm_compute; reflexivity).
  assert (Hnot_empty : hello_id <> "") by discriminate.
  assert (Hlike : send_like example_env hello_id hello_db = Ok tt hello_liked_db)
    by (vm_compute; reflexivity).
  assert (Hundo : send_undo example_env
                    (outbox_object_id example_env
                       (uuid4_hex example_env (uuid_counter hello_db)))
                    hello_liked_db = Ok tt hello_unliked_db)
    by (vm_compute; reflexivity).
  split; [|split; vm_compute; reflexivity].
  exact (@send_like_then_send_undo example_env hello_id hello_row hello_db
           hello_liked_db hello_unliked_db Hfound Hnot_empty Hlike Hundo).
Defined.

Lemma send_announce_public_only_witness :
  let recipients := [shared_inbox; "https://remote.example/carol/inbox"] in
  send_announce example_env "https://remote.example/p1" private_note_db
  = Raise (ValueError "Cannot announce non-public object") private_note_db
  /\ send_announce example_env "https://remote.example/c1" carol_note_db
     = Ok tt carol_note_announced_db
  /\ outgoing_activities carol_note_announced_db
     = map (fun rcp => OutgoingActivity.mk rcp (Some 1) None None) recipients
  /\ map OutboxObject.ap_type (outbox carol_note_announced_db) = ["Announce"]
  /\ inbox carol_note_announced_db
     = [InboxObject.set_announced_via_outbox_object_ap_id
          (Some (outbox_object_id example_env
                   (uuid4_hex example_env (uuid_counter carol_note_db)))) carol_note]
  /\ exists recipients',
       outgoing_activities carol_note_announced_db
       = (outgoing_activities carol_note_db
          ++ map (fun rcp => OutgoingActivity.mk rcp
                               (Some (next_outbox_id carol_note_db)) None None)
                 recipients')%list
       /\ NoDup recipients'
       /\ (mem_string (BASE_URL example_env ++ "/followers") [AS_PUBLIC; ID example_env]
           = false ->
           forall f a,
             In f (followers carol_note_db) ->
             find_actor_by_id carol_note_db (Follower.actor_id f) = Some a ->
             In (Actor.shared_inbox_url a) recipients')
       /\ (mem_string (InboxObject.ap_actor_id carol_note) [AS_PUBLIC; ID example_env]
           = false ->
           prefix (BASE_URL example_env) (InboxObject.ap_actor_id carol_note) = false ->
           forall a,
             find_actor_by_ap_id carol_note_db (InboxObject.ap_actor_id carol_note)
             = Some a ->
             In (Actor.shared_inbox_url a) recipients').
Proof.
  intros recipients.
  assert (Hrun : send_announce example_env "https://remote.example/c1" carol_note_db
                 = Ok tt carol_note_announced_db) by (vm_compute; reflexivity).
  split.
  { exact (@send_announce_public_only example_env "https://remote.example/p1"
             private_note private_note_db eq_refl). }
  split; [exact Hrun|].
  split; [vm_compute; reflexivity|].
  destruct (@send_announce_public_only example_env "https://remote.example/c1"
              carol_note carol_note_db eq_refl carol_note_announced_db Hrun)
    as (Htypes & Hinbox & Hqueue).
  split; [exact Htypes|]. split; [exact Hinbox|]. exact Hqueue.
Defined.
(** ** Recipients *)






Section SelfDestruct.

Variable env : Env.

(** The inbox at which an actor is reached by [compute_all_known_recipients]. *)
Lemma compute_all_known_recipients_spec (db : DB) :
  NoDup (compute_all_known_recipients db)
  /\ forall rcp,
       In rcp (compute_all_known_recipients db)
       <-> exists a, In a (actors db) /\ Actor.is_deleted a = false
                     /\ rcp = if Actor.shared_inbox_url a =? "" then Actor.inbox_url a
                              else Actor.shared_inbox_url a.
Proof.
  unfold compute_all_known_recipients. split.
  - apply fold_set_add_NoDup. constructor.
  - intros rcp. rewrite fold_set_add_In. split.
    + intros [[]|(a & Ha & E)]. apply filter_In in Ha as (Ha & Hlive).
      exists a. split; [exact Ha|]. split; [now destruct (Actor.is_deleted a)|].
      now symmetry.
    + intros (a & Ha & Hlive & ->). right. exists a. split; [|reflexivity].
      apply filter_In. split; [exact Ha|]. now rewrite Hlive.
Qed.

Lemma send_self_destruct_Ok (db db' : DB) :
  send_self_destruct env db = Ok tt db' ->
  map OutboxObject.ap_type (outbox db')
  = (map OutboxObject.ap_type (outbox db) ++ ["Delete"])%list
  /\ outgoing_activities db'
     = (outgoing_activities db
        ++ map (fun rcp => OutgoingActivity.mk rcp (Some (next_outbox_id db)) None None)
               (compute_all_known_recipients db))%list
  /\ actors db' = actors db /\ inbox db' = inbox db
  /\ followers db' = followers db /\ following db' = following db.
Proof.
  intros H. unfold send_self_destruct in H.
  apply bind_Ok_inv in H as (delete_id & d1 & Halloc & H). session_inv Halloc.
  apply bind_Ok_inv in H as (row & d2 & Hsave & H).
  apply save_outbox_object_inv in Hsave as (ap_id & _ & _ & Hrow & Hd2).
  destruct (Nat.eqb (OutboxObject.id row) 0); [discriminate|].
  unfold bind at 1, get in H. session_inv H.
  assert (Hrow_id : OutboxObject.id row = next_outbox_id db)
    by (rewrite Hrow; cbn; now chase).
  assert (Hrow_type : OutboxObject.ap_type row = "Delete") by now rewrite Hrow.
  assert (Hrecipients : compute_all_known_recipients d2 = compute_all_known_recipients db).
  { unfold compute_all_known_recipients. now chase. }
  rewrite Hrow_id, Hrecipients in *. chase.
  rewrite map_app. cbn [map]. rewrite Hrow_type. repeat split; reflexivity.
Qed.

(** X12: the Delete of the local actor sent by [send_self_destruct] is
    queued exactly once for each inbox at which an actor of the directory
    that is not deleted is reached, its shared inbox when it has one, else
    its own, and for no other address. *)
Theorem send_self_destruct_reaches_known_actors (db db' : DB) :
  send_self_destruct env db = Ok tt db' ->
  exists recipients,
    outgoing_activities db'
    = (outgoing_activities db
       ++ map (fun rcp => OutgoingActivity.mk rcp (Some (next_outbox_id db)) None None)
              recipients)%list
    /\ NoDup recipients
    /\ (forall rcp,
          In rcp recipients
          <-> exists a, In a (actors db) /\ Actor.is_deleted a = false
                        /\ rcp = if Actor.shared_inbox_url a =? ""
                                 then Actor.inbox_url a
                                 else Actor.shared_inbox_url a)
    /\ map OutboxObject.ap_type (outbox db')
       = (map OutboxObject.ap_type (outbox db) ++ ["Delete"])%list.
Proof.
  intros H. apply send_self_destruct_Ok in H as (Houtbox & Houtgoing & _).
  exists (compute_all_known_recipients db).
  destruct (compute_all_known_recipients_spec db) as (Hnodup & Hin).
  repeat split; try assumption; now apply Hin.
Qed.

(** X13: the [self_destruct] task does not stop when the operator declines
    the confirmation: whatever is typed at the prompt, the store it leaves
    and the exception it raises are those of [send_self_destruct]; a
    declined run only prints one more line. *)
Theorem self_destruct_ignores_the_answer (answer : string) (db : DB) :
  match self_destruct env answer db with
  | Ok printed db' =>
      send_self_destruct env db = Ok tt db'
      /\ printed = ((if answer =? "yes" then [] else ["Aborting"]) ++ ["Done"])%list
  | Raise e db' => send_self_destruct env db = Raise e db'
  end.
Proof.
  unfold self_destruct, bind.
  destruct (send_self_destruct env db) as [[] db'|e db']; [|reflexivity].
  cbn. split; [reflexivity|]. now destruct (answer =? "yes").
Qed.

End SelfDestruct.

Lemma followers_recipients_spec (l : list Follower.t) (skip : list string) :
  forall (acc recipients : list string) (db db' : DB),
    followers_recipients l skip acc db = Ok recipients db' ->
    db' = db
    /\ (NoDup acc -> NoDup recipients)
    /\ forall rcp,
         In rcp recipients
         <-> In rcp acc
             \/ exists follower actor,
                  In follower l
                  /\ find_actor_by_id db (Follower.actor_id follower) = Some actor
                  /\ mem_string (Actor.ap_id actor) skip = false
                  /\ Actor.shared_inbox_url actor = rcp.
Proof.
  induction l as [|follower l IH]; intros acc recipients db db' H;
    cbn [followers_recipients] in H.
  - apply ret_Ok_inv in H as (<- & <-). repeat split; auto.
    intros [H|(f & a & [] & _)]. exact H.
  - apply bind_Ok_inv in H as (actor & d & Hactor & H).
    apply load_actor_inv in Hactor as (Hactor & <-).
    destruct (mem_string (Actor.ap_id actor) skip) eqn:Hskip;
      apply IH in H as (-> & Hnodup & Hin); (split; [reflexivity|]); split.
    + exact Hnodup.
    + intros rcp. rewrite Hin. split.
      * intros [Hacc|(f & a & Hf & Ha & Hs & E)]; [now left|].
        right. exists f, a. repeat split; auto. now right.
      * intros [Hacc|(f & a & [<-|Hf] & Ha & Hs & E)]; [now left| |].
        -- rewrite Hactor in Ha. injection Ha as <-. congruence.
        -- right. now exists f, a.
    + intros Hacc. apply Hnodup. now apply set_add_NoDup.
    + intros rcp. rewrite Hin, set_add_In. split.
      * intros [[Hacc| ->]|(f & a & Hf & Ha & Hs & E)].
        -- now left.
        -- right. exists follower, actor. repeat split; auto. now left.
        -- right. exists f, a. repeat split; auto. now right.
      * intros [Hacc|(f & a & [<-|Hf] & Ha & Hs & E)].
        -- left. now left.
        -- rewrite Hactor in Ha. injection Ha as <-. left. right. now symmetry.
        -- right. now exists f, a.
Qed.

(** X14: the recipients drawn from the followers collection are the shared
    inboxes of the followers whose actor is not among [skip_actors], each
    once; an actor is skipped by its id, so that the inbox it shares with a
    follower that is not skipped is still a recipient.  The store is left
    as it was. *)
Theorem _get_followers_recipients_spec (skip_actors : list Actor.t)
  (recipients : list string) (db db' : DB) :
  _get_followers_recipients skip_actors db = Ok recipients db' ->
  db' = db
  /\ NoDup recipients
  /\ forall rcp,
       In rcp recipients
       <-> exists follower actor,
             In follower (followers db)
             /\ find_actor_by_id db (Follower.actor_id follower) = Some actor
             /\ ~ In (Actor.ap_id actor) (map Actor.ap_id skip_actors)
             /\ Actor.shared_inbox_url actor = rcp.
Proof.
  unfold _get_followers_recipients, bind, get, _get_followers. intros H.
  apply followers_recipients_spec in H as (-> & Hnodup & Hin).
  split; [reflexivity|]. split; [apply Hnodup; constructor|].
  intros rcp. rewrite Hin. split.
  - intros [[]|(f & a & Hf & Ha & Hs & E)]. exists f, a. repeat split; auto.
    intros Hskipped. apply mem_string_In in Hskipped. congruence.
  - intros (f & a & Hf & Ha & Hs & E). right. exists f, a. repeat split; auto.
    destruct (mem_string (Actor.ap_id a) (map Actor.ap_id skip_actors)) eqn:Hm;
      [|reflexivity].
    apply mem_string_In in Hm. contradiction.
Qed.

Lemma send_self_destruct_reaches_known_actors_witness :
  let db' := run (send_self_destruct example_env) directory_db in
  (exists recipients,
     outgoing_activities db'
     = (outgoing_activities directory_db
        ++ map (fun rcp => OutgoingActivity.mk rcp (Some (next_outbox_id directory_db))
                                               None None) recipients)%list
     /\ NoDup recipients
     /\ (forall rcp,
           In rcp recipients
           <-> exists a, In a (actors directory_db) /\ Actor.is_deleted a = false
                         /\ rcp = if Actor.shared_inbox_url a =? ""
                                  then Actor.inbox_url a
                                  else Actor.shared_inbox_url a)
     /\ map OutboxObject.ap_type (outbox db')
        = (map OutboxObject.ap_type (outbox directory_db) ++ ["Delete"])%list)
  /\ map OutgoingActivity.recipient (outgoing_activities db')
     = ["https://remote.example/alice/inbox"; "https://remote.example/carol/inbox"].
Proof.
  intros db'.
  assert (Hrun : send_self_destruct example_env directory_db = Ok tt db')
    by (vm_compute; reflexivity).
  split; [|vm_compute; reflexivity].
  exact (@send_self_destruct_reaches_known_actors example_env directory_db db' Hrun).
Defined.

Lemma _get_followers_recipients_spec_witness :
  _get_followers_recipients [resident 1 alice] residents_db
  = Ok [shared_inbox] residents_db
  /\ NoDup [shared_inbox]
  /\ forall rcp,
       In rcp [shared_inbox]
       <-> exists follower actor,
             In follower (followers residents_db)
             /\ find_actor_by_id residents_db (Follower.actor_id follower) = Some actor
             /\ ~ In (Actor.ap_id actor) (map Actor.ap_id [resident 1 alice])
             /\ Actor.shared_inbox_url actor = rcp.
Proof.
  assert (Hrun : _get_followers_recipients [resident 1 alice] residents_db
                 = Ok [shared_inbox] residents_db) by (vm_compute; reflexivity).
  split; [exact Hrun|].
  exact (proj2 (@_get_followers_recipients_spec [resident 1 alice] [shared_inbox]
                  residents_db residents_db Hrun)).
Defined.

(** ** The shape of a reply tree *)

Lemma insert_by_In (A : Type) (key : A -> Z) (x y : A) (l : list A) :
  In y (insert_by key x l) <-> y = x \/ In y l.
Proof.
  induction l as [|z l IH]; cbn.
  - intuition congruence.
  - destruct (key x <=? key z)%Z; cbn; [intuition congruence|].
    rewrite IH. intuition congruence.
Qed.

Lemma sorted_In (A : Type) (key : A -> Z) (y : A) (l : list A) :
  In y (sorted key l) <-> In y l.
Proof.
  induction l as [|x l IH]; [reflexivity|].
  unfold sorted. cbn [fold_right]. fold (sorted key l).
  rewrite insert_by_In, IH. cbn. intuition congruence.
Qed.

Lemma ascending_cons (x : Z) (l : list Z) :
  ascending (x :: l) = true
  <-> match l with y :: _ => (x <= y)%Z | [] => True end /\ ascending l = true.
Proof.
  destruct l as [|y l]; cbn [ascending].
  - tauto.
  - rewrite andb_true_iff, Z.leb_le. reflexivity.
Qed.

Lemma insert_by_ascending (A : Type) (key : A -> Z) (x : A) (l : list A) :
  ascending (map key l) = true -> ascending (map key (insert_by key x l)) = true.
Proof.
  induction l as [|y l IH]; [reflexivity|]. intros Hl.
  cbn [insert_by]. destruct (Z.leb_spec (key x) (key y)) as [Hle|Hgt].
  - cbn [map]. apply ascending_cons. split; [exact Hle|exact Hl].
  - cbn [map] in *. apply ascending_cons in Hl. destruct Hl as (Hhead & Htail).
    apply ascending_cons. split; [|now apply IH].
    destruct l as [|z l]; cbn [insert_by map].
    + lia.
    + cbn [map] in Hhead. destruct (key x <=? key z)%Z; cbn [map]; lia.
Qed.

Lemma sorted_ascending (A : Type) (key : A -> Z) (l : list A) :
  ascending (map key (sorted key l)) = true.
Proof.
  induction l as [|x l IH]; [reflexivity|].
  unfold sorted. cbn [fold_right]. fold (sorted key l). now apply insert_by_ascending.
Qed.

Lemma collect_inr (A B : Type) (f : A -> Exn + B) (l : list A) (ys : list B) :
  collect f l = inr ys -> Forall2 (fun x y => f x = inr y) l ys.
Proof.
  revert ys. induction l as [|x l IH]; intros ys; cbn.
  - intros [= <-]. constructor.
  - destruct (f x) as [e|y] eqn:Hx; [discriminate|].
    destruct (collect f l) as [e|ys']; [discriminate|].
    intros [= <-]. constructor; [exact Hx|now apply IH].
Qed.



Lemma nodes_by_in_reply_to_In (nodes : list AnyboxObject) (id : string)
  (n : AnyboxObject) :
  In n (nodes_by_in_reply_to nodes (Some id))
  <-> In n nodes /\ anybox_in_reply_to n = Some id.
Proof.
  unfold nodes_by_in_reply_to. rewrite filter_In.
  destruct (anybox_in_reply_to n) as [p|]; cbn.
  - rewrite String.eqb_eq. intuition congruence.
  - intuition congruence.
Qed.

(** One level of [_get_reply_node_children]: the children of [node_ap_id]
    are the candidates that reply to it, each with its own children, by date
    of publication. *)
Lemma _get_reply_node_children_inv (depth : nat) (requested_ap_id : string)
  (nodes : list AnyboxObject) (node_ap_id : string) (children : list ReplyTreeNode) :
  _get_reply_node_children (S depth) requested_ap_id nodes node_ap_id = inr children ->
  ascending (map (fun c => anybox_ap_published_at (node_ap_object c)) children) = true
  /\ (forall c, In c children ->
        exists grandchildren,
          c = mkReplyTreeNode (node_ap_object c) grandchildren
                (anybox_ap_id (node_ap_object c) =? requested_ap_id) false
          /\ In (node_ap_object c) nodes
          /\ anybox_in_reply_to (node_ap_object c) = Some node_ap_id
          /\ _get_reply_node_children depth requested_ap_id nodes
               (anybox_ap_id (node_ap_object c)) = inr grandchildren)
  /\ (forall n, In n nodes -> anybox_in_reply_to n = Some node_ap_id ->
        exists c, In c children /\ node_ap_object c = n).
Proof.
  cbn [_get_reply_node_children].
  destruct (collect _ _) as [e|unsorted] eqn:Hcollect; [discriminate|].
  intros [= <-]. apply collect_inr in Hcollect.
  split; [apply sorted_ascending|]. split.
  - intros c Hc. apply sorted_In in Hc.
    destruct (@Forall2_In_r _ _ _ _ _ c Hcollect Hc) as (child & Hchild & Hmk).
    apply nodes_by_in_reply_to_In in Hchild. destruct Hchild as (Hin & Hparent).
    destruct (_get_reply_node_children depth requested_ap_id nodes (anybox_ap_id child))
      as [e|grandchildren] eqn:Hg; [discriminate|].
    injection Hmk as <-. exists grandchildren. cbn. auto.
  - intros n Hin Hparent.
    assert (In n (nodes_by_in_reply_to nodes (Some node_ap_id))) as Hn
      by now apply nodes_by_in_reply_to_In.
    destruct (@Forall2_In_l _ _ _ _ _ n Hcollect Hn) as (c & Hc & Hmk).
    destruct (_get_reply_node_children depth requested_ap_id nodes (anybox_ap_id n))
      as [e|grandchildren]; [discriminate|].
    injection Hmk as <-. exists (mkReplyTreeNode n grandchildren
                                   (anybox_ap_id n =? requested_ap_id) false).
    split; [now apply sorted_In|reflexivity].
Qed.

Lemma _get_reply_node_children_threaded (requested_ap_id : string)
  (nodes : list AnyboxObject) (depth : nat) :
  forall (o : AnyboxObject) (children : list ReplyTreeNode) (r1 r2 : bool),
    _get_reply_node_children depth requested_ap_id nodes (anybox_ap_id o)
    = inr children ->
    threaded requested_ap_id (mkReplyTreeNode o children r1 r2) = true.
Proof.
  induction depth as [|depth IH]; intros o children r1 r2 Hc; [discriminate|].
  apply _get_reply_node_children_inv in Hc. destruct Hc as (Hasc & Heach & _).
  cbn [threaded]. rewrite Hasc, andb_true_r. apply andb_true_iff. split.
  - apply forallb_forall. intros c Hin.
    destruct (Heach c Hin) as (g & Hshape & _ & Hparent & _).
    rewrite Hparent, Hshape. cbn. rewrite String.eqb_refl.
    now destruct (_ =? requested_ap_id).
  - apply forallb_forall. intros c Hin.
    destruct (Heach c Hin) as (g & Hshape & _ & _ & Hg).
    rewrite Hshape. now apply IH.
Qed.

Lemma _get_reply_node_children_objects (requested_ap_id : string)
  (nodes : list AnyboxObject) (depth : nat) :
  forall (o : AnyboxObject) (children : list ReplyTreeNode) (r1 r2 : bool),
    _get_reply_node_children depth requested_ap_id nodes (anybox_ap_id o)
    = inr children ->
    forall n,
      In n (tree_objects (mkReplyTreeNode o children r1 r2))
      <-> n = o
          \/ (In n nodes
              /\ exists p, In p (tree_objects (mkReplyTreeNode o children r1 r2))
                           /\ anybox_in_reply_to n = Some (anybox_ap_id p)).
Proof.
  induction depth as [|depth IH]; intros o children r1 r2 Hc n; [discriminate|].
  apply _get_reply_node_children_inv in Hc. destruct Hc as (_ & Heach & Hall).
  cbn [tree_objects]. split.
  - intros [<-|Hn]; [now left|]. right.
    apply in_flat_map in Hn. destruct Hn as (c & Hc & Hn).
    destruct (Heach c Hc) as (g & Hshape & Hin & Hparent & Hg).
    rewrite Hshape in Hn. apply (IH _ _ false false Hg) in Hn.
    destruct Hn as [->|(Hnodes & p & Hp & Hreplies)].
    + split; [exact Hin|]. exists o. split; [now left|exact Hparent].
    + split; [exact Hnodes|]. exists p. split; [|exact Hreplies].
      right. apply in_flat_map. exists c. split; [exact Hc|]. now rewrite Hshape.
  - intros [->|(Hnodes & p & [<-|Hp] & Hreplies)]; [now left| |]; right.
    + destruct (Hall n Hnodes Hreplies) as (c & Hc & Hobject).
      apply in_flat_map. exists c. split; [exact Hc|].
      destruct c as [co cg cr1 cr2]. cbn in Hobject. subst co. now left.
    + apply in_flat_map in Hp. destruct Hp as (c & Hc & Hp).
      destruct (Heach c Hc) as (g & Hshape & _ & _ & Hg).
      apply in_flat_map. exists c. split; [exact Hc|].
      rewrite Hshape in Hp |- *. apply (IH _ _ _ _ Hg). right.
      split; [exact Hnodes|]. now exists p.
Qed.

Lemma root_ap_object_of_In (nodes : list AnyboxObject) (root : AnyboxObject) :
  root_ap_object_of nodes = Some root -> In root nodes.
Proof.
  unfold root_ap_object_of.
  destruct (nodes_by_in_reply_to nodes None) as [|first rest] eqn:Hfirst.
  - intros Hhead. destruct (sorted anybox_ap_published_at nodes) as [|m l] eqn:Hs;
      [discriminate|].
    injection Hhead as <-. apply (sorted_In anybox_ap_published_at). rewrite Hs. now left.
  - intros [= <-].
    assert (In first (nodes_by_in_reply_to nodes None)) as Hin
      by (rewrite Hfirst; now left).
    unfold nodes_by_in_reply_to in Hin. now apply filter_In in Hin.
Qed.

Lemma tree_nodes_of_visitor (db : DB) (requested_object n : AnyboxObject) :
  In n (tree_nodes_of db requested_object false) ->
  (n = requested_object /\ anybox_conversation requested_object = None)
  \/ (shown_to_visitors n = true
      /\ anybox_conversation n = anybox_conversation requested_object).
Proof.
  unfold tree_nodes_of.
  destruct (anybox_conversation requested_object) as [conversation|] eqn:Hconv.
  - intros Hin. right. apply in_app_or in Hin.
    destruct Hin as [Hin|Hin]; apply in_map_iff in Hin;
      destruct Hin as (o & <- & Hin); apply filter_In in Hin; destruct Hin as (_ & Hp);
      repeat (apply andb_true_iff in Hp; destruct Hp as (Hp & ?)).
    + unfold shown_to_visitors. cbn.
      destruct (InboxObject.conversation o) as [c|]; [|discriminate].
      cbn in Hp. apply String.eqb_eq in Hp. subst c. split; [|reflexivity].
      destruct (InboxObject.visibility o); try discriminate;
        now rewrite H0, H1.
    + unfold shown_to_visitors. cbn.
      destruct (OutboxObject.conversation o) as [c|]; [|discriminate].
      cbn in Hp. apply String.eqb_eq in Hp. subst c. split; [|reflexivity].
      destruct (OutboxObject.visibility o); try discriminate;
        now rewrite H0, H1.
  - intros [<-|[]]. now left.
Qed.

Section ReplyTreeShape.

Variable env : Env.

Lemma get_replies_tree_inv (requested_object : AnyboxObject)
  (is_current_user_admin : bool) (db db' : DB) (tree : ReplyTreeNode) :
  get_replies_tree env requested_object is_current_user_admin db = Ok tree db' ->
  db' = db
  /\ exists root children,
       tree = mkReplyTreeNode root children
                (anybox_ap_id root =? anybox_ap_id requested_object) true
       /\ In root (tree_nodes_of db requested_object is_current_user_admin)
       /\ _get_reply_node_children (recursion_limit env)
            (anybox_ap_id requested_object)
            (tree_nodes_of db requested_object is_current_user_admin)
            (anybox_ap_id root) = inr children.
Proof.
  unfold get_replies_tree, bind, get.
  destruct (Nat.ltb _ _); [discriminate|].
  destruct (root_ap_object_of _) as [root|] eqn:Hroot; [|discriminate].
  destruct (_get_reply_node_children _ _ _ _) as [e|children] eqn:Hc; [discriminate|].
  unfold ret. intros H. injection H as <- <-. split; [reflexivity|].
  exists root, children. split; [reflexivity|]. split; [|exact Hc].
  now apply root_ap_object_of_In.
Qed.

(** X15: a visitor who is not the admin gets, in the reply tree of an object
    with a conversation, only live notes, pages and articles of that
    conversation that are public or unlisted; an object without conversation
    gives a tree of that object alone. *)
Theorem get_replies_tree_hides_private (requested_object : AnyboxObject)
  (db db' : DB) (tree : ReplyTreeNode) :
  get_replies_tree env requested_object false db = Ok tree db' ->
  forall o,
    In o (tree_objects tree) ->
    (o = requested_object /\ anybox_conversation requested_object = None)
    \/ (shown_to_visitors o = true
        /\ anybox_conversation o = anybox_conversation requested_object).
Proof.
  intros Hrun o Hin. apply get_replies_tree_inv in Hrun.
  destruct Hrun as (_ & root & children & -> & Hroot & Hchildren).
  apply (@_get_reply_node_children_objects _ _ _ _ _ _ _ Hchildren) in Hin.
  apply (@tree_nodes_of_visitor db). destruct Hin as [->|(Hnodes & _)]; assumption.
Qed.

(** X16: in the tree that [get_replies_tree] returns, the children of every
    node are replies to that node, ordered by date of publication; a child is
    flagged as requested exactly when it has the id of the requested object,
    and only the top node is flagged as the root. The store is left as it
    was. *)
Theorem get_replies_tree_threaded (requested_object : AnyboxObject)
  (is_current_user_admin : bool) (db db' : DB) (tree : ReplyTreeNode) :
  get_replies_tree env requested_object is_current_user_admin db = Ok tree db' ->
  db' = db
  /\ node_is_root tree = true
  /\ node_is_requested tree
     = (anybox_ap_id (node_ap_object tree) =? anybox_ap_id requested_object)
  /\ threaded (anybox_ap_id requested_object) tree = true.
Proof.
  intros Hrun. apply get_replies_tree_inv in Hrun.
  destruct Hrun as (-> & root & children & -> & _ & Hchildren).
  repeat split. now apply (@_get_reply_node_children_threaded _ _ _ _ _ _ _ Hchildren).
Qed.

(** X17: the tree that [get_replies_tree] returns holds its root and, of
    the candidate objects, exactly those that reply to an object of the
    tree: no reply to a shown object is lost, and a candidate whose parent is
    not shown is left out unless it is the root. *)
Theorem get_replies_tree_complete (requested_object : AnyboxObject)
  (is_current_user_admin : bool) (db db' : DB) (tree : ReplyTreeNode) :
  get_replies_tree env requested_object is_current_user_admin db = Ok tree db' ->
  forall n,
    In n (tree_objects tree)
    <-> n = node_ap_object tree
        \/ (In n (tree_nodes_of db requested_object is_current_user_admin)
            /\ exists p, In p (tree_objects tree)
                         /\ anybox_in_reply_to n = Some (anybox_ap_id p)).
Proof.
  intros Hrun n. apply get_replies_tree_inv in Hrun.
  destruct Hrun as (_ & root & children & -> & _ & Hchildren).
  exact (@_get_reply_node_children_objects _ _ _ _ _ _ _ Hchildren n).
Qed.

End ReplyTreeShape.

Lemma get_replies_tree_hides_private_witness :
  (forall o,
     In o (tree_objects visitor_thread) ->
     (o = FromInbox thread_reply /\ anybox_conversation (FromInbox thread_reply) = None)
     \/ (shown_to_visitors o = true
         /\ anybox_conversation o = anybox_conversation (FromInbox thread_reply)))
  /\ shown_to_visitors (FromInbox private_reply) = false.
Proof.
  assert (Hrun : get_replies_tree example_env (FromInbox thread_reply) false
                   thread_with_private_db
                 = Ok visitor_thread thread_with_private_db)
    by (vm_compute; reflexivity).
  split; [|reflexivity].
  exact (@get_replies_tree_hides_private example_env (FromInbox thread_reply)
           thread_with_private_db thread_with_private_db visitor_thread Hrun).
Defined.

Lemma get_replies_tree_threaded_witness :
  thread_with_private_db = thread_with_private_db
  /\ node_is_root admin_thread = true
  /\ node_is_requested admin_thread
     = (anybox_ap_id (node_ap_object admin_thread)
        =? anybox_ap_id (FromInbox thread_reply))
  /\ threaded (anybox_ap_id (FromInbox thread_reply)) admin_thread = true.
Proof.
  assert (Hrun : get_replies_tree example_env (FromInbox thread_reply) true
                   thread_with_private_db
                 = Ok admin_thread thread_with_private_db)
    by (vm_compute; reflexivity).
  exact (@get_replies_tree_threaded example_env (FromInbox thread_reply) true
           thread_with_private_db thread_with_private_db admin_thread Hrun).
Defined.

Lemma get_replies_tree_complete_witness :
  (forall n,
     In n (tree_objects visitor_thread)
     <-> n = node_ap_object visitor_thread
         \/ (In n (tree_nodes_of thread_with_private_db (FromInbox thread_reply) false)
             /\ exists p, In p (tree_objects visitor_thread)
                          /\ anybox_in_reply_to n = Some (anybox_ap_id p)))
  /\ map anybox_ap_id (tree_nodes_of thread_with_private_db (FromInbox thread_reply) false)
     = ["https://remote.example/t3"; "https://remote.example/t5";
        "https://remote.example/t1"; "https://remote.example/t2"]
  /\ map anybox_ap_id (tree_objects visitor_thread)
     = ["https://remote.example/t1"; "https://remote.example/t2";
        "https://remote.example/t3"].
Proof.
  assert (Hrun : get_replies_tree example_env (FromInbox thread_reply) false
                   thread_with_private_db
                 = Ok visitor_thread thread_with_private_db)
    by (vm_compute; reflexivity).
  split; [|split; vm_compute; reflexivity].
  exact (@get_replies_tree_complete example_env (FromInbox thread_reply) false
           thread_with_private_db thread_with_private_db visitor_thread Hrun).
Defined.

(** ** Prefetching the outbox of a followed actor *)

Lemma prefetched_refl (db : DB) : prefetched 0 db db.
Proof.
  unfold prefetched. split; [|repeat split].
  exists []. split; [cbn; lia|]. now rewrite app_nil_r.
Qed.

Lemma prefetched_mono (j k : nat) (db db' : DB) :
  j <= k -> prefetched j db db' -> prefetched k db db'.
Proof.
  intros Hjk ((added & Hlen & Hrows) & Hrest). split; [|exact Hrest].
  exists added. split; [lia|exact Hrows].
Qed.

Lemma prefetched_set_actors (k : nat) (db0 db : DB) (x : list Actor.t) :
  prefetched k db0 db -> prefetched k db0 (set_actors x db).
Proof. intros H. exact H. Qed.

Lemma prefetched_set_next_actor_id (k : nat) (db0 db : DB) (x : nat) :
  prefetched k db0 db -> prefetched k db0 (set_next_actor_id x db).
Proof. intros H. exact H. Qed.

Lemma prefetched_set_next_inbox_id (k : nat) (db0 db : DB) (x : nat) :
  prefetched k db0 db -> prefetched k db0 (set_next_inbox_id x db).
Proof. intros H. exact H. Qed.

Lemma prefetched_inbox_map (k : nat) (db0 db : DB) (g : InboxObject.t -> InboxObject.t) :
  (forall o, InboxObject.set_is_hidden_from_stream false (g o)
             = InboxObject.set_is_hidden_from_stream false o) ->
  prefetched k db0 db -> prefetched k db0 (set_inbox (map g (inbox db)) db).
Proof.
  intros Hg ((added & Hlen & Hrows) & Hrest). split; [|exact Hrest].
  exists added. split; [exact Hlen|]. cbn [inbox set_inbox].
  rewrite map_map, <- Hrows. now apply map_ext.
Qed.

Lemma prefetched_inbox_app (k : nat) (db0 db : DB) (row : InboxObject.t) :
  prefetched k db0 db -> prefetched (S k) db0 (set_inbox (inbox db ++ [row]) db).
Proof.
  intros ((added & Hlen & Hrows) & Hrest). split; [|exact Hrest].
  exists (added ++ [row])%list. split; [rewrite length_app; cbn; lia|].
  cbn [inbox set_inbox]. now rewrite app_assoc, (map_app _ (inbox db)), Hrows, <- map_app.
Qed.

Lemma stable_weaken (A : Type) (P E : DB -> Prop) (c : M A) :
  stable P c -> (forall db, P db -> E db) ->
  triple P c (fun _ => P) (fun _ => E).
Proof.
  intros Hc HPE. eapply triple_consequence; [exact Hc| | |]; cbn; auto.
Qed.

Section Prefetch.

Variable env : Env.

Lemma add_inbox_object_prefetched (k : nat) (db0 : DB) (mk_row : nat -> InboxObject.t) :
  triple (prefetched k db0) (add_inbox_object mk_row)
    (fun _ => prefetched (S k) db0) (fun _ => prefetched (S k) db0).
Proof.
  intros db Hdb. unfold add_inbox_object, bind, get.
  destruct (existsb _ _); cbn.
  - apply prefetched_mono with k; [lia|exact Hdb].
  - apply prefetched_set_next_inbox_id. now apply prefetched_inbox_app.
Qed.

Lemma save_object_to_inbox_prefetched (k : nat) (db0 : DB) (raw_object : RawObject) :
  triple (prefetched k db0) (save_object_to_inbox env raw_object)
    (fun _ => prefetched (S k) db0) (fun _ => prefetched (S k) db0).
Proof.
  assert (forall db, prefetched k db0 db -> prefetched (S k) db0 db) as Hweak
    by (intros db; apply prefetched_mono; lia).
  unfold save_object_to_inbox.
  eapply triple_bind; [apply stable_weaken; [apply stable_get_actor_id|exact Hweak]|].
  intros obj_actor_id. cbv beta.
  eapply triple_bind.
  { apply stable_weaken; [|exact Hweak].
    apply stable_fetch_actor; intros; assumption. }
  intros obj_actor. cbv beta zeta.
  eapply triple_bind; [apply stable_weaken; [apply stable_get_id|exact Hweak]|].
  intros ro_ap_id. cbv beta.
  eapply triple_bind.
  { apply stable_weaken; [|exact Hweak].
    apply stable_fetch_conversation_root; intros; assumption. }
  intros conversation. apply add_inbox_object_prefetched.
Qed.

Lemma prefetch_loop_prefetched (db0 : DB) (activities : list RawObject) :
  forall (saved k : nat),
    saved < 5 ->
    triple (prefetched k db0) (prefetch_loop env activities saved)
      (fun _ => prefetched (k + (5 - saved)) db0)
      (fun _ => prefetched (k + (5 - saved)) db0).
Proof.
  induction activities as [|activity rest IH]; intros saved k Hsaved.
  - apply triple_ret. intros db. apply prefetched_mono. lia.
  - assert (forall j db, j <= k + (5 - saved) -> prefetched j db0 db ->
                         prefetched (k + (5 - saved)) db0 db) as Hweak
      by (intros j db Hj; now apply prefetched_mono).
    cbn [prefetch_loop].
    eapply triple_bind.
    { apply stable_weaken; [apply stable_get_id|]. intros db; apply (Hweak k); lia. }
    intros activity_id. cbv beta.
    eapply triple_bind.
    { apply stable_weaken; [apply stable_lift_fetch|]. intros db; apply (Hweak k); lia. }
    intros raw_activity. cbv beta.
    eapply triple_bind with
      (R := fun saved' db =>
              (saved' = saved /\ prefetched k db0 db)
              \/ (saved' = S saved /\ prefetched (S k) db0 db)).
    + destruct (raw_type raw_activity =? "Create").
      * eapply triple_bind.
        { apply stable_weaken; [|intros db; apply (Hweak k); lia].
          unfold get_object. repeat stable_step. }
        intros obj. cbv beta.
        eapply triple_bind.
        { apply stable_weaken; [apply stable_get_id|]. intros db; apply (Hweak k); lia. }
        intros obj_id. cbv beta.
        eapply triple_bind.
        { apply stable_weaken; [apply stable_get|]. intros db; apply (Hweak k); lia. }
        intros db1. cbv beta.
        eapply triple_bind with (R := fun _ => prefetched (S k) db0).
        { destruct (get_inbox_object_by_ap_id db1 obj_id) as [found|].
          - apply triple_ret. intros db. apply prefetched_mono. lia.
          - eapply triple_consequence;
              [apply save_object_to_inbox_prefetched
              |intros d H; exact H
              |intros a d H; exact H
              |intros e d; apply (Hweak (S k)); lia]. }
        intros saved_inbox_object. cbv beta.
        eapply triple_bind with (R := fun _ => prefetched (S k) db0).
        { apply stable_weaken; [|intros db; apply (Hweak (S k)); lia].
          destruct (negb _); [|apply stable_ret].
          apply (@stable_update_inbox_object _
                   (InboxObject.set_is_hidden_from_stream false)).
          - intros db g Hg. now apply prefetched_inbox_map.
          - intros o _. now destruct o. }
        intros _. apply triple_ret. intros db Hdb. now right.
      * apply triple_ret. intros db Hdb. now left.
    + intros saved'. cbv beta.
      destruct (Nat.leb_spec 5 saved') as [Hstop|Hgo].
      * apply triple_ret. intros db [(_ & Hdb)|(_ & Hdb)];
          [apply (Hweak k)|apply (Hweak (S k))]; (lia || assumption).
      * intros db [(-> & Hdb)|(-> & Hdb)].
        -- now apply (IH saved k Hgo).
        -- pose proof (IH (S saved) (S k) Hgo db Hdb) as H.
           replace (S k + (5 - S saved)) with (k + (5 - saved)) in H by lia.
           exact H.
Qed.

Lemma _prefetch_actor_outbox_prefetched (actor : Actor.t) (db : DB) :
  prefetched 5 db (state_of (_prefetch_actor_outbox env actor db)).
Proof.
  assert (triple (prefetched 0 db) (_prefetch_actor_outbox env actor)
            (fun _ => prefetched 5 db) (fun _ => prefetched 5 db)) as H.
  { unfold _prefetch_actor_outbox. eapply triple_bind.
    - apply stable_weaken; [apply stable_lift_fetch|].
      intros d. apply prefetched_mono. lia.
    - intros outbox. apply (@prefetch_loop_prefetched db (firstn 20 outbox) 0 0). lia. }
  specialize (H db (prefetched_refl db)).
  now destruct (_prefetch_actor_outbox env actor db).
Qed.

(** X18: [_prefetch_actor_outbox] adds at most five objects to the inbox,
    whether it returns or raises; apart from that it only takes inbox rows
    out of hiding and saves actors: the other tables are left as they
    were. *)
Theorem _prefetch_actor_outbox_bounded (actor : Actor.t) (db : DB) :
  let db' := state_of (_prefetch_actor_outbox env actor db) in
  (exists added,
     length added <= 5
     /\ map (InboxObject.set_is_hidden_from_stream false) (inbox db')
        = map (InboxObject.set_is_hidden_from_stream false) (inbox db ++ added))
  /\ outbox db' = outbox db /\ followers db' = followers db
  /\ following db' = following db /\ notifications db' = notifications db
  /\ poll_answers db' = poll_answers db
  /\ outgoing_activities db' = outgoing_activities db
  /\ next_outbox_id db' = next_outbox_id db /\ uuid_counter db' = uuid_counter db.
Proof. exact (_prefetch_actor_outbox_prefetched actor db). Qed.

End Prefetch.

(** ** The answers to a Follow of the local actor *)

Lemma try_except_swallow (c : M unit) (db : DB) :
  try_except c (fun _ => Some (ret tt)) db = Ok tt (state_of (c db)).
Proof. unfold try_except. destruct (c db) as [[] d|e d]; reflexivity. Qed.


Lemma outbox_object_id_local (env : Env) (outbox_id : string) :
  truthy (Some (outbox_object_id env outbox_id))
  && prefix (BASE_URL env) (outbox_object_id env outbox_id) = true.
Proof.
  unfold outbox_object_id. rewrite prefix_app, andb_true_r.
  apply truthy_Some_true. now destruct (BASE_URL env).
Qed.

Ltac decide_literals :=
  repeat match goal with
         | |- context [String.eqb ?a ?b] =>
             let v := eval vm_compute in (String.eqb a b) in
             match v with
             | true => change (String.eqb a b) with true
             | false => change (String.eqb a b) with false
             end
         | |- context [mem_string ?a ?l] =>
             let v := eval vm_compute in (mem_string a l) in
             match v with
             | true => change (mem_string a l) with true
             | false => change (mem_string a l) with false
             end
         end;
  cbv iota.

Section FollowAnswers.

Variable env : Env.

Lemma dispatch_activity_accept (raw_object : RawObject) (actor : Actor.t)
  (inbox_object : InboxObject.t) (relates_to_inbox_object : option InboxObject.t)
  (target : OutboxObject.t) (forwarded_by_actor : option Actor.t) (db : DB) :
  OutboxObject.ap_type target = "Follow" ->
  raw_type raw_object = "Accept" ->
  existsb (fun f => Nat.eqb (Following.actor_id f) (Actor.id actor)
                    || (Following.ap_actor_id f =? Actor.ap_id actor))
          (following db) = false ->
  exists db',
    dispatch_activity env raw_object actor inbox_object relates_to_inbox_object
      (Some target) forwarded_by_actor db = Ok tt db'
    /\ following db'
       = (following db
          ++ [Following.mk (Actor.id actor) (OutboxObject.id target)
                           (Actor.ap_id actor)])%list
    /\ notifications db'
       = (notifications db
          ++ [Notification.mk FOLLOW_REQUEST_ACCEPTED (Some (Actor.id actor)) None
                              (Some (InboxObject.id inbox_object))])%list
    /\ (exists added,
          length added <= 5
          /\ map (InboxObject.set_is_hidden_from_stream false) (inbox db')
             = map (InboxObject.set_is_hidden_from_stream false) (inbox db ++ added))
    /\ outbox db' = outbox db /\ followers db' = followers db
    /\ outgoing_activities db' = outgoing_activities db.
Proof.
  intros Htarget Htype Hfresh. unfold dispatch_activity. rewrite Htype, Htarget.
  decide_literals.
  unfold add_notification. unfold bind at 1, modify at 1.
  unfold bind at 1, get. cbn [following set_notifications]. rewrite Hfresh.
  unfold bind at 1, modify. rewrite try_except_swallow.
  eexists. split; [reflexivity|].
  match goal with
  | |- context [state_of (_prefetch_actor_outbox env actor ?d)] =>
      destruct (@_prefetch_actor_outbox_prefetched env actor d)
        as ((added & Hlen & Hrows) & Ho & Hfs & Hfg & Hn & _ & Hout & _)
  end.
  rewrite Hfg, Hn, Ho, Hfs, Hout. repeat split.
  exists added. split; [exact Hlen|exact Hrows].
Qed.

(** X19: when an actor accepts a Follow of the local actor, whoever the
    Follow was sent to, it joins the following table, provided it was not
    there, and a notification is added; the prefetch of its outbox that
    follows cannot make the processing fail, and adds at most five objects to
    the inbox. When it rejects, it leaves the following table and a
    notification is added. *)
Theorem dispatch_activity_answers_follow (raw_object : RawObject) (actor : Actor.t)
  (inbox_object : InboxObject.t) (relates_to_inbox_object : option InboxObject.t)
  (target : OutboxObject.t) (forwarded_by_actor : option Actor.t) (db : DB) :
  OutboxObject.ap_type target = "Follow" ->
  (raw_type raw_object = "Accept" ->
   existsb (fun f => Nat.eqb (Following.actor_id f) (Actor.id actor)
                     || (Following.ap_actor_id f =? Actor.ap_id actor))
           (following db) = false ->
   exists db',
     dispatch_activity env raw_object actor inbox_object relates_to_inbox_object
       (Some target) forwarded_by_actor db = Ok tt db'
     /\ following db'
        = (following db
           ++ [Following.mk (Actor.id actor) (OutboxObject.id target)
                            (Actor.ap_id actor)])%list
     /\ notifications db'
        = (notifications db
           ++ [Notification.mk FOLLOW_REQUEST_ACCEPTED (Some (Actor.id actor)) None
                               (Some (InboxObject.id inbox_object))])%list
     /\ (exists added,
           length added <= 5
           /\ map (InboxObject.set_is_hidden_from_stream false) (inbox db')
              = map (InboxObject.set_is_hidden_from_stream false) (inbox db ++ added))
     /\ outbox db' = outbox db /\ followers db' = followers db
     /\ outgoing_activities db' = outgoing_activities db)
  /\ (raw_type raw_object = "Reject" ->
      dispatch_activity env raw_object actor inbox_object relates_to_inbox_object
        (Some target) forwarded_by_actor db
      = Ok tt
          (set_following (unfollowed (Actor.ap_id actor) (following db))
             (set_notifications
                (notifications db
                 ++ [Notification.mk FOLLOW_REQUEST_REJECTED (Some (Actor.id actor)) None
                                     (Some (InboxObject.id inbox_object))]) db))).
Proof.
  intros Htarget. split.
  - intros Htype Hfresh. now apply dispatch_activity_accept.
  - intros Htype. unfold dispatch_activity. rewrite Htype, Htarget.
    decide_literals. reflexivity.
Qed.

(** What [send_follow] leaves behind. *)
Lemma send_follow_Ok (ap_actor_id : string) (db db' : DB) :
  send_follow env ap_actor_id db = Ok tt db' ->
  let follow_ap_id := outbox_object_id env (uuid4_hex env (uuid_counter db)) in
  exists follow actor,
    OutboxObject.id follow = next_outbox_id db
    /\ OutboxObject.ap_id follow = follow_ap_id
    /\ OutboxObject.ap_type follow = "Follow"
    /\ OutboxObject.activity_object_ap_id follow = Some ap_actor_id
    /\ existsb (fun o => OutboxObject.ap_id o =? follow_ap_id) (outbox db) = false
    /\ outbox db' = (outbox db ++ [follow])%list
    /\ outgoing_activities db'
       = (outgoing_activities db
          ++ [OutgoingActivity.mk (Actor.inbox_url actor) (Some (next_outbox_id db))
                                  None None])%list
    /\ inbox db' = inbox db /\ next_inbox_id db' = next_inbox_id db
    /\ following db' = following db /\ followers db' = followers db
    /\ notifications db' = notifications db.
Proof.
  intros H follow_ap_id. unfold send_follow in H.
  apply bind_Ok_inv in H as ([] & d & H & Hcommit). session_inv Hcommit.
  unfold _send_follow in H.
  apply bind_Ok_inv in H as (actor & d0 & Hactor & H).
  apply fetch_actor_inv in Hactor
    as (Hinbox & Houtbox & Hfollowers & Hfollowing & Hnotifications & _ & Houtgoing
        & Hnext_inbox & Hnext_outbox & Huuid).
  apply bind_Ok_inv in H as (follow_id & d1 & Halloc & H). session_inv Halloc.
  apply bind_Ok_inv in H as (row & d2 & Hsave & H).
  apply save_outbox_object_inv in Hsave as (ap_id & Hid & Hfresh & Hrow & Hd2).
  cbn [activity_document raw_id] in Hid. injection Hid as <-.
  destruct (Nat.eqb (OutboxObject.id row) 0); [discriminate|].
  session_inv H.
  exists row, actor.
  assert (Hrow_id : OutboxObject.id row = next_outbox_id db)
    by (rewrite Hrow; cbn; chase; congruence).
  assert (Hrow_ap_id : OutboxObject.ap_id row = follow_ap_id)
    by (rewrite Hrow; cbn; unfold follow_ap_id; now rewrite Huuid).
  rewrite Hrow_id in *.
  split; [reflexivity|]. split; [exact Hrow_ap_id|].
  split; [now rewrite Hrow|]. split; [now rewrite Hrow|].
  chase_in Hfresh. rewrite ?Houtbox, ?Huuid in Hfresh.
  split; [exact Hfresh|].
  chase. rewrite ?Houtbox, ?Houtgoing, ?Hinbox, ?Hnext_inbox, ?Hfollowing, ?Hfollowers,
           ?Hnotifications.
  repeat split.
Qed.

(** X24: a Follow sent with [send_follow] and then accepted: when the
    Accept names the Follow recorded, is not yet in the inbox, and its sender
    is not yet followed, [save_to_inbox] links the sender in the following
    table to the row of that Follow and adds the notification; the followers
    are as before. *)
Theorem send_follow_then_accepted (ap_actor_id : string) (raw_object : RawObject)
  (raw_object_id : string) (actor : Actor.t) (forwarded_by_actor : option Actor.t)
  (db db1 : DB) :
  send_follow env ap_actor_id db = Ok tt db1 ->
  raw_type raw_object = "Accept" ->
  raw_id raw_object = Some raw_object_id ->
  activity_object_ap_id_of raw_object
  = Some (outbox_object_id env (uuid4_hex env (uuid_counter db))) ->
  existsb (fun o => InboxObject.ap_id o =? raw_object_id) (inbox db) = false ->
  existsb (fun f => Nat.eqb (Following.actor_id f) (Actor.id actor)
                    || (Following.ap_actor_id f =? Actor.ap_id actor))
          (following db) = false ->
  exists db2,
    save_to_inbox_checked env raw_object raw_object_id actor forwarded_by_actor db1
    = Ok tt db2
    /\ following db2
       = (following db
          ++ [Following.mk (Actor.id actor) (next_outbox_id db) (Actor.ap_id actor)])%list
    /\ notifications db2
       = (notifications db
          ++ [Notification.mk FOLLOW_REQUEST_ACCEPTED (Some (Actor.id actor)) None
                              (Some (next_inbox_id db))])%list
    /\ map OutboxObject.ap_type (outbox db2)
       = (map OutboxObject.ap_type (outbox db) ++ ["Follow"])%list
    /\ followers db2 = followers db.
Proof.
  intros Hsent Htype Hid Hobject Hnew Hfresh.
  destruct (@send_follow_Ok ap_actor_id db db1 Hsent)
    as (follow & followed & Hfollow_id & Hfollow_ap_id & Hfollow_type & _ & Hunused
        & Houtbox & _ & Hinbox & Hnext & Hfollowing & Hfollowers & Hnotifications).
  assert (Hfound : get_outbox_object_by_ap_id db1
                     (outbox_object_id env (uuid4_hex env (uuid_counter db)))
                   = Some follow).
  { unfold get_outbox_object_by_ap_id. rewrite Houtbox.
    apply find_app_fresh; [exact Hunused|]. rewrite Hfollow_ap_id.
    apply String.eqb_refl. }
  unfold save_to_inbox_checked. unfold bind at 1, get. rewrite Hinbox.
  rewrite existsb_false_count_if by exact Hnew.
  unfold get_id. rewrite Hid. unfold bind at 1, ret at 1.
  rewrite Hobject. cbv zeta iota. rewrite outbox_object_id_local, Hfound.
  unfold bind at 1. unfold add_inbox_object, bind at 1, get.
  cbn [InboxObject.ap_id]. rewrite Hinbox, Hnew. unfold bind at 1, modify, ret.
  unfold bind at 1.
  match goal with
  | |- context [dispatch_activity env raw_object actor ?row ?ri (Some follow) ?fw ?d] =>
      destruct (@dispatch_activity_accept raw_object actor row ri follow fw d
                  Hfollow_type Htype)
        as (db2 & Hrun & Hfg & Hn & _ & Ho & Hfs & _);
        [cbn [following set_next_inbox_id set_inbox]; now rewrite Hfollowing|]
  end.
  exists db2. rewrite Hrun. unfold commit, ret.
  split; [reflexivity|].
  rewrite Hfg, Hn, Ho, Hfs. store_fields.
  rewrite Hfollowing, Hfollow_id, Hnotifications, Hnext, Houtbox, Hfollowers, map_app.
  cbn [map]. rewrite Hfollow_type. repeat split.
Qed.

End FollowAnswers.

Lemma dispatch_activity_answers_follow_witness :
  (exists db',
     dispatch_activity example_env alice_accepts (person 1 alice)
       (remote_object 1 1 alice_accepts) None (Some follow_of_alice) None
       follow_requested_db = Ok tt db'
     /\ following db'
        = (following follow_requested_db
           ++ [Following.mk (Actor.id (person 1 alice)) (OutboxObject.id follow_of_alice)
                            (Actor.ap_id (person 1 alice))])%list
     /\ notifications db'
        = (notifications follow_requested_db
           ++ [Notification.mk FOLLOW_REQUEST_ACCEPTED (Some (Actor.id (person 1 alice)))
                               None (Some (InboxObject.id (remote_object 1 1 alice_accepts)))])%list
     /\ (exists added,
           length added <= 5
           /\ map (InboxObject.set_is_hidden_from_stream false) (inbox db')
              = map (InboxObject.set_is_hidden_from_stream false)
                    (inbox follow_requested_db ++ added))
     /\ outbox db' = outbox follow_requested_db
     /\ followers db' = followers follow_requested_db
     /\ outgoing_activities db' = outgoing_activities follow_requested_db)
  /\ following (run (save_to_inbox example_env alice_accepts alice) follow_requested_db)
     = [Following.mk 1 1 alice]
  /\ following (run (save_to_inbox example_env alice_rejects alice)
                  (run (save_to_inbox example_env alice_accepts alice)
                       follow_requested_db))
     = [].
Proof.
  split; [|split; vm_compute; reflexivity].
  apply (@dispatch_activity_answers_follow example_env alice_accepts (person 1 alice)
           (remote_object 1 1 alice_accepts) None follow_of_alice None
           follow_requested_db eq_refl); reflexivity.
Defined.

Lemma send_follow_then_accepted_witness :
  (exists db2,
     save_to_inbox_checked example_env alice_accepts_sent "https://remote.example/acc2"
       (person 1 alice) None follow_sent_db = Ok tt db2
     /\ following db2
        = (following empty_db
           ++ [Following.mk (Actor.id (person 1 alice)) (next_outbox_id empty_db)
                            (Actor.ap_id (person 1 alice))])%list
     /\ notifications db2
        = (notifications empty_db
           ++ [Notification.mk FOLLOW_REQUEST_ACCEPTED (Some (Actor.id (person 1 alice)))
                               None (Some (next_inbox_id empty_db))])%list
     /\ map OutboxObject.ap_type (outbox db2)
        = (map OutboxObject.ap_type (outbox empty_db) ++ ["Follow"])%list
     /\ followers db2 = followers empty_db)
  /\ following (run (save_to_inbox example_env alice_accepts_sent alice) follow_sent_db)
     = [Following.mk 1 1 alice]
  /\ following (run (save_to_inbox example_env carol_accepts_sent carol) follow_sent_db)
     = [Following.mk 3 1 carol].
Proof.
  assert (Hsent : send_follow example_env alice empty_db = Ok tt follow_sent_db)
    by (vm_compute; reflexivity).
  split; [|split; vm_compute; reflexivity].
  exact (@send_follow_then_accepted example_env alice alice_accepts_sent
           "https://remote.example/acc2" (person 1 alice) None empty_db follow_sent_db
           Hsent eq_refl eq_refl eq_refl eq_refl eq_refl).
Defined.

(** ** The deletion of an actor *)

Lemma map_key_coarser (A K1 K2 : Type) (f : A -> K1) (g : A -> K2) (l l' : list A) :
  map f l' = map f l ->
  (forall x y, In x l -> f y = f x -> g y = g x) ->
  map g l' = map g l.
Proof.
  revert l'. induction l as [|x l IH]; intros [|y l']; cbn; try discriminate.
  - reflexivity.
  - intros [= Hhead Htail] H. f_equal.
    + apply (H x y); [now left|exact Hhead].
    + apply IH; [exact Htail|]. intros x' y' Hin. apply H. now right.
Qed.

Section ActorDeletion.

Variable env : Env.

Lemma delete_each_gone (delete_activity : InboxObject.t) (l : list InboxObject.t) :
  forall ids,
    triple
      (fun db => forall o, In o (inbox db) -> In (InboxObject.id o) ids ->
                           InboxObject.is_deleted o = true)
      (for_each l (fun inbox_object =>
         _revert_side_effect_for_deleted_object env delete_activity inbox_object None ;;;
         update_inbox_object (InboxObject.id inbox_object)
           (InboxObject.set_is_deleted true)))
      (fun _ db => forall o, In o (inbox db) ->
                             In (InboxObject.id o) (map InboxObject.id l ++ ids) ->
                             InboxObject.is_deleted o = true)
      (fun _ _ => True).
Proof.
  induction l as [|x l IH]; intros ids; cbn [for_each map app].
  - apply triple_ret. auto.
  - eapply triple_bind with
      (R := fun _ db => forall o, In o (inbox db) ->
                                  In (InboxObject.id o) (InboxObject.id x :: ids) ->
                                  InboxObject.is_deleted o = true).
    + eapply triple_bind with
        (R := fun _ db => forall o, In o (inbox db) -> In (InboxObject.id o) ids ->
                                    InboxObject.is_deleted o = true).
      * apply stable_triple.
        apply (@stable__revert_side_effect_for_deleted_object env _ unit
                 (fun o => (InboxObject.id o, InboxObject.is_deleted o)) (fun _ => tt));
          try (intros; reflexivity);
          try (intros ? ? ? H; exact H); try (intros ? ? H; exact H).
        intros db g Hg Hgone o Hin Hid. cbn in Hin. apply in_map_iff in Hin.
        destruct Hin as (o' & <- & Hin). specialize (Hg o'). injection Hg as Hi Hd.
        rewrite Hd. apply Hgone; [exact Hin|]. now rewrite <- Hi.
      * intros _. apply triple_modify. intros db Hgone o Hin Hid. cbn in Hin.
        apply in_map_iff in Hin. destruct Hin as (o' & <- & Hin).
        destruct (Nat.eqb_spec (InboxObject.id o') (InboxObject.id x)) as [E|E];
          [reflexivity|].
        apply Hgone; [exact Hin|]. destruct Hid as [Hid|Hid]; [congruence|exact Hid].
    + intros _. eapply triple_consequence; [apply (IH (InboxObject.id x :: ids))| | |];
        cbv beta; auto.
      intros _ db Hgone o Hin Hid. apply Hgone; [exact Hin|].
      apply in_or_app. cbn.
      destruct Hid as [Hid|Hid]; [right; now left|].
      apply in_app_or in Hid. destruct Hid as [Hid|Hid]; [now left|right; now right].
Qed.

Lemma delete_each_keeps (delete_activity : InboxObject.t) (l : list InboxObject.t)
  (ids : list nat) (P : DB -> Prop) :
  (forall db x, P db -> P (set_outgoing_activities x db)) ->
  (forall db g, P db -> P (set_outbox (map g (outbox db)) db)) ->
  (forall db g,
     (forall o, (InboxObject.id (g o), InboxObject.actor_id (g o),
                 InboxObject.is_deleted (g o) || existsb (Nat.eqb (InboxObject.id (g o))) ids)
                = (InboxObject.id o, InboxObject.actor_id o,
                   InboxObject.is_deleted o || existsb (Nat.eqb (InboxObject.id o)) ids)) ->
     P db -> P (set_inbox (map g (inbox db)) db)) ->
  (forall x, In x l -> In (InboxObject.id x) ids) ->
  stable P
    (for_each l (fun inbox_object =>
       _revert_side_effect_for_deleted_object env delete_activity inbox_object None ;;;
       update_inbox_object (InboxObject.id inbox_object)
         (InboxObject.set_is_deleted true))).
Proof.
  intros Hout Houtbox Hinbox Hids. induction l as [|x l IH]; cbn [for_each].
  - apply stable_ret.
  - apply stable_bind; [|intros _; apply IH; intros y Hy; apply Hids; now right].
    apply stable_bind; [|intros _].
    + apply (@stable__revert_side_effect_for_deleted_object env _ unit
               (fun o => (InboxObject.id o, InboxObject.actor_id o,
                          InboxObject.is_deleted o)) (fun _ => tt));
        try (intros; reflexivity); try (intros; auto).
      apply Hinbox; [|assumption]. intros o.
      match goal with Hg : forall o, _ = _ |- _ => specialize (Hg o); injection Hg as -> -> -> end.
      reflexivity.
    + apply (@stable_update_inbox_object _
               (fun o => (InboxObject.id o, InboxObject.actor_id o,
                          InboxObject.is_deleted o
                          || existsb (Nat.eqb (InboxObject.id o)) ids)));
        [exact Hinbox|].
      intros o Hid. cbn.
      assert (existsb (Nat.eqb (InboxObject.id o)) ids = true) as ->.
      { apply existsb_exists. exists (InboxObject.id x).
        split; [apply Hids; now left|]. rewrite Hid. apply Nat.eqb_refl. }
      now rewrite !orb_true_r.
Qed.

Lemma _handle_delete_activity_actor_steps (from_actor a : Actor.t)
  (delete_activity : InboxObject.t) (forwarded_by_actor : option Actor.t)
  (target_id : string) (db : DB) :
  InboxObject.activity_object_ap_id delete_activity = Some target_id ->
  target_id <> "" ->
  find_actor_by_ap_id db target_id = Some a ->
  Actor.ap_id from_actor = Actor.ap_id a ->
  let db1 :=
    set_actors
      (map (fun x => if Nat.eqb (Actor.id x) (Actor.id a)
                     then Actor.set_is_deleted true x else x) (actors db))
      (set_following (unfollowed (Actor.ap_id a) (following db))
         (set_followers
            (filter (fun f => negb (Follower.ap_actor_id f =? Actor.ap_id a))
                    (followers db)) db)) in
  _handle_delete_activity env from_actor delete_activity None forwarded_by_actor db
  = (for_each
       (filter (fun o => Nat.eqb (InboxObject.actor_id o) (Actor.id a)
                         && negb (InboxObject.is_deleted o)) (inbox db))
       (fun inbox_object =>
          _revert_side_effect_for_deleted_object env delete_activity inbox_object None ;;;
          update_inbox_object (InboxObject.id inbox_object)
            (InboxObject.set_is_deleted true)) ;;;
     flush) db1.
Proof.
  intros Hobject Hid Hactor Hfrom db1. unfold _handle_delete_activity.
  rewrite Hobject. apply String.eqb_neq in Hid. rewrite Hid.
  unfold bind at 1. unfold try_except, bind at 1.
  rewrite (@fetch_actor_cached env target_id false db a Hactor). cbn [ret].
  rewrite Hfrom, String.eqb_refl. cbn [negb].
  reflexivity.
Qed.

(** X20: when an actor known to the store announces the deletion of its own
    account, in a Delete without LD signature, the processing returns; the
    actor is marked deleted and leaves the followers and the following
    tables; every inbox object of the actor is marked deleted, no inbox row
    is added or removed, and, primary keys being unique, the objects of the
    other actors keep their deletion flag. *)
Theorem _handle_delete_activity_actor (from_actor a : Actor.t)
  (delete_activity : InboxObject.t) (forwarded_by_actor : option Actor.t)
  (target_id : string) (db : DB) :
  InboxObject.activity_object_ap_id delete_activity = Some target_id ->
  target_id <> "" ->
  find_actor_by_ap_id db target_id = Some a ->
  Actor.ap_id from_actor = Actor.ap_id a ->
  InboxObject.has_ld_signature delete_activity = false ->
  exists db',
    _handle_delete_activity env from_actor delete_activity None forwarded_by_actor db
    = Ok tt db'
    /\ followers db'
       = filter (fun f => negb (Follower.ap_actor_id f =? Actor.ap_id a)) (followers db)
    /\ following db' = unfollowed (Actor.ap_id a) (following db)
    /\ actors db'
       = map (fun x => if Nat.eqb (Actor.id x) (Actor.id a)
                       then Actor.set_is_deleted true x else x) (actors db)
    /\ map InboxObject.id (inbox db') = map InboxObject.id (inbox db)
    /\ (forall o, In o (inbox db') -> InboxObject.actor_id o = Actor.id a ->
                  InboxObject.is_deleted o = true)
    /\ (NoDup (map InboxObject.id (inbox db)) ->
        map (fun o => InboxObject.is_deleted o
                      || Nat.eqb (InboxObject.actor_id o) (Actor.id a)) (inbox db')
        = map (fun o => InboxObject.is_deleted o
                        || Nat.eqb (InboxObject.actor_id o) (Actor.id a)) (inbox db)).
Proof.
  intros Hobject Hid Hactor Hfrom Hsig.
  rewrite (@_handle_delete_activity_actor_steps from_actor a delete_activity
             forwarded_by_actor target_id db Hobject Hid Hactor Hfrom).
  cbv zeta.
  set (db1 := set_actors _ _).
  set (objects := filter _ (inbox db)).
  set (ids := map InboxObject.id objects).
  set (body := fun inbox_object : InboxObject.t => _).
  set (key := fun o : InboxObject.t =>
                (InboxObject.id o, InboxObject.actor_id o,
                 InboxObject.is_deleted o || existsb (Nat.eqb (InboxObject.id o)) ids)).
  assert (never_raises (for_each objects body)) as Hreturns.
  { apply never_raises_for_each. intros x. unfold body.
    apply never_raises_bind; [now apply _revert_side_effect_never_raises|].
    intros _. apply never_raises_modify. }
  destruct (Hreturns db1) as ([] & db' & Hrun).
  pose proof (@delete_each_gone delete_activity objects [] db1) as Hgone.
  fold body in Hgone. rewrite Hrun in Hgone.
  specialize (Hgone (fun o _ (H : In (InboxObject.id o) []) => match H with end)).
  rewrite app_nil_r in Hgone. fold ids in Hgone.
  pose proof (@delete_each_keeps delete_activity objects ids
                (fun d => map key (inbox d) = map key (inbox db)
                          /\ followers d = followers db1
                          /\ following d = following db1
                          /\ actors d = actors db1)) as Hkeeps.
  fold body in Hkeeps.
  assert (stable (fun d => map key (inbox d) = map key (inbox db)
                           /\ followers d = followers db1
                           /\ following d = following db1
                           /\ actors d = actors db1) (for_each objects body)) as Hstable.
  { apply Hkeeps.
    - intros d x H. exact H.
    - intros d g H. exact H.
    - intros d g Hg (Hrows & Hrest). split; [|exact Hrest].
      cbn [inbox set_inbox]. rewrite map_map, <- Hrows. apply map_ext. exact Hg.
    - intros x Hx. unfold ids. now apply in_map. }
  specialize (Hstable db1 (conj eq_refl (conj eq_refl (conj eq_refl eq_refl)))).
  rewrite Hrun in Hstable. destruct Hstable as (Hrows & Hfollowers & Hfollowing & Hactors).
  exists db'. unfold bind. rewrite Hrun. split; [reflexivity|].
  split; [exact Hfollowers|]. split; [exact Hfollowing|]. split; [exact Hactors|].
  assert (forall o, In o (inbox db') ->
                    exists o1, In o1 (inbox db) /\ key o1 = key o) as Hsame.
  { intros o Hin. apply (in_map key) in Hin. rewrite Hrows in Hin.
    apply in_map_iff in Hin. destruct Hin as (o1 & Hkey & Hin). now exists o1. }
  assert (forall o1, In o1 (inbox db) -> In (InboxObject.id o1) ids ->
                     NoDup (map InboxObject.id (inbox db)) ->
                     InboxObject.actor_id o1 = Actor.id a) as Hunique.
  { intros o1 Hin Hids Hnodup. unfold ids in Hids. apply in_map_iff in Hids.
    destruct Hids as (x & Hx & Hxin). unfold objects in Hxin.
    apply filter_In in Hxin. destruct Hxin as (Hxin & Hp).
    apply andb_true_iff in Hp. destruct Hp as (Hp & _). apply Nat.eqb_eq in Hp.
    rewrite <- (@NoDup_map_injective _ InboxObject.id (inbox db) x o1 Hnodup Hxin Hin Hx).
    exact Hp. }
  split; [|split].
  - apply (@map_key_coarser _ _ _ key InboxObject.id); [exact Hrows|].
    intros x y _ Hkey. unfold key in Hkey. now injection Hkey.
  - intros o Hin Howner. destruct (Hsame o Hin) as (o1 & Hin1 & Hkey).
    unfold key in Hkey. injection Hkey as Hi Ha Hd.
    destruct (InboxObject.is_deleted o) eqn:Hdeleted; [reflexivity|].
    rewrite <- Hdeleted. apply Hgone; [exact Hin|].
    cbn [orb] in Hd.
    destruct (InboxObject.is_deleted o1) eqn:Hdeleted1.
    + cbn [orb] in Hd. symmetry in Hd. apply existsb_exists in Hd.
      destruct Hd as (i & Hi' & E). apply Nat.eqb_eq in E. now rewrite E.
    + unfold ids. rewrite <- Hi. apply in_map. unfold objects. apply filter_In.
      split; [exact Hin1|]. rewrite Hdeleted1, Ha, Howner, Nat.eqb_refl. reflexivity.
  - intros Hnodup.
    apply (@map_key_coarser _ _ _ key
             (fun o => InboxObject.is_deleted o
                       || Nat.eqb (InboxObject.actor_id o) (Actor.id a)));
      [exact Hrows|].
    intros x y Hin Hkey. unfold key in Hkey. injection Hkey as Hi Ha Hd.
    rewrite Ha. destruct (Nat.eqb_spec (InboxObject.actor_id x) (Actor.id a)) as [E|E];
      [now rewrite !orb_true_r|].
    rewrite !orb_false_r.
    assert (existsb (Nat.eqb (InboxObject.id x)) ids = false) as Hx.
    { destruct (existsb (Nat.eqb (InboxObject.id x)) ids) eqn:Hex; [|reflexivity].
      exfalso. apply E.
      apply existsb_exists in Hex. destruct Hex as (i & Hi' & Heq).
      apply Nat.eqb_eq in Heq. apply Hunique; [exact Hin| |exact Hnodup].
      now rewrite Heq. }
    rewrite Hi, Hx, !orb_false_r in Hd. exact Hd.
Qed.

End ActorDeletion.

Lemma _handle_delete_activity_actor_witness :
  (exists db',
     _handle_delete_activity example_env (person 1 alice) alice_leaves None None leaving_db
     = Ok tt db'
     /\ followers db'
        = filter (fun f => negb (Follower.ap_actor_id f =? Actor.ap_id (person 1 alice)))
                 (followers leaving_db)
     /\ following db' = unfollowed (Actor.ap_id (person 1 alice)) (following leaving_db)
     /\ actors db'
        = map (fun x => if Nat.eqb (Actor.id x) (Actor.id (person 1 alice))
                        then Actor.set_is_deleted true x else x) (actors leaving_db)
     /\ map InboxObject.id (inbox db') = map InboxObject.id (inbox leaving_db)
     /\ (forall o, In o (inbox db') ->
                   InboxObject.actor_id o = Actor.id (person 1 alice) ->
                   InboxObject.is_deleted o = true)
     /\ (NoDup (map InboxObject.id (inbox leaving_db)) ->
         map (fun o => InboxObject.is_deleted o
                       || Nat.eqb (InboxObject.actor_id o) (Actor.id (person 1 alice)))
             (inbox db')
         = map (fun o => InboxObject.is_deleted o
                         || Nat.eqb (InboxObject.actor_id o) (Actor.id (person 1 alice)))
               (inbox leaving_db)))
  /\ (let db' := run (_handle_delete_activity example_env (person 1 alice) alice_leaves
                        None None) leaving_db in
      map InboxObject.is_deleted (inbox db') = [true; false; true]
      /\ map Follower.ap_actor_id (followers db') = [bob]
      /\ following db' = []).
Proof.
  split; [|vm_compute; repeat split].
  apply (@_handle_delete_activity_actor example_env (person 1 alice) (person 1 alice)
           alice_leaves None alice leaving_db);
    [reflexivity|discriminate|reflexivity|reflexivity|reflexivity].
Defined.

(** ** The number of public objects *)

Lemma count_if_app (A : Type) (p : A -> bool) (l l' : list A) :
  count_if p (l ++ l') = (count_if p l + count_if p l')%Z.
Proof. unfold count_if. rewrite filter_app, length_app. lia. Qed.

Lemma count_if_update_unique (A : Type) (key : A -> nat) (p : A -> bool) (g : A -> A)
  (l : list A) (o : A) :
  NoDup (map key l) -> In o l ->
  count_if p (map (fun x => if Nat.eqb (key x) (key o) then g x else x) l)
  = (count_if p l - (if p o then 1 else 0) + (if p (g o) then 1 else 0))%Z.
Proof.
  induction l as [|x l IH]; intros Hnodup Hin; [destruct Hin|].
  cbn [map] in Hnodup. apply NoDup_cons_iff in Hnodup. destruct Hnodup as (Hx & Hnodup).
  change (x :: l) with ([x] ++ l)%list. rewrite map_app, !count_if_app.
  destruct Hin as [->|Hin].
  - assert (map (fun x => if Nat.eqb (key x) (key o) then g x else x) l = l) as ->.
    { rewrite <- (map_id l) at 2. apply map_ext_in. intros y Hy.
      destruct (Nat.eqb_spec (key y) (key o)) as [E|_]; [|reflexivity].
      exfalso. apply Hx. rewrite <- E. now apply in_map. }
    cbn [map]. rewrite Nat.eqb_refl. unfold count_if. cbn [filter].
    destruct (p o), (p (g o)); cbn [length]; lia.
  - rewrite (IH Hnodup Hin). cbn [map].
    destruct (Nat.eqb_spec (key x) (key o)) as [E|_]; [|lia].
    exfalso. apply Hx. rewrite E. now apply in_map.
Qed.

Section PublicCount.

Variable env : Env.

(** X21: [send_delete] of an object of the outbox takes one off the number
    of public objects when the object is public and was not deleted, and
    leaves that number as it is otherwise: the Delete activity it records is
    not public. Primary keys are unique. *)
Theorem send_delete_public_outbox_objects_count (ap_object_id : string)
  (outbox_object_to_delete : OutboxObject.t) (db db' : DB) :
  get_outbox_object_by_ap_id db ap_object_id = Some outbox_object_to_delete ->
  NoDup (map OutboxObject.id (outbox db)) ->
  send_delete env ap_object_id db = Ok tt db' ->
  public_outbox_objects_count db'
  = (public_outbox_objects_count db
     - if VisibilityEnum_eqb (OutboxObject.visibility outbox_object_to_delete) PUBLIC
          && negb (OutboxObject.is_deleted outbox_object_to_delete)
       then 1 else 0)%Z.
Proof.
  intros Hfound Hnodup H.
  unfold send_delete in H. unfold bind at 1, get in H. rewrite Hfound in H.
  apply bind_Ok_inv in H as (delete_id & d1 & Halloc & H). session_inv Halloc.
  apply bind_Ok_inv in H as (row & d2 & Hsave & H).
  apply save_outbox_object_inv in Hsave as (delete_ap_id & _ & _ & Hrow & Hd2).
  destruct (Nat.eqb (OutboxObject.id row) 0); [discriminate|].
  apply bind_Ok_inv in H as ([] & d3 & Hmark & H). session_inv Hmark.
  apply bind_Ok_inv in H as ([] & d3' & Hcommit & H). session_inv Hcommit.
  apply bind_Ok_inv in H as (recipients & d4 & Hrecipients & H).
  session_inv Hrecipients.
  apply bind_Ok_inv in H as ([] & d5 & Hsend & H). session_inv Hsend.
  apply bind_Ok_inv in H as ([] & d6 & Hrevert & H). session_inv H.
  match goal with
  | |- public_outbox_objects_count ?d = _ =>
      assert (Hcount : public_outbox_objects_count d = public_outbox_objects_count d5)
  end.
  { unfold public_outbox_objects_count.
    destruct (OutboxObject.in_reply_to outbox_object_to_delete) as [parent_id|];
      [|now session_inv Hrevert].
    destruct (parent_id =? ""); [now session_inv Hrevert|].
    unfold bind at 1, get in Hrevert.
    destruct (get_anybox_object_by_ap_id env d5 parent_id) as [[replied|replied]|];
      session_inv Hrevert; try reflexivity.
    - now rewrite <- Hrevert.
    - rewrite <- Hrevert. store_fields. apply count_if_map.
      intros o. now destruct (Nat.eqb _ _). }
  rewrite Hcount. unfold public_outbox_objects_count. chase.
  rewrite map_app, count_if_app.
  apply find_some in Hfound. destruct Hfound as (Hin & _).
  rewrite (@count_if_update_unique OutboxObject.t OutboxObject.id
             (fun o : OutboxObject.t => VisibilityEnum_eqb (OutboxObject.visibility o) PUBLIC
                       && negb (OutboxObject.is_deleted o))
             (OutboxObject.set_is_deleted true)
             (outbox db) outbox_object_to_delete Hnodup Hin).
  cbn [OutboxObject.set_is_deleted OutboxObject.visibility OutboxObject.is_deleted negb].
  rewrite andb_false_r.
  assert (forall b : bool, count_if
            (fun o : OutboxObject.t => VisibilityEnum_eqb (OutboxObject.visibility o) PUBLIC
                      && negb (OutboxObject.is_deleted o))
            [if b then OutboxObject.set_is_deleted true row else row] = 0%Z) as Hrow0.
  { intros b. rewrite Hrow. now destruct b. }
  cbn [map]. rewrite Hrow0. lia.
Qed.

End PublicCount.

Lemma send_delete_public_outbox_objects_count_witness :
  public_outbox_objects_count post_deleted_db
  = (public_outbox_objects_count post_db
     - if VisibilityEnum_eqb (OutboxObject.visibility local_post) PUBLIC
          && negb (OutboxObject.is_deleted local_post)
       then 1 else 0)%Z
  /\ public_outbox_objects_count post_db = 1%Z
  /\ map OutboxObject.ap_type (outbox post_deleted_db) = ["Note"; "Delete"].
Proof.
  assert (Hrun : send_delete example_env post_id post_db = Ok tt post_deleted_db)
    by (vm_compute; reflexivity).
  assert (Hfound : get_outbox_object_by_ap_id post_db post_id = Some local_post)
    by (vm_compute; reflexivity).
  assert (Hnodup : NoDup (map OutboxObject.id (outbox post_db)))
    by (cbn; repeat constructor; intros []).
  split; [|split; vm_compute; reflexivity].
  exact (@send_delete_public_outbox_objects_count example_env post_id local_post
           post_db post_deleted_db Hfound Hnodup Hrun).
Defined.

(** ** An actor document delivered to the inbox *)

Section ActorPayload.

Variable env : Env.

(** X22: an actor document delivered to the inbox can change the actor
    directory only, and only when it is the document of its sender: a
    document with another id, or without id, leaves the store as it was; the
    document of a known sender replaces the one stored for that sender; the
    document of a sender that is unknown and cannot be found is dropped. *)
Theorem save_to_inbox_actor_payload (raw_object : RawObject)
  (sent_by_ap_actor_id : string) (db : DB) :
  mem_string (raw_type raw_object) ACTOR_TYPES = true ->
  only_actors_changed db (state_of (save_to_inbox env raw_object sent_by_ap_actor_id db))
  /\ (raw_id raw_object <> Some sent_by_ap_actor_id ->
      state_of (save_to_inbox env raw_object sent_by_ap_actor_id db) = db)
  /\ (raw_id raw_object = Some sent_by_ap_actor_id ->
      (forall actor,
         find_actor_by_ap_id db sent_by_ap_actor_id = Some actor ->
         save_to_inbox env raw_object sent_by_ap_actor_id db
         = Ok tt
             (set_actors
                (map (fun a => if Nat.eqb (Actor.id a) (Actor.id actor)
                               then Actor.set_ap_actor raw_object a else a)
                     (actors db)) db))
      /\ (find_actor_by_ap_id db sent_by_ap_actor_id = None ->
          fetch env sent_by_ap_actor_id = inl ObjectNotFoundError ->
          save_to_inbox env raw_object sent_by_ap_actor_id db = Ok tt db)).
Proof.
  intros Htype.
  remember (save_to_inbox env raw_object sent_by_ap_actor_id db) as r eqn:Hr.
  unfold save_to_inbox in Hr. rewrite Htype in Hr. unfold get_id in Hr.
  destruct (raw_id raw_object) as [payload_id|] eqn:Hid.
  2:{ rewrite Hr. split; [apply only_actors_changed_refl|].
      split; [reflexivity|discriminate]. }
  unfold bind at 1, ret at 1 in Hr.
  destruct (String.eqb_spec payload_id sent_by_ap_actor_id) as [->|Hother].
  2:{ rewrite Hr. split; [apply only_actors_changed_refl|]. split; [reflexivity|].
      intros [= E]. contradiction. }
  unfold bind at 1, try_except, bind at 1 in Hr.
  split; [|split; [congruence|intros _; split]].
  - pose proof (fetch_actor_only_actors env sent_by_ap_actor_id true db) as Hfetch.
    destruct (fetch_actor env sent_by_ap_actor_id true db) as [actor d|e d];
      cbn [state_of] in Hfetch.
    + rewrite Hr. cbn [ret state_of bind update_actor modify commit].
      unfold bind, update_actor, modify, commit, ret. cbn [state_of].
      eapply only_actors_changed_trans; [exact Hfetch|].
      unfold only_actors_changed. cbn. repeat split.
    + rewrite Hr. destruct e; exact Hfetch.
  - intros actor Hknown.
    rewrite (@fetch_actor_cached env sent_by_ap_actor_id true db actor Hknown) in Hr.
    rewrite Hr. reflexivity.
  - intros Hunknown Hgone. unfold fetch_actor, bind at 1, get in Hr.
    rewrite Hunknown, Hgone in Hr. rewrite Hr. reflexivity.
Qed.

End ActorPayload.

Lemma save_to_inbox_actor_payload_witness :
  (only_actors_changed empty_db
     (state_of (save_to_inbox example_env alice_profile alice empty_db))
   /\ (raw_id alice_profile <> Some alice ->
       state_of (save_to_inbox example_env alice_profile alice empty_db) = empty_db)
   /\ (raw_id alice_profile = Some alice ->
       (forall actor,
          find_actor_by_ap_id empty_db alice = Some actor ->
          save_to_inbox example_env alice_profile alice empty_db
          = Ok tt
              (set_actors
                 (map (fun a => if Nat.eqb (Actor.id a) (Actor.id actor)
                                then Actor.set_ap_actor alice_profile a else a)
                      (actors empty_db)) empty_db))
       /\ (find_actor_by_ap_id empty_db alice = None ->
           fetch example_env alice = inl ObjectNotFoundError ->
           save_to_inbox example_env alice_profile alice empty_db = Ok tt empty_db)))
  /\ map (fun a => raw_alsoKnownAs (Actor.ap_actor a))
         (actors (run (save_to_inbox example_env alice_profile alice) empty_db))
     = [["https://old.example/alice"]; []; []]
  /\ run (save_to_inbox example_env alice_profile bob) empty_db = empty_db.
Proof.
  split; [|split; vm_compute; reflexivity].
  exact (@save_to_inbox_actor_payload example_env alice_profile alice empty_db eq_refl).
Defined.

(** ** The recipients of an object *)


Section Recipients.

Variable env : Env.




(** X23: the recipients that [_compute_recipients] returns come without
    duplicates; they hold the shared inbox of every addressee that is an actor
    of the directory and, when the object is addressed to the followers
    collection, of every follower; the public collection and the local
    actor are no recipients: an object addressed to nothing else is
    delivered to nobody, with the store untouched. *)
Theorem _compute_recipients_spec (ap_object : RawObject) (recipients : list string)
  (db db' : DB) :
  _compute_recipients env ap_object db = Ok recipients db' ->
  NoDup recipients
  /\ (forall r a,
        In r (addressees ap_object) ->
        mem_string r [AS_PUBLIC; ID env] = false ->
        prefix (BASE_URL env) r = false ->
        find_actor_by_ap_id db r = Some a ->
        In (Actor.shared_inbox_url a) recipients)
  /\ (In (BASE_URL env ++ "/followers") (addressees ap_object) ->
      mem_string (BASE_URL env ++ "/followers") [AS_PUBLIC; ID env] = false ->
      forall f a,
        In f (followers db) ->
        find_actor_by_id db (Follower.actor_id f) = Some a ->
        In (Actor.shared_inbox_url a) recipients)
  /\ ((forall r, In r (addressees ap_object) ->
                 mem_string r [AS_PUBLIC; ID env] = true) ->
      recipients = [] /\ db' = db).
Proof.
  intros H. unfold _compute_recipients in H.
  apply compute_recipients_loop_inv in H
    as (Hnodup & _ & _ & _ & Hskip & Hadd); [|constructor].
  split; [exact Hnodup|]. split; [|split].
  - intros r a Hr Hdeliver Hremote Ha.
    now apply (proj1 (Hadd r Hr Hdeliver) Hremote a).
  - intros Hr Hdeliver f a Hf Ha.
    now apply (proj2 (Hadd _ Hr Hdeliver) eq_refl f a).
  - exact Hskip.
Qed.

End Recipients.

Lemma _compute_recipients_spec_witness :
  let recipients := [shared_inbox; "https://remote.example/carol/inbox"] in
  _compute_recipients example_env question_for_followers residents_db
  = Ok recipients residents_db
  /\ NoDup recipients
  /\ (forall r a,
        In r (addressees question_for_followers) ->
        mem_string r [AS_PUBLIC; ID example_env] = false ->
        prefix (BASE_URL example_env) r = false ->
        find_actor_by_ap_id residents_db r = Some a ->
        In (Actor.shared_inbox_url a) recipients)
  /\ (In (BASE_URL example_env ++ "/followers") (addressees question_for_followers) ->
      mem_string (BASE_URL example_env ++ "/followers") [AS_PUBLIC; ID example_env]
      = false ->
      forall f a,
        In f (followers residents_db) ->
        find_actor_by_id residents_db (Follower.actor_id f) = Some a ->
        In (Actor.shared_inbox_url a) recipients)
  /\ ((forall r, In r (addressees question_for_followers) ->
                 mem_string r [AS_PUBLIC; ID example_env] = true) ->
      recipients = [] /\ residents_db = residents_db).
Proof.
  intros recipients.
  assert (Hrun : _compute_recipients example_env question_for_followers residents_db
                 = Ok recipients residents_db) by (vm_compute; reflexivity).
  split; [exact Hrun|].
  exact (@_compute_recipients_spec example_env question_for_followers recipients
           residents_db residents_db Hrun).
Defined.

(** ** Followers approved by hand *)

Section PendingFollowers.

Variable env : Env.

(** What the answer to a Follow leaves behind, apart from the followers:
    [reply_type] is Accept or Reject. *)
Lemma answer_follow_inv (reply_type : string) (notification : Notification.t)
  (from_actor : Actor.t) (inbox_object : InboxObject.t) (db db' : DB) :
  (reply_id <- allocate_outbox_id env ;;
   outbox_activity <-
     save_outbox_object env reply_id
       (activity_document reply_type (outbox_object_id env reply_id) (ID env)
                          (ObjectId (InboxObject.ap_id inbox_object)))
       (Some (InboxObject.id inbox_object)) None None None false None ;;
   if Nat.eqb (OutboxObject.id outbox_activity) 0
   then raise (ValueError "Should never happen")
   else
     new_outgoing_activity (Actor.inbox_url from_actor)
       (Some (OutboxObject.id outbox_activity)) None ;;;
     add_notification notification) db = Ok tt db' ->
  followers db' = followers db
  /\ map OutboxObject.ap_type (outbox db')
     = (map OutboxObject.ap_type (outbox db) ++ [reply_type])%list
  /\ outgoing_activities db'
     = (outgoing_activities db
        ++ [OutgoingActivity.mk (Actor.inbox_url from_actor) (Some (next_outbox_id db))
                                None None])%list
  /\ notifications db' = (notifications db ++ [notification])%list
  /\ inbox db' = inbox db /\ following db' = following db.
Proof.
  intros H.
  apply bind_Ok_inv in H as (reply_id & d1 & Halloc & H). session_inv Halloc.
  apply bind_Ok_inv in H as (row & d2 & Hsave & H).
  apply save_outbox_object_inv in Hsave as (ap_id & _ & _ & Hrow & Hd2).
  destruct (Nat.eqb (OutboxObject.id row) 0); [discriminate|].
  session_inv H.
  assert (Hrow_id : OutboxObject.id row = next_outbox_id db)
    by (rewrite Hrow; cbn; now chase).
  assert (Hrow_type : OutboxObject.ap_type row = reply_type) by now rewrite Hrow.
  rewrite Hrow_id in *. chase. rewrite map_app. cbn [map]. rewrite Hrow_type.
  repeat split.
Qed.

(** X25: when followers are approved by hand, a Follow of the local actor
    only adds a notification: no follower is added and nothing is sent. A
    rejection then sends one Reject to the inbox of the actor and adds no
    follower; an acceptance of an actor that is no follower yet sends one
    Accept and adds the actor to the followers; an acceptance of an actor
    that is a follower already does not return: the insertion of the
    follower fails, and the session, not rolled back, refuses the Accept. *)
Theorem _handle_follow_follow_activity_pending (from_actor : Actor.t)
  (follow_activity : InboxObject.t) (db : DB) :
  MANUALLY_APPROVES_FOLLOWERS env = true ->
  InboxObject.activity_object_ap_id follow_activity = Some (ID env) ->
  let db1 :=
    set_notifications
      (notifications db
       ++ [Notification.mk PENDING_INCOMING_FOLLOWER (Some (Actor.id from_actor)) None
                           (Some (InboxObject.id follow_activity))]) db in
  _handle_follow_follow_activity env from_actor follow_activity db = Ok tt db1
  /\ (forall db2,
        _send_reject env from_actor follow_activity db1 = Ok tt db2 ->
        followers db2 = followers db
        /\ map OutboxObject.ap_type (outbox db2)
           = (map OutboxObject.ap_type (outbox db) ++ ["Reject"])%list
        /\ outgoing_activities db2
           = (outgoing_activities db
              ++ [OutgoingActivity.mk (Actor.inbox_url from_actor)
                                      (Some (next_outbox_id db)) None None])%list
        /\ notifications db2
           = (notifications db1
              ++ [Notification.mk REJECTED_FOLLOWER (Some (Actor.id from_actor))
                                  None None])%list)
  /\ (existsb (fun f => Nat.eqb (Follower.actor_id f) (Actor.id from_actor)
                           || (Follower.ap_actor_id f =? Actor.ap_id from_actor))
              (followers db) = false ->
      forall db2,
        _send_accept env from_actor follow_activity db1 = Ok tt db2 ->
        followers db2
        = (followers db
           ++ [Follower.mk (Actor.id from_actor) (InboxObject.id follow_activity)
                           (Actor.ap_id from_actor)])%list
        /\ map OutboxObject.ap_type (outbox db2)
           = (map OutboxObject.ap_type (outbox db) ++ ["Accept"])%list
        /\ outgoing_activities db2
           = (outgoing_activities db
              ++ [OutgoingActivity.mk (Actor.inbox_url from_actor)
                                      (Some (next_outbox_id db)) None None])%list
        /\ notifications db2
           = (notifications db1
              ++ [Notification.mk NEW_FOLLOWER (Some (Actor.id from_actor))
                                  None None])%list)
  /\ (existsb (fun f => Nat.eqb (Follower.actor_id f) (Actor.id from_actor)
                           || (Follower.ap_actor_id f =? Actor.ap_id from_actor))
              (followers db) = true ->
      _send_accept env from_actor follow_activity db1
      = Raise PendingRollbackError (set_uuid_counter (S (uuid_counter db)) db1)).
Proof.
  intros Hmanual Hobject db1. split; [|split; [|split]].
  - unfold _handle_follow_follow_activity. rewrite Hobject. cbn [opt_string_eqb].
    rewrite String.eqb_refl, Hmanual. reflexivity.
  - intros db2 H. unfold _send_reject in H.
    apply answer_follow_inv in H as (Hf & Ho & Hout & Hn & _).
    rewrite Hf, Ho, Hout, Hn. repeat split.
  - intros Hnew db2 H. unfold _send_accept, bind at 1, get in H. cbn zeta in H.
    change (followers db1) with (followers db) in H. rewrite Hnew in H.
    apply bind_Ok_inv in H as ([] & d & Hadd & H).
    apply answer_follow_inv in H as (Hf & Ho & Hout & Hn & _).
    rewrite Hf, Ho, Hout, Hn. unfold modify in Hadd. injection Hadd as <-.
    subst db1. cbn [followers set_notifications]. repeat split.
  - intros Hknown. unfold _send_accept, bind at 1, get. cbn zeta.
    change (followers db1) with (followers db). rewrite Hknown. reflexivity.
Qed.

End PendingFollowers.

Lemma _handle_follow_follow_activity_pending_witness :
  let db := set_next_inbox_id 2 (set_inbox [follow_of_me] empty_db) in
  let db1 :=
    set_notifications
      (notifications db
       ++ [Notification.mk PENDING_INCOMING_FOLLOWER (Some (Actor.id (person 1 alice)))
                           None (Some (InboxObject.id follow_of_me))]) db in
  (_handle_follow_follow_activity approving_env (person 1 alice) follow_of_me db
   = Ok tt db1
   /\ (forall db2,
         _send_reject approving_env (person 1 alice) follow_of_me db1 = Ok tt db2 ->
         followers db2 = followers db
         /\ map OutboxObject.ap_type (outbox db2)
            = (map OutboxObject.ap_type (outbox db) ++ ["Reject"])%list
         /\ outgoing_activities db2
            = (outgoing_activities db
               ++ [OutgoingActivity.mk (Actor.inbox_url (person 1 alice))
                                       (Some (next_outbox_id db)) None None])%list
         /\ notifications db2
            = (notifications db1
               ++ [Notification.mk REJECTED_FOLLOWER (Some (Actor.id (person 1 alice)))
                                   None None])%list)
   /\ (existsb (fun f => Nat.eqb (Follower.actor_id f) (Actor.id (person 1 alice))
                            || (Follower.ap_actor_id f =? Actor.ap_id (person 1 alice)))
               (followers db) = false ->
       forall db2,
         _send_accept approving_env (person 1 alice) follow_of_me db1 = Ok tt db2 ->
         followers db2
         = (followers db
            ++ [Follower.mk (Actor.id (person 1 alice)) (InboxObject.id follow_of_me)
                            (Actor.ap_id (person 1 alice))])%list
         /\ map OutboxObject.ap_type (outbox db2)
            = (map OutboxObject.ap_type (outbox db) ++ ["Accept"])%list
         /\ outgoing_activities db2
            = (outgoing_activities db
               ++ [OutgoingActivity.mk (Actor.inbox_url (person 1 alice))
                                       (Some (next_outbox_id db)) None None])%list
         /\ notifications db2
            = (notifications db1
               ++ [Notification.mk NEW_FOLLOWER (Some (Actor.id (person 1 alice)))
                                   None None])%list)
   /\ (existsb (fun f => Nat.eqb (Follower.actor_id f) (Actor.id (person 1 alice))
                            || (Follower.ap_actor_id f =? Actor.ap_id (person 1 alice)))
               (followers db) = true ->
       _send_accept approving_env (person 1 alice) follow_of_me db1
       = Raise PendingRollbackError (set_uuid_counter (S (uuid_counter db)) db1)))
  /\ followers (run (_send_reject approving_env (person 1 alice) follow_of_me)
                    pending_follow_db) = []
  /\ followers (run (_send_accept approving_env (person 1 alice) follow_of_me)
                    pending_follow_db) = [Follower.mk 1 1 alice]
  /\ exists db2,
       _send_accept approving_env (person 1 alice) follow_of_me
         (run (_send_accept approving_env (person 1 alice) follow_of_me)
              pending_follow_db)
       = Raise PendingRollbackError db2.
Proof.
  intros db db1.
  split; [|split; [|split]; try (vm_compute; reflexivity);
           eexists; vm_compute; reflexivity].
  exact (@_handle_follow_follow_activity_pending approving_env (person 1 alice)
           follow_of_me db eq_refl eq_refl).
Defined.

(** ** Undo and Delete of what belongs to somebody else *)

Section Ownership.

Variable env : Env.

(** X26: an Undo or a Delete aimed at an object of the inbox that was
    authored by another actor than its sender is recorded and has no other
    effect: [save_to_inbox], from the duplicate check on, only appends the
    row of the activity to the inbox. *)
Theorem save_to_inbox_checked_not_the_owner (raw_object : RawObject)
  (raw_object_id target_id : string) (actor : Actor.t) (target : InboxObject.t)
  (forwarded_by_actor : option Actor.t) (db : DB) :
  raw_type raw_object = "Undo" \/ raw_type raw_object = "Delete" ->
  raw_id raw_object = Some raw_object_id ->
  existsb (fun o => InboxObject.ap_id o =? raw_object_id) (inbox db) = false ->
  activity_object_ap_id_of raw_object = Some target_id ->
  target_id <> "" ->
  prefix (BASE_URL env) target_id = false ->
  get_inbox_object_by_ap_id db target_id = Some target ->
  Actor.ap_id actor <> InboxObject.ap_actor_id target ->
  exists row,
    save_to_inbox_checked env raw_object raw_object_id actor forwarded_by_actor db
    = Ok tt (set_next_inbox_id (S (next_inbox_id db))
               (set_inbox (inbox db ++ [row]) db))
    /\ InboxObject.id row = next_inbox_id db
    /\ InboxObject.ap_id row = raw_object_id
    /\ InboxObject.relates_to_inbox_object_id row = Some (InboxObject.id target).
Proof.
  intros Hkind Hid Hnew Hobject Hnonempty Hremote Hfound Hother.
  apply String.eqb_neq in Hother.
  unfold save_to_inbox_checked. unfold bind at 1, get.
  rewrite existsb_false_count_if by exact Hnew.
  unfold get_id. rewrite Hid. unfold bind at 1, ret at 1.
  rewrite Hobject. cbv zeta iota.
  rewrite (truthy_Some_true Hnonempty), Hremote, Hfound. cbn [andb negb option_map].
  unfold bind at 1. unfold add_inbox_object, bind at 1, get.
  cbn [InboxObject.ap_id]. rewrite Hnew. unfold bind at 1, modify, ret.
  match goal with |- context [(inbox db ++ [?r])%list] => exists r end.
  split; [|cbn; repeat split].
  unfold bind at 1.
  destruct Hkind as [Hkind|Hkind]; unfold dispatch_activity; rewrite Hkind;
    decide_literals.
  - unfold _handle_undo_activity. rewrite Hother. reflexivity.
  - unfold _handle_delete_activity. unfold bind at 1, ret at 1.
    rewrite Hother. reflexivity.
Qed.

End Ownership.

Lemma save_to_inbox_checked_not_the_owner_witness :
  (exists row,
     save_to_inbox_checked example_env bob_undoes_alice "https://remote.example/u9"
       (person 2 bob) None followed_by_alice_db
     = Ok tt (set_next_inbox_id (S (next_inbox_id followed_by_alice_db))
                (set_inbox (inbox followed_by_alice_db ++ [row]) followed_by_alice_db))
     /\ InboxObject.id row = next_inbox_id followed_by_alice_db
     /\ InboxObject.ap_id row = "https://remote.example/u9"
     /\ InboxObject.relates_to_inbox_object_id row = Some (InboxObject.id follow_of_me))
  /\ followers (run (save_to_inbox example_env bob_undoes_alice bob) followed_by_alice_db)
     = [Follower.mk 1 1 alice].
Proof.
  split; [|vm_compute; reflexivity].
  apply (@save_to_inbox_checked_not_the_owner example_env bob_undoes_alice
           "https://remote.example/u9" "https://remote.example/f1" (person 2 bob)
           follow_of_me None followed_by_alice_db);
    try reflexivity; [now left|discriminate|discriminate].
Defined.

(** ** Announces and the stream *)

Section AnnounceStream.

Variable env : Env.

(** X27: an Announce sent by an actor that the local actor does not follow
    puts nothing into the stream, whatever it announces and whether the
    handler returns or raises: every inbox object that is not hidden from
    the stream afterwards was there, not hidden, before. *)
Theorem _handle_announce_activity_not_followed (actor : Actor.t)
  (announce_activity : InboxObject.t) (relates_to_outbox_object : option OutboxObject.t)
  (relates_to_inbox_object : option InboxObject.t) (db : DB) :
  mem_string (InboxObject.ap_actor_id announce_activity)
             (map Following.ap_actor_id (following db)) = false ->
  forall o,
    In o (inbox (state_of (_handle_announce_activity env actor announce_activity
                             relates_to_outbox_object relates_to_inbox_object db))) ->
    InboxObject.is_hidden_from_stream o = false ->
    In o (inbox db) /\ InboxObject.is_hidden_from_stream o = false.
Proof.
  intros Hstranger.
  pose (shown := fun d : DB =>
                   forall o, In o (inbox d) -> InboxObject.is_hidden_from_stream o = false ->
                             In o (inbox db) /\ InboxObject.is_hidden_from_stream o = false).
  change (shown (state_of (_handle_announce_activity env actor announce_activity
                             relates_to_outbox_object relates_to_inbox_object db))).
  assert (Hhide : forall (d : DB) (i : nat) (g : InboxObject.t -> InboxObject.t),
             (forall x, InboxObject.is_hidden_from_stream (g x) = true) ->
             shown d ->
             shown (set_inbox (map (fun x => if Nat.eqb (InboxObject.id x) i
                                             then g x else x) (inbox d)) d)).
  { intros d i g Hg Hd o Hin Hshown. cbn in Hin. apply in_map_iff in Hin.
    destruct Hin as (x & <- & Hin). destruct (Nat.eqb (InboxObject.id x) i).
    - rewrite Hg in Hshown. discriminate.
    - now apply Hd. }
  assert (Hstart : shown db) by (intros o Hin Hshown; now split).
  unfold _handle_announce_activity.
  destruct relates_to_outbox_object as [target|].
  { apply (@stable_state_of _ shown); [|exact Hstart].
    apply stable_bind; [|intros _]; apply stable_modify; intros d H; exact H. }
  unfold bind at 1, get. cbv zeta. unfold _get_following. rewrite Hstranger.
  cbn [negb].
  destruct relates_to_inbox_object as [known|].
  { destruct (_ || _); cbn [state_of update_inbox_object modify];
      apply Hhide; (reflexivity || exact Hstart). }
  apply (@stable_state_of _ shown); [|exact Hstart].
  destruct (negb (truthy _)); [apply stable_raise|].
  apply stable_bind; [apply stable_lift_fetch|]. intros fetched.
  apply stable_bind.
  { destruct (raw_type fetched =? "Create"); [|apply stable_ret].
    unfold get_object. repeat stable_step. }
  intros announced_raw_object.
  apply stable_bind; [apply stable_get_actor_id|]. intros announced_actor_id.
  apply stable_bind; [apply stable_fetch_actor; intros d x H; exact H|].
  intros announced_actor.
  destruct (negb (Actor.is_blocked announced_actor)); [|apply stable_ret].
  cbv zeta.
  apply stable_bind; [apply stable_get_id|]. intros announced_ap_id.
  apply stable_bind.
  - intros d Hd. unfold add_inbox_object, bind, get.
    destruct (existsb _ _); cbn; [exact Hd|].
    intros o Hin Hshown. apply in_app_or in Hin. destruct Hin as [Hin|[<-|[]]].
    + now apply Hd.
    + discriminate.
  - intros announced_inbox_object. apply stable_modify. intros d Hd.
    apply Hhide; [reflexivity|exact Hd].
Qed.

End AnnounceStream.

Lemma _handle_announce_activity_not_followed_witness :
  (forall o,
     In o (inbox (state_of (_handle_announce_activity example_env (person 2 bob)
                              hello_announce_row None (Some hello_row) hello_db))) ->
     InboxObject.is_hidden_from_stream o = false ->
     In o (inbox hello_db) /\ InboxObject.is_hidden_from_stream o = false)
  /\ map InboxObject.ap_type
         (inbox (run (_handle_announce_activity example_env (person 2 bob)
                        hello_announce_row None (Some hello_row)) hello_db))
     = ["Create"; "Note"; "Announce"]
  /\ map InboxObject.is_hidden_from_stream
         (inbox (run (_handle_announce_activity example_env (person 2 bob)
                        hello_announce_row None (Some hello_row)) hello_db))
     = [true; true; true].
Proof.
  split; [|split; vm_compute; reflexivity].
  exact (@_handle_announce_activity_not_followed example_env (person 2 bob)
           hello_announce_row None (Some hello_row) hello_db eq_refl).
Defined.

(** ** The Undo of an Announce of the local actor *)

Section UndoAnnounce.

Variable env : Env.

(** X28: [send_undo] of an Announce of the local actor records the Undo,
    marks the Announce as undone and clears the link from the announced
    object, but queues the Undo for nobody: its recipients are computed from
    the Undo document, which is addressed to no one. *)
Theorem send_undo_announce_not_delivered (announce : OutboxObject.t)
  (announced_object : InboxObject.t) (announced_object_ap_id : string) (db db' : DB) :
  get_outbox_object_by_ap_id db (OutboxObject.ap_id announce) = Some announce ->
  OutboxObject.ap_type announce = "Announce" ->
  OutboxObject.activity_object_ap_id announce = Some announced_object_ap_id ->
  announced_object_ap_id <> "" ->
  get_inbox_object_by_ap_id db announced_object_ap_id = Some announced_object ->
  send_undo env (OutboxObject.ap_id announce) db = Ok tt db' ->
  outgoing_activities db' = outgoing_activities db
  /\ inbox db'
     = map (fun o => if Nat.eqb (InboxObject.id o) (InboxObject.id announced_object)
                     then InboxObject.set_announced_via_outbox_object_ap_id None o
                     else o) (inbox db)
  /\ exists undo,
       OutboxObject.ap_type undo = "Undo"
       /\ OutboxObject.id undo = next_outbox_id db
       /\ outbox db'
          = map (fun o => if Nat.eqb (OutboxObject.id o) (OutboxObject.id announce)
                          then OutboxObject.set_undone_by_outbox_object_id
                                 (Some (next_outbox_id db)) o
                          else o) (outbox db ++ [undo])%list.
Proof.
  intros Hannounce Htype Hobject Hnot_empty Hannounced H.
  unfold send_undo in H.
  apply bind_Ok_inv in H as ([] & d & H & Hcommit). session_inv Hcommit.
  unfold _send_undo in H.
  unfold bind at 1, get in H. rewrite Hannounce, Htype in H.
  change (negb (mem_string "Announce" ["Follow"; "Like"; "Announce"])) with false in H.
  cbn match in H.
  apply bind_Ok_inv in H as (undo_id & d1 & Halloc & H). session_inv Halloc.
  apply bind_Ok_inv in H as (row & d2 & Hsave & H).
  apply save_outbox_object_inv in Hsave as (ap_id & _ & _ & Hrow & Hd2).
  destruct (Nat.eqb (OutboxObject.id row) 0); [discriminate|].
  apply bind_Ok_inv in H as ([] & d3 & Hmark & H). session_inv Hmark.
  change ("Announce" =? "Follow") with false in H.
  change ("Announce" =? "Like") with false in H.
  change ("Announce" =? "Announce") with true in H. cbn match in H.
  rewrite Hobject in H.
  destruct (String.eqb_spec announced_object_ap_id "") as [|_]; [contradiction|].
  unfold bind at 1, get in H.
  assert (Hannounced3 : get_inbox_object_by_ap_id d3 announced_object_ap_id
                        = Some announced_object).
  { unfold get_inbox_object_by_ap_id in *. now chase. }
  rewrite Hannounced3 in H.
  apply bind_Ok_inv in H as ([] & d4 & Hclear & H). session_inv Hclear.
  assert (Hnobody : raw_to (OutboxObject.ap_object row) = []
                    /\ raw_cc (OutboxObject.ap_object row) = []
                    /\ raw_bto (OutboxObject.ap_object row) = []
                    /\ raw_bcc (OutboxObject.ap_object row) = [])
    by (rewrite Hrow; repeat split).
  destruct Hnobody as (Hto & Hcc & Hbto & Hbcc).
  unfold _compute_recipients in H. rewrite Hto, Hcc, Hbto, Hbcc in H.
  cbn [app compute_recipients_loop] in H.
  unfold bind at 1, ret at 1 in H. cbn [for_each] in H. session_inv H.
  assert (Hrow_id : OutboxObject.id row = next_outbox_id db)
    by (rewrite Hrow; cbn; now chase).
  rewrite Hrow_id in *. chase.
  split; [reflexivity|]. split; [reflexivity|].
  exists row. split; [now rewrite Hrow|]. split; [exact Hrow_id|reflexivity].
Qed.

End UndoAnnounce.

Lemma send_undo_announce_not_delivered_witness :
  (outgoing_activities hello_unannounced_db = outgoing_activities hello_announced_db
   /\ inbox hello_unannounced_db
      = map (fun o => if Nat.eqb (InboxObject.id o) (InboxObject.id hello_announced_row)
                      then InboxObject.set_announced_via_outbox_object_ap_id None o
                      else o) (inbox hello_announced_db)
   /\ exists undo,
        OutboxObject.ap_type undo = "Undo"
        /\ OutboxObject.id undo = next_outbox_id hello_announced_db
        /\ outbox hello_unannounced_db
           = map (fun o => if Nat.eqb (OutboxObject.id o)
                                      (OutboxObject.id my_announce_of_hello)
                           then OutboxObject.set_undone_by_outbox_object_id
                                  (Some (next_outbox_id hello_announced_db)) o
                           else o) (outbox hello_announced_db ++ [undo])%list)
  /\ map OutboxObject.ap_type (outbox hello_unannounced_db) = ["Like"; "Announce"; "Undo"]
  /\ map OutgoingActivity.recipient (outgoing_activities hello_announced_db)
     = ["https://remote.example/alice/inbox"]
  /\ map OutgoingActivity.recipient (outgoing_activities hello_unannounced_db)
     = ["https://remote.example/alice/inbox"].
Proof.
  assert (Hrun : send_undo example_env (OutboxObject.ap_id my_announce_of_hello)
                   hello_announced_db = Ok tt hello_unannounced_db)
    by (vm_compute; reflexivity).
  assert (Hannounce : get_outbox_object_by_ap_id hello_announced_db
                        (OutboxObject.ap_id my_announce_of_hello)
                      = Some my_announce_of_hello) by (vm_compute; reflexivity).
  assert (Hobject : OutboxObject.activity_object_ap_id my_announce_of_hello
                    = Some hello_id) by (vm_compute; reflexivity).
  assert (Htype : OutboxObject.ap_type my_announce_of_hello = "Announce")
    by (vm_compute; reflexivity).
  assert (Hannounced : get_inbox_object_by_ap_id hello_announced_db hello_id
                       = Some hello_announced_row) by (vm_compute; reflexivity).
  assert (Hnot_empty : hello_id <> "") by discriminate.
  split; [|split; [|split]; vm_compute; reflexivity].
  exact (@send_undo_announce_not_delivered example_env my_announce_of_hello
           hello_announced_row hello_id hello_announced_db hello_unannounced_db
           Hannounce Htype Hobject Hnot_empty Hannounced Hrun).
Defined.
